(** * ChangeElementTemplateHandler (cloud element templates)

    A shallow embedding of [ChangeElementTemplateHandler.js]: the handler
    that reconciles a BPMN element with an element template, its helper
    functions ([findBusinessObject], [findOldProperty], [shouldKeepValue],
    [propertyChanged], [getPropertyValue], [remove], [hasMessageProperties])
    and the properties the specification states about them.

    The document is a store of moddle objects addressed by reference; the
    handler runs in a state-and-error monad over that store, the command
    log and the allocator. *)

From Stdlib Require Import ZArith String List Bool Lia.
From stdpp Require Import base tactics option list gmap strings.

Local Open Scope string_scope.
Local Open Scope Z_scope.
Local Open Scope list_scope.

(** ** JavaScript values *)

Definition loc := nat.

(** Primitive values: what a template (a JSON document) can carry. Numbers
    are integers here. *)
Inductive prim :=
| PUndef
| PBool (b : bool)
| PNum (n : Z)
| PStr (s : string).

(** Values stored in the document: primitives, object references and
    arrays of object references. *)
Inductive jsval :=
| VPrim (p : prim)
| VRef (l : loc)
| VArr (ls : list loc).

#[global] Instance prim_eq_dec : EqDecision prim.
Proof. solve_decision. Defined.

#[global] Instance jsval_eq_dec : EqDecision jsval.
Proof. solve_decision. Defined.

Abbreviation undefined := (VPrim PUndef).

(** [a === b]. One side of every comparison of the handler is a primitive
    taken from a template, or both sides are object references. *)
Definition strict_eq (a b : jsval) : bool := bool_decide (a = b).

Definition truthy_prim (p : prim) : bool :=
  match p with
  | PUndef => false
  | PBool b => b
  | PNum n => negb (n =? 0)
  | PStr s => negb (bool_decide (s = ""))
  end.

Definition truthy (v : jsval) : bool :=
  match v with
  | VPrim p => truthy_prim p
  | VRef _ | VArr _ => true
  end.

(** An optional string field of a template ([undefined] when absent). *)
Definition of_opt (o : option string) : jsval :=
  match o with
  | Some s => VPrim (PStr s)
  | None => undefined
  end.

(** A value used as the key of an object literal, [{ [name]: v }]. *)
Definition key_of (o : option string) : string :=
  match o with
  | Some s => s
  | None => "undefined"
  end.

(** ** min-dash and Array.prototype *)

Definition isUndefined (v : jsval) : bool := bool_decide (v = undefined).

(** [find(collection, matcher)] is [List.find]. *)

(** [without(arr, item)]: drops the elements identical to [item]. *)
Definition without (arr : list loc) (item : option loc) : list loc :=
  filter (fun el => Some el ≠ item) arr.

(** [without(arr, fn)]: drops the elements [fn] accepts. *)
Definition without_fn (arr : list loc) (fn : loc -> bool) : list loc :=
  List.filter (fun el => negb (fn el)) arr.

Definition includes (arr : list loc) (item : loc) : bool :=
  bool_decide (item ∈ arr).

(** [array.indexOf(item)]: the first index holding [item], or [-1]. *)
Fixpoint indexOf (array : list loc) (item : loc) : Z :=
  match array with
  | [] => -1
  | x :: xs =>
      if bool_decide (x = item) then 0
      else let i := indexOf xs item in
           if i <? 0 then -1 else i + 1
  end.

(** [array.splice(start, deleteCount)], without inserted items: a negative
    [start] counts from the end. *)
Definition splice {A} (array : list A) (start deleteCount : Z) : list A :=
  let len := Z.of_nat (length array) in
  let actualStart :=
    if start <? 0 then Z.max (len + start) 0 else Z.min start len in
  let actualDeleteCount := Z.min (Z.max deleteCount 0) (len - actualStart) in
  take (Z.to_nat actualStart) array
    ++ drop (Z.to_nat (actualStart + actualDeleteCount)) array.

(** ** [remove(array, item)] *)

Definition remove (array : list loc) (item : loc) : list loc :=
  let index := indexOf array item in
  if isUndefined (VPrim (PNum index)) then array
  else splice array index 1.

(** ** Templates *)

(** [binding.type] is a string tag; the other fields are present or not
    depending on the kind. *)
Record binding := Binding {
  b_type : string;
  b_name : option string;
  b_source : option string;
  b_key : option string;
  b_property : option string
}.

Record choice := Choice {
  choice_name : string;
  choice_value : prim
}.

Record property := Property {
  p_type : string;
  p_value : prim;
  p_choices : option (list choice);
  p_optional : bool;
  p_binding : binding
}.

Record elementType := ElementType {
  et_value : string;
  et_eventDefinition : option string
}.

Record icon := Icon { contents : prim }.

Record template := Template {
  t_id : prim;
  t_version : prim;
  t_icon : option icon;
  t_elementType : option elementType;
  t_properties : list property
}.

#[global] Instance binding_eq_dec : EqDecision binding.
Proof. solve_decision. Defined.

#[global] Instance choice_eq_dec : EqDecision choice.
Proof. solve_decision. Defined.

#[global] Instance property_eq_dec : EqDecision property.
Proof. solve_decision. Defined.

(** Modelled from the spec: the binding-kind tags of [util/bindingTypes],
    one per row of the binding table; the two task-definition tags share
    the singleton task-definition node. *)
Definition MESSAGE_PROPERTY_TYPE : string := "bpmn:Message#property".

(** Modelled from the spec: the tag of a message-subscription field. *)
Definition MESSAGE_ZEEBE_SUBSCRIPTION_PROPERTY_TYPE : string :=
  "bpmn:Message#zeebe:subscription#property".

(** Modelled from the spec: the tag of a called-element field. *)
Definition ZEEBE_CALLED_ELEMENT : string := "zeebe:calledElement".

(** Modelled from the spec: the tags of task-definition fields. *)
Definition TASK_DEFINITION_TYPES : list string :=
  [ "zeebe:taskDefinition"; "zeebe:taskDefinition:type" ].

(** Modelled from the spec: the tags of the referenced-side-document
    family (message fields and message-subscription fields). *)
Definition MESSAGE_BINDING_TYPES : list string :=
  [ MESSAGE_PROPERTY_TYPE; MESSAGE_ZEEBE_SUBSCRIPTION_PROPERTY_TYPE ].

Definition is_task_definition_type (t : string) : bool :=
  bool_decide (t ∈ TASK_DEFINITION_TYPES).

(** Modelled from the spec: [getTaskDefinitionPropertyName] of
    [util/taskDefinition], the resolved field name of a task-definition
    binding: the legacy tag names the field [type], the general tag names
    the field in [binding.property]. *)
Definition getTaskDefinitionPropertyName (b : binding) : option string :=
  if bool_decide (b_type b = "zeebe:taskDefinition:type") then Some "type"
  else b_property b.

(** Modelled from the spec: [getDefaultValue] of [Helper], the default a
    template computes for a property, its [value]. *)
Definition getDefaultValue (p : property) : prim := p_value p.

(** Modelled from the spec: [shouldUpdate] of [CreateHelper], the gate of
    the keyed collections: the computed default is non-empty or the field
    is required. *)
Definition shouldUpdate (value : prim) (p : property) : bool :=
  truthy_prim value || negb (p_optional p).

(** ** The document store *)

(** A moddle object: its [$type], its [$parent] and its attributes.
    moddle resolves a prefixed name such as [zeebe:source] and the local
    name [source] to the same slot of a zeebe node; attributes of zeebe
    nodes are stored under the local name. *)
Record obj := Obj {
  otype : string;
  oparent : option loc;
  attrs : gmap string jsval
}.

(** What the handler calls [element]: a diagram shape, known by its
    business object, or a moddle object passed where an element is
    expected. *)
Inductive eref :=
| Shape (businessObject : loc)
| Moddle (l : loc).

Abbreviation props := (list (string * jsval)).

(** The two commands the handler issues through the command stack. *)
Inductive command :=
| UpdateProperties (element : eref) (properties : props)
| UpdateModdleProperties (element : eref) (moddleElement : loc)
    (properties : props).

Record state := State {
  heap : gmap loc obj;
  next : loc;
  log : list command
}.

(** [getBusinessObject(element)]: [(element && element.businessObject) || element]. *)
Definition getBusinessObject (element : option eref) : option loc :=
  match element with
  | Some (Shape bo) => Some bo
  | Some (Moddle l) => Some l
  | None => None
  end.

Definition bo_of (element : eref) : loc :=
  match element with
  | Shape bo => bo
  | Moddle l => l
  end.

(** Modelled from the spec: the generic field read [get(node, field)] of
    the document model collaborator, moddle's [o.get(name)], for a
    single-valued attribute: the value the object stores under [name], and
    [undefined] when it stores none or is not there. The default a moddle
    schema declares for an attribute that is not stored is not part of the
    model. *)
Definition get (h : gmap loc obj) (l : loc) (name : string) : jsval :=
  match h !! l with
  | Some o => default undefined (attrs o !! name)
  | None => undefined
  end.

(** [o.get(name)] for a list-valued attribute: moddle answers the empty
    array when the attribute was never set. *)
Definition get_many (h : gmap loc obj) (l : loc) (name : string) : list loc :=
  match get h l name with
  | VArr ls => ls
  | _ => []
  end.

(** [o.set(name, value)]: setting [undefined] unsets the attribute. *)
Definition set_attr (name : string) (v : jsval) (o : obj) : obj :=
  Obj (otype o) (oparent o)
      (if isUndefined v then delete name (attrs o) else <[name := v]> (attrs o)).

Definition set_props (properties : props) (o : obj) : obj :=
  fold_left (fun o kv => set_attr kv.1 kv.2 o) properties o.

(** bpmn-moddle's type hierarchy, as far as the handler asks: the event
    types descend from [bpmn:Event]. *)
Definition event_types : list string :=
  [ "bpmn:StartEvent"; "bpmn:EndEvent"; "bpmn:IntermediateCatchEvent";
    "bpmn:IntermediateThrowEvent"; "bpmn:BoundaryEvent" ].

Definition instanceOf (ty t : string) : bool :=
  bool_decide (ty = t)
  || (bool_decide (t = "bpmn:Event") && bool_decide (ty ∈ event_types)).

(** [is(element, type)] *)
Definition is_a (h : gmap loc obj) (l : loc) (t : string) : bool :=
  match h !! l with
  | Some o => instanceOf (otype o) t
  | None => false
  end.

(** Modelled from the spec: [findExtension] of [Helper], the structure
    locator of a singleton node: the first node of the given type among the
    [values] of the extension container, where the container is the object
    itself when it is a [bpmn:ExtensionElements] and its
    [extensionElements] otherwise. *)
Definition findExtension (h : gmap loc obj) (element : loc) (type : string)
  : option loc :=
  let extensionElements :=
    if is_a h element "bpmn:ExtensionElements" then VRef element
    else get h element "extensionElements" in
  match extensionElements with
  | VRef ee => List.find (fun value => is_a h value type) (get_many h ee "values")
  | _ => None
  end.

(** ** Helpers of the handler *)

(** [getPropertyValue(element, property)] *)
Definition getPropertyValue (h : gmap loc obj) (element : option eref)
    (p : property) : jsval :=
  match getBusinessObject element with
  | None => undefined
  | Some businessObject =>
      let binding := p_binding p in
      let bindingName := b_name binding in
      let bindingType := b_type binding in
      if bool_decide (bindingType = "property") then
        get h businessObject (key_of bindingName)
      else if is_task_definition_type bindingType then
        get h businessObject (key_of (getTaskDefinitionPropertyName binding))
      else if bool_decide (bindingType = "zeebe:input") then
        get h businessObject "source"
      else if bool_decide (bindingType = "zeebe:output") then
        get h businessObject "target"
      else if bool_decide (bindingType = "zeebe:taskHeader") then
        get h businessObject "value"
      else if bool_decide (bindingType = "zeebe:property") then
        get h businessObject "value"
      else if bool_decide (bindingType = MESSAGE_PROPERTY_TYPE) then
        get h businessObject (key_of bindingName)
      else if bool_decide (bindingType = MESSAGE_ZEEBE_SUBSCRIPTION_PROPERTY_TYPE) then
        get h businessObject (key_of bindingName)
      else undefined
  end.

(** [propertyChanged(element, oldProperty)] *)
Definition propertyChanged (h : gmap loc obj) (element : option eref)
    (oldProperty : property) : bool :=
  let oldPropertyValue := p_value oldProperty in
  negb (strict_eq (getPropertyValue h element oldProperty) (VPrim oldPropertyValue)).

(** [shouldKeepValue(element, oldProperty, newProperty)]. The result is a
    JavaScript value: a Dropdown without [choices] answers [undefined]. *)
Definition shouldKeepValue (h : gmap loc obj) (element : option eref)
    (oldProperty : option property) (newProperty : property) : prim :=
  if bool_decide (p_type newProperty = "Hidden") then PBool false
  else if bool_decide (p_type newProperty = "Dropdown") then
    let currentValue := getPropertyValue h element newProperty in
    match p_choices newProperty with
    | None => PUndef
    | Some choices =>
        PBool (existsb (fun choice => strict_eq (VPrim (choice_value choice)) currentValue)
                 choices)
    end
  else
    match oldProperty with
    | Some oldProperty => PBool (propertyChanged h element oldProperty)
    | None => PBool (truthy (getPropertyValue h element newProperty))
    end.

(** [findOldProperty(oldTemplate, newProperty)] *)
Definition findOldProperty (oldTemplate : option template)
    (newProperty : property) : option property :=
  match oldTemplate with
  | None => None
  | Some oldTemplate =>
      let oldProperties := t_properties oldTemplate in
      let newBinding := p_binding newProperty in
      let newBindingName := b_name newBinding in
      let newBindingType := b_type newBinding in
      if bool_decide (newBindingType = "property") then
        List.find (fun oldProperty =>
          let oldBinding := p_binding oldProperty in
          bool_decide (b_type oldBinding = "property")
          && bool_decide (b_name oldBinding = newBindingName)) oldProperties
      else if is_task_definition_type newBindingType then
        List.find (fun oldProperty =>
          let oldBinding := p_binding oldProperty in
          bool_decide (getTaskDefinitionPropertyName oldBinding
                       = getTaskDefinitionPropertyName newBinding)) oldProperties
      else if bool_decide (newBindingType = "zeebe:input") then
        List.find (fun oldProperty =>
          let oldBinding := p_binding oldProperty in
          if negb (bool_decide (b_type oldBinding = "zeebe:input")) then false
          else bool_decide (b_name oldBinding = newBindingName)) oldProperties
      else if bool_decide (newBindingType = "zeebe:output") then
        List.find (fun oldProperty =>
          let oldBinding := p_binding oldProperty in
          if negb (bool_decide (b_type oldBinding = "zeebe:output")) then false
          else bool_decide (b_source oldBinding = b_source newBinding)) oldProperties
      else if bool_decide (newBindingType = "zeebe:taskHeader") then
        List.find (fun oldProperty =>
          let oldBinding := p_binding oldProperty in
          if negb (bool_decide (b_type oldBinding = "zeebe:taskHeader")) then false
          else bool_decide (b_key oldBinding = b_key newBinding)) oldProperties
      else if bool_decide (newBindingType = "zeebe:property") then
        List.find (fun oldProperty =>
          let oldBinding := p_binding oldProperty in
          if negb (bool_decide (b_type oldBinding = "zeebe:property")) then false
          else bool_decide (b_name oldBinding = b_name newBinding)) oldProperties
      else if bool_decide (newBindingType = MESSAGE_PROPERTY_TYPE) then
        List.find (fun oldProperty =>
          let oldBinding := p_binding oldProperty in
          if negb (bool_decide (b_type oldBinding = MESSAGE_PROPERTY_TYPE)) then false
          else bool_decide (b_name oldBinding = b_name newBinding)) oldProperties
      else if bool_decide (newBindingType = MESSAGE_ZEEBE_SUBSCRIPTION_PROPERTY_TYPE) then
        List.find (fun oldProperty =>
          let oldBinding := p_binding oldProperty in
          if negb (bool_decide (b_type oldBinding = MESSAGE_ZEEBE_SUBSCRIPTION_PROPERTY_TYPE))
          then false
          else bool_decide (b_name oldBinding = b_name newBinding)) oldProperties
      else None
  end.

(** [findBusinessObject(element, property)] *)
Definition findBusinessObject (h : gmap loc obj) (element : eref)
    (p : property) : option loc :=
  let businessObject := bo_of element in
  let binding := p_binding p in
  let bindingType := b_type binding in
  if is_task_definition_type bindingType then
    findExtension h businessObject "zeebe:TaskDefinition"
  else if bool_decide (bindingType = "zeebe:input")
          || bool_decide (bindingType = "zeebe:output") then
    match findExtension h businessObject "zeebe:IoMapping" with
    | None => None
    | Some extensionElements =>
        if bool_decide (bindingType = "zeebe:input") then
          List.find (fun input =>
                  strict_eq (get h input "target") (of_opt (b_name binding)))
               (get_many h extensionElements "inputParameters")
        else
          List.find (fun output =>
                  strict_eq (get h output "source") (of_opt (b_source binding)))
               (get_many h extensionElements "outputParameters")
    end
  else if bool_decide (bindingType = "zeebe:taskHeader") then
    match findExtension h businessObject "zeebe:TaskHeaders" with
    | None => None
    | Some extensionElements =>
        List.find (fun value => strict_eq (get h value "key") (of_opt (b_key binding)))
             (get_many h extensionElements "values")
    end
  else if bool_decide (bindingType = "zeebe:property") then
    match findExtension h businessObject "zeebe:Properties" with
    | None => None
    | Some zeebeProperties =>
        List.find (fun value => strict_eq (get h value "name") (of_opt (b_name binding)))
             (get_many h zeebeProperties "properties")
    end
  else None.

(** [hasMessageProperties(template)] *)
Definition hasMessageProperties (t : template) : bool :=
  existsb (fun p => bool_decide (b_type (p_binding p) ∈ MESSAGE_BINDING_TYPES))
    (t_properties t).

(** ** The state-and-error monad of the handler *)

(** A computation reads and updates the store, the allocator and the
    command log, or throws (a JavaScript [TypeError] or [Error]). *)
Definition M (A : Type) : Type := state -> option (A * state).

Definition ret {A} (a : A) : M A := fun s => Some (a, s).

Definition bind {A B} (m : M A) (k : A -> M B) : M B :=
  fun s => match m s with
           | Some (a, s') => k a s'
           | None => None
           end.

Definition throw {A} : M A := fun _ => None.

Definition gets {A} (f : state -> A) : M A := fun s => Some (f s, s).

Notation "'let*' x ':=' c1 'in' c2" := (bind c1 (fun x => c2))
  (at level 10, x pattern, c1 at level 100, c2 at level 200).

Notation "c1 '>>' c2" := (bind c1 (fun _ => c2))
  (at level 100, c2 at level 200, right associativity).

(** [array.forEach(f)] *)
Fixpoint forEach {A} (f : A -> M unit) (array : list A) : M unit :=
  match array with
  | [] => ret tt
  | x :: xs => f x >> forEach f xs
  end.

(** [forEach] whose callback updates variables of the enclosing function. *)
Fixpoint forEach_with {A V} (f : V -> A -> M V) (array : list A) (vars : V)
  : M V :=
  match array with
  | [] => ret vars
  | x :: xs => let* vars := f vars x in forEach_with f xs vars
  end.

(** The effect of a command on the document: both handlers of the command
    stack [set] every given property on their target. *)
Definition apply_command (c : command) (h : gmap loc obj) : gmap loc obj :=
  match c with
  | UpdateProperties element properties =>
      alter (set_props properties) (bo_of element) h
  | UpdateModdleProperties _ moddleElement properties =>
      alter (set_props properties) moddleElement h
  end.

(** [commandStack.execute(...)]: the command is logged and applies at once
    to the tree the handler keeps reading. *)
Definition execute (c : command) : M unit :=
  fun s => Some (tt, State (apply_command c (heap s)) (next s) (log s ++ [c])).

(** Modelled from the spec: the node creation
    [createNode(kind, initialFields)] of the document model collaborator,
    [bpmnFactory.create(type, attrs)]: a new object of the type with the
    given attributes and no parent. The id the factory generates for an
    element such as a [bpmn:Message] is not part of the model. *)
Definition create (type : string) (init : props) : M loc :=
  fun s =>
    let l := next s in
    Some (l, State (<[l := set_props init (Obj type None ∅)]> (heap s))
                   (S l) (log s)).

(** [node.$parent = parent] *)
Definition set_parent (l parent : loc) : M unit :=
  fun s =>
    Some (tt, State (alter (fun o => Obj (otype o) (Some parent) (attrs o)) l (heap s))
                    (next s) (log s)).

(** A value about to be used as an object: a primitive has no [get]. *)
Definition as_object (v : jsval) : M loc :=
  match v with
  | VRef l => ret l
  | _ => throw
  end.

(** [properties[name] = value] on an object literal. *)
Fixpoint assign (properties : props) (name : string) (value : jsval) : props :=
  match properties with
  | [] => [(name, value)]
  | (k, v) :: rest =>
      if bool_decide (k = name) then (k, value) :: rest
      else (k, v) :: assign rest name value
  end.

Definition isEmpty {A} (l : list A) : bool :=
  match l with [] => true | _ => false end.

Definition is_Some_bool {A} (o : option A) : bool :=
  match o with Some _ => true | None => false end.

(** Modelled from the spec: the node constructors of [CreateHelper]. A
    task-definition or called-element node is created with the given
    fields. *)
Definition createTaskDefinition (properties : props) : M loc :=
  create "zeebe:TaskDefinition" properties.

(** Modelled from the spec: the called-element constructor of [CreateHelper]. *)
Definition createCalledElement (properties : props) : M loc :=
  create "zeebe:CalledElement" properties.

(** Modelled from the spec: an input parameter is identified by its target,
    the binding's [name]; its tracked value is the source. *)
Definition createInputParameter (b : binding) (value : prim) : M loc :=
  create "zeebe:Input" [("source", VPrim value); ("target", of_opt (b_name b))].

(** Modelled from the spec: an output parameter is identified by its
    source, the binding's [source]; its tracked value is the target. *)
Definition createOutputParameter (b : binding) (value : prim) : M loc :=
  create "zeebe:Output" [("source", of_opt (b_source b)); ("target", VPrim value)].

(** Modelled from the spec: a header entry is identified by its key. *)
Definition createTaskHeader (b : binding) (value : prim) : M loc :=
  create "zeebe:Header" [("key", of_opt (b_key b)); ("value", VPrim value)].

(** Modelled from the spec: a custom-property entry is identified by its
    name. *)
Definition createZeebeProperty (b : binding) (value : prim) : M loc :=
  create "zeebe:Property" [("name", of_opt (b_name b)); ("value", VPrim value)].

(** Modelled from the spec: [createElement] of [utils/ElementUtil], node
    creation with parent attachment. *)
Definition createElement (type : string) (properties : props) (parent : loc)
  : M loc :=
  let* element := create type properties in
  set_parent element parent >> ret element.

(** Modelled from the spec: [getRoot] of [utils/ElementUtil], the end of
    the [$parent] chain. The chain of a document is shorter than the number
    of allocated objects; on a cyclic chain the source does not return and
    the model gives no result. *)
Fixpoint getRoot_from (fuel : nat) (h : gmap loc obj) (l : loc) : option loc :=
  match fuel with
  | O => None
  | S fuel =>
      match h !! l with
      | Some o =>
          match oparent o with
          | Some parent => getRoot_from fuel h parent
          | None => Some l
          end
      | None => Some l
      end
  end.

Definition getRoot (businessObject : loc) : M loc :=
  fun s => match getRoot_from (S (next s)) (heap s) businessObject with
           | Some root => Some (root, s)
           | None => None
           end.

(** Modelled from the spec: [findMessage] of [Helper], the message an
    element references: through its first event definition for an event. *)
Definition findMessage (h : gmap loc obj) (businessObject : loc) : jsval :=
  if is_a h businessObject "bpmn:Event" then
    match get_many h businessObject "eventDefinitions" with
    | [] => undefined
    | eventDefinition :: _ => get h eventDefinition "messageRef"
    end
  else get h businessObject "messageRef".

(** Modelled from the spec: [getTemplateId] of [Helper], the identity stamp
    of a node. *)
Definition getTemplateId (h : gmap loc obj) (l : loc) : jsval :=
  get h l "zeebe:modelerTemplate".

(** ** The handler *)

Section Handler.

(** The type-replacement collaborator, [bpmnReplace.replaceElement(element,
    { type, eventDefinitionType })]. *)
Variable replaceElement : eref -> string -> option string -> M eref.

(** The remove-message collaborator, [removeMessage(element, injector)]. *)
Variable removeMessage : eref -> M unit.

Definition updateModdleProperties (element : eref) (moddleElement : loc)
    (properties : props) : M unit :=
  execute (UpdateModdleProperties element moddleElement properties).

Definition updateProperties (element : eref) (properties : props) : M unit :=
  execute (UpdateProperties element properties).

Definition _getOrCreateExtensionElements (element : eref) (businessObject : loc)
  : M loc :=
  let* extensionElements := gets (fun s => get (heap s) businessObject "extensionElements") in
  if negb (truthy extensionElements) then
    let* extensionElements := create "bpmn:ExtensionElements" [("values", VArr [])] in
    set_parent extensionElements businessObject >>
    updateModdleProperties element businessObject
      [("extensionElements", VRef extensionElements)] >>
    ret extensionElements
  else as_object extensionElements.

Definition _updateZeebeModelerTemplate (element : eref)
    (newTemplate : option template) : M unit :=
  updateProperties element
    [ ("zeebe:modelerTemplate",
       match newTemplate with Some t => VPrim (t_id t) | None => undefined end);
      ("zeebe:modelerTemplateVersion",
       match newTemplate with Some t => VPrim (t_version t) | None => undefined end) ].

Definition _updateZeebeModelerTemplateIcon (element : eref)
    (newTemplate : option template) : M unit :=
  let icon := match newTemplate with Some t => t_icon t | None => None end in
  updateProperties element
    [ ("zeebe:modelerTemplateIcon",
       match icon with Some i => VPrim (contents i) | None => undefined end) ].

(** *** Plain properties *)

(** The callback of [newProperties.forEach] in [_updateProperties]. *)
Definition _updateProperties_each (element : eref) (businessObject : loc)
    (oldTemplate : option template) (newProperty : property) : M unit :=
  let* h := gets heap in
  let oldProperty := findOldProperty oldTemplate newProperty in
  let newBinding := p_binding newProperty in
  let newBindingName := b_name newBinding in
  let newPropertyValue := getDefaultValue newProperty in
  let changedElement := businessObject in
  if truthy_prim (shouldKeepValue h (Some (Moddle changedElement)) oldProperty newProperty)
  then ret tt
  else
    execute (UpdateModdleProperties element businessObject
               (assign [] (key_of newBindingName) (VPrim newPropertyValue))).

(** [oldTemplate && oldTemplate.properties.filter(f) || []] *)
Definition old_properties (oldTemplate : option template)
    (f : property -> bool) : list property :=
  match oldTemplate with
  | Some t => List.filter f (t_properties t)
  | None => []
  end.

Definition _updateProperties (element : eref)
    (oldTemplate : option template) (newTemplate : template) : M unit :=
  let businessObject := bo_of element in
  let newProperties :=
    List.filter (fun newProperty =>
              bool_decide (b_type (p_binding newProperty) = "property"))
           (t_properties newTemplate) in
  let propertiesToRemove :=
    old_properties oldTemplate (fun oldProperty =>
      bool_decide (b_type (p_binding oldProperty) = "property")
      && negb (is_Some_bool (List.find (fun newProperty =>
                 bool_decide (b_name (p_binding newProperty)
                              = b_name (p_binding oldProperty)))
               newProperties))) in
  (if negb (isEmpty propertiesToRemove) then
     let payload :=
       fold_left (fun properties p =>
                    assign properties (key_of (b_name (p_binding p))) undefined)
                 propertiesToRemove [] in
     execute (UpdateModdleProperties element businessObject payload)
   else ret tt) >>
  if isEmpty newProperties then ret tt
  else forEach (_updateProperties_each element businessObject oldTemplate) newProperties.

(** *** Task definition *)

(** The callback of [newProperties.forEach] in [_updateZeebeTaskDefinition];
    it assigns the variable [taskDefinition] of the enclosing function. *)
Definition _updateZeebeTaskDefinition_each (element : eref) (businessObject : loc)
    (oldTemplate : option template)
    (taskDefinition : option loc) (newProperty : property) : M (option loc) :=
  let oldProperty := findOldProperty oldTemplate newProperty in
  let newPropertyValue := getDefaultValue newProperty in
  let newBinding := p_binding newProperty in
  let propertyName := getTaskDefinitionPropertyName newBinding in
  match taskDefinition with
  | Some td =>
      let* h := gets heap in
      (if negb (truthy_prim (shouldKeepValue h (Some (Moddle td)) oldProperty newProperty))
       then
         let properties := [(key_of propertyName, VPrim newPropertyValue)] in
         execute (UpdateModdleProperties element td properties)
       else ret tt) >>
      ret (Some td)
  | None =>
      let properties := [(key_of propertyName, VPrim newPropertyValue)] in
      let* td := createTaskDefinition properties in
      set_parent td businessObject >>
      let* h := gets heap in
      execute (UpdateModdleProperties element businessObject
                 [("values", VArr (get_many h businessObject "values" ++ [td]))]) >>
      ret (Some td)
  end.

(** A command on a node the enclosing function created or found: the
    command handler throws when [moddleElement] is missing. *)
Definition execute_on (element : eref) (moddleElement : option loc)
    (properties : props) : M unit :=
  match moddleElement with
  | Some l => execute (UpdateModdleProperties element l properties)
  | None => throw
  end.

Definition _updateZeebeTaskDefinition (element : eref)
    (oldTemplate : option template) (newTemplate : template) : M unit :=
  let newProperties :=
    List.filter (fun newProperty =>
              is_task_definition_type (b_type (p_binding newProperty)))
           (t_properties newTemplate) in
  let* businessObject := _getOrCreateExtensionElements element (bo_of element) in
  let* h := gets heap in
  let taskDefinition := findExtension h businessObject "zeebe:TaskDefinition" in
  if isEmpty newProperties then
    execute (UpdateModdleProperties element businessObject
               [("values", VArr (without (get_many h businessObject "values") taskDefinition))])
  else
    let* taskDefinition :=
      forEach_with (_updateZeebeTaskDefinition_each element businessObject oldTemplate)
        newProperties taskDefinition in
    let oldProperties :=
      old_properties oldTemplate (fun oldProperty =>
        is_task_definition_type (b_type (p_binding oldProperty))
        && negb (is_Some_bool (List.find (fun newProperty =>
                   bool_decide (b_property (p_binding newProperty)
                                = b_property (p_binding oldProperty)))
                 newProperties))) in
    forEach (fun oldProperty =>
               execute_on element taskDefinition
                 [(key_of (b_property (p_binding oldProperty)), undefined)])
            oldProperties.

(** *** Input and output mappings *)

(** The callback of [newProperties.forEach] in
    [_updateZeebeInputOutputParameterProperties]; it splices the snapshots
    [oldInputs] and [oldOutputs] of the enclosing function. *)
Definition _updateZeebeInputOutputParameterProperties_each (element : eref)
    (businessObject ioMapping : loc) (oldTemplate : option template)
    (snapshots : list loc * list loc) (newProperty : property)
  : M (list loc * list loc) :=
  let '(oldInputs, oldOutputs) := snapshots in
  let* h := gets heap in
  let oldProperty := findOldProperty oldTemplate newProperty in
  let inputOrOutput := findBusinessObject h (Moddle businessObject) newProperty in
  let newPropertyValue := getDefaultValue newProperty in
  let newBinding := p_binding newProperty in
  let newBindingType := b_type newBinding in
  match inputOrOutput with
  | Some inputOrOutput =>
      let snapshots :=
        if shouldUpdate newPropertyValue newProperty
           || truthy_prim (shouldKeepValue h (Some (Moddle inputOrOutput)) oldProperty newProperty)
        then
          if is_a h inputOrOutput "zeebe:Input"
          then (remove oldInputs inputOrOutput, oldOutputs)
          else (oldInputs, remove oldOutputs inputOrOutput)
        else (oldInputs, oldOutputs) in
      (if negb (truthy_prim (shouldKeepValue h (Some (Moddle inputOrOutput)) oldProperty newProperty))
       then
         let properties :=
           if is_a h inputOrOutput "zeebe:Input"
           then [("source", VPrim newPropertyValue)]
           else [("target", VPrim newPropertyValue)] in
         execute (UpdateModdleProperties element inputOrOutput properties)
       else ret tt) >>
      ret snapshots
  | None =>
      if shouldUpdate newPropertyValue newProperty then
        let propertyName :=
          if bool_decide (newBindingType = "zeebe:input")
          then "inputParameters" else "outputParameters" in
        let* newInputOrOutput :=
          if bool_decide (newBindingType = "zeebe:input")
          then createInputParameter newBinding newPropertyValue
          else createOutputParameter newBinding newPropertyValue in
        set_parent newInputOrOutput ioMapping >>
        let* h := gets heap in
        execute (UpdateModdleProperties element ioMapping
                   [(propertyName,
                     VArr (get_many h ioMapping propertyName ++ [newInputOrOutput]))]) >>
        ret (oldInputs, oldOutputs)
      else ret (oldInputs, oldOutputs)
  end.

(** [holder = bpmnFactory.create(type); holder.$parent = businessObject;]
    followed by the command that appends it to [values]: the creation of a
    missing holder, written out in each keyed-collection reconciler. *)
Definition create_holder (element : eref) (businessObject : loc) (type : string)
  : M loc :=
  let* holder := create type [] in
  set_parent holder businessObject >>
  let* h := gets heap in
  execute (UpdateModdleProperties element businessObject
             [("values", VArr (get_many h businessObject "values" ++ [holder]))]) >>
  ret holder.

Definition _updateZeebeInputOutputParameterProperties (element : eref)
    (oldTemplate : option template) (newTemplate : template) : M unit :=
  let newProperties :=
    List.filter (fun newProperty =>
              let newBindingType := b_type (p_binding newProperty) in
              bool_decide (newBindingType = "zeebe:input")
              || bool_decide (newBindingType = "zeebe:output"))
           (t_properties newTemplate) in
  let* businessObject := _getOrCreateExtensionElements element (bo_of element) in
  let* h := gets heap in
  let ioMapping := findExtension h businessObject "zeebe:IoMapping" in
  (* (1) remove old mappings if no new specified *)
  let* returned :=
    if isEmpty newProperties then
      match ioMapping with
      | None => ret true
      | Some _ =>
          execute (UpdateModdleProperties element businessObject
                     [("values", VArr (without (get_many h businessObject "values") ioMapping))]) >>
          ret false
      end
    else ret false in
  if returned : bool then ret tt
  else
    let* ioMapping :=
      match ioMapping with
      | Some ioMapping => ret ioMapping
      | None => create_holder element businessObject "zeebe:IoMapping"
      end in
    let* h := gets heap in
    let oldInputs := get_many h ioMapping "inputParameters" in
    let oldOutputs := get_many h ioMapping "outputParameters" in
    let* snapshots :=
      forEach_with
        (_updateZeebeInputOutputParameterProperties_each element businessObject ioMapping oldTemplate)
        newProperties (oldInputs, oldOutputs) in
    let '(oldInputs, oldOutputs) := snapshots in
    (* (4) remove old inputs and outputs *)
    (if negb (isEmpty oldInputs) then
       let* h := gets heap in
       execute (UpdateModdleProperties element ioMapping
                  [("inputParameters",
                    VArr (without_fn (get_many h ioMapping "inputParameters")
                            (includes oldInputs)))])
     else ret tt) >>
    (if negb (isEmpty oldOutputs) then
       let* h := gets heap in
       execute (UpdateModdleProperties element ioMapping
                  [("outputParameters",
                    VArr (without_fn (get_many h ioMapping "outputParameters")
                            (includes oldOutputs)))])
     else ret tt).

(** *** Task headers *)

(** The callback of [newProperties.forEach] in
    [_updateZeebeTaskHeaderProperties]; it splices the snapshot
    [oldHeaders]. *)
Definition _updateZeebeTaskHeaderProperties_each (element : eref)
    (businessObject taskHeaders : loc) (oldTemplate : option template)
    (oldHeaders : list loc) (newProperty : property) : M (list loc) :=
  let* h := gets heap in
  let oldProperty := findOldProperty oldTemplate newProperty in
  let oldHeader := findBusinessObject h (Moddle businessObject) newProperty in
  let newPropertyValue := getDefaultValue newProperty in
  let newBinding := p_binding newProperty in
  match oldHeader with
  | Some oldHeader =>
      (if negb (truthy_prim (shouldKeepValue h (Some (Moddle oldHeader)) oldProperty newProperty))
       then
         let properties := [("value", VPrim newPropertyValue)] in
         execute (UpdateModdleProperties element oldHeader properties)
       else ret tt) >>
      ret (remove oldHeaders oldHeader)
  | None =>
      if truthy_prim newPropertyValue then
        let* newHeader := createTaskHeader newBinding newPropertyValue in
        set_parent newHeader taskHeaders >>
        let* h := gets heap in
        execute (UpdateModdleProperties element taskHeaders
                   [("values", VArr (get_many h taskHeaders "values" ++ [newHeader]))]) >>
        ret oldHeaders
      else ret oldHeaders
  end.

Definition _updateZeebeTaskHeaderProperties (element : eref)
    (oldTemplate : option template) (newTemplate : template) : M unit :=
  let newProperties :=
    List.filter (fun newProperty =>
              bool_decide (b_type (p_binding newProperty) = "zeebe:taskHeader"))
           (t_properties newTemplate) in
  let* businessObject := _getOrCreateExtensionElements element (bo_of element) in
  let* h := gets heap in
  let taskHeaders := findExtension h businessObject "zeebe:TaskHeaders" in
  (* (1) remove old headers if no new specified *)
  let* returned :=
    if isEmpty newProperties then
      match taskHeaders with
      | None => ret true
      | Some _ =>
          execute (UpdateModdleProperties element businessObject
                     [("values", VArr (without (get_many h businessObject "values") taskHeaders))]) >>
          ret false
      end
    else ret false in
  if returned : bool then ret tt
  else
    let* taskHeaders :=
      match taskHeaders with
      | Some taskHeaders => ret taskHeaders
      | None => create_holder element businessObject "zeebe:TaskHeaders"
      end in
    let* h := gets heap in
    let oldHeaders := get_many h taskHeaders "values" in
    let* oldHeaders :=
      forEach_with
        (_updateZeebeTaskHeaderProperties_each element businessObject taskHeaders oldTemplate)
        newProperties oldHeaders in
    (* (4) remove old headers *)
    if negb (isEmpty oldHeaders) then
      let* h := gets heap in
      execute (UpdateModdleProperties element taskHeaders
                 [("values",
                   VArr (without_fn (get_many h taskHeaders "values") (includes oldHeaders)))])
    else ret tt.

(** *** Custom properties *)

(** The callback of [newProperties.forEach] in
    [_updateZeebePropertyProperties]; it splices the snapshot
    [oldZeebeProperties]. *)
Definition _updateZeebePropertyProperties_each (element : eref)
    (businessObject zeebeProperties : loc) (oldTemplate : option template)
    (oldZeebeProperties : list loc) (newProperty : property) : M (list loc) :=
  let* h := gets heap in
  let oldProperty := findOldProperty oldTemplate newProperty in
  let oldZeebeProperty := findBusinessObject h (Moddle businessObject) newProperty in
  let newPropertyValue := getDefaultValue newProperty in
  let newBinding := p_binding newProperty in
  match oldZeebeProperty with
  | Some oldZeebeProperty =>
      let oldZeebeProperties :=
        if shouldUpdate newPropertyValue newProperty
           || truthy_prim (shouldKeepValue h (Some (Moddle oldZeebeProperty)) oldProperty newProperty)
        then remove oldZeebeProperties oldZeebeProperty
        else oldZeebeProperties in
      (if negb (truthy_prim (shouldKeepValue h (Some (Moddle oldZeebeProperty)) oldProperty newProperty))
       then
         execute (UpdateModdleProperties element oldZeebeProperty
                    [("value", VPrim newPropertyValue)])
       else ret tt) >>
      ret oldZeebeProperties
  | None =>
      if shouldUpdate newPropertyValue newProperty then
        let* newProperty := createZeebeProperty newBinding newPropertyValue in
        set_parent newProperty zeebeProperties >>
        let* h := gets heap in
        execute (UpdateModdleProperties element zeebeProperties
                   [("properties",
                     VArr (get_many h zeebeProperties "properties" ++ [newProperty]))]) >>
        ret oldZeebeProperties
      else ret oldZeebeProperties
  end.

Definition _updateZeebePropertyProperties (element : eref)
    (oldTemplate : option template) (newTemplate : template) : M unit :=
  let newProperties :=
    List.filter (fun newProperty =>
              bool_decide (b_type (p_binding newProperty) = "zeebe:property"))
           (t_properties newTemplate) in
  let* businessObject := _getOrCreateExtensionElements element (bo_of element) in
  let* h := gets heap in
  let zeebeProperties := findExtension h businessObject "zeebe:Properties" in
  (* (1) remove old zeebe:Properties if no new zeebe:Property properties *)
  let* returned :=
    if isEmpty newProperties then
      match zeebeProperties with
      | None => ret true
      | Some _ =>
          execute (UpdateModdleProperties element businessObject
                     [("values", VArr (without (get_many h businessObject "values") zeebeProperties))]) >>
          ret false
      end
    else ret false in
  if returned : bool then ret tt
  else
    let* zeebeProperties :=
      match zeebeProperties with
      | Some zeebeProperties => ret zeebeProperties
      | None => create_holder element businessObject "zeebe:Properties"
      end in
    let* h := gets heap in
    let oldZeebeProperties := get_many h zeebeProperties "properties" in
    let* oldZeebeProperties :=
      forEach_with
        (_updateZeebePropertyProperties_each element businessObject zeebeProperties oldTemplate)
        newProperties oldZeebeProperties in
    (* (4) remove old zeebe:Property *)
    if negb (isEmpty oldZeebeProperties) then
      let* h := gets heap in
      execute (UpdateModdleProperties element zeebeProperties
                 [("properties",
                   VArr (without_fn (get_many h zeebeProperties "properties")
                           (includes oldZeebeProperties)))])
    else ret tt.

(** *** Message and message subscription *)

(** [_getMessage(element)]: [bo && bo.get('messageRef')], where [bo] is the
    first event definition of an event. *)
Definition _getMessage (h : gmap loc obj) (element : eref) : jsval :=
  let bo := bo_of element in
  let bo :=
    if is_a h bo "bpmn:Event" then head (get_many h bo "eventDefinitions")
    else Some bo in
  match bo with
  | Some bo => get h bo "messageRef"
  | None => undefined
  end.

Definition _createMessage (element : eref) (t : template) : M loc :=
  let* h := gets heap in
  let bo := bo_of element in
  let bo :=
    if is_a h bo "bpmn:Event" then head (get_many h bo "eventDefinitions")
    else Some bo in
  let* message := create "bpmn:Message" [("zeebe:modelerTemplate", VPrim (t_id t))] in
  match bo with
  | None => throw
  | Some bo =>
      let* root := getRoot bo in
      set_parent message root >>
      updateModdleProperties element bo [("messageRef", VRef message)] >>
      ret message
  end.

(** [this._getMessage(element) || this._createMessage(element, template)];
    a message that is not an object fails at its first use, which follows
    in both callers. *)
Definition _getOrCreateMessage (element : eref) (t : template) : M loc :=
  let* h := gets heap in
  let message := _getMessage h element in
  if truthy message then as_object message
  else _createMessage element t.

(** The callback of [newProperties.forEach] in [_updateMessageProperties]. *)
Definition _updateMessageProperties_each (element : eref) (message : loc)
    (oldTemplate : option template) (newProperty : property) : M unit :=
  let* h := gets heap in
  let oldProperty := findOldProperty oldTemplate newProperty in
  let newBinding := p_binding newProperty in
  let newBindingName := b_name newBinding in
  let newPropertyValue := getDefaultValue newProperty in
  let changedElement := message in
  if truthy_prim (shouldKeepValue h (Some (Moddle changedElement)) oldProperty newProperty)
  then ret tt
  else
    updateModdleProperties element changedElement
      (assign [] (key_of newBindingName) (VPrim newPropertyValue)).

Definition _updateMessageProperties (element : eref)
    (oldTemplate : option template) (newTemplate : template) : M unit :=
  let newProperties :=
    List.filter (fun newProperty =>
              bool_decide (b_type (p_binding newProperty) = MESSAGE_PROPERTY_TYPE))
           (t_properties newTemplate) in
  let removedProperties :=
    old_properties oldTemplate (fun oldProperty =>
      bool_decide (b_type (p_binding oldProperty) = MESSAGE_PROPERTY_TYPE)
      && negb (is_Some_bool (List.find (fun newProperty =>
                 bool_decide (b_name (p_binding newProperty)
                              = b_name (p_binding oldProperty)))
               newProperties))) in
  let* h := gets heap in
  let message := _getMessage h element in
  (if truthy message then
     forEach (fun removedProperty =>
                let* message := as_object message in
                updateModdleProperties element message
                  [(key_of (b_name (p_binding removedProperty)), undefined)])
             removedProperties
   else ret tt) >>
  if isEmpty newProperties then ret tt
  else
    let* message := _getOrCreateMessage element newTemplate in
    forEach (_updateMessageProperties_each element message oldTemplate) newProperties.

Definition _getSubscription (element : eref) (bo : loc) : M (option loc) :=
  let* extensionElements := _getOrCreateExtensionElements element bo in
  let* h := gets heap in
  ret (findExtension h extensionElements "zeebe:Subscription").

Definition _updateMessageZeebeSubscriptionProperties (element : eref)
    (oldTemplate : option template) (newTemplate : template) : M unit :=
  let newProperties :=
    List.filter (fun newProperty =>
              bool_decide (b_type (p_binding newProperty)
                           = MESSAGE_ZEEBE_SUBSCRIPTION_PROPERTY_TYPE))
           (t_properties newTemplate) in
  let removedProperties :=
    old_properties oldTemplate (fun oldProperty =>
      bool_decide (b_type (p_binding oldProperty)
                   = MESSAGE_ZEEBE_SUBSCRIPTION_PROPERTY_TYPE)
      && negb (is_Some_bool (List.find (fun newProperty =>
                 bool_decide (b_name (p_binding newProperty)
                              = b_name (p_binding oldProperty)))
               newProperties))) in
  if isEmpty newProperties && isEmpty removedProperties then ret tt
  else
    let* message := _getOrCreateMessage element newTemplate in
    let* messageExtensionElements := _getOrCreateExtensionElements element message in
    let* zeebeSubscription := _getSubscription element message in
    let* h := gets heap in
    let propertiesToSet :=
      fold_left (fun properties newProperty =>
                   let oldProperty := findOldProperty oldTemplate newProperty in
                   let newBinding := p_binding newProperty in
                   let newBindingName := b_name newBinding in
                   let newPropertyValue := getDefaultValue newProperty in
                   let changedElement := zeebeSubscription in
                   if truthy_prim (shouldKeepValue h (option_map Moddle changedElement)
                                     oldProperty newProperty)
                   then properties
                   else assign properties (key_of newBindingName) (VPrim newPropertyValue))
                newProperties [] in
    (match zeebeSubscription with
     | Some zeebeSubscription =>
         updateModdleProperties element zeebeSubscription propertiesToSet
     | None =>
         let* newSubscription :=
           createElement "zeebe:Subscription" propertiesToSet message in
         let* h := gets heap in
         updateModdleProperties element messageExtensionElements
           [("values",
             VArr (get_many h messageExtensionElements "values" ++ [newSubscription]))]
     end) >>
    match oldTemplate, zeebeSubscription with
    | Some _, Some zeebeSubscription =>
        let propertiesToRemove :=
          fold_left (fun properties removedProperty =>
                       assign properties (key_of (b_name (p_binding removedProperty)))
                         undefined)
                    removedProperties [] in
        updateModdleProperties element zeebeSubscription propertiesToRemove
    | _, _ => ret tt
    end.

Definition _updateZeebeModelerTemplateOnReferencedElement (element : eref)
    (oldTemplate : option template) (newTemplate : template) : M unit :=
  let businessObject := bo_of element in
  let* h := gets heap in
  let message := findMessage h businessObject in
  if negb (truthy message) then ret tt
  else
    let* message := as_object message in
    if strict_eq (getTemplateId h message) (VPrim (t_id newTemplate)) then ret tt
    else
      updateModdleProperties element message
        [("zeebe:modelerTemplate", VPrim (t_id newTemplate))].

Definition _updateMessage (element : eref)
    (oldTemplate : option template) (newTemplate : template) : M unit :=
  _updateMessageProperties element oldTemplate newTemplate >>
  _updateMessageZeebeSubscriptionProperties element oldTemplate newTemplate >>
  _updateZeebeModelerTemplateOnReferencedElement element oldTemplate newTemplate >>
  if negb (hasMessageProperties newTemplate) then removeMessage element
  else ret tt.

(** *** Called element *)

(** The callback of [newProperties.forEach] in [_updateCalledElement]; it
    assigns the variable [calledElement] of the enclosing function. *)
Definition _updateCalledElement_each (element : eref) (businessObject : loc)
    (oldTemplate : option template)
    (calledElement : option loc) (newProperty : property) : M (option loc) :=
  let oldProperty := findOldProperty oldTemplate newProperty in
  let newPropertyValue := getDefaultValue newProperty in
  let propertyName := b_property (p_binding newProperty) in
  match calledElement with
  | Some ce =>
      let* h := gets heap in
      (if negb (truthy_prim (shouldKeepValue h (Some (Moddle ce)) oldProperty newProperty))
       then
         let properties := [(key_of propertyName, VPrim newPropertyValue)] in
         execute (UpdateModdleProperties element ce properties)
       else ret tt) >>
      ret (Some ce)
  | None =>
      let properties := [(key_of propertyName, VPrim newPropertyValue)] in
      let* ce := createCalledElement properties in
      set_parent ce businessObject >>
      let* h := gets heap in
      execute (UpdateModdleProperties element businessObject
                 [("values", VArr (get_many h businessObject "values" ++ [ce]))]) >>
      ret (Some ce)
  end.

Definition _updateCalledElement (element : eref)
    (oldTemplate : option template) (newTemplate : template) : M unit :=
  let newProperties :=
    List.filter (fun newProperty =>
              bool_decide (b_type (p_binding newProperty) = ZEEBE_CALLED_ELEMENT))
           (t_properties newTemplate) in
  let* businessObject := _getOrCreateExtensionElements element (bo_of element) in
  let* h := gets heap in
  let calledElement := findExtension h businessObject "zeebe:CalledElement" in
  if isEmpty newProperties then
    execute (UpdateModdleProperties element businessObject
               [("values", VArr (without (get_many h businessObject "values") calledElement))])
  else
    let* calledElement :=
      forEach_with (_updateCalledElement_each element businessObject oldTemplate)
        newProperties calledElement in
    let oldProperties :=
      old_properties oldTemplate (fun oldProperty =>
        bool_decide (b_type (p_binding oldProperty) = ZEEBE_CALLED_ELEMENT)
        && negb (is_Some_bool (List.find (fun newProperty =>
                   bool_decide (b_property (p_binding newProperty)
                                = b_property (p_binding oldProperty)))
                 newProperties))) in
    forEach (fun oldProperty =>
               execute_on element calledElement
                 [(key_of (b_property (p_binding oldProperty)), undefined)])
            oldProperties.

(** *** Element type *)

Definition _updateElementType (element : eref)
    (oldTemplate : option template) (newTemplate : template) : M eref :=
  match t_elementType newTemplate with
  | None => ret element
  | Some newType =>
      let oldType :=
        match oldTemplate with
        | Some t => t_elementType t
        | None => None
        end in
      if match oldType with
         | Some oldType =>
             bool_decide (et_value oldType = et_value newType)
             && bool_decide (et_eventDefinition oldType = et_eventDefinition newType)
         | None => false
         end
      then ret element
      else
        (* [eventDefinitionType] is set only for a non-empty [eventDefinition] *)
        let eventDefinitionType :=
          match et_eventDefinition newType with
          | Some d => if truthy_prim (PStr d) then Some d else None
          | None => None
          end in
        replaceElement element (et_value newType) eventDefinitionType
  end.

(** *** [preExecute(context)]; the result is [context.element]. *)

Definition preExecute (element : eref)
    (oldTemplate newTemplate : option template) : M eref :=
  _updateZeebeModelerTemplate element newTemplate >>
  _updateZeebeModelerTemplateIcon element newTemplate >>
  match newTemplate with
  | Some newTemplate =>
      let* element := _updateElementType element oldTemplate newTemplate in
      _updateProperties element oldTemplate newTemplate >>
      _updateZeebeTaskDefinition element oldTemplate newTemplate >>
      _updateZeebeInputOutputParameterProperties element oldTemplate newTemplate >>
      _updateZeebeTaskHeaderProperties element oldTemplate newTemplate >>
      _updateZeebePropertyProperties element oldTemplate newTemplate >>
      _updateMessage element oldTemplate newTemplate >>
      _updateCalledElement element oldTemplate newTemplate >>
      ret element
  | None => ret element
  end.

End Handler.

(** What [create] followed by [$parent = holder] leaves at the new
    reference. *)
Definition created (type : string) (init : props) (holder : loc) : obj :=
  Obj type (Some holder) (attrs (set_props init (Obj type None ∅))).

(** The identity stamps of an element, as template removal sets them. *)
Definition identity_stamps : props :=
  [ ("zeebe:modelerTemplate", undefined);
    ("zeebe:modelerTemplateVersion", undefined);
    ("zeebe:modelerTemplateIcon", undefined) ].

(** ** Example documents and templates *)

(** Modelled from the spec: a type-replacement collaborator, for the
    examples, that hands back the element it is given. *)
Definition replaceElement_same : eref -> string -> option string -> M eref :=
  fun element _ _ => ret element.

(** Modelled from the spec: a remove-message collaborator, for the
    examples, that performs the detachment of the referenced message: it
    unsets [messageRef] on the object that carries it, when there is one.
    [removeMessage] of [util/rootElementUtil] also takes the message from
    the root elements of the definitions; the handler is verified against
    every collaborator that meets the contract [remove_ok]. *)
Definition removeMessage_detach : eref -> M unit :=
  fun element =>
    let* h := gets heap in
    let bo := bo_of element in
    let bo :=
      if is_a h bo "bpmn:Event" then head (get_many h bo "eventDefinitions")
      else Some bo in
    match bo with
    | None => ret tt
    | Some bo =>
        if truthy (get h bo "messageRef")
        then execute (UpdateModdleProperties element bo [("messageRef", undefined)])
        else ret tt
    end.

Definition plain_binding (name : string) : binding :=
  Binding "property" (Some name) None None None.

Definition input_binding (name : string) : binding :=
  Binding "zeebe:input" (Some name) None None None.

Definition output_binding (source : string) : binding :=
  Binding "zeebe:output" None (Some source) None None.

Definition header_binding (key : string) : binding :=
  Binding "zeebe:taskHeader" None None (Some key) None.

Definition zeebe_property_binding (name : string) : binding :=
  Binding "zeebe:property" (Some name) None None None.

(** Template v1 of the keep-on-edit scenario: a plain property [name] with
    default [foo]; v2 has the same field with default [baz]. *)
Definition ex_name_foo : property :=
  Property "String" (PStr "foo") None false (plain_binding "name").

Definition ex_name_baz : property :=
  Property "String" (PStr "baz") None false (plain_binding "name").

Definition ex_template_v1 : template :=
  Template (PStr "example") (PNum 1) None None [ex_name_foo].

Definition ex_template_v2 : template :=
  Template (PStr "example") (PNum 2) None None [ex_name_baz].

(** A task whose [name] the user changed to [bar]. *)
Definition ex_task_bar : state :=
  State {[ 0%nat := Obj "bpmn:Task" None {[ "name" := VPrim (PStr "bar") ]} ]} 1%nat [].

(** A Dropdown over [red] and [blue] with default [blue]. *)
Definition ex_colour : property :=
  Property "Dropdown" (PStr "blue")
    (Some [Choice "Red" (PStr "red"); Choice "Blue" (PStr "blue")])
    false (plain_binding "colour").

Definition ex_task_red : state :=
  State {[ 0%nat := Obj "bpmn:Task" None {[ "colour" := VPrim (PStr "red") ]} ]} 1%nat [].

(** The result and the final state of a run. *)
Definition eval {A} (m : M A) (s : state) : option A := fst <$> m s.

Definition exec {A} (m : M A) (s : state) : option state := snd <$> m s.

(** A service task (0) whose extension container (1) holds an io-mapping
    holder (2) with one input (3): target [x], source [={{a}}]. *)
Definition ex_task_input : state :=
  State {[ 0%nat := Obj "bpmn:ServiceTask" None {[ "extensionElements" := VRef 1%nat ]};
           1%nat := Obj "bpmn:ExtensionElements" (Some 0%nat) {[ "values" := VArr [2%nat] ]};
           2%nat := Obj "zeebe:IoMapping" (Some 1%nat) {[ "inputParameters" := VArr [3%nat] ]};
           3%nat := Obj "zeebe:Input" (Some 2%nat)
                      {[ "source" := VPrim (PStr "={{a}}"); "target" := VPrim (PStr "x") ]} ]}
        4%nat [].

Definition ex_input_a : property :=
  Property "String" (PStr "={{a}}") None false (input_binding "x").

Definition ex_input_b : property :=
  Property "String" (PStr "={{b}}") None false (input_binding "x").

Definition ex_template_input_v1 : template :=
  Template (PStr "example") (PNum 1) None None [ex_input_a].

Definition ex_template_input_v2 : template :=
  Template (PStr "example") (PNum 2) None None [ex_input_b].

(** A service task (0) whose extension container (1) holds a task-headers
    holder (2) with one header (3): key [k], value [v]. *)
Definition ex_task_header : state :=
  State {[ 0%nat := Obj "bpmn:ServiceTask" None {[ "extensionElements" := VRef 1%nat ]};
           1%nat := Obj "bpmn:ExtensionElements" (Some 0%nat) {[ "values" := VArr [2%nat] ]};
           2%nat := Obj "zeebe:TaskHeaders" (Some 1%nat) {[ "values" := VArr [3%nat] ]};
           3%nat := Obj "zeebe:Header" (Some 2%nat)
                      {[ "key" := VPrim (PStr "k"); "value" := VPrim (PStr "v") ]} ]}
        4%nat [].

(** The old template set header [k] to [v]; the new one makes it optional
    and gives it no default. *)
Definition ex_header_v : property :=
  Property "String" (PStr "v") None false (header_binding "k").

Definition ex_header_optional_empty : property :=
  Property "String" PUndef None true (header_binding "k").

Definition ex_template_header_v1 : template :=
  Template (PStr "example") (PNum 1) None None [ex_header_v].

(** A required header [other] without a default. *)
Definition ex_header_required_empty : property :=
  Property "String" PUndef None false (header_binding "other").

(** A templated service task (0) with its stamps, a [name] and the
    extension container (1) of [ex_task_input] below it. *)
Definition ex_task_templated : state :=
  State {[ 0%nat := Obj "bpmn:ServiceTask" None
                      {[ "extensionElements" := VRef 1%nat;
                         "name" := VPrim (PStr "bar");
                         "zeebe:modelerTemplate" := VPrim (PStr "example");
                         "zeebe:modelerTemplateVersion" := VPrim (PNum 1) ]};
           1%nat := Obj "bpmn:ExtensionElements" (Some 0%nat) {[ "values" := VArr [2%nat] ]};
           2%nat := Obj "zeebe:IoMapping" (Some 1%nat) {[ "inputParameters" := VArr [3%nat] ]};
           3%nat := Obj "zeebe:Input" (Some 2%nat)
                      {[ "source" := VPrim (PStr "={{a}}"); "target" := VPrim (PStr "x") ]} ]}
        4%nat [].

(** A service task (0) whose extension container (1) holds a
    custom-properties holder (2) with one property (3): name [n], value
    [v]. *)
Definition ex_task_zeebe_property : state :=
  State {[ 0%nat := Obj "bpmn:ServiceTask" None {[ "extensionElements" := VRef 1%nat ]};
           1%nat := Obj "bpmn:ExtensionElements" (Some 0%nat) {[ "values" := VArr [2%nat] ]};
           2%nat := Obj "zeebe:Properties" (Some 1%nat) {[ "properties" := VArr [3%nat] ]};
           3%nat := Obj "zeebe:Property" (Some 2%nat)
                      {[ "name" := VPrim (PStr "n"); "value" := VPrim (PStr "v") ]} ]}
        4%nat [].

(** A template without properties. *)
Definition ex_template_empty : template :=
  Template (PStr "example") (PNum 2) None None [].

(** A task (0) without extension container. *)
Definition ex_task_bare : state :=
  State {[ 0%nat := Obj "bpmn:Task" None {[ "name" := VPrim (PStr "bar") ]} ]} 1%nat [].

(** The kinds of properties that live in the extension container of the
    element. *)
Definition extension_borne (p : property) : bool :=
  let type := b_type (p_binding p) in
  is_task_definition_type type
  || bool_decide (type = "zeebe:input") || bool_decide (type = "zeebe:output")
  || bool_decide (type = "zeebe:taskHeader")
  || bool_decide (type = "zeebe:property")
  || bool_decide (type = ZEEBE_CALLED_ELEMENT).

(** The extension container [_getOrCreateExtensionElements] creates. *)
Definition empty_container (businessObject : loc) : obj :=
  Obj "bpmn:ExtensionElements" (Some businessObject) {[ "values" := VArr [] ]}.

(** ** Invariants used in the proofs *)

(** While a singleton node is reconciled inside the container
    [extensionElements], the business object is not written: the node, when
    there is one, is another object, and new objects are allocated above
    both. *)
Definition singleton_inv (businessObject extensionElements : loc) (o : option obj)
    (node : option loc) (s : state) : Prop :=
  heap s !! businessObject = o /\
  (businessObject < next s)%nat /\
  (extensionElements < next s)%nat /\
  businessObject <> extensionElements /\
  (forall l, node = Some l -> l <> businessObject) /\
  otype <$> heap s !! extensionElements = Some "bpmn:ExtensionElements".

(** The business object holds the container, and the container is empty. *)
Definition bare_container (businessObject extensionElements : loc)
    (h : gmap loc obj) : Prop :=
  get h businessObject "extensionElements" = VRef extensionElements /\
  h !! extensionElements = Some (empty_container businessObject).

(** The store never holds [undefined] under a name: [set] unsets instead. *)
Definition normal_obj (o : obj) : Prop :=
  forall name, attrs o !! name <> Some undefined.

(** The plain properties of a template and the names they bind. *)
Definition plain_properties (t : template) : list property :=
  List.filter (fun p => bool_decide (b_type (p_binding p) = "property")) (t_properties t).

Definition plain_names (t : template) : list (option string) :=
  map (fun p => b_name (p_binding p)) (plain_properties t).

Definition plain_keys (t : template) : list string :=
  map (fun p => key_of (b_name (p_binding p))) (plain_properties t).

(** A plain property is settled on a business object when a further
    application of its own template has nothing to change: the value is
    one the policy keeps, or it is the default already. *)
Definition plain_settled (t : template) (h : gmap loc obj) (businessObject : loc)
    (p : property) : Prop :=
  truthy_prim (shouldKeepValue h (Some (Moddle businessObject)) (Some p) p) = true
  \/ get h businessObject (key_of (b_name (p_binding p))) = VPrim (getDefaultValue p).

(** The scenario in which a second application changes the document: the
    task has an input [x] without source; the previous template gave [x]
    the default [z], the new one makes [x] optional without default. *)
Definition ex_task_input_cleared : state :=
  State {[ 0%nat := Obj "bpmn:ServiceTask" None {[ "extensionElements" := VRef 1%nat ]};
           1%nat := Obj "bpmn:ExtensionElements" (Some 0%nat) {[ "values" := VArr [2%nat] ]};
           2%nat := Obj "zeebe:IoMapping" (Some 1%nat) {[ "inputParameters" := VArr [3%nat] ]};
           3%nat := Obj "zeebe:Input" (Some 2%nat) {[ "target" := VPrim (PStr "x") ]} ]}
        4%nat [].

Definition ex_template_input_z : template :=
  Template (PStr "example") (PNum 1) None None
    [Property "String" (PStr "z") None false (input_binding "x")].

Definition ex_template_input_optional : template :=
  Template (PStr "example") (PNum 2) None None
    [Property "String" PUndef None true (input_binding "x")].

(** A run that returns [a] and leaves the document as it is: the store and
    the allocator are unchanged, only the command log grows. *)
Definition unchanged {A} (m : M A) (a : A) (s : state) : Prop :=
  exists s', m s = Some (a, s') /\ heap s' = heap s /\ next s' = next s.

(** The store never holds [undefined]. *)
Definition normal (h : gmap loc obj) : Prop :=
  forall l o, h !! l = Some o -> normal_obj o.

(** ** A document on which a template is settled *)

(** The properties a template contributes to each reconciler. *)
Definition taskdef_properties (t : template) : list property :=
  List.filter (fun p => is_task_definition_type (b_type (p_binding p))) (t_properties t).

Definition io_properties (t : template) : list property :=
  List.filter (fun p => bool_decide (b_type (p_binding p) = "zeebe:input")
                        || bool_decide (b_type (p_binding p) = "zeebe:output"))
    (t_properties t).

Definition input_properties (t : template) : list property :=
  List.filter (fun p => bool_decide (b_type (p_binding p) = "zeebe:input")) (t_properties t).

Definition output_properties (t : template) : list property :=
  List.filter (fun p => bool_decide (b_type (p_binding p) = "zeebe:output")) (t_properties t).

Definition header_properties (t : template) : list property :=
  List.filter (fun p => bool_decide (b_type (p_binding p) = "zeebe:taskHeader"))
    (t_properties t).

Definition zeebe_properties (t : template) : list property :=
  List.filter (fun p => bool_decide (b_type (p_binding p) = "zeebe:property"))
    (t_properties t).

Definition message_properties (t : template) : list property :=
  List.filter (fun p => bool_decide (b_type (p_binding p) = MESSAGE_PROPERTY_TYPE))
    (t_properties t).

Definition subscription_properties (t : template) : list property :=
  List.filter (fun p => bool_decide (b_type (p_binding p)
                                     = MESSAGE_ZEEBE_SUBSCRIPTION_PROPERTY_TYPE))
    (t_properties t).

Definition called_element_properties (t : template) : list property :=
  List.filter (fun p => bool_decide (b_type (p_binding p) = ZEEBE_CALLED_ELEMENT))
    (t_properties t).

(** The identity keys of a template are pairwise distinct within each
    kind, and every task-definition field is its own counterpart (the
    matching of task-definition fields does not look at the old kind). *)
Definition distinct_keys (t : template) : Prop :=
  NoDup (plain_keys t) /\
  NoDup (map (fun p => key_of (getTaskDefinitionPropertyName (p_binding p)))
           (taskdef_properties t)) /\
  Forall (fun p => findOldProperty (Some t) p = Some p) (taskdef_properties t) /\
  NoDup (map (fun p => b_name (p_binding p)) (input_properties t)) /\
  NoDup (map (fun p => b_source (p_binding p)) (output_properties t)) /\
  NoDup (map (fun p => b_key (p_binding p)) (header_properties t)) /\
  NoDup (map (fun p => b_name (p_binding p)) (zeebe_properties t)) /\
  NoDup (map (fun p => key_of (b_name (p_binding p))) (message_properties t)) /\
  NoDup (map (fun p => key_of (b_name (p_binding p))) (subscription_properties t)) /\
  NoDup (map (fun p => key_of (b_property (p_binding p))) (called_element_properties t)).

Section Settled.

Variable h : gmap loc obj.

(** The policy keeps the value [p] has on [node]. *)
Definition keeps (old : option property) (p : property) (node : loc) : bool :=
  truthy_prim (shouldKeepValue h (Some (Moddle node)) old p).

(** The value of [p] on [node] is one the policy keeps, or it is the
    default already. *)
Definition value_settled (old : option property) (p : property) (node : loc)
    (slot : string) : Prop :=
  keeps old p node = true \/ get h node slot = VPrim (getDefaultValue p).

(** A singleton node is there exactly when the template has fields for
    it, and each field is settled on it. *)
Definition singleton_settled (properties : list property)
    (old : property -> option property) (type : string)
    (slot : property -> string) (extensionElements : loc) : Prop :=
  match properties with
  | [] => findExtension h extensionElements type = None
  | _ :: _ =>
      exists node,
        findExtension h extensionElements type = Some node /\
        forall p, p ∈ properties -> value_settled (old p) p node (slot p)
  end.

(** The entries of a keyed collection are, one each, those of the
    properties that are live: every entry belongs to a property, is live
    and settled; no two entries share a key; a property without entry is
    one the reconciler does not create. *)
Definition keyed_settled (properties : list property) (entries : list loc)
    (key_attr slot : string) (key : property -> option string)
    (live : property -> loc -> bool) (creates : property -> bool) : Prop :=
  NoDup entries /\
  (forall e e', e ∈ entries -> e' ∈ entries ->
     get h e key_attr = get h e' key_attr -> e = e') /\
  (forall e, e ∈ entries ->
     exists p, p ∈ properties /\ get h e key_attr = of_opt (key p) /\
               live p e = true /\ value_settled (Some p) p e slot) /\
  (forall p, p ∈ properties ->
     (forall e, e ∈ entries -> get h e key_attr <> of_opt (key p)) ->
     creates p = false).

Definition live_or_kept (p : property) (e : loc) : bool :=
  shouldUpdate (getDefaultValue p) p || keeps (Some p) p e.

Definition io_settled (t : template) (extensionElements : loc) : Prop :=
  match io_properties t with
  | [] => findExtension h extensionElements "zeebe:IoMapping" = None
  | _ :: _ =>
      exists ioMapping,
        findExtension h extensionElements "zeebe:IoMapping" = Some ioMapping /\
        keyed_settled (input_properties t) (get_many h ioMapping "inputParameters")
          "target" "source" (fun p => b_name (p_binding p))
          live_or_kept (fun p => shouldUpdate (getDefaultValue p) p) /\
        (forall e, e ∈ get_many h ioMapping "inputParameters" ->
           is_a h e "zeebe:Input" = true) /\
        keyed_settled (output_properties t) (get_many h ioMapping "outputParameters")
          "source" "target" (fun p => b_source (p_binding p))
          live_or_kept (fun p => shouldUpdate (getDefaultValue p) p) /\
        (forall e, e ∈ get_many h ioMapping "outputParameters" ->
           is_a h e "zeebe:Input" = false)
  end.

Definition headers_settled (t : template) (extensionElements : loc) : Prop :=
  match header_properties t with
  | [] => findExtension h extensionElements "zeebe:TaskHeaders" = None
  | _ :: _ =>
      exists taskHeaders,
        findExtension h extensionElements "zeebe:TaskHeaders" = Some taskHeaders /\
        keyed_settled (header_properties t) (get_many h taskHeaders "values")
          "key" "value" (fun p => b_key (p_binding p))
          (fun _ _ => true) (fun p => truthy_prim (getDefaultValue p))
  end.

Definition zeebe_properties_settled (t : template) (extensionElements : loc) : Prop :=
  match zeebe_properties t with
  | [] => findExtension h extensionElements "zeebe:Properties" = None
  | _ :: _ =>
      exists zeebeProperties,
        findExtension h extensionElements "zeebe:Properties" = Some zeebeProperties /\
        keyed_settled (zeebe_properties t) (get_many h zeebeProperties "properties")
          "name" "value" (fun p => b_name (p_binding p))
          live_or_kept (fun p => shouldUpdate (getDefaultValue p) p)
  end.

(** The message the element references is there when the template has
    message fields, carries the stamp of the template, holds every message
    field settled and every subscription field settled on its subscription;
    it is absent when the template has no message field. *)
Definition message_settled (t : template) (element : eref) : Prop :=
  let message := _getMessage h element in
  (message_properties t <> [] ->
   exists m, message = VRef m /\
     forall p, p ∈ message_properties t ->
       value_settled (Some p) p m (key_of (b_name (p_binding p)))) /\
  (subscription_properties t <> [] ->
   exists m extensionElements subscription,
     message = VRef m /\
     get h m "extensionElements" = VRef extensionElements /\
     findExtension h extensionElements "zeebe:Subscription" = Some subscription /\
     forall p, p ∈ subscription_properties t ->
       value_settled (Some p) p subscription (key_of (b_name (p_binding p)))) /\
  (truthy message = true ->
   exists m, message = VRef m /\ get h m "zeebe:modelerTemplate" = VPrim (t_id t)) /\
  (hasMessageProperties t = false -> truthy message = false).

(** The template is settled on the element: the stamps are those of the
    template, every plain property is settled on the business object, the
    extension container is there with the nodes and entries of the
    template settled in it, and so is the message. *)
Definition settled (t : template) (element : eref) : Prop :=
  let bo := bo_of element in
  normal h /\
  get h bo "zeebe:modelerTemplate" = VPrim (t_id t) /\
  get h bo "zeebe:modelerTemplateVersion" = VPrim (t_version t) /\
  get h bo "zeebe:modelerTemplateIcon"
  = match t_icon t with Some i => VPrim (contents i) | None => undefined end /\
  (forall p, p ∈ plain_properties t ->
     value_settled (Some p) p bo (key_of (b_name (p_binding p)))) /\
  (exists extensionElements,
     get h bo "extensionElements" = VRef extensionElements /\
     (exists values, get h extensionElements "values" = VArr values) /\
     singleton_settled (taskdef_properties t) Some "zeebe:TaskDefinition"
       (fun p => key_of (getTaskDefinitionPropertyName (p_binding p)))
       extensionElements /\
     io_settled t extensionElements /\
     headers_settled t extensionElements /\
     zeebe_properties_settled t extensionElements /\
     singleton_settled (called_element_properties t) (fun _ => None) "zeebe:CalledElement"
       (fun p => key_of (b_property (p_binding p)))
       extensionElements) /\
  message_settled t element.

End Settled.

(** The snapshot of a keyed collection after the step of [p], when the
    document does not change: the entry of [p], if there is one and it is
    live, has left the snapshot. *)
Definition snapshot_step (h : gmap loc obj) (entries : list loc) (key_attr : string)
    (key : property -> option string) (live : property -> loc -> bool)
    (snapshot : list loc) (p : property) : list loc :=
  match List.find (fun e => strict_eq (get h e key_attr) (of_opt (key p))) entries with
  | Some e => if live p e then remove snapshot e else snapshot
  | None => snapshot
  end.

(** The task of [ex_task_bare] after template v2 was applied to it: the
    stamps are set, the [name] the user gave is kept, the extension
    container is there. *)
Definition ex_task_settled : state :=
  State {[ 0%nat := Obj "bpmn:Task" None
                      {[ "extensionElements" := VRef 1%nat;
                         "name" := VPrim (PStr "bar");
                         "zeebe:modelerTemplate" := VPrim (PStr "example");
                         "zeebe:modelerTemplateVersion" := VPrim (PNum 2) ]};
           1%nat := empty_container 0%nat ]}
        2%nat [].


(** ** The first application of a template *)

(** What a run establishes when it returns. *)
Definition runs {A} (m : M A) (s : state) (Q : A -> state -> Prop) : Prop :=
  forall a s', m s = Some (a, s') -> Q a s'.

Definition type_of (h : gmap loc obj) (l : loc) : option string :=
  otype <$> h !! l.

(** Every object of the store was allocated. *)
Definition bounded (s : state) : Prop :=
  forall l, is_Some (heap s !! l) -> (l < next s)%nat.

(** The types of the nodes the handler creates, finds by type or
    dereferences; a business object and an event definition have none of
    them. *)
Definition node_types : list string :=
  [ "bpmn:ExtensionElements"; "zeebe:TaskDefinition"; "zeebe:IoMapping";
    "zeebe:Input"; "zeebe:Output"; "zeebe:TaskHeaders"; "zeebe:Header";
    "zeebe:Properties"; "zeebe:Property"; "zeebe:CalledElement";
    "bpmn:Message"; "zeebe:Subscription" ].

Definition external (type : string) : bool :=
  negb (bool_decide (type ∈ node_types)).

(** The nodes of type [T] among the [values] of a container. *)
Definition typed_values (h : gmap loc obj) (l : loc) (T : string) : list loc :=
  List.filter (fun value => is_a h value T) (get_many h l "values").

(** What a reconciler leaves alone. [K] lists the types of the nodes it
    creates, adds to a container or removes from one; [W type name] tells
    whether it may write the attribute [name] of an object of that type.
    Every object stays, with its type; an attribute outside [W] keeps its
    value; a new object has a type of [K]; in every container the nodes of
    a type outside [K] stay as they are, in their order. *)
Record frame (K : list string) (W : string -> string -> bool) (s s' : state)
  : Prop := Frame {
  frame_next : (next s <= next s')%nat;
  frame_bounded : bounded s -> bounded s';
  frame_normal : normal (heap s) -> normal (heap s');
  frame_kept : forall l o, heap s !! l = Some o ->
    exists o', heap s' !! l = Some o' /\ otype o' = otype o /\
      forall k, W (otype o) k = false -> attrs o' !! k = attrs o !! k;
  frame_new : forall l o', heap s !! l = None -> heap s' !! l = Some o' ->
    otype o' ∈ K;
  frame_values : forall l o T, heap s !! l = Some o ->
    otype o = "bpmn:ExtensionElements" -> T ∉ K -> T <> "bpmn:Event" ->
    typed_values (heap s') l T = typed_values (heap s) l T;
  frame_array : forall l o, heap s !! l = Some o ->
    otype o = "bpmn:ExtensionElements" ->
    (exists values, get (heap s) l "values" = VArr values) ->
    exists values, get (heap s') l "values" = VArr values
}.

(** *** Well-formed documents *)

(** A container holds at most one node of type [T]. *)
Definition unique_node (h : gmap loc obj) (ee : loc) (T : string) : Prop :=
  (length (typed_values h ee T) <= 1)%nat.

(** The entries of the holder of type [holderType] are pairwise distinct
    objects of type [entryType]. *)
Definition entries_wf (h : gmap loc obj) (ee : loc)
    (holderType listAttr entryType : string) : Prop :=
  forall holder, findExtension h ee holderType = Some holder ->
    NoDup (get_many h holder listAttr) /\
    forall e, e ∈ get_many h holder listAttr -> type_of h e = Some entryType.

Definition singleton_types : list string :=
  [ "zeebe:TaskDefinition"; "zeebe:IoMapping"; "zeebe:TaskHeaders";
    "zeebe:Properties"; "zeebe:CalledElement" ].

Definition container_wf (h : gmap loc obj) (ee : loc) : Prop :=
  type_of h ee = Some "bpmn:ExtensionElements" /\
  (forall T, T ∈ singleton_types -> unique_node h ee T) /\
  entries_wf h ee "zeebe:IoMapping" "inputParameters" "zeebe:Input" /\
  entries_wf h ee "zeebe:IoMapping" "outputParameters" "zeebe:Output" /\
  entries_wf h ee "zeebe:TaskHeaders" "values" "zeebe:Header" /\
  entries_wf h ee "zeebe:Properties" "properties" "zeebe:Property".

(** The object that carries [messageRef]: the first event definition of
    an event, the business object otherwise. *)
Definition referrer (h : gmap loc obj) (bo : loc) : option loc :=
  if is_a h bo "bpmn:Event" then head (get_many h bo "eventDefinitions")
  else Some bo.

Definition message_wf (h : gmap loc obj) (element : eref) : Prop :=
  (forall r, referrer h (bo_of element) = Some r ->
     exists o, h !! r = Some o /\ external (otype o) = true) /\
  (forall m, _getMessage h element = VRef m ->
     type_of h m = Some "bpmn:Message" /\
     forall mee, get h m "extensionElements" = VRef mee ->
       type_of h mee = Some "bpmn:ExtensionElements").

(** A document the schema admits, as far as the handler looks at it: the
    store holds no [undefined] and only allocated objects; the business
    object and the carrier of [messageRef] are there and are no nodes; the
    extension container, when there is one, is a container with at most
    one node of each singleton type, whose holders list pairwise distinct
    entries of the entry type; the referenced message, when there is one,
    is a message whose container, when there is one, is a container. *)
Definition wf_document (element : eref) (s : state) : Prop :=
  normal (heap s) /\ bounded s /\
  (exists o, heap s !! bo_of element = Some o /\ external (otype o) = true) /\
  (forall ee, get (heap s) (bo_of element) "extensionElements" = VRef ee ->
     container_wf (heap s) ee) /\
  message_wf (heap s) element.

(** The plain properties of the old template that [_updateProperties]
    unsets: those whose name no plain property of the new template has. *)
Definition dropped_plain (oldTemplate : option template) (t : template)
  : list property :=
  old_properties oldTemplate (fun oldProperty =>
    bool_decide (b_type (p_binding oldProperty) = "property")
    && negb (is_Some_bool (List.find (fun newProperty =>
               bool_decide (b_name (p_binding newProperty)
                            = b_name (p_binding oldProperty)))
             (plain_properties t)))).

(** The task-definition properties of the old template that
    [_updateZeebeTaskDefinition] unsets: those whose [binding.property] no
    task-definition property of the new template has. *)
Definition dropped_taskdef (oldTemplate : option template) (t : template)
  : list property :=
  old_properties oldTemplate (fun oldProperty =>
    is_task_definition_type (b_type (p_binding oldProperty))
    && negb (is_Some_bool (List.find (fun newProperty =>
               bool_decide (b_property (p_binding newProperty)
                            = b_property (p_binding oldProperty)))
             (taskdef_properties t)))).

(** The called-element properties of the old template that
    [_updateCalledElement] unsets. *)
Definition dropped_called (oldTemplate : option template) (t : template)
  : list property :=
  old_properties oldTemplate (fun oldProperty =>
    bool_decide (b_type (p_binding oldProperty) = ZEEBE_CALLED_ELEMENT)
    && negb (is_Some_bool (List.find (fun newProperty =>
               bool_decide (b_property (p_binding newProperty)
                            = b_property (p_binding oldProperty)))
             (called_element_properties t)))).

(** The message properties of the old template that
    [_updateMessageProperties] unsets on the message, and the subscription
    properties that [_updateMessageZeebeSubscriptionProperties] unsets on
    the subscription: those whose name no property of the kind has in the
    new template. *)
Definition dropped_message (oldTemplate : option template) (t : template)
  : list property :=
  old_properties oldTemplate (fun oldProperty =>
    bool_decide (b_type (p_binding oldProperty) = MESSAGE_PROPERTY_TYPE)
    && negb (is_Some_bool (List.find (fun newProperty =>
               bool_decide (b_name (p_binding newProperty)
                            = b_name (p_binding oldProperty)))
             (message_properties t)))).

Definition dropped_subscription (oldTemplate : option template) (t : template)
  : list property :=
  old_properties oldTemplate (fun oldProperty =>
    bool_decide (b_type (p_binding oldProperty)
                 = MESSAGE_ZEEBE_SUBSCRIPTION_PROPERTY_TYPE)
    && negb (is_Some_bool (List.find (fun newProperty =>
               bool_decide (b_name (p_binding newProperty)
                            = b_name (p_binding oldProperty)))
             (subscription_properties t)))).

Definition dropped_plain_keys (oldTemplate : option template) (t : template)
  : list string :=
  map (fun q => key_of (b_name (p_binding q))) (dropped_plain oldTemplate t).

Definition dropped_message_keys (oldTemplate : option template) (t : template)
  : list string :=
  map (fun q => key_of (b_name (p_binding q))) (dropped_message oldTemplate t).

(** The attribute names the handler and its collaborators use on a
    business object and on a message ([rootElements] is the list the
    remove-message collaborator takes a message from); a template that
    binds a plain property or a message property to one of them writes
    over their fields. *)
Definition reserved_names : list string :=
  [ "zeebe:modelerTemplate"; "zeebe:modelerTemplateVersion";
    "zeebe:modelerTemplateIcon"; "extensionElements"; "messageRef";
    "eventDefinitions"; "rootElements" ].

Definition reserved_message_names : list string :=
  [ "zeebe:modelerTemplate"; "extensionElements" ].

Definition free_names (t : template) : Prop :=
  (forall k, k ∈ plain_keys t -> k ∉ reserved_names) /\
  (forall p, p ∈ message_properties t ->
     key_of (b_name (p_binding p)) ∉ reserved_message_names).

Definition stamped (t : template) (h : gmap loc obj) (bo : loc) : Prop :=
  get h bo "zeebe:modelerTemplate" = VPrim (t_id t) /\
  get h bo "zeebe:modelerTemplateVersion" = VPrim (t_version t) /\
  get h bo "zeebe:modelerTemplateIcon"
  = match t_icon t with Some i => VPrim (contents i) | None => undefined end.

(** What the handler relies on from the type-replacement collaborator:
    the element it returns is a well-formed document again and carries the
    stamps of the element it replaces. *)
Definition replace_ok (t : template)
    (replaceElement : eref -> string -> option string -> M eref) : Prop :=
  forall element type eventDefinitionType s element' s',
    wf_document element s -> stamped t (heap s) (bo_of element) ->
    replaceElement element type eventDefinitionType s = Some (element', s') ->
    wf_document element' s' /\ stamped t (heap s') (bo_of element').

(** What the remove-message collaborator may write: the [messageRef] of
    the object that carries it and the [rootElements] of the definitions,
    both on objects that are no extension nodes and no messages. *)
Definition W_removal (type name : string) : bool :=
  external type && bool_decide (name ∈ ["messageRef"; "rootElements"]).

(** *** Write permissions of the reconcilers *)

Definition stamp_names : list string :=
  [ "zeebe:modelerTemplate"; "zeebe:modelerTemplateVersion";
    "zeebe:modelerTemplateIcon" ].

Definition W_names (names : list string) (type name : string) : bool :=
  external type && bool_decide (name ∈ names).

(** A reconciler of extension nodes of the types [own]: it writes those
    nodes, the [values] of a container and the [extensionElements] of the
    business object. *)
Definition W_nodes (own : list string) (type name : string) : bool :=
  bool_decide (type ∈ own)
  || (bool_decide (type = "bpmn:ExtensionElements") && bool_decide (name = "values")).

Definition W_extension (own : list string) (type name : string) : bool :=
  W_nodes own type name
  || (external type && bool_decide (name = "extensionElements")).

Definition K_extension (own : list string) : list string :=
  "bpmn:ExtensionElements" :: own.

Definition W_message (type name : string) : bool :=
  bool_decide (type ∈ ["bpmn:Message"; "zeebe:Subscription"])
  || (bool_decide (type = "bpmn:ExtensionElements") && bool_decide (name = "values"))
  || W_removal type name.

Definition K_message : list string :=
  [ "bpmn:Message"; "bpmn:ExtensionElements"; "zeebe:Subscription" ].

(** What the handler relies on from the remove-message collaborator: on
    an element that references no message it returns and leaves the
    document as it is; on an element whose carrier of [messageRef] is no
    extension node it leaves, when it returns, the element without
    message, creates no object and writes nothing but [messageRef] and
    [rootElements] attributes of objects that are no extension nodes and no
    messages. *)
Definition remove_ok (removeMessage : eref -> M unit) : Prop :=
  forall element s,
    (truthy (_getMessage (heap s) element) = false ->
     unchanged (removeMessage element) tt s) /\
    (message_wf (heap s) element ->
     runs (removeMessage element) s
       (fun _ s' =>
          frame [] W_removal s s' /\
          truthy (_getMessage (heap s') element) = false)).

(** *** The shape the reconcilers share *)

(** The callback of the two singleton reconcilers, over the type of the
    node and the attribute a property names. *)
Definition singleton_each (type : string) (name : property -> string)
    (element : eref) (businessObject : loc) (oldTemplate : option template)
    (node : option loc) (newProperty : property) : M (option loc) :=
  let oldProperty := findOldProperty oldTemplate newProperty in
  let newPropertyValue := getDefaultValue newProperty in
  match node with
  | Some n =>
      let* h := gets heap in
      (if negb (truthy_prim (shouldKeepValue h (Some (Moddle n)) oldProperty newProperty))
       then
         execute (UpdateModdleProperties element n
                    [(name newProperty, VPrim newPropertyValue)])
       else ret tt) >>
      ret (Some n)
  | None =>
      let* n := create type [(name newProperty, VPrim newPropertyValue)] in
      set_parent n businessObject >>
      let* h := gets heap in
      execute (UpdateModdleProperties element businessObject
                 [("values", VArr (get_many h businessObject "values" ++ [n]))]) >>
      ret (Some n)
  end.

(** A singleton reconciler: the node is removed when the new template has
    no field for it; otherwise every field is reconciled, and the fields
    [dropped], which only the old template binds, are unset at the end. *)
Definition singleton_reconciler (type : string) (name : property -> string)
    (properties dropped : list property) (oldTemplate : option template)
    (element : eref) : M unit :=
  let* businessObject := _getOrCreateExtensionElements element (bo_of element) in
  let* h := gets heap in
  let node := findExtension h businessObject type in
  if isEmpty properties then
    execute (UpdateModdleProperties element businessObject
               [("values", VArr (without (get_many h businessObject "values") node))])
  else
    let* node :=
      forEach_with (singleton_each type name element businessObject oldTemplate)
        properties node in
    forEach (fun oldProperty =>
               execute_on element node
                 [(key_of (b_property (p_binding oldProperty)), undefined)])
            dropped.

Definition taskdef_name (p : property) : string :=
  key_of (getTaskDefinitionPropertyName (p_binding p)).

Definition called_element_name (p : property) : string :=
  key_of (b_property (p_binding p)).

(** The callback of the keyed-collection reconcilers, over the list of
    the holder, the type and the tracked attribute of an entry, the
    attributes a new entry is created with, the gate under which a found
    entry leaves the snapshot and the gate under which a missing entry is
    created. *)
Definition keyed_each (listAttr entryType slot : string)
    (init : property -> props)
    (live : property -> bool -> bool) (creates : property -> bool)
    (element : eref) (businessObject holder : loc) (oldTemplate : option template)
    (snapshot : list loc) (newProperty : property) : M (list loc) :=
  let* h := gets heap in
  let oldProperty := findOldProperty oldTemplate newProperty in
  let found := findBusinessObject h (Moddle businessObject) newProperty in
  let newPropertyValue := getDefaultValue newProperty in
  match found with
  | Some e =>
      let keep :=
        truthy_prim (shouldKeepValue h (Some (Moddle e)) oldProperty newProperty) in
      let snapshot := if live newProperty keep then remove snapshot e else snapshot in
      (if negb keep
       then execute (UpdateModdleProperties element e [(slot, VPrim newPropertyValue)])
       else ret tt) >>
      ret snapshot
  | None =>
      if creates newProperty then
        let* n := create entryType (init newProperty) in
        set_parent n holder >>
        let* h := gets heap in
        execute (UpdateModdleProperties element holder
                   [(listAttr, VArr (get_many h holder listAttr ++ [n]))]) >>
        ret snapshot
      else ret snapshot
  end.

(** The reconciler of task headers and of custom properties. *)
Definition keyed_reconciler (holderType listAttr entryType slot : string)
    (init : property -> props)
    (live : property -> bool -> bool) (creates : property -> bool)
    (properties : list property) (oldTemplate : option template)
    (element : eref) : M unit :=
  let* businessObject := _getOrCreateExtensionElements element (bo_of element) in
  let* h := gets heap in
  let holder := findExtension h businessObject holderType in
  let* returned :=
    if isEmpty properties then
      match holder with
      | None => ret true
      | Some _ =>
          execute (UpdateModdleProperties element businessObject
                     [("values", VArr (without (get_many h businessObject "values") holder))]) >>
          ret false
      end
    else ret false in
  if returned : bool then ret tt
  else
    let* holder :=
      match holder with
      | Some holder => ret holder
      | None => create_holder element businessObject holderType
      end in
    let* h := gets heap in
    let snapshot := get_many h holder listAttr in
    let* snapshot :=
      forEach_with
        (keyed_each listAttr entryType slot init live creates element businessObject
           holder oldTemplate)
        properties snapshot in
    if negb (isEmpty snapshot) then
      let* h := gets heap in
      execute (UpdateModdleProperties element holder
                 [(listAttr,
                   VArr (without_fn (get_many h holder listAttr) (includes snapshot)))])
    else ret tt.

Definition header_init (p : property) : props :=
  [("key", of_opt (b_key (p_binding p))); ("value", VPrim (getDefaultValue p))].

Definition zeebe_property_init (p : property) : props :=
  [("name", of_opt (b_name (p_binding p))); ("value", VPrim (getDefaultValue p))].

Definition input_init (p : property) : props :=
  [("source", VPrim (getDefaultValue p)); ("target", of_opt (b_name (p_binding p)))].

Definition output_init (p : property) : props :=
  [("source", of_opt (b_source (p_binding p))); ("target", VPrim (getDefaultValue p))].

Definition gate_live (p : property) (keep : bool) : bool :=
  shouldUpdate (getDefaultValue p) p || keep.

Definition gate_creates (p : property) : bool :=
  shouldUpdate (getDefaultValue p) p.

(** What a step on the entries of one holder may write: the entries and
    the list of the holder. *)
Definition W_keyed (holderType listAttr entryType : string) (type name : string)
  : bool :=
  bool_decide (type = entryType)
  || (bool_decide (type = holderType) && bool_decide (name = listAttr)).

(** While the properties [done] have been reconciled with the entries of
    [holder]: the entries are pairwise distinct objects of the entry type,
    the snapshot lists some of them, and those that have left the snapshot
    are settled for [done]. *)
Definition keyed_inv (h : gmap loc obj) (holder : loc)
    (listAttr entryType keyAttr slot : string) (key : property -> option string)
    (live' : property -> loc -> bool) (creates : property -> bool)
    (done : list property) (snapshot : list loc) : Prop :=
  let entries := get_many h holder listAttr in
  NoDup entries /\
  (forall e, e ∈ entries -> type_of h e = Some entryType) /\
  NoDup snapshot /\
  (forall e, e ∈ snapshot -> e ∈ entries) /\
  keyed_settled h done (without_fn entries (includes snapshot))
    keyAttr slot key live' creates.

(** The invariant of the two lists of the io-mapping holder. *)
Definition input_inv (h : gmap loc obj) (ioMapping : loc) (done : list property)
    (snapshot : list loc) : Prop :=
  keyed_inv h ioMapping "inputParameters" "zeebe:Input" "target" "source"
    (fun p => b_name (p_binding p)) (live_or_kept h) gate_creates done snapshot.

Definition output_inv (h : gmap loc obj) (ioMapping : loc) (done : list property)
    (snapshot : list loc) : Prop :=
  keyed_inv h ioMapping "outputParameters" "zeebe:Output" "source" "target"
    (fun p => b_source (p_binding p)) (live_or_kept h) gate_creates done snapshot.

Definition is_input (p : property) : bool :=
  bool_decide (b_type (p_binding p) = "zeebe:input").

(** What the steps of the message reconciler may write: the creation of
    the message writes [messageRef]; the field steps write the named
    fields of a message; the subscription step writes the subscription,
    the [values] of the container of the message and the
    [extensionElements] of the message. *)
Definition W_reference (type name : string) : bool :=
  external type && bool_decide (name = "messageRef").

Definition W_fields (names : list string) (type name : string) : bool :=
  bool_decide (type = "bpmn:Message") && bool_decide (name ∈ names).

Definition W_subscription (type name : string) : bool :=
  bool_decide (type = "zeebe:Subscription")
  || (bool_decide (type = "bpmn:ExtensionElements") && bool_decide (name = "values"))
  || (bool_decide (type = "bpmn:Message") && bool_decide (name = "extensionElements")).

Definition message_keys (t : template) : list string :=
  map (fun p => key_of (b_name (p_binding p))) (message_properties t).

Definition subscription_keys (t : template) : list string :=
  map (fun p => key_of (b_name (p_binding p))) (subscription_properties t).

(** *** The reconcilers, one after the other *)

(** A reconciler writes no field of a business object besides its two
    links, to the extension container and to the message, and the list
    the remove-message collaborator takes the message from. *)
Definition links_only (W : string -> string -> bool) : Prop :=
  forall type name, external type = true ->
    name <> "extensionElements" -> name <> "messageRef" ->
    name <> "rootElements" -> W type name = false.

(** A reconciler of the node types [own] neither creates nor removes nor
    writes a node of another type. *)
Definition family_frame (own K : list string) (W : string -> string -> bool) : Prop :=
  (forall T, T ∈ node_types -> T <> "bpmn:ExtensionElements" -> T ∉ own ->
     (T ∉ K) /\ (forall k, W T k = false)) /\
  links_only W.

(** The singleton types whose reconcilers run after the one of the task
    definition. *)
Definition later_types : list string :=
  [ "zeebe:IoMapping"; "zeebe:TaskHeaders"; "zeebe:Properties"; "zeebe:CalledElement" ].

(** *** A first application, run *)

(** A template of a service task: a name, the type of the job worker, an
    input and a task header. *)
Definition ex_worker_type : property :=
  Property "String" (PStr "worker") None false
    (Binding "zeebe:taskDefinition:type" None None None None).

Definition ex_template_service : template :=
  Template (PStr "service") (PNum 1) None None
    [ex_name_baz; ex_worker_type; ex_input_b; ex_header_v].

(** The document of [ex_task_input] after the first application of
    [ex_template_service]. *)
Definition ex_task_input_applied : state :=
  default ex_task_input
    (exec (preExecute replaceElement_same removeMessage_detach (Shape 0%nat)
             None (Some ex_template_service))
       ex_task_input).

(** The document of [ex_task_input] after [ex_template_service] replaced
    [ex_template_input_v1] on it. *)
Definition ex_task_input_upgraded : state :=
  default ex_task_input
    (exec (preExecute replaceElement_same removeMessage_detach (Shape 0%nat)
             (Some ex_template_input_v1) (Some ex_template_service))
       ex_task_input).

(** ** Further properties of the handler *)

(** The binding types [findOldProperty] has a branch for that matches on
    the binding type itself. *)
Definition keyed_binding_types : list string :=
  [ "property"; "zeebe:input"; "zeebe:output"; "zeebe:taskHeader"; "zeebe:property";
    MESSAGE_PROPERTY_TYPE; MESSAGE_ZEEBE_SUBSCRIPTION_PROPERTY_TYPE ].

(** The field of a binding [findOldProperty] compares for a binding type:
    [source] for an output, [key] for a task header, [name] otherwise. *)
Definition identity_key (type : string) (b : binding) : option string :=
  if bool_decide (type = "zeebe:output") then b_source b
  else if bool_decide (type = "zeebe:taskHeader") then b_key b
  else b_name b.

(** A message start event (0) whose event definition (1) references a
    message (2) that carries no stamp. *)
Definition ex_message_event : state :=
  State (list_to_map
           [ (0%nat, Obj "bpmn:StartEvent" None
                       (list_to_map [("eventDefinitions", VArr [1%nat])]));
             (1%nat, Obj "bpmn:MessageEventDefinition" (Some 0%nat)
                       (list_to_map [("messageRef", VRef 2%nat)]));
             (2%nat, Obj "bpmn:Message" None
                       (list_to_map [("name", VPrim (PStr "order"))])) ])
        3%nat [].

(** A start event (0) without event definition. *)
Definition ex_bare_event : state :=
  State (list_to_map [ (0%nat, Obj "bpmn:StartEvent" None ∅) ]) 1%nat [].

Definition ex_message_name : property :=
  Property "String" (PStr "order") None false
    (Binding MESSAGE_PROPERTY_TYPE (Some "name") None None None).

Definition ex_template_message : template :=
  Template (PStr "message") (PNum 1) None None [ex_message_name].

(** The document of [ex_message_event] after the referenced message was
    stamped. *)
Definition ex_message_event_stamped : state :=
  default ex_message_event
    (exec (_updateZeebeModelerTemplateOnReferencedElement (Shape 0%nat) None
             ex_template_message)
       ex_message_event).

(** The document of [ex_task_bare] after a message was created for it. *)
Definition ex_task_bare_message : state :=
  default ex_task_bare
    (exec (_getOrCreateMessage (Shape 0%nat) ex_template_message) ex_task_bare).

(** The document of [ex_task_input_applied] after the task-definition
    reconciler ran for a template without task-definition property. *)
Definition ex_task_input_without_job : state :=
  default ex_task_input_applied
    (exec (_updateZeebeTaskDefinition (Shape 0%nat) (Some ex_template_service)
             ex_template_v2)
       ex_task_input_applied).

(** Every plain binding of the template names its attribute. *)
Definition named_plain (t : template) : Prop :=
  forall p, p ∈ plain_properties t -> b_name (p_binding p) <> None.

(** The decision [_updateProperties] takes for a plain property on the
    business object [bo]. *)
Definition keeps_plain (h : gmap loc obj) (bo : loc)
    (oldTemplate : option template) (p : property) : bool :=
  truthy_prim (shouldKeepValue h (Some (Moddle bo)) (findOldProperty oldTemplate p) p).

(** A template whose only property is the Dropdown [colour], and the
    document of [ex_task_bar] after its plain properties were reconciled
    from template v1 to it. *)
Definition ex_template_colour : template :=
  Template (PStr "example") (PNum 3) None None [ex_colour].

Definition ex_task_bar_recoloured : state :=
  default ex_task_bar
    (exec (_updateProperties (Shape 0%nat) (Some ex_template_v1) ex_template_colour)
       ex_task_bar).

(** The task of [ex_task_bar] with the colour [red], and its document
    after its plain properties were reconciled from template v1 to
    [ex_template_colour]. *)
Definition ex_task_coloured_object : obj :=
  Obj "bpmn:Task" None
    {[ "name" := VPrim (PStr "bar"); "colour" := VPrim (PStr "red") ]}.

Definition ex_task_coloured : state :=
  State {[ 0%nat := ex_task_coloured_object ]} 1%nat [].

Definition ex_task_coloured_recoloured : state :=
  default ex_task_coloured
    (exec (_updateProperties (Shape 0%nat) (Some ex_template_v1) ex_template_colour)
       ex_task_coloured).

(** Every called-element binding of the template names its attribute. *)
Definition named_called (t : template) : Prop :=
  forall p, p ∈ called_element_properties t -> b_property (p_binding p) <> None.

(** A call activity (0) whose extension container (1) holds a called
    element (2) the user pointed to the process [mine]. *)
Definition ex_call_activity : state :=
  State (list_to_map
           [ (0%nat, Obj "bpmn:CallActivity" None
                       (list_to_map [("extensionElements", VRef 1%nat)]));
             (1%nat, Obj "bpmn:ExtensionElements" (Some 0%nat)
                       (list_to_map [("values", VArr [2%nat])]));
             (2%nat, Obj "zeebe:CalledElement" (Some 1%nat)
                       (list_to_map [("processId", VPrim (PStr "mine"))])) ])
        3%nat [].

Definition ex_called_process (value : string) : property :=
  Property "String" (PStr value) None false
    (Binding ZEEBE_CALLED_ELEMENT None None None (Some "processId")).

Definition ex_template_call (value : string) : template :=
  Template (PStr "call") (PNum 1) None None [ex_called_process value].

Definition ex_call_activity_applied : state :=
  default ex_call_activity
    (exec (_updateCalledElement (Shape 0%nat) (Some (ex_template_call "theirs"))
             (ex_template_call "ours"))
       ex_call_activity).

(** What an application of [t] that replaces [oldTemplate] may write: on
    an object that is no extension node and no message, the attributes
    the plain properties of [t] name, those only the plain properties of
    [oldTemplate] name, the two links and [rootElements]. *)
Definition W_application (oldTemplate : option template) (t : template)
    (type name : string) : bool :=
  if external type
  then bool_decide (name ∈ (plain_keys t ++ dropped_plain_keys oldTemplate t)
                             ++ ["extensionElements"; "messageRef"; "rootElements"])
  else true.

(** An optional property without default that the old template declares
    too has the same default there. *)
Definition same_default (oldTemplate : option template) (p : property) : Prop :=
  shouldUpdate (getDefaultValue p) p = false ->
  forall q, findOldProperty oldTemplate p = Some q -> p_value q = p_value p.

(** The fields the handler unsets because only [oldTemplate] binds them
    are none it uses itself and none [t] binds, and an optional mapping
    or custom property of [t] with an empty default that [oldTemplate] has
    too had the same default there. Without old template nothing is
    required. *)
Definition upgrade_ok (oldTemplate : option template) (t : template) : Prop :=
  (forall k, k ∈ dropped_plain_keys oldTemplate t -> k ∉ reserved_names) /\
  (forall k, k ∈ dropped_message_keys oldTemplate t -> k ∉ reserved_message_names) /\
  (forall q, q ∈ dropped_taskdef oldTemplate t ->
     key_of (b_property (p_binding q)) ∉ map taskdef_name (taskdef_properties t)) /\
  (forall q, q ∈ dropped_subscription oldTemplate t ->
     key_of (b_name (p_binding q)) ∉ subscription_keys t) /\
  (forall q, q ∈ dropped_called oldTemplate t ->
     called_element_name q ∉ map called_element_name (called_element_properties t)) /\
  (forall p, p ∈ io_properties t ++ zeebe_properties t -> same_default oldTemplate p).

(** The document of [ex_task_bare] after the first application of
    [ex_template_message]. *)
Definition ex_task_bare_applied : state :=
  default ex_task_bare
    (exec (preExecute replaceElement_same removeMessage_detach (Shape 0%nat)
             None (Some ex_template_message))
       ex_task_bare).

(** ** [cmd/index.js] *)

Section Commands.

(** The [elementTemplates] service, [get(element)] and
    [getDefault(element)]: the template an element carries and the default
    template for it, read off the document. *)
Variable elementTemplates_get : gmap loc obj -> eref -> option template.
Variable elementTemplates_getDefault : gmap loc obj -> eref -> option template.

Variable replaceElement : eref -> string -> option string -> M eref.
Variable removeMessage : eref -> M unit.

(** [commandStack.execute('propertiesPanel.zeebe.changeTemplate', context)]:
    [registerHandlers] registers [ChangeElementTemplateHandler] for the
    command, and [preExecute] is the only phase the handler has. *)
Definition changeTemplate (element : eref)
    (oldTemplate newTemplate : option template) : M unit :=
  preExecute replaceElement removeMessage element oldTemplate newTemplate >> ret tt.

(** [applyDefaultTemplate(element, elementTemplates, commandStack)] *)
Definition applyDefaultTemplate (element : eref) : M unit :=
  let* h := gets heap in
  if negb (is_Some_bool (elementTemplates_get h element))
     && is_Some_bool (elementTemplates_getDefault h element)
  then changeTemplate element None (elementTemplates_getDefault h element)
  else ret tt.

(** The listener of [commandStack.shape.create.postExecuted] and of
    [commandStack.connection.create.postExecuted], on the created element
    and [hints.createElementsBehavior] ([undefined] without hint). *)
Definition onCreated (createElementsBehavior : jsval) (element : eref) : M unit :=
  if negb (strict_eq createElementsBehavior (VPrim (PBool false)))
  then applyDefaultTemplate element
  else ret tt.

End Commands.

(** The document of [ex_task_input] after it was created with
    [ex_template_service] as the default template. *)
Definition ex_task_input_created : state :=
  default ex_task_input
    (exec (onCreated (fun _ _ => None) (fun _ _ => Some ex_template_service)
             replaceElement_same removeMessage_detach undefined (Shape 0%nat))
       ex_task_input).

(** A service task (0) whose extension container (1) holds a task
    definition (2) of type [worker]; a template that binds the type through
    [zeebe:taskDefinition] and [property: type], and one that binds it
    through the legacy [zeebe:taskDefinition:type]. *)
Definition ex_service_task : state :=
  State (list_to_map
           [ (0%nat, Obj "bpmn:ServiceTask" None
                       (list_to_map [("extensionElements", VRef 1%nat)]));
             (1%nat, Obj "bpmn:ExtensionElements" (Some 0%nat)
                       (list_to_map [("values", VArr [2%nat])]));
             (2%nat, Obj "zeebe:TaskDefinition" (Some 1%nat)
                       (list_to_map [("type", VPrim (PStr "worker"))])) ])
        3%nat [].

Definition ex_job_type : property :=
  Property "String" (PStr "worker") None false
    (Binding "zeebe:taskDefinition" None None None (Some "type")).

Definition ex_template_job_general : template :=
  Template (PStr "job") (PNum 1) None None [ex_job_type].

Definition ex_template_job_legacy : template :=
  Template (PStr "job") (PNum 2) None None [ex_worker_type].

Definition ex_service_task_migrated : state :=
  default ex_service_task
    (exec (_updateZeebeTaskDefinition (Shape 0%nat) (Some ex_template_job_general)
             ex_template_job_legacy)
       ex_service_task).

(** A template with one [zeebe:property], and the document of
    [ex_task_bare] after its first application. *)
Definition ex_template_flag : template :=
  Template (PStr "flag") (PNum 1) None None
    [ Property "String" (PStr "on") None false
        (Binding "zeebe:property" (Some "flag") None None None) ].

Definition ex_task_bare_flagged : state :=
  default ex_task_bare
    (exec (preExecute replaceElement_same removeMessage_detach (Shape 0%nat)
             None (Some ex_template_flag))
       ex_task_bare).

(** ** The value policy on the slot of a binding *)

(** Modelled from the spec: the value slot tracked for a binding kind
    (column "Value slot tracked" of the table of bindings): the element's
    own field for a plain property, the resolved field of the
    task-definition node, [source] of an input, [target] of an output,
    [value] of a task header and of a custom property, the field of the
    called-element node, of the message and of the subscription. *)
Definition spec_value_slot (b : binding) : option string :=
  let type := b_type b in
  if bool_decide (type = "property") then Some (key_of (b_name b))
  else if is_task_definition_type type
  then Some (key_of (getTaskDefinitionPropertyName b))
  else if bool_decide (type = "zeebe:input") then Some "source"
  else if bool_decide (type = "zeebe:output") then Some "target"
  else if bool_decide (type = "zeebe:taskHeader") then Some "value"
  else if bool_decide (type = "zeebe:property") then Some "value"
  else if bool_decide (type = ZEEBE_CALLED_ELEMENT) then Some (key_of (b_property b))
  else if bool_decide (type = MESSAGE_PROPERTY_TYPE) then Some (key_of (b_name b))
  else if bool_decide (type = MESSAGE_ZEEBE_SUBSCRIPTION_PROPERTY_TYPE)
  then Some (key_of (b_name b))
  else None.

(** The state after the one command [element.updateModdleProperties] that
    writes [value] into [slot] of [node]. *)
Definition written (s : state) (element : eref) (node : loc) (slot : string)
    (value : prim) : state :=
  State (alter (set_props [(slot, VPrim value)]) node (heap s)) (next s)
        (log s ++ [UpdateModdleProperties element node [(slot, VPrim value)]]).

(** The step [m] decides on [keep]: it returns and leaves the state as it
    is when [keep] holds, and returns and leaves the state [s_written]
    when it does not. *)
Definition decides {A} (keep : Prop) (m : M A) (s s_written : state) : Prop :=
  (keep -> exists a, m s = Some (a, s)) /\
  (~ keep -> exists a, m s = Some (a, s_written)).

(** Modelled from the spec: the value is one of [newProperty.choices]. *)
Definition chosen (p : property) (value : jsval) : Prop :=
  exists choices c,
    p_choices p = Some choices /\ c ∈ choices /\ VPrim (choice_value c) = value.

(** The service task of [ex_service_task] after the user changed the type
    of the job worker to [custom]. *)
Definition ex_service_task_custom : state :=
  State (list_to_map
           [ (0%nat, Obj "bpmn:ServiceTask" None
                       (list_to_map [("extensionElements", VRef 1%nat)]));
             (1%nat, Obj "bpmn:ExtensionElements" (Some 0%nat)
                       (list_to_map [("values", VArr [2%nat])]));
             (2%nat, Obj "zeebe:TaskDefinition" (Some 1%nat)
                       (list_to_map [("type", VPrim (PStr "custom"))])) ])
        3%nat [].

(** A Dropdown over the processes [mine] and [ours], bound to the
    [processId] of the called element, with default [ours]. *)
Definition ex_called_choice : property :=
  Property "Dropdown" (PStr "ours")
    (Some [Choice "Mine" (PStr "mine"); Choice "Ours" (PStr "ours")])
    false (Binding ZEEBE_CALLED_ELEMENT None None None (Some "processId")).

Definition ex_template_call_choice : template :=
  Template (PStr "call") (PNum 2) None None [ex_called_choice].
(** * Properties of the array helpers *)

Lemma indexOf_absent (array : list loc) (item : loc) :
  item ∉ array -> indexOf array item = -1.
Proof.
  induction array as [|x xs IH]; intros Hni; simpl; [reflexivity|].
  rewrite not_elem_of_cons in Hni. destruct Hni as [Hne Hni].
  rewrite bool_decide_eq_false_2 by congruence.
  rewrite (IH Hni). reflexivity.
Qed.

Lemma indexOf_nonneg (array : list loc) (item : loc) :
  indexOf array item = -1 \/ 0 <= indexOf array item.
Proof.
  induction array as [|x xs IH]; simpl; [left; reflexivity|].
  case_bool_decide; [right; lia|].
  destruct (Z.ltb_spec (indexOf xs item) 0); [left; reflexivity | right; lia].
Qed.

Lemma indexOf_first (pre post : list loc) (item : loc) :
  item ∉ pre ->
  indexOf (pre ++ item :: post) item = Z.of_nat (length pre).
Proof.
  induction pre as [|x xs IH]; intros Hni; simpl.
  - rewrite bool_decide_eq_true_2 by reflexivity. reflexivity.
  - rewrite not_elem_of_cons in Hni. destruct Hni as [Hne Hni].
    rewrite bool_decide_eq_false_2 by congruence.
    rewrite (IH Hni).
    destruct (Z.ltb_spec (Z.of_nat (length xs)) 0); lia.
Qed.

Lemma splice_last {A} (array : list A) :
  array <> [] -> splice array (-1) 1 = removelast array.
Proof.
  intros Hne. unfold splice.
  assert (Hlen : (0 < length array)%nat)
    by (destruct array; [congruence | simpl; lia]).
  change (-1 <? 0) with true. cbv iota.
  replace (Z.max (Z.of_nat (length array) + -1) 0)
    with (Z.of_nat (length array - 1)) by lia.
  replace (Z.min (Z.max 1 0) (Z.of_nat (length array) - Z.of_nat (length array - 1)))
    with 1 by lia.
  replace (Z.to_nat (Z.of_nat (length array - 1) + 1)) with (length array) by lia.
  rewrite Nat2Z.id, drop_all, app_nil_r.
  destruct (exists_last Hne) as (l' & a & ->).
  rewrite removelast_last, length_app. simpl.
  replace (length l' + 1 - 1)%nat with (length l') by lia.
  apply take_app_length.
Qed.

Lemma splice_at {A} (pre post : list A) (x : A) :
  splice (pre ++ x :: post) (Z.of_nat (length pre)) 1 = pre ++ post.
Proof.
  unfold splice. rewrite length_app. simpl.
  destruct (Z.ltb_spec (Z.of_nat (length pre)) 0) as [Hlt|_]; [lia|].
  replace (Z.min (Z.of_nat (length pre)) (Z.of_nat (length pre + S (length post))))
    with (Z.of_nat (length pre)) by lia.
  replace (Z.min (Z.max 1 0)
             (Z.of_nat (length pre + S (length post)) - Z.of_nat (length pre)))
    with 1 by lia.
  replace (Z.to_nat (Z.of_nat (length pre) + 1)) with (S (length pre)) by lia.
  rewrite Nat2Z.id, take_app_length.
  f_equal.
  replace (S (length pre)) with (length (pre ++ [x]))
    by (rewrite length_app; simpl; lia).
  rewrite (assoc_L (++) pre [x] post : pre ++ x :: post = (pre ++ [x]) ++ post).
  apply drop_app_length.
Qed.

Lemma remove_absent (array : list loc) (item : loc) :
  array <> [] -> item ∉ array -> remove array item = removelast array.
Proof.
  intros Hne Hni. unfold remove. rewrite (indexOf_absent _ _ Hni).
  unfold isUndefined. rewrite bool_decide_eq_false_2 by discriminate.
  apply splice_last, Hne.
Qed.

Lemma remove_present (pre post : list loc) (item : loc) :
  item ∉ pre -> remove (pre ++ item :: post) item = pre ++ post.
Proof.
  intros Hni. unfold remove. rewrite (indexOf_first _ _ _ Hni).
  unfold isUndefined. rewrite bool_decide_eq_false_2 by discriminate.
  apply splice_at.
Qed.

(** C10. On a non-empty array that does not contain [item],
    [remove(array, item)] deletes the last element: [indexOf] yields [-1],
    [isUndefined(-1)] is false and [splice(-1, 1)] runs. When [item] is in
    the array, [remove] deletes its first occurrence and nothing else. *)
Theorem remove_missing_item_drops_last (array : list loc) (item : loc) :
  (array <> [] -> item ∉ array ->
     indexOf array item = -1 /\
     isUndefined (VPrim (PNum (indexOf array item))) = false /\
     remove array item = removelast array /\
     remove array item <> array) /\
  (item ∈ array ->
     exists pre post,
       array = pre ++ item :: post /\ (item ∉ pre) /\
       remove array item = pre ++ post).
Proof.
  split.
  - intros Hne Hni.
    pose proof (indexOf_absent _ _ Hni) as Hidx.
    split; [exact Hidx|]. split; [rewrite Hidx; reflexivity|].
    pose proof (remove_absent _ _ Hne Hni) as Hrm.
    split; [exact Hrm|]. rewrite Hrm.
    intros Heq. apply (f_equal length) in Heq.
    destruct (exists_last Hne) as (l' & a & ->).
    rewrite removelast_last, length_app in Heq. simpl in Heq. lia.
  - intros Hin.
    apply list_elem_of_split_l in Hin as (pre & post & -> & Hni).
    exists pre, post. split; [reflexivity|]. split; [exact Hni|].
    apply remove_present, Hni.
Qed.

(** * The value policy *)

Lemma get_alter_set_props_single (h : gmap loc obj) (l : loc) (k : string)
    (v : jsval) :
  is_Some (h !! l) ->
  get (alter (set_props [(k, v)]) l h) l k = v.
Proof.
  intros [o Ho]. unfold get. rewrite lookup_alter_eq, Ho. simpl.
  unfold set_attr, isUndefined. simpl. case_bool_decide as Hv.
  - rewrite lookup_delete_eq. simpl. congruence.
  - rewrite lookup_insert_eq. reflexivity.
Qed.

Lemma get_alter_ne (h : gmap loc obj) (f : obj -> obj) (l l' : loc) (k : string) :
  l <> l' -> get (alter f l h) l' k = get h l' k.
Proof. intros Hne. unfold get. rewrite lookup_alter_ne by exact Hne. reflexivity. Qed.

Lemma get_many_alter_ne (h : gmap loc obj) (f : obj -> obj) (l l' : loc) (k : string) :
  l <> l' -> get_many (alter f l h) l' k = get_many h l' k.
Proof. intros Hne. unfold get_many. rewrite get_alter_ne by exact Hne. reflexivity. Qed.

Lemma updateProperties_each_keep (element : eref) (businessObject : loc)
    (oldTemplate : option template) (newProperty : property) (s : state) :
  truthy_prim (shouldKeepValue (heap s) (Some (Moddle businessObject))
                 (findOldProperty oldTemplate newProperty) newProperty) = true ->
  _updateProperties_each element businessObject oldTemplate newProperty s
  = Some (tt, s).
Proof.
  intros Hk. unfold _updateProperties_each, bind, gets. rewrite Hk. reflexivity.
Qed.

Lemma updateProperties_each_apply (element : eref) (businessObject : loc)
    (oldTemplate : option template) (newProperty : property) (s : state) :
  truthy_prim (shouldKeepValue (heap s) (Some (Moddle businessObject))
                 (findOldProperty oldTemplate newProperty) newProperty) = false ->
  exists s',
    _updateProperties_each element businessObject oldTemplate newProperty s
    = Some (tt, s') /\
    log s' = log s ++
      [UpdateModdleProperties element businessObject
         [(key_of (b_name (p_binding newProperty)),
           VPrim (getDefaultValue newProperty))]] /\
    (is_Some (heap s !! businessObject) ->
     get (heap s') businessObject (key_of (b_name (p_binding newProperty)))
     = VPrim (getDefaultValue newProperty)).
Proof.
  intros Hk. unfold _updateProperties_each, bind, gets. rewrite Hk.
  eexists. split; [reflexivity|]. simpl. split; [reflexivity|].
  apply get_alter_set_props_single.
Qed.

Lemma shouldKeepValue_plain (h : gmap loc obj) (element : option eref)
    (oldProperty : option property) (newProperty : property) :
  p_type newProperty <> "Hidden" ->
  p_type newProperty <> "Dropdown" ->
  shouldKeepValue h element oldProperty newProperty
  = match oldProperty with
    | Some oldProperty => PBool (propertyChanged h element oldProperty)
    | None => PBool (truthy (getPropertyValue h element newProperty))
    end.
Proof.
  intros Hh Hd. unfold shouldKeepValue.
  rewrite !bool_decide_eq_false_2 by assumption. reflexivity.
Qed.

Lemma find_some_bool {A} (f : A -> bool) (l : list A) (x : A) :
  List.find f l = Some x -> f x = true.
Proof. intros H. apply List.find_some in H. tauto. Qed.

(** When [findOldProperty] matched, the matched old property reads the
    same slot as the new property, as soon as the old binding is itself a
    task-definition binding or the new one is not. *)
Lemma matched_property_same_slot (h : gmap loc obj) (element : option eref)
    (oldTemplate : template) (oldProperty newProperty : property) :
  findOldProperty (Some oldTemplate) newProperty = Some oldProperty ->
  is_task_definition_type (b_type (p_binding newProperty)) = false
  \/ is_task_definition_type (b_type (p_binding oldProperty)) = true ->
  getPropertyValue h element oldProperty = getPropertyValue h element newProperty.
Proof.
  unfold findOldProperty. intros Hf Hty.
  unfold getPropertyValue. destruct (getBusinessObject element) as [bo|]; [|reflexivity].
  repeat match type of Hf with
  | (if ?c then _ else _) = _ => destruct c eqn:?
  end; try discriminate;
  apply find_some_bool in Hf;
  repeat match goal with
  | H : bool_decide _ = true |- _ => apply bool_decide_eq_true_1 in H
  | H : bool_decide _ = false |- _ => apply bool_decide_eq_false_1 in H
  end.
  - apply andb_true_iff in Hf as [Ht Hn].
    apply bool_decide_eq_true_1 in Ht, Hn.
    rewrite !bool_decide_eq_true_2 by assumption. congruence.
  - destruct Hty as [Hty|Hty]; [congruence|].
    assert (Ho : b_type (p_binding oldProperty) <> "property").
    { intros E. rewrite E in Hty. vm_compute in Hty. discriminate. }
    rewrite (bool_decide_eq_false_2 _ Ho), Hty. congruence.
  - simpl in Hf. case_bool_decide as Ht; [|discriminate].
    rewrite Ht. reflexivity.
  - simpl in Hf. case_bool_decide as Ht; [|discriminate].
    rewrite Ht. reflexivity.
  - simpl in Hf. case_bool_decide as Ht; [|discriminate].
    rewrite Ht. reflexivity.
  - simpl in Hf. case_bool_decide as Ht; [|discriminate].
    rewrite Ht. reflexivity.
  - simpl in Hf. case_bool_decide as Ht; [|discriminate]. simpl in Hf.
    apply bool_decide_eq_true_1 in Hf.
    rewrite Ht. unfold MESSAGE_PROPERTY_TYPE. simpl. congruence.
  - simpl in Hf. case_bool_decide as Ht; [|discriminate]. simpl in Hf.
    apply bool_decide_eq_true_1 in Hf.
    rewrite Ht. unfold MESSAGE_ZEEBE_SUBSCRIPTION_PROPERTY_TYPE. simpl. congruence.
Qed.

(** * Identity matching of the mappings *)

Lemma get_set_props_single_other (o : obj) (k k' : string) (v : jsval) :
  k <> k' -> attrs (set_props [(k, v)] o) !! k' = attrs o !! k'.
Proof.
  intros Hne. simpl. unfold set_attr. simpl. case_match.
  - apply lookup_delete_ne, Hne.
  - apply lookup_insert_ne, Hne.
Qed.

Lemma get_alter_set_props_other (h : gmap loc obj) (l l' : loc) (k k' : string)
    (v : jsval) :
  k <> k' -> get (alter (set_props [(k, v)]) l h) l' k' = get h l' k'.
Proof.
  intros Hne. unfold get. destruct (decide (l = l')) as [->|Hl].
  - rewrite lookup_alter_eq. destruct (h !! l') as [o|]; simpl; [|reflexivity].
    pose proof (get_set_props_single_other o k k' v Hne) as E. simpl in E.
    rewrite E. reflexivity.
  - rewrite lookup_alter_ne by exact Hl. reflexivity.
Qed.

Lemma get_many_alter_set_props_other (h : gmap loc obj) (l l' : loc) (k k' : string)
    (v : jsval) :
  k <> k' -> get_many (alter (set_props [(k, v)]) l h) l' k' = get_many h l' k'.
Proof. intros Hne. unfold get_many. rewrite get_alter_set_props_other by exact Hne. reflexivity. Qed.

Lemma find_ext_eq {A} (f g : A -> bool) (l : list A) :
  (forall x, f x = g x) -> List.find f l = List.find g l.
Proof.
  intros Hfg. induction l as [|x xs IH]; simpl; [reflexivity|].
  rewrite Hfg, IH. reflexivity.
Qed.

(** C8. An input mapping is matched by its target, in the document
    ([findBusinessObject]) and in the old template ([findOldProperty]),
    and the value read, kept or written is its source; an output mapping
    is matched by its source and its tracked value is the target. A new
    template that gives an existing input target another source therefore
    writes the entry found and creates none: the v1/v2 scenario ends with
    the single entry [x], its source updated. *)
Theorem mapping_matched_by_key_tracks_other_side :
  (forall (h : gmap loc obj) (element : eref) (p : property),
     b_type (p_binding p) = "zeebe:input" ->
     findBusinessObject h element p
     = match findExtension h (bo_of element) "zeebe:IoMapping" with
       | Some ioMapping =>
           List.find (fun input =>
                   bool_decide (get h input "target" = of_opt (b_name (p_binding p))))
                (get_many h ioMapping "inputParameters")
       | None => None
       end /\
     (forall oldTemplate,
        findOldProperty (Some oldTemplate) p
        = List.find (fun o =>
                  bool_decide (b_type (p_binding o) = "zeebe:input")
                  && bool_decide (b_name (p_binding o) = b_name (p_binding p)))
               (t_properties oldTemplate)) /\
     (forall entry, getPropertyValue h (Some (Moddle entry)) p = get h entry "source")) /\
  (forall (h : gmap loc obj) (element : eref) (p : property),
     b_type (p_binding p) = "zeebe:output" ->
     findBusinessObject h element p
     = match findExtension h (bo_of element) "zeebe:IoMapping" with
       | Some ioMapping =>
           List.find (fun output =>
                   bool_decide (get h output "source" = of_opt (b_source (p_binding p))))
                (get_many h ioMapping "outputParameters")
       | None => None
       end /\
     (forall oldTemplate,
        findOldProperty (Some oldTemplate) p
        = List.find (fun o =>
                  bool_decide (b_type (p_binding o) = "zeebe:output")
                  && bool_decide (b_source (p_binding o) = b_source (p_binding p)))
               (t_properties oldTemplate)) /\
     (forall entry, getPropertyValue h (Some (Moddle entry)) p = get h entry "target")) /\
  (forall (element : eref) (businessObject ioMapping : loc)
          (oldTemplate : option template) (snapshots : list loc * list loc)
          (p : property) (s : state) (entry : loc),
     findBusinessObject (heap s) (Moddle businessObject) p = Some entry ->
     exists snapshots' s',
       _updateZeebeInputOutputParameterProperties_each element businessObject ioMapping
         oldTemplate snapshots p s = Some (snapshots', s') /\
       next s' = next s /\
       (forall holder,
          get_many (heap s') holder "inputParameters"
          = get_many (heap s) holder "inputParameters" /\
          get_many (heap s') holder "outputParameters"
          = get_many (heap s) holder "outputParameters") /\
       (log s' = log s \/
        exists slot,
          slot = (if is_a (heap s) entry "zeebe:Input" then "source" else "target") /\
          log s' = log s ++ [UpdateModdleProperties element entry
                               [(slot, VPrim (getDefaultValue p))]])) /\
  eval (_updateZeebeInputOutputParameterProperties (Shape 0%nat)
          (Some ex_template_input_v1) ex_template_input_v2 >>
        gets (fun s => (get_many (heap s) 2%nat "inputParameters",
                        get (heap s) 3%nat "target", get (heap s) 3%nat "source")))
       ex_task_input
  = Some ([3%nat], VPrim (PStr "x"), VPrim (PStr "={{b}}")).
Proof.
  split; [|split; [|split]].
  - intros h element p Hin. repeat split.
    + unfold findBusinessObject. rewrite Hin. reflexivity.
    + intros oldTemplate. unfold findOldProperty. rewrite Hin. simpl.
      apply find_ext_eq. intros o. destruct (bool_decide (b_type (p_binding o) = _)); reflexivity.
    + intros entry. unfold getPropertyValue. rewrite Hin. reflexivity.
  - intros h element p Hout. repeat split.
    + unfold findBusinessObject. rewrite Hout. reflexivity.
    + intros oldTemplate. unfold findOldProperty. rewrite Hout. simpl.
      apply find_ext_eq. intros o. destruct (bool_decide (b_type (p_binding o) = _)); reflexivity.
    + intros entry. unfold getPropertyValue. rewrite Hout. reflexivity.
  - intros element businessObject ioMapping oldTemplate [oldInputs oldOutputs] p s entry Hfound.
    unfold _updateZeebeInputOutputParameterProperties_each, bind, gets.
    rewrite Hfound.
    destruct (truthy_prim (shouldKeepValue (heap s) (Some (Moddle entry))
                             (findOldProperty oldTemplate p) p)); simpl.
    + do 2 eexists. split; [reflexivity|]. split; [reflexivity|].
      split; [intros; split; reflexivity | left; reflexivity].
    + do 2 eexists. split; [reflexivity|]. simpl. split; [reflexivity|]. split.
      * intros holder. destruct (is_a (heap s) entry "zeebe:Input");
          split; apply get_many_alter_set_props_other; discriminate.
      * right. eexists. split; [reflexivity|].
        destruct (is_a (heap s) entry "zeebe:Input"); reflexivity.
  - vm_compute. reflexivity.
Qed.

(** * The keyed collections: one step of the reconciliation *)

Lemma remove_subset (array : list loc) (item x : loc) :
  x ∈ remove array item -> x ∈ array.
Proof.
  destruct (decide (item ∈ array)) as [Hin|Hni].
  - apply list_elem_of_split_l in Hin as (pre & post & -> & Hpre).
    rewrite remove_present by exact Hpre.
    rewrite !elem_of_app, elem_of_cons. tauto.
  - destruct array as [|a array]; [vm_compute; tauto|].
    rewrite remove_absent by (discriminate || exact Hni).
    intros Hx. apply list_elem_of_In. apply list_elem_of_In in Hx.
    revert Hx. generalize (a :: array). clear. intros l.
    induction l as [|y [|z l] IH]; simpl; [tauto|tauto|].
    intros [->|Hx]; [left; reflexivity | right; apply IH, Hx].
Qed.

Lemma remove_not_elem (array : list loc) (item : loc) :
  NoDup array -> item ∉ remove array item.
Proof.
  intros Hnd. destruct (decide (item ∈ array)) as [Hin|Hni].
  - apply list_elem_of_split_l in Hin as (pre & post & -> & Hpre).
    rewrite remove_present by exact Hpre.
    apply NoDup_app in Hnd as (_ & _ & Hnd). apply NoDup_cons in Hnd as [Hpost _].
    rewrite elem_of_app. tauto.
  - intros Hin. apply Hni, (remove_subset _ _ _ Hin).
Qed.

(** C5, amended. For an entry found by its identity key, the mapping and
    custom-property reconcilers call [remove(snapshot, entry)] in every
    case but one: the property is optional, its computed default is empty
    and [shouldKeepValue] answers false; then the snapshot is left as it is
    and the entry stays eligible for the cleanup. The task-header
    reconciler calls [remove(oldHeaders, oldHeader)] in every case: a
    header found is never left in the snapshot. *)
Theorem found_entry_removed_from_snapshot
    (element : eref) (businessObject holder : loc) (oldTemplate : option template)
    (p : property) (s : state) (entry : loc) :
  findBusinessObject (heap s) (Moddle businessObject) p = Some entry ->
  let optional_empty_unchanged :=
    p_optional p && negb (truthy_prim (getDefaultValue p))
    && negb (truthy_prim (shouldKeepValue (heap s) (Some (Moddle entry))
                            (findOldProperty oldTemplate p) p)) in
  (forall oldInputs oldOutputs : list loc,
     exists oldInputs' oldOutputs' s',
       _updateZeebeInputOutputParameterProperties_each element businessObject holder
         oldTemplate (oldInputs, oldOutputs) p s
       = Some ((oldInputs', oldOutputs'), s') /\
       (optional_empty_unchanged = true ->
        oldInputs' = oldInputs /\ oldOutputs' = oldOutputs) /\
       (optional_empty_unchanged = false ->
        if is_a (heap s) entry "zeebe:Input"
        then oldInputs' = remove oldInputs entry /\ oldOutputs' = oldOutputs /\
             (NoDup oldInputs -> entry ∉ oldInputs')
        else oldInputs' = oldInputs /\ oldOutputs' = remove oldOutputs entry /\
             (NoDup oldOutputs -> entry ∉ oldOutputs'))) /\
  (forall oldZeebeProperties : list loc,
     exists oldZeebeProperties' s',
       _updateZeebePropertyProperties_each element businessObject holder
         oldTemplate oldZeebeProperties p s
       = Some (oldZeebeProperties', s') /\
       (optional_empty_unchanged = true -> oldZeebeProperties' = oldZeebeProperties) /\
       (optional_empty_unchanged = false ->
        oldZeebeProperties' = remove oldZeebeProperties entry /\
        (NoDup oldZeebeProperties -> entry ∉ oldZeebeProperties'))) /\
  (forall oldHeaders : list loc,
     exists oldHeaders' s',
       _updateZeebeTaskHeaderProperties_each element businessObject holder
         oldTemplate oldHeaders p s
       = Some (oldHeaders', s') /\
       oldHeaders' = remove oldHeaders entry /\
       (NoDup oldHeaders -> entry ∉ oldHeaders')).
Proof.
  intros Hfound optional_empty_unchanged.
  assert (Hgate : shouldUpdate (getDefaultValue p) p
                  || truthy_prim (shouldKeepValue (heap s) (Some (Moddle entry))
                                    (findOldProperty oldTemplate p) p)
                  = negb optional_empty_unchanged).
  { subst optional_empty_unchanged. unfold shouldUpdate.
    destruct (truthy_prim (getDefaultValue p)), (p_optional p),
      (truthy_prim (shouldKeepValue _ _ _ _)); reflexivity. }
  clearbody optional_empty_unchanged.
  split; [|split].
  - intros oldInputs oldOutputs.
    unfold _updateZeebeInputOutputParameterProperties_each, bind, gets.
    rewrite Hfound, Hgate.
    destruct optional_empty_unchanged; simpl.
    + destruct (negb (truthy_prim _)); simpl;
        (do 3 eexists; split; [reflexivity|]; split; [tauto | discriminate]).
    + destruct (is_a (heap s) entry "zeebe:Input");
        destruct (negb (truthy_prim _)); simpl;
        (do 3 eexists; split; [reflexivity|]; split; [discriminate|];
         intros _; repeat split; apply remove_not_elem).
  - intros oldZeebeProperties.
    unfold _updateZeebePropertyProperties_each, bind, gets.
    rewrite Hfound, Hgate.
    destruct optional_empty_unchanged; simpl.
    + destruct (negb (truthy_prim _)); simpl;
        (do 2 eexists; split; [reflexivity|]; split; [tauto | discriminate]).
    + destruct (negb (truthy_prim _)); simpl;
        (do 2 eexists; split; [reflexivity|]; split; [discriminate|];
         intros _; split; [reflexivity | apply remove_not_elem]).
  - intros oldHeaders.
    unfold _updateZeebeTaskHeaderProperties_each, bind, gets.
    rewrite Hfound.
    destruct (negb (truthy_prim _)); simpl;
      (do 2 eexists; split; [reflexivity|]; split; [reflexivity | apply remove_not_elem]).
Qed.

Lemma found_entry_removed_from_snapshot_witness :
  exists oldHeaders' s',
    _updateZeebeTaskHeaderProperties_each (Shape 0%nat) 1%nat 2%nat
      (Some ex_template_header_v1) [3%nat] ex_header_v ex_task_header
    = Some (oldHeaders', s') /\
    oldHeaders' = remove [3%nat] 3%nat /\
    (NoDup [3%nat] -> 3%nat ∉ oldHeaders').
Proof.
  apply (found_entry_removed_from_snapshot (Shape 0%nat) 1%nat 2%nat
           (Some ex_template_header_v1) ex_header_v ex_task_header 3%nat).
  vm_compute. reflexivity.
Defined.

(** C5 as stated fails for a task header: the property is optional, its
    default is empty and the value still is the old default, yet the entry
    leaves the snapshot. *)
Lemma optional_empty_unchanged_header_leaves_snapshot :
  p_optional ex_header_optional_empty = true /\
  truthy_prim (getDefaultValue ex_header_optional_empty) = false /\
  findBusinessObject (heap ex_task_header) (Moddle 1%nat) ex_header_optional_empty
  = Some 3%nat /\
  truthy_prim (shouldKeepValue (heap ex_task_header) (Some (Moddle 3%nat))
                 (findOldProperty (Some ex_template_header_v1) ex_header_optional_empty)
                 ex_header_optional_empty) = false /\
  eval (_updateZeebeTaskHeaderProperties_each (Shape 0%nat) 1%nat 2%nat
          (Some ex_template_header_v1) [3%nat] ex_header_optional_empty)
       ex_task_header
  = Some [].
Proof. vm_compute. repeat split. Qed.

Lemma get_after_create (h : gmap loc obj) (f : obj -> obj) (l l' : loc) (o : obj)
    (k : string) :
  l' <> l -> get (alter f l (<[l := o]> h)) l' k = get h l' k.
Proof.
  intros Hne. unfold get.
  rewrite lookup_alter_ne, lookup_insert_ne by congruence. reflexivity.
Qed.

Lemma get_many_after_create (h : gmap loc obj) (f : obj -> obj) (l l' : loc)
    (o : obj) (k : string) :
  l' <> l -> get_many (alter f l (<[l := o]> h)) l' k = get_many h l' k.
Proof. intros Hne. unfold get_many. rewrite get_after_create by exact Hne. reflexivity. Qed.

Lemma get_many_alter_set_props_single (h : gmap loc obj) (l : loc) (k : string)
    (ls : list loc) :
  is_Some (h !! l) ->
  get_many (alter (set_props [(k, VArr ls)]) l h) l k = ls.
Proof.
  intros Hl. unfold get_many. rewrite get_alter_set_props_single by exact Hl.
  reflexivity.
Qed.

Lemma otype_set_props (properties : props) (o : obj) :
  otype (set_props properties o) = otype o.
Proof.
  revert o. induction properties as [|kv ps IH]; intros o; simpl; [reflexivity|].
  unfold set_props in IH. rewrite IH. reflexivity.
Qed.

Lemma oparent_set_props (properties : props) (o : obj) :
  oparent (set_props properties o) = oparent o.
Proof.
  revert o. induction properties as [|kv ps IH]; intros o; simpl; [reflexivity|].
  unfold set_props in IH. rewrite IH. reflexivity.
Qed.

Lemma bind_gets {A B} (f : state -> A) (k : A -> M B) (s : state) :
  bind (gets f) k s = k (f s) s.
Proof. reflexivity. Qed.

Lemma bind_some {A B} (m : M A) (k : A -> M B) (s s' : state) (a : A) :
  m s = Some (a, s') -> bind m k s = k a s'.
Proof. intros H. unfold bind. rewrite H. reflexivity. Qed.

Lemma getOrCreateExtensionElements_existing (element : eref) (businessObject : loc)
    (s : state) (extensionElements : loc) :
  get (heap s) businessObject "extensionElements" = VRef extensionElements ->
  _getOrCreateExtensionElements element businessObject s = Some (extensionElements, s).
Proof.
  intros H. unfold _getOrCreateExtensionElements. rewrite bind_gets, H. reflexivity.
Qed.

Lemma append_new_entry (element : eref) (holder : loc) (type propertyName : string)
    (init : props) (s : state) {A} (result : A) :
  holder <> next s ->
  exists s',
    (let* entry := create type init in
     set_parent entry holder >>
     let* h := gets heap in
     execute (UpdateModdleProperties element holder
                [(propertyName, VArr (get_many h holder propertyName ++ [entry]))]) >>
     ret result) s = Some (result, s') /\
    next s' = S (next s) /\
    heap s' !! next s = Some (created type init holder) /\
    log s' = log s ++
      [UpdateModdleProperties element holder
         [(propertyName, VArr (get_many (heap s) holder propertyName ++ [next s]))]] /\
    (is_Some (heap s !! holder) ->
     get_many (heap s') holder propertyName
     = get_many (heap s) holder propertyName ++ [next s]).
Proof.
  intros Hne. unfold bind, create, set_parent, gets, execute, ret. simpl.
  eexists. split; [reflexivity|]. simpl.
  rewrite get_many_after_create by exact Hne.
  split; [reflexivity|]. split; [|split; [reflexivity|]].
  - rewrite lookup_alter_ne, lookup_alter_eq, lookup_insert_eq by congruence.
    simpl. unfold created. rewrite otype_set_props. reflexivity.
  - intros Hh. apply get_many_alter_set_props_single.
    rewrite lookup_alter_ne, lookup_insert_ne by congruence. exact Hh.
Qed.

(** C6, amended. For a property whose entry is not found in the holder,
    the mapping and custom-property reconcilers create and append an entry
    exactly when [shouldUpdate] holds: the computed default is non-empty
    or the property is required. The task-header reconciler creates and
    appends a header exactly when the computed default is non-empty,
    whether the property is required or not. *)
Theorem missing_entry_created_iff_gate
    (element : eref) (businessObject holder : loc) (oldTemplate : option template)
    (p : property) (s : state) :
  findBusinessObject (heap s) (Moddle businessObject) p = None ->
  holder <> next s ->
  let value := getDefaultValue p in
  (forall snapshots : list loc * list loc,
     let step := _updateZeebeInputOutputParameterProperties_each element businessObject
                   holder oldTemplate snapshots p in
     if truthy_prim value || negb (p_optional p) then
       let input := bool_decide (b_type (p_binding p) = "zeebe:input") in
       let propertyName := if input then "inputParameters" else "outputParameters" in
       exists s',
         step s = Some (snapshots, s') /\ next s' = S (next s) /\
         heap s' !! next s
         = Some (if input
                 then created "zeebe:Input"
                        [("source", VPrim value); ("target", of_opt (b_name (p_binding p)))]
                        holder
                 else created "zeebe:Output"
                        [("source", of_opt (b_source (p_binding p))); ("target", VPrim value)]
                        holder) /\
         (is_Some (heap s !! holder) ->
          get_many (heap s') holder propertyName
          = get_many (heap s) holder propertyName ++ [next s])
     else step s = Some (snapshots, s)) /\
  (forall oldZeebeProperties : list loc,
     let step := _updateZeebePropertyProperties_each element businessObject
                   holder oldTemplate oldZeebeProperties p in
     if truthy_prim value || negb (p_optional p) then
       exists s',
         step s = Some (oldZeebeProperties, s') /\ next s' = S (next s) /\
         heap s' !! next s
         = Some (created "zeebe:Property"
                   [("name", of_opt (b_name (p_binding p))); ("value", VPrim value)]
                   holder) /\
         (is_Some (heap s !! holder) ->
          get_many (heap s') holder "properties"
          = get_many (heap s) holder "properties" ++ [next s])
     else step s = Some (oldZeebeProperties, s)) /\
  (forall oldHeaders : list loc,
     let step := _updateZeebeTaskHeaderProperties_each element businessObject
                   holder oldTemplate oldHeaders p in
     if truthy_prim value then
       exists s',
         step s = Some (oldHeaders, s') /\ next s' = S (next s) /\
         heap s' !! next s
         = Some (created "zeebe:Header"
                   [("key", of_opt (b_key (p_binding p))); ("value", VPrim value)]
                   holder) /\
         (is_Some (heap s !! holder) ->
          get_many (heap s') holder "values"
          = get_many (heap s) holder "values" ++ [next s])
     else step s = Some (oldHeaders, s)).
Proof.
  intros Hmissing Hfresh value. split; [|split].
  - intros [oldInputs oldOutputs] step. subst step.
    unfold _updateZeebeInputOutputParameterProperties_each.
    rewrite bind_gets, Hmissing.
    fold value. unfold shouldUpdate.
    destruct (truthy_prim value || negb (p_optional p)); [|reflexivity].
    destruct (bool_decide (b_type (p_binding p) = "zeebe:input")).
    + destruct (append_new_entry element holder "zeebe:Input" "inputParameters"
                  [("source", VPrim value); ("target", of_opt (b_name (p_binding p)))]
                  s (oldInputs, oldOutputs) Hfresh)
        as (s' & Hrun & Hnext & Hnew & _ & Hlist).
      exists s'. repeat split; assumption.
    + destruct (append_new_entry element holder "zeebe:Output" "outputParameters"
                  [("source", of_opt (b_source (p_binding p))); ("target", VPrim value)]
                  s (oldInputs, oldOutputs) Hfresh)
        as (s' & Hrun & Hnext & Hnew & _ & Hlist).
      exists s'. repeat split; assumption.
  - intros oldZeebeProperties step. subst step.
    unfold _updateZeebePropertyProperties_each.
    rewrite bind_gets, Hmissing.
    fold value. unfold shouldUpdate.
    destruct (truthy_prim value || negb (p_optional p)); [|reflexivity].
    destruct (append_new_entry element holder "zeebe:Property" "properties"
                [("name", of_opt (b_name (p_binding p))); ("value", VPrim value)]
                s oldZeebeProperties Hfresh)
      as (s' & Hrun & Hnext & Hnew & _ & Hlist).
    exists s'. repeat split; assumption.
  - intros oldHeaders step. subst step.
    unfold _updateZeebeTaskHeaderProperties_each.
    rewrite bind_gets, Hmissing.
    fold value.
    destruct (truthy_prim value); [|reflexivity].
    destruct (append_new_entry element holder "zeebe:Header" "values"
                [("key", of_opt (b_key (p_binding p))); ("value", VPrim value)]
                s oldHeaders Hfresh)
      as (s' & Hrun & Hnext & Hnew & _ & Hlist).
    exists s'. repeat split; assumption.
Qed.

Lemma missing_entry_created_iff_gate_witness :
  exists s',
    _updateZeebeTaskHeaderProperties_each (Shape 0%nat) 1%nat 2%nat None [3%nat]
      (Property "String" (PStr "w") None false (header_binding "other")) ex_task_header
    = Some ([3%nat], s') /\ next s' = 5%nat /\
    heap s' !! 4%nat
    = Some (created "zeebe:Header"
              [("key", VPrim (PStr "other")); ("value", VPrim (PStr "w"))] 2%nat) /\
    (is_Some (heap ex_task_header !! 2%nat) ->
     get_many (heap s') 2%nat "values"
     = get_many (heap ex_task_header) 2%nat "values" ++ [4%nat]).
Proof.
  apply (missing_entry_created_iff_gate (Shape 0%nat) 1%nat 2%nat None
           (Property "String" (PStr "w") None false (header_binding "other"))
           ex_task_header);
    [vm_compute; reflexivity | vm_compute; lia].
Defined.

(** C6 as stated fails for a task header: a required header with an empty
    default is not found and is not created; the step changes nothing. *)
Lemma required_empty_header_not_created :
  p_optional ex_header_required_empty = false /\
  truthy_prim (getDefaultValue ex_header_required_empty) = false /\
  findBusinessObject (heap ex_task_header) (Moddle 1%nat) ex_header_required_empty
  = None /\
  _updateZeebeTaskHeaderProperties_each (Shape 0%nat) 1%nat 2%nat None [3%nat]
    ex_header_required_empty ex_task_header
  = Some ([3%nat], ex_task_header).
Proof. vm_compute. repeat split. Qed.

(** * Removing the template *)

Lemma set_props_app (ps qs : props) (o : obj) :
  set_props (ps ++ qs) o = set_props qs (set_props ps o).
Proof. unfold set_props. apply fold_left_app. Qed.

Lemma alter_alter_set_props (h : gmap loc obj) (l : loc) (ps qs : props) :
  alter (set_props qs) l (alter (set_props ps) l h) = alter (set_props (ps ++ qs)) l h.
Proof.
  apply map_eq. intros i. destruct (decide (i = l)) as [->|Hne].
  - rewrite !lookup_alter_eq. destruct (h !! l); simpl; [|reflexivity].
    rewrite set_props_app. reflexivity.
  - rewrite !lookup_alter_ne by congruence. reflexivity.
Qed.

Lemma attrs_set_props_other (properties : props) (o : obj) (k : string) :
  k ∉ properties.*1 -> attrs (set_props properties o) !! k = attrs o !! k.
Proof.
  revert o. induction properties as [|[k' v] ps IH]; intros o Hk; [reflexivity|].
  simpl in Hk. rewrite not_elem_of_cons in Hk. destruct Hk as [Hne Hk].
  change (set_props ((k', v) :: ps) o) with (set_props ps (set_attr k' v o)).
  rewrite IH by exact Hk. unfold set_attr. simpl. case_match.
  - apply lookup_delete_ne. congruence.
  - apply lookup_insert_ne. congruence.
Qed.

(** C2. With [newTemplate] absent the handler issues the two
    [element.updateProperties] commands that set [zeebe:modelerTemplate],
    [zeebe:modelerTemplateVersion] and [zeebe:modelerTemplateIcon] to
    [undefined], and nothing else: no reconciler and no collaborator runs,
    nothing is allocated, every object other than the business object is
    as before, and so is every other attribute of the business object, its
    extension container included. *)
Theorem preExecute_without_template_strips_identity_only
    (replaceElement : eref -> string -> option string -> M eref)
    (removeMessage : eref -> M unit)
    (element : eref) (oldTemplate : option template) (s : state) :
  exists s',
    preExecute replaceElement removeMessage element oldTemplate None s
    = Some (element, s') /\
    log s' = log s ++
      [ UpdateProperties element
          [ ("zeebe:modelerTemplate", undefined);
            ("zeebe:modelerTemplateVersion", undefined) ];
        UpdateProperties element [ ("zeebe:modelerTemplateIcon", undefined) ] ] /\
    next s' = next s /\
    heap s' = alter (set_props identity_stamps) (bo_of element) (heap s) /\
    (forall l, l <> bo_of element -> heap s' !! l = heap s !! l) /\
    (forall name, name ∉ identity_stamps.*1 ->
       get (heap s') (bo_of element) name = get (heap s) (bo_of element) name) /\
    (forall name, name ∈ identity_stamps.*1 ->
       get (heap s') (bo_of element) name = undefined) /\
    otype <$> heap s' !! bo_of element = otype <$> heap s !! bo_of element.
Proof.
  eexists. split; [reflexivity|]. simpl.
  rewrite <- app_assoc. split; [reflexivity|]. split; [reflexivity|].
  rewrite alter_alter_set_props. split; [reflexivity|]. split; [|split; [|split]].
  - intros l Hne. apply lookup_alter_ne. congruence.
  - intros name Hname. unfold get. rewrite lookup_alter_eq.
    destruct (heap s !! bo_of element) as [o|]; simpl; [|reflexivity].
    pose proof (attrs_set_props_other identity_stamps o name Hname) as E.
    simpl in E. rewrite E. reflexivity.
  - intros name Hname. unfold get. rewrite lookup_alter_eq.
    destruct (heap s !! bo_of element) as [o|]; simpl; [|reflexivity].
    unfold set_attr, isUndefined. simpl.
    rewrite !elem_of_cons in Hname.
    destruct Hname as [->|[->|[->|Hname]]]; [| | |inversion Hname].
    + rewrite lookup_delete_ne, lookup_delete_ne, lookup_delete_eq by discriminate.
      reflexivity.
    + rewrite lookup_delete_ne, lookup_delete_eq by discriminate. reflexivity.
    + rewrite lookup_delete_eq. reflexivity.
  - rewrite lookup_alter_eq. destruct (heap s !! bo_of element) as [o|]; reflexivity.
Qed.

(** Removal on the templated task: the stamps are gone, the [name], the
    extension container, the mapping holder and its input are as before. *)
Example preExecute_without_template_example :
  eval (preExecute replaceElement_same removeMessage_detach (Shape 0%nat)
          (Some ex_template_input_v1) None >>
        gets (fun s => (map_to_list (attrs <$> heap s), next s)))
       ex_task_templated
  = Some (map_to_list
            (<[ 0%nat := {[ "extensionElements" := VRef 1%nat;
                            "name" := VPrim (PStr "bar") ]} ]>
               (attrs <$> heap ex_task_templated)),
          4%nat).
Proof. vm_compute. reflexivity. Qed.

(** * Shrinking a keyed collection to nothing *)

Lemma without_fn_includes_self (l : list loc) : without_fn l (includes l) = [].
Proof.
  unfold without_fn, includes.
  assert (H : forall l' : list loc, (forall x, x ∈ l' -> x ∈ l) ->
              List.filter (fun el => negb (bool_decide (el ∈ l))) l' = []).
  { induction l' as [|x xs IH]; intros Hsub; simpl; [reflexivity|].
    rewrite bool_decide_eq_true_2 by (apply Hsub; left). simpl.
    apply IH. intros y Hy. apply Hsub. right. exact Hy. }
  apply H. auto.
Qed.

Lemma without_not_elem (l : list loc) (x : loc) : x ∉ without l (Some x).
Proof.
  unfold without. rewrite list_elem_of_filter. intros [Hne _]. congruence.
Qed.

(** C4, on the code. When the new template has no task-header property and
    the holder exists, [_updateZeebeTaskHeaderProperties] removes the
    holder from the extension container and does not stop: it falls through
    to the cleanup, which issues a second command on the removed holder as
    soon as the holder had entries. The same holds for the mapping and
    custom-property reconcilers, run here on the example documents. *)
Theorem holder_removal_falls_through_to_cleanup :
  (forall (element : eref) (oldTemplate : option template) (newTemplate : template)
          (s : state) (extensionElements taskHeaders : loc),
     List.filter (fun p => bool_decide (b_type (p_binding p) = "zeebe:taskHeader"))
       (t_properties newTemplate) = [] ->
     get (heap s) (bo_of element) "extensionElements" = VRef extensionElements ->
     findExtension (heap s) extensionElements "zeebe:TaskHeaders" = Some taskHeaders ->
     taskHeaders <> extensionElements ->
     get_many (heap s) taskHeaders "values" <> [] ->
     exists s',
       _updateZeebeTaskHeaderProperties element oldTemplate newTemplate s = Some (tt, s') /\
       log s' = log s ++
         [ UpdateModdleProperties element extensionElements
             [("values",
               VArr (without (get_many (heap s) extensionElements "values")
                       (Some taskHeaders)))];
           UpdateModdleProperties element taskHeaders [("values", VArr [])] ] /\
       (is_Some (heap s !! extensionElements) ->
        taskHeaders ∉ get_many (heap s') extensionElements "values")) /\
  log <$> exec (_updateZeebeTaskHeaderProperties (Shape 0%nat)
                  (Some ex_template_header_v1) ex_template_empty) ex_task_header
  = Some [ UpdateModdleProperties (Shape 0%nat) 1%nat [("values", VArr [])];
           UpdateModdleProperties (Shape 0%nat) 2%nat [("values", VArr [])] ] /\
  log <$> exec (_updateZeebeInputOutputParameterProperties (Shape 0%nat)
                  (Some ex_template_input_v1) ex_template_empty) ex_task_input
  = Some [ UpdateModdleProperties (Shape 0%nat) 1%nat [("values", VArr [])];
           UpdateModdleProperties (Shape 0%nat) 2%nat [("inputParameters", VArr [])] ] /\
  log <$> exec (_updateZeebePropertyProperties (Shape 0%nat)
                  None ex_template_empty) ex_task_zeebe_property
  = Some [ UpdateModdleProperties (Shape 0%nat) 1%nat [("values", VArr [])];
           UpdateModdleProperties (Shape 0%nat) 2%nat [("properties", VArr [])] ].
Proof.
  split; [|vm_compute; repeat split].
  intros element oldTemplate newTemplate s ee th Hnone Hee Hth Hne Hentries.
  unfold _updateZeebeTaskHeaderProperties. rewrite Hnone.
  rewrite (bind_some _ _ _ _ _ (getOrCreateExtensionElements_existing _ _ _ _ Hee)).
  rewrite bind_gets, Hth. simpl isEmpty. cbv iota.
  unfold bind, execute, ret, gets. simpl.
  rewrite get_many_alter_ne by congruence.
  destruct (get_many (heap s) th "values") as [|x xs] eqn:Hvals; [congruence|].
  simpl isEmpty. simpl negb. cbv iota. simpl.
  eexists. split; [reflexivity|]. simpl. rewrite <- app_assoc. simpl.
  rewrite get_many_alter_ne by congruence. rewrite Hvals.
  rewrite without_fn_includes_self. split; [reflexivity|].
  intros Hin. rewrite get_many_alter_ne by congruence.
  rewrite get_many_alter_set_props_single by exact Hin.
  apply without_not_elem.
Qed.

(** * The extension container *)

Lemma getOrCreateExtensionElements_missing (element : eref) (businessObject : loc)
    (s : state) :
  truthy (get (heap s) businessObject "extensionElements") = false ->
  businessObject <> next s ->
  exists s',
    _getOrCreateExtensionElements element businessObject s = Some (next s, s') /\
    next s' = S (next s) /\
    log s' = log s ++
      [UpdateModdleProperties element businessObject
         [("extensionElements", VRef (next s))]] /\
    heap s' = <[next s := empty_container businessObject]>
                (alter (set_props [("extensionElements", VRef (next s))])
                   businessObject (heap s)).
Proof.
  intros Hfalsy Hne. unfold _getOrCreateExtensionElements.
  rewrite bind_gets, Hfalsy. simpl negb. cbv iota.
  unfold bind, create, set_parent, updateModdleProperties, execute, ret. simpl.
  eexists. split; [reflexivity|]. simpl. split; [reflexivity|]. split; [reflexivity|].
  apply map_eq. intros i.
  destruct (decide (i = next s)) as [->|Hi].
  - rewrite lookup_alter_ne, lookup_alter_eq, !lookup_insert_eq by congruence.
    reflexivity.
  - rewrite lookup_insert_ne by congruence.
    destruct (decide (i = businessObject)) as [->|Hb].
    + rewrite !lookup_alter_eq, lookup_alter_ne, lookup_insert_ne by congruence.
      reflexivity.
    + rewrite !lookup_alter_ne, lookup_insert_ne by congruence. reflexivity.
Qed.

(** C9 as stated fails: the task has no extension container and the
    template has no property at all, yet the handler leaves the task with
    a new [bpmn:ExtensionElements]. *)
Lemma preExecute_creates_container_without_need :
  get (heap ex_task_bare) 0%nat "extensionElements" = undefined /\
  List.filter extension_borne (t_properties ex_template_empty) = [] /\
  eval (preExecute replaceElement_same removeMessage_detach (Shape 0%nat)
          None (Some ex_template_empty) >>
        gets (fun s => (get (heap s) 0%nat "extensionElements", heap s !! 1%nat)))
       ex_task_bare
  = Some (VRef 1%nat, Some (empty_container 0%nat)).
Proof. vm_compute. repeat split. Qed.

Lemma otype_alter_set_props (h : gmap loc obj) (properties : props) (l l' : loc) :
  otype <$> alter (set_props properties) l h !! l' = otype <$> h !! l'.
Proof.
  destruct (decide (l = l')) as [->|Hne].
  - rewrite lookup_alter_eq. destruct (h !! l'); simpl; [|reflexivity].
    rewrite otype_set_props. reflexivity.
  - rewrite lookup_alter_ne by exact Hne. reflexivity.
Qed.

Lemma singleton_inv_execute (bo ee : loc) (o : option obj) (node : option loc)
    (element : eref) (l : loc) (properties : props) (s : state) :
  l <> bo ->
  singleton_inv bo ee o node s ->
  exists s',
    execute (UpdateModdleProperties element l properties) s = Some (tt, s') /\
    singleton_inv bo ee o node s'.
Proof.
  intros Hl (Hbo & Hlt & Hlt' & Hne & Hnode & Hty).
  eexists. split; [reflexivity|]. unfold singleton_inv. simpl.
  rewrite lookup_alter_ne by exact Hl. rewrite otype_alter_set_props. tauto.
Qed.

Lemma singleton_inv_create (bo ee : loc) (o : option obj) (node : option loc)
    (element : eref) (type : string) (properties : props) (s : state) :
  singleton_inv bo ee o node s ->
  exists s',
    (let* td := create type properties in
     set_parent td ee >>
     let* h := gets heap in
     execute (UpdateModdleProperties element ee
                [("values", VArr (get_many h ee "values" ++ [td]))]) >>
     ret (Some td)) s = Some (Some (next s), s') /\
    singleton_inv bo ee o (Some (next s)) s'.
Proof.
  intros (Hbo & Hlt & Hlt' & Hne & Hnode & Hty).
  unfold bind, create, set_parent, gets, execute, ret. simpl.
  eexists. split; [reflexivity|]. unfold singleton_inv. simpl.
  rewrite otype_alter_set_props.
  rewrite !lookup_alter_ne, !lookup_insert_ne by lia.
  repeat split; try assumption; try lia.
  intros l [= <-]. lia.
Qed.

Lemma taskDefinition_each_inv (bo ee : loc) (o : option obj) (element : eref)
    (oldTemplate : option template) (node : option loc) (p : property) (s : state) :
  singleton_inv bo ee o node s ->
  exists node' s',
    _updateZeebeTaskDefinition_each element ee oldTemplate node p s
    = Some (Some node', s') /\
    singleton_inv bo ee o (Some node') s'.
Proof.
  intros Hinv. unfold _updateZeebeTaskDefinition_each.
  destruct node as [td|].
  - rewrite bind_gets.
    destruct (negb (truthy_prim _)).
    + destruct (singleton_inv_execute bo ee o (Some td) element td
                  [(key_of (getTaskDefinitionPropertyName (p_binding p)),
                    VPrim (getDefaultValue p))] s) as (s' & Hrun & Hinv').
      { destruct Hinv as (_ & _ & _ & _ & Hnode & _). apply Hnode. reflexivity. }
      { exact Hinv. }
      exists td, s'. split; [|exact Hinv'].
      rewrite (bind_some _ _ _ _ _ Hrun). reflexivity.
    + exists td, s. split; [reflexivity | exact Hinv].
  - destruct (singleton_inv_create bo ee o None element "zeebe:TaskDefinition"
                [(key_of (getTaskDefinitionPropertyName (p_binding p)),
                  VPrim (getDefaultValue p))] s Hinv) as (s' & Hrun & Hinv').
    exists (next s), s'. split; [exact Hrun | exact Hinv'].
Qed.

Lemma calledElement_each_inv (bo ee : loc) (o : option obj) (element : eref)
    (oldTemplate : option template) (node : option loc) (p : property) (s : state) :
  singleton_inv bo ee o node s ->
  exists node' s',
    _updateCalledElement_each element ee oldTemplate node p s
    = Some (Some node', s') /\
    singleton_inv bo ee o (Some node') s'.
Proof.
  intros Hinv. unfold _updateCalledElement_each.
  destruct node as [ce|].
  - rewrite bind_gets.
    destruct (negb (truthy_prim _)).
    + destruct (singleton_inv_execute bo ee o (Some ce) element ce
                  [(key_of (b_property (p_binding p)), VPrim (getDefaultValue p))] s)
        as (s' & Hrun & Hinv').
      { destruct Hinv as (_ & _ & _ & _ & Hnode & _). apply Hnode. reflexivity. }
      { exact Hinv. }
      exists ce, s'. split; [|exact Hinv'].
      rewrite (bind_some _ _ _ _ _ Hrun). reflexivity.
    + exists ce, s. split; [reflexivity | exact Hinv].
  - destruct (singleton_inv_create bo ee o None element "zeebe:CalledElement"
                [(key_of (b_property (p_binding p)), VPrim (getDefaultValue p))] s Hinv)
      as (s' & Hrun & Hinv').
    exists (next s), s'. split; [exact Hrun | exact Hinv'].
Qed.

(** A loop whose callback keeps an invariant and always leaves the node
    defined. *)
Lemma forEach_with_inv {A} (I : option loc -> state -> Prop)
    (f : option loc -> A -> M (option loc)) (array : list A) :
  (forall node x s, I node s ->
     exists node' s', f node x s = Some (Some node', s') /\ I (Some node') s') ->
  forall node s, I node s ->
    exists node' s',
      forEach_with f array node s = Some (node', s') /\ I node' s' /\
      (array <> [] -> is_Some node').
Proof.
  intros Hstep. induction array as [|x xs IH]; intros node s Hinv.
  - exists node, s. split; [reflexivity|]. split; [exact Hinv | congruence].
  - destruct (Hstep node x s Hinv) as (node1 & s1 & Hrun & Hinv1).
    destruct (IH (Some node1) s1 Hinv1) as (node' & s' & Hrest & Hinv' & Hsome).
    exists node', s'. simpl. rewrite (bind_some _ _ _ _ _ Hrun).
    split; [exact Hrest|]. split; [exact Hinv'|]. intros _.
    destruct xs; [|apply Hsome; discriminate].
    simpl in Hrest. injection Hrest as <- <-. eexists. reflexivity.
Qed.

Lemma forEach_execute_on_inv (bo ee : loc) (o : option obj) (element : eref)
    (node : loc) (properties : property -> props) (array : list property) (s : state) :
  singleton_inv bo ee o (Some node) s ->
  exists s',
    forEach (fun p => execute_on element (Some node) (properties p)) array s
    = Some (tt, s') /\
    singleton_inv bo ee o (Some node) s'.
Proof.
  revert s. induction array as [|x xs IH]; intros s Hinv.
  - exists s. split; [reflexivity | exact Hinv].
  - destruct (singleton_inv_execute bo ee o (Some node) element node (properties x) s)
      as (s1 & Hrun & Hinv1).
    { destruct Hinv as (_ & _ & _ & _ & Hnode & _). apply Hnode. reflexivity. }
    { exact Hinv. }
    destruct (IH s1 Hinv1) as (s' & Hrest & Hinv').
    exists s'. simpl.
    rewrite (bind_some _ _ _ _ _ Hrun). split; [exact Hrest | exact Hinv'].
Qed.

Lemma filter_nil_impl {A} (f g : A -> bool) (l : list A) :
  (forall x, g x = true -> f x = true) ->
  List.filter f l = [] -> List.filter g l = [].
Proof.
  intros Himpl. induction l as [|x xs IH]; simpl; [reflexivity|].
  destruct (f x) eqn:Hf; [discriminate|]. intros Hnil.
  destruct (g x) eqn:Hg; [rewrite (Himpl x Hg) in Hf; discriminate | apply IH, Hnil].
Qed.

Lemma bare_container_after_create (h : gmap loc obj) (bo n : loc) :
  is_Some (h !! bo) -> bo <> n ->
  bare_container bo n
    (<[n := empty_container bo]>
       (alter (set_props [("extensionElements", VRef n)]) bo h)).
Proof.
  intros Hbo Hne. split.
  - unfold get. rewrite lookup_insert_ne by congruence.
    fold (get (alter (set_props [("extensionElements", VRef n)]) bo h) bo "extensionElements").
    apply get_alter_set_props_single, Hbo.
  - apply lookup_insert_eq.
Qed.

Lemma findExtension_bare (h : gmap loc obj) (bo ee : loc) (type : string) :
  bare_container bo ee h -> findExtension h ee type = None.
Proof.
  intros [_ Hee]. unfold findExtension, is_a. rewrite Hee.
  change (instanceOf (otype (empty_container bo)) "bpmn:ExtensionElements") with true.
  cbv iota. unfold get_many, get. rewrite Hee. reflexivity.
Qed.

Lemma set_values_bare (h : gmap loc obj) (bo ee : loc) :
  bare_container bo ee h ->
  alter (set_props [("values", VArr [])]) ee h = h.
Proof.
  intros [_ Hee]. apply map_eq. intros i. destruct (decide (i = ee)) as [->|Hne].
  - rewrite lookup_alter_eq, Hee. reflexivity.
  - rewrite lookup_alter_ne by congruence. reflexivity.
Qed.

(** C9, amended. On an element without extension container every
    application of a template creates one: the task-definition reconciler
    calls [_getOrCreateExtensionElements] before it looks at the template,
    so the container is there afterwards whatever the template holds. The
    nodes inside it are created on first need: when the template has no
    extension-borne property the new container stays empty, and the
    mapping, task-header, custom-property and called-element reconcilers
    leave a document with an empty container as it is. *)
Theorem extension_container_created_on_every_application
    (element : eref) (oldTemplate : option template) (newTemplate : template)
    (s : state) :
  let businessObject := bo_of element in
  truthy (get (heap s) businessObject "extensionElements") = false ->
  is_Some (heap s !! businessObject) ->
  (businessObject < next s)%nat ->
  (exists s',
     _updateZeebeTaskDefinition element oldTemplate newTemplate s = Some (tt, s') /\
     get (heap s') businessObject "extensionElements" = VRef (next s) /\
     is_a (heap s') (next s) "bpmn:ExtensionElements" = true) /\
  (List.filter extension_borne (t_properties newTemplate) = [] ->
   (exists s',
      _updateZeebeTaskDefinition element oldTemplate newTemplate s = Some (tt, s') /\
      next s' = S (next s) /\
      bare_container businessObject (next s) (heap s')) /\
   (forall (s1 : state) (extensionElements : loc),
      bare_container businessObject extensionElements (heap s1) ->
      _updateZeebeInputOutputParameterProperties element oldTemplate newTemplate s1
      = Some (tt, s1) /\
      _updateZeebeTaskHeaderProperties element oldTemplate newTemplate s1
      = Some (tt, s1) /\
      _updateZeebePropertyProperties element oldTemplate newTemplate s1
      = Some (tt, s1) /\
      exists s2,
        _updateCalledElement element oldTemplate newTemplate s1 = Some (tt, s2) /\
        heap s2 = heap s1 /\ next s2 = next s1)).
Proof.
  intros bo Hfalsy Hbo Hlt.
  destruct (getOrCreateExtensionElements_missing element bo s Hfalsy)
    as (s1 & Hcreate & Hnext1 & Hlog1 & Hheap1); [lia|].
  pose proof (bare_container_after_create (heap s) bo (next s) Hbo) as Hbare.
  rewrite <- Hheap1 in Hbare. specialize (Hbare ltac:(lia)).
  assert (Hinv : singleton_inv bo (next s) (heap s1 !! bo) None s1).
  { destruct Hbare as [_ Hee]. unfold singleton_inv. rewrite Hee, Hnext1.
    repeat split; try lia; try reflexivity. discriminate. }
  assert (Hget : forall s', heap s' !! bo = heap s1 !! bo ->
                 get (heap s') bo "extensionElements" = VRef (next s)).
  { intros s' E. destruct Hbare as [Hb _]. unfold get in *. rewrite E. exact Hb. }
  assert (Hisa : forall s', otype <$> heap s' !! next s = Some "bpmn:ExtensionElements" ->
                 is_a (heap s') (next s) "bpmn:ExtensionElements" = true).
  { intros s' E. unfold is_a. destruct (heap s' !! next s) as [o|]; [|discriminate].
    simpl in E. injection E as ->. reflexivity. }
  split.
  - unfold _updateZeebeTaskDefinition.
    rewrite (bind_some _ _ _ _ _ Hcreate), bind_gets.
    rewrite (findExtension_bare _ _ _ _ Hbare).
    remember (List.filter (fun newProperty =>
                is_task_definition_type (b_type (p_binding newProperty)))
                (t_properties newTemplate)) as newProperties eqn:Enew.
    destruct newProperties as [|p ps].
    + destruct (singleton_inv_execute bo (next s) _ None element (next s)
                  [("values", VArr (without (get_many (heap s1) (next s) "values") None))]
                  s1 ltac:(lia) Hinv) as (s' & Hrun & Hinv').
      exists s'. split; [exact Hrun|].
      destruct Hinv' as (Hb & _ & _ & _ & _ & Hty). auto.
    + change (isEmpty (p :: ps)) with false. cbv iota.
      destruct (forEach_with_inv (fun node => singleton_inv bo (next s) (heap s1 !! bo) node)
                  (_updateZeebeTaskDefinition_each element (next s) oldTemplate) (p :: ps))
        with (node := @None loc) (s := s1)
        as (node' & s2 & Hloop & Hinv2 & Hsome).
      { intros node x s0. apply taskDefinition_each_inv. }
      { exact Hinv. }
      rewrite (bind_some _ _ _ _ _ Hloop).
      destruct Hsome as [td ->]; [discriminate|].
      match goal with
      | |- exists s', forEach (fun oldProperty => execute_on _ _ (@?f oldProperty)) ?l _ = _ /\ _ =>
          destruct (forEach_execute_on_inv bo (next s) _ element td f l s2 Hinv2)
            as (s' & Hrun & Hinv')
      end.
      exists s'. split; [exact Hrun|].
      destruct Hinv' as (Hb & _ & _ & _ & _ & Hty). auto.
  - intros Hnone.
    assert (Hvalues : forall h ee, bare_container bo ee h -> get_many h ee "values" = []).
    { intros h ee [_ Hee]. unfold get_many, get. rewrite Hee. reflexivity. }
    assert (Hkind : forall g : property -> bool,
               (forall x, g x = true -> extension_borne x = true) ->
               List.filter g (t_properties newTemplate) = []).
    { intros g Hg. apply (filter_nil_impl extension_borne); assumption. }
    assert (Htd : List.filter (fun newProperty =>
                    is_task_definition_type (b_type (p_binding newProperty)))
                    (t_properties newTemplate) = []).
    { apply Hkind. intros x Hx. unfold extension_borne. rewrite Hx. reflexivity. }
    assert (Hio : List.filter (fun newProperty =>
                    bool_decide (b_type (p_binding newProperty) = "zeebe:input")
                    || bool_decide (b_type (p_binding newProperty) = "zeebe:output"))
                    (t_properties newTemplate) = []).
    { apply Hkind. intros x Hx. unfold extension_borne.
      apply orb_true_iff in Hx as [-> | ->]; rewrite ?orb_true_r; reflexivity. }
    assert (Hth : List.filter (fun newProperty =>
                    bool_decide (b_type (p_binding newProperty) = "zeebe:taskHeader"))
                    (t_properties newTemplate) = []).
    { apply Hkind. intros x Hx. unfold extension_borne. rewrite Hx, ?orb_true_r. reflexivity. }
    assert (Hzp : List.filter (fun newProperty =>
                    bool_decide (b_type (p_binding newProperty) = "zeebe:property"))
                    (t_properties newTemplate) = []).
    { apply Hkind. intros x Hx. unfold extension_borne. rewrite Hx, ?orb_true_r. reflexivity. }
    assert (Hce : List.filter (fun newProperty =>
                    bool_decide (b_type (p_binding newProperty) = ZEEBE_CALLED_ELEMENT))
                    (t_properties newTemplate) = []).
    { apply Hkind. intros x Hx. unfold extension_borne. rewrite Hx, ?orb_true_r. reflexivity. }
    split.
    + unfold _updateZeebeTaskDefinition. rewrite Htd.
      rewrite (bind_some _ _ _ _ _ Hcreate), bind_gets.
      rewrite (findExtension_bare _ _ _ _ Hbare). simpl isEmpty. cbv iota.
      rewrite (Hvalues _ _ Hbare).
      eexists. split; [reflexivity|]. simpl. split; [exact Hnext1|].
      change (without [] None) with (@nil loc).
      rewrite (set_values_bare _ _ _ Hbare). exact Hbare.
    + intros s2 ee Hbare2.
      pose proof (getOrCreateExtensionElements_existing element bo s2 ee (proj1 Hbare2))
        as Hexisting.
      repeat split.
      * unfold _updateZeebeInputOutputParameterProperties. rewrite Hio.
        rewrite (bind_some _ _ _ _ _ Hexisting), bind_gets.
        rewrite (findExtension_bare _ _ _ _ Hbare2). reflexivity.
      * unfold _updateZeebeTaskHeaderProperties. rewrite Hth.
        rewrite (bind_some _ _ _ _ _ Hexisting), bind_gets.
        rewrite (findExtension_bare _ _ _ _ Hbare2). reflexivity.
      * unfold _updateZeebePropertyProperties. rewrite Hzp.
        rewrite (bind_some _ _ _ _ _ Hexisting), bind_gets.
        rewrite (findExtension_bare _ _ _ _ Hbare2). reflexivity.
      * unfold _updateCalledElement. rewrite Hce.
        rewrite (bind_some _ _ _ _ _ Hexisting), bind_gets.
        rewrite (findExtension_bare _ _ _ _ Hbare2). simpl isEmpty. cbv iota.
        rewrite (Hvalues _ _ Hbare2).
        eexists. split; [reflexivity|]. simpl.
        change (without [] None) with (@nil loc).
        rewrite (set_values_bare _ _ _ Hbare2). split; reflexivity.
Qed.

Lemma extension_container_created_on_every_application_witness :
  exists s',
    _updateZeebeTaskDefinition (Shape 0%nat) None ex_template_empty ex_task_bare
    = Some (tt, s') /\
    get (heap s') 0%nat "extensionElements" = VRef 1%nat /\
    is_a (heap s') 1%nat "bpmn:ExtensionElements" = true.
Proof.
  apply (extension_container_created_on_every_application (Shape 0%nat) None
           ex_template_empty ex_task_bare);
    [reflexivity | vm_compute; eexists; reflexivity | vm_compute; lia].
Defined.

(** * Applying the same template again *)


(** With the template as its own predecessor no property is dropped: the
    old properties of a kind that have no counterpart of the same key
    among the new properties of that kind are none. *)
Lemma no_dropped_property {K} `{EqDecision K} (kind : property -> bool)
    (key : property -> K) (t : template) :
  old_properties (Some t) (fun oldProperty =>
    kind oldProperty
    && negb (is_Some_bool (List.find (fun newProperty =>
               bool_decide (key newProperty = key oldProperty))
             (List.filter kind (t_properties t))))) = [].
Proof.
  unfold old_properties.
  assert (H : forall l, (forall x, x ∈ l -> x ∈ t_properties t) ->
              List.filter (fun oldProperty =>
                kind oldProperty
                && negb (is_Some_bool (List.find (fun newProperty =>
                           bool_decide (key newProperty = key oldProperty))
                         (List.filter kind (t_properties t))))) l = []).
  { induction l as [|x xs IH]; intros Hsub; simpl; [reflexivity|].
    destruct (kind x) eqn:Hk; simpl.
    - destruct (List.find _ _) eqn:Hf; simpl.
      + apply IH. intros y Hy. apply Hsub. right. exact Hy.
      + exfalso. eapply List.find_none in Hf.
        * rewrite bool_decide_eq_true_2 in Hf by reflexivity. discriminate.
        * apply List.filter_In. split; [|exact Hk].
          apply list_elem_of_In, Hsub. left.
    - apply IH. intros y Hy. apply Hsub. right. exact Hy. }
  apply H. auto.
Qed.

(** A property is its own counterpart when the keys of its kind are
    pairwise distinct. *)
Lemma find_self {K} `{EqDecision K} (kind : property -> bool)
    (key : property -> K) (l : list property) (p : property) :
  NoDup (map key (List.filter kind l)) ->
  p ∈ l -> kind p = true ->
  List.find (fun o => kind o && bool_decide (key o = key p)) l = Some p.
Proof.
  induction l as [|a l IH]; intros Hnd Hin Hk; [inversion Hin|].
  simpl. apply elem_of_cons in Hin as [->|Hin].
  - rewrite Hk, bool_decide_eq_true_2 by reflexivity. reflexivity.
  - simpl in Hnd. destruct (kind a) eqn:Ha; simpl.
    + simpl in Hnd. apply NoDup_cons in Hnd as [Hnotin Hnd].
      case_bool_decide as Hkey; [|apply IH; assumption].
      exfalso. apply Hnotin. rewrite Hkey. apply list_elem_of_fmap.
      exists p. split; [reflexivity|].
      apply list_elem_of_In, List.filter_In. split; [apply list_elem_of_In, Hin | exact Hk].
    + apply IH; assumption.
Qed.

Lemma findOldProperty_plain_self (t : template) (p : property) :
  NoDup (plain_names t) ->
  p ∈ plain_properties t ->
  findOldProperty (Some t) p = Some p.
Proof.
  intros Hnd Hin. unfold plain_properties in Hin.
  apply list_elem_of_In, List.filter_In in Hin as [Hin Hk].
  unfold findOldProperty.
  rewrite (bool_decide_eq_true_2 _ (bool_decide_eq_true_1 _ Hk)).
  apply (find_self (fun p => bool_decide (b_type (p_binding p) = "property"))
           (fun p => b_name (p_binding p))); [exact Hnd | apply list_elem_of_In, Hin | exact Hk].
Qed.

Lemma plain_keys_names (t : template) :
  NoDup (plain_keys t) -> NoDup (plain_names t).
Proof.
  unfold plain_keys, plain_names. intros Hnd.
  apply (NoDup_fmap_1 key_of). rewrite <- list_fmap_compose. exact Hnd.
Qed.

(** ** The plain properties *)

Lemma getPropertyValue_plain (h : gmap loc obj) (bo : loc) (p : property) :
  b_type (p_binding p) = "property" ->
  getPropertyValue h (Some (Moddle bo)) p = get h bo (key_of (b_name (p_binding p))).
Proof.
  intros Hk. unfold getPropertyValue. simpl.
  rewrite bool_decide_eq_true_2 by exact Hk. reflexivity.
Qed.

Lemma shouldKeepValue_plain_slot (h h' : gmap loc obj) (bo : loc)
    (old : option property) (p : property) :
  b_type (p_binding p) = "property" ->
  (forall o, old = Some o ->
     b_type (p_binding o) = "property" /\ b_name (p_binding o) = b_name (p_binding p)) ->
  get h' bo (key_of (b_name (p_binding p))) = get h bo (key_of (b_name (p_binding p))) ->
  shouldKeepValue h' (Some (Moddle bo)) old p = shouldKeepValue h (Some (Moddle bo)) old p.
Proof.
  intros Hk Hold Hget. unfold shouldKeepValue, propertyChanged.
  rewrite !(getPropertyValue_plain _ _ p Hk), Hget.
  destruct old as [o|]; [|reflexivity].
  destruct (Hold o eq_refl) as [Hko Hno].
  rewrite !(getPropertyValue_plain _ _ o Hko), Hno, Hget. reflexivity.
Qed.

Lemma findOldProperty_plain_shape (oldTemplate : option template) (p o : property) :
  b_type (p_binding p) = "property" ->
  findOldProperty oldTemplate p = Some o ->
  b_type (p_binding o) = "property" /\ b_name (p_binding o) = b_name (p_binding p).
Proof.
  intros Hk Hf. destruct oldTemplate as [t|]; [|discriminate].
  unfold findOldProperty in Hf. rewrite bool_decide_eq_true_2 in Hf by exact Hk.
  apply find_some_bool in Hf. apply andb_true_iff in Hf as [H1 H2].
  split; eapply bool_decide_eq_true_1; eassumption.
Qed.

(** After its own step a plain property is settled, whatever the old
    template was. *)
Lemma updateProperties_each_settles (element : eref) (bo : loc)
    (oldTemplate : option template) (t : template) (p : property) (s : state) :
  b_type (p_binding p) = "property" ->
  is_Some (heap s !! bo) ->
  exists s',
    _updateProperties_each element bo oldTemplate p s = Some (tt, s') /\
    next s' = next s /\
    (heap s' = heap s \/
     heap s' = alter (set_props [(key_of (b_name (p_binding p)), VPrim (getDefaultValue p))])
                 bo (heap s)) /\
    plain_settled t (heap s') bo p.
Proof.
  intros Hk Hbo.
  destruct (truthy_prim (shouldKeepValue (heap s) (Some (Moddle bo))
                           (findOldProperty oldTemplate p) p)) eqn:Hkeep.
  - exists s. split; [apply updateProperties_each_keep, Hkeep|].
    split; [reflexivity|]. split; [left; reflexivity|].
    unfold plain_settled. unfold shouldKeepValue in *.
    destruct (bool_decide (p_type p = "Hidden")); [discriminate|].
    destruct (bool_decide (p_type p = "Dropdown")); [left; exact Hkeep|].
    unfold propertyChanged, strict_eq. rewrite (getPropertyValue_plain _ _ p Hk).
    unfold getDefaultValue. case_bool_decide as Hc; [right; exact Hc | left; reflexivity].
  - destruct (updateProperties_each_apply element bo oldTemplate p s Hkeep)
      as (s' & Hrun & _ & Hget).
    exists s'. split; [exact Hrun|].
    unfold _updateProperties_each in Hrun. rewrite bind_gets, Hkeep in Hrun.
    injection Hrun as <-. simpl.
    split; [reflexivity|]. split; [right; reflexivity|].
    right. apply get_alter_set_props_single, Hbo.
Qed.

Lemma plain_settled_frame (t : template) (h h' : gmap loc obj) (bo : loc)
    (p : property) :
  b_type (p_binding p) = "property" ->
  get h' bo (key_of (b_name (p_binding p))) = get h bo (key_of (b_name (p_binding p))) ->
  plain_settled t h bo p -> plain_settled t h' bo p.
Proof.
  intros Hk Hget. unfold plain_settled.
  rewrite (shouldKeepValue_plain_slot h h' bo (Some p) p Hk), Hget;
    [tauto | | exact Hget].
  intros o [= <-]. split; [exact Hk | reflexivity].
Qed.

(** Writing a value over itself changes nothing. *)
Lemma alter_set_props_same (h : gmap loc obj) (l : loc) (o : obj) (k : string)
    (v : jsval) :
  h !! l = Some o -> normal_obj o -> get h l k = v ->
  alter (set_props [(k, v)]) l h = h.
Proof.
  intros Hl Hn Hget. apply map_eq. intros i.
  destruct (decide (i = l)) as [->|Hne]; [|apply lookup_alter_ne; congruence].
  rewrite lookup_alter_eq, Hl. simpl. f_equal.
  unfold get in Hget. rewrite Hl in Hget.
  destruct o as [ty par at_]. unfold set_attr. simpl in *. f_equal.
  unfold isUndefined. case_bool_decide as Hv.
  - apply delete_id.
    destruct (at_ !! k) as [x|] eqn:Hx; [|reflexivity].
    simpl in *. subst. exfalso. exact (Hn k Hx).
  - apply insert_id. destruct (at_ !! k) as [x|]; simpl in *; congruence.
Qed.

Lemma normal_set_props (properties : props) (o : obj) :
  normal_obj o -> normal_obj (set_props properties o).
Proof.
  revert o. induction properties as [|[k v] ps IH]; intros o Hn; [exact Hn|].
  change (set_props ((k, v) :: ps) o) with (set_props ps (set_attr k v o)).
  apply IH. intros name. unfold set_attr, isUndefined. simpl.
  case_bool_decide as Hv.
  - destruct (decide (k = name)) as [->|Hne].
    + rewrite lookup_delete_eq. discriminate.
    + rewrite lookup_delete_ne by exact Hne. apply Hn.
  - destruct (decide (k = name)) as [->|Hne].
    + rewrite lookup_insert_eq. congruence.
    + rewrite lookup_insert_ne by exact Hne. apply Hn.
Qed.

(** ** Runs that leave the document unchanged *)

Lemma unchanged_ret {A} (a : A) (s : state) : unchanged (ret a) a s.
Proof. exists s. repeat split. Qed.

Lemma unchanged_bind {A B} (m : M A) (k : A -> M B) (a : A) (b : B) (s : state) :
  unchanged m a s ->
  (forall s', heap s' = heap s -> next s' = next s -> unchanged (k a) b s') ->
  unchanged (bind m k) b s.
Proof.
  intros (s1 & Hrun & Hh & Hn) Hk.
  destruct (Hk s1 Hh Hn) as (s2 & Hrun2 & Hh2 & Hn2).
  exists s2. rewrite (bind_some _ _ _ _ _ Hrun). split; [exact Hrun2|]. split; congruence.
Qed.

Lemma unchanged_gets {A B} (f : state -> A) (k : A -> M B) (b : B) (s : state) :
  unchanged (k (f s)) b s -> unchanged (bind (gets f) k) b s.
Proof. intros H. unfold unchanged in *. rewrite bind_gets. exact H. Qed.

Lemma unchanged_execute (c : command) (s : state) :
  apply_command c (heap s) = heap s -> unchanged (execute c) tt s.
Proof. intros H. eexists. split; [reflexivity|]. simpl. split; [exact H | reflexivity]. Qed.

Lemma unchanged_forEach {A} (f : A -> M unit) (array : list A) (s : state) :
  (forall x s', x ∈ array -> heap s' = heap s -> next s' = next s ->
     unchanged (f x) tt s') ->
  unchanged (forEach f array) tt s.
Proof.
  revert s. induction array as [|x xs IH]; intros s Hf; [apply unchanged_ret|].
  simpl. apply unchanged_bind with (a := tt).
  - apply Hf; [left | reflexivity | reflexivity].
  - intros s' Hh Hn. apply IH. intros y s'' Hy Hh' Hn'.
    apply Hf; [right; exact Hy | congruence | congruence].
Qed.

Lemma unchanged_forEach_with {A V} (I : V -> Prop) (f : V -> A -> M V)
    (g : V -> A -> V) (array : list A) (vars : V) (s : state) :
  I vars ->
  (forall v x s', I v -> x ∈ array -> heap s' = heap s -> next s' = next s ->
     unchanged (f v x) (g v x) s' /\ I (g v x)) ->
  unchanged (forEach_with f array vars) (fold_left g array vars) s.
Proof.
  revert vars s. induction array as [|x xs IH]; intros vars s Hi Hf; [apply unchanged_ret|].
  simpl. apply unchanged_bind with (a := g vars x).
  - apply Hf; [exact Hi | left | reflexivity | reflexivity].
  - intros s' Hh Hn. apply IH.
    + apply (Hf vars x s); [exact Hi | left | reflexivity | reflexivity].
    + intros v y s'' Hv Hy Hh' Hn'.
      apply Hf; [exact Hv | right; exact Hy | congruence | congruence].
Qed.

Lemma alter_set_props_nil (h : gmap loc obj) (l : loc) : alter (set_props []) l h = h.
Proof. apply alter_id. reflexivity. Qed.

(** Writing over each slot the value it holds changes nothing. *)
Lemma alter_set_props_fixed (h : gmap loc obj) (l : loc) (properties : props) :
  normal h ->
  (forall k v, (k, v) ∈ properties -> get h l k = v) ->
  alter (set_props properties) l h = h.
Proof.
  intros Hn. induction properties as [|[k v] ps IH] using rev_ind; intros Hfix.
  - apply alter_set_props_nil.
  - rewrite <- alter_alter_set_props.
    rewrite IH by (intros k' v' Hin; apply Hfix, elem_of_app; left; exact Hin).
    destruct (h !! l) as [o|] eqn:Hl.
    + apply (alter_set_props_same h l o k v Hl (Hn l o Hl)).
      apply Hfix, elem_of_app. right. left.
    + apply map_eq. intros i. destruct (decide (i = l)) as [->|Hne].
      * rewrite lookup_alter_eq, Hl. reflexivity.
      * apply lookup_alter_ne. congruence.
Qed.

Lemma unchanged_update (element : eref) (l : loc) (properties : props) (s : state) :
  normal (heap s) ->
  (forall k v, (k, v) ∈ properties -> get (heap s) l k = v) ->
  unchanged (execute (UpdateModdleProperties element l properties)) tt s.
Proof. intros Hn Hfix. apply unchanged_execute, alter_set_props_fixed; assumption. Qed.

(** The step of a property whose value is settled on its node changes
    nothing, in each reconciler that updates a node field by field. *)
Lemma unchanged_settled_write (element : eref) (node : loc) (slot : string)
    (keep : bool) (value : prim) (s : state) :
  normal (heap s) ->
  keep = true \/ get (heap s) node slot = VPrim value ->
  unchanged (if negb keep
             then execute (UpdateModdleProperties element node [(slot, VPrim value)])
             else ret tt) tt s.
Proof.
  intros Hn Hsettled. destruct keep; simpl; [apply unchanged_ret|].
  destruct Hsettled as [|Hget]; [discriminate|].
  apply unchanged_update; [exact Hn|].
  intros k v Hin. apply list_elem_of_singleton in Hin. injection Hin as -> ->. exact Hget.
Qed.

Lemma without_None (l : list loc) : without l None = l.
Proof.
  unfold without. induction l as [|x xs IH]; [reflexivity|].
  rewrite filter_cons_True by discriminate. f_equal. exact IH.
Qed.

(** ** The second application, reconciler by reconciler *)

Lemma modelerTemplate_unchanged (t : template) (element : eref) (s : state) :
  settled (heap s) t element ->
  unchanged (_updateZeebeModelerTemplate element (Some t)) tt s.
Proof.
  intros (Hn & Hid & Hver & Hicon & _).
  apply unchanged_execute, alter_set_props_fixed; [exact Hn|].
  intros k v Hin. rewrite !elem_of_cons in Hin.
  destruct Hin as [[= -> ->]|[[= -> ->]|Hin]]; [exact Hid | exact Hver | inversion Hin].
Qed.

Lemma modelerTemplateIcon_unchanged (t : template) (element : eref) (s : state) :
  settled (heap s) t element ->
  unchanged (_updateZeebeModelerTemplateIcon element (Some t)) tt s.
Proof.
  intros (Hn & Hid & Hver & Hicon & _).
  apply unchanged_execute, alter_set_props_fixed; [exact Hn|].
  intros k v Hin. apply list_elem_of_singleton in Hin. injection Hin as -> ->.
  exact Hicon.
Qed.

Lemma elementType_unchanged
    (replaceElement : eref -> string -> option string -> M eref)
    (t : template) (element : eref) (s : state) :
  unchanged (_updateElementType replaceElement element (Some t) t) element s.
Proof.
  unfold _updateElementType. destruct (t_elementType t) as [ty|]; [|apply unchanged_ret].
  rewrite !bool_decide_eq_true_2 by reflexivity. apply unchanged_ret.
Qed.

Lemma properties_unchanged (t : template) (element : eref) (s : state) :
  NoDup (plain_keys t) ->
  settled (heap s) t element ->
  unchanged (_updateProperties element (Some t) t) tt s.
Proof.
  intros Hnd (Hn & _ & _ & _ & Hplain & _).
  unfold _updateProperties.
  pose proof (no_dropped_property
                (fun p => bool_decide (b_type (p_binding p) = "property"))
                (fun p => b_name (p_binding p)) t) as Hdropped.
  cbv beta in Hdropped. rewrite Hdropped. clear Hdropped.
  change (negb (isEmpty [])) with false. cbv iota.
  apply unchanged_bind with (a := tt); [apply unchanged_ret|].
  intros s1 Hh1 _.
  fold (plain_properties t). destruct (isEmpty (plain_properties t)); [apply unchanged_ret|].
  apply unchanged_forEach. intros p s2 Hp Hh2 _.
  unfold _updateProperties_each. apply unchanged_gets.
  rewrite (findOldProperty_plain_self t p (plain_keys_names t Hnd) Hp).
  rewrite Hh2, Hh1.
  destruct (Hplain p Hp) as [Hkeep|Hget].
  - unfold keeps in Hkeep. rewrite Hkeep. apply unchanged_ret.
  - destruct (truthy_prim _); [apply unchanged_ret|].
    apply unchanged_update; [rewrite Hh2, Hh1; exact Hn|].
    intros k v Hin. apply list_elem_of_singleton in Hin. injection Hin as -> ->.
    rewrite Hh2, Hh1. exact Hget.
Qed.

Lemma fold_left_same {A V} (l : list A) (v : V) : fold_left (fun v _ => v) l v = v.
Proof. induction l; simpl; auto. Qed.

Lemma unchanged_getOrCreateExtensionElements (element : eref) (businessObject ee : loc)
    (s : state) :
  get (heap s) businessObject "extensionElements" = VRef ee ->
  unchanged (_getOrCreateExtensionElements element businessObject) ee s.
Proof.
  intros H. exists s. split; [|split; reflexivity].
  apply getOrCreateExtensionElements_existing, H.
Qed.

Lemma get_many_of_get (h : gmap loc obj) (l : loc) (k : string) (ls : list loc) :
  get h l k = VArr ls -> get_many h l k = ls.
Proof. intros H. unfold get_many. rewrite H. reflexivity. Qed.

Lemma findOldProperty_called_element (oldTemplate : option template) (p : property) :
  b_type (p_binding p) = ZEEBE_CALLED_ELEMENT ->
  findOldProperty oldTemplate p = None.
Proof.
  intros Hk. destruct oldTemplate as [t|]; [|reflexivity].
  unfold findOldProperty. rewrite Hk. reflexivity.
Qed.

Lemma taskDefinition_unchanged (t : template) (element : eref) (ee : loc) (s : state) :
  Forall (fun p => findOldProperty (Some t) p = Some p) (taskdef_properties t) ->
  normal (heap s) ->
  get (heap s) (bo_of element) "extensionElements" = VRef ee ->
  (exists values, get (heap s) ee "values" = VArr values) ->
  singleton_settled (heap s) (taskdef_properties t) Some "zeebe:TaskDefinition"
    (fun p => key_of (getTaskDefinitionPropertyName (p_binding p))) ee ->
  unchanged (_updateZeebeTaskDefinition element (Some t) t) tt s.
Proof.
  intros Hself Hn Hee [values Hvalues] Hsettled.
  unfold _updateZeebeTaskDefinition. fold (taskdef_properties t).
  apply unchanged_bind with (a := ee);
    [apply unchanged_getOrCreateExtensionElements, Hee|].
  intros s1 Hh1 _. apply unchanged_gets. rewrite Hh1.
  unfold singleton_settled in Hsettled.
  destruct (taskdef_properties t) as [|p0 ps] eqn:Eprops.
  - rewrite Hsettled. simpl isEmpty. cbv iota.
    rewrite (get_many_of_get _ _ _ _ Hvalues), without_None.
    apply unchanged_update; [rewrite Hh1; exact Hn|].
    intros k v Hin. apply list_elem_of_singleton in Hin. injection Hin as -> ->.
    rewrite Hh1. exact Hvalues.
  - destruct Hsettled as (td & Hfind & Hfields). rewrite Hfind.
    change (isEmpty (p0 :: ps)) with false. cbv iota.
    apply unchanged_bind with (a := Some td).
    + rewrite <- (fold_left_same (p0 :: ps) (Some td)) at 2.
      apply unchanged_forEach_with with (I := fun v => v = Some td); [reflexivity|].
      intros v p s2 -> Hp Hh2 _. split; [|reflexivity].
      unfold _updateZeebeTaskDefinition_each. apply unchanged_gets.
      rewrite Forall_forall in Hself. rewrite (Hself p Hp), Hh2, Hh1.
      apply unchanged_bind with (a := tt); [|intros; apply unchanged_ret].
      apply unchanged_settled_write; [rewrite Hh2, Hh1; exact Hn|].
      rewrite Hh2, Hh1. apply (Hfields p Hp).
    + intros s2 _ _.
      pose proof (no_dropped_property
                    (fun p => is_task_definition_type (b_type (p_binding p)))
                    (fun p => b_property (p_binding p)) t) as Hdropped.
      cbv beta in Hdropped. fold (taskdef_properties t) in Hdropped.
      rewrite Eprops in Hdropped. rewrite Hdropped. apply unchanged_ret.
Qed.

Lemma calledElement_unchanged (t : template) (element : eref) (ee : loc) (s : state) :
  normal (heap s) ->
  get (heap s) (bo_of element) "extensionElements" = VRef ee ->
  (exists values, get (heap s) ee "values" = VArr values) ->
  singleton_settled (heap s) (called_element_properties t) (fun _ => None)
    "zeebe:CalledElement" (fun p => key_of (b_property (p_binding p))) ee ->
  unchanged (_updateCalledElement element (Some t) t) tt s.
Proof.
  intros Hn Hee [values Hvalues] Hsettled.
  unfold _updateCalledElement. fold (called_element_properties t).
  apply unchanged_bind with (a := ee);
    [apply unchanged_getOrCreateExtensionElements, Hee|].
  intros s1 Hh1 _. apply unchanged_gets. rewrite Hh1.
  unfold singleton_settled in Hsettled.
  destruct (called_element_properties t) as [|p0 ps] eqn:Eprops.
  - rewrite Hsettled. simpl isEmpty. cbv iota.
    rewrite (get_many_of_get _ _ _ _ Hvalues), without_None.
    apply unchanged_update; [rewrite Hh1; exact Hn|].
    intros k v Hin. apply list_elem_of_singleton in Hin. injection Hin as -> ->.
    rewrite Hh1. exact Hvalues.
  - destruct Hsettled as (ce & Hfind & Hfields). rewrite Hfind.
    change (isEmpty (p0 :: ps)) with false. cbv iota.
    apply unchanged_bind with (a := Some ce).
    + rewrite <- (fold_left_same (p0 :: ps) (Some ce)) at 2.
      apply unchanged_forEach_with with (I := fun v => v = Some ce); [reflexivity|].
      intros v p s2 -> Hp Hh2 _. split; [|reflexivity].
      unfold _updateCalledElement_each. apply unchanged_gets.
      assert (Hk : b_type (p_binding p) = ZEEBE_CALLED_ELEMENT).
      { rewrite <- Eprops in Hp. unfold called_element_properties in Hp.
        apply list_elem_of_In, List.filter_In in Hp as [_ Hk].
        apply bool_decide_eq_true_1 in Hk. exact Hk. }
      rewrite (findOldProperty_called_element _ p Hk), Hh2, Hh1.
      apply unchanged_bind with (a := tt); [|intros; apply unchanged_ret].
      apply unchanged_settled_write; [rewrite Hh2, Hh1; exact Hn|].
      rewrite Hh2, Hh1. apply (Hfields p Hp).
    + intros s2 _ _.
      pose proof (no_dropped_property
                    (fun p => bool_decide (b_type (p_binding p) = ZEEBE_CALLED_ELEMENT))
                    (fun p => b_property (p_binding p)) t) as Hdropped.
      cbv beta in Hdropped. fold (called_element_properties t) in Hdropped.
      rewrite Eprops in Hdropped. rewrite Hdropped. apply unchanged_ret.
Qed.

(** ** Keyed collections on a settled document *)

Lemma NoDup_map_inj {A B} (f : A -> B) (l : list A) (x y : A) :
  NoDup (map f l) -> x ∈ l -> y ∈ l -> f x = f y -> x = y.
Proof.
  induction l as [|a l IH]; intros Hnd Hx Hy Hf; [inversion Hx|].
  simpl in Hnd. apply NoDup_cons in Hnd as [Hnotin Hnd].
  apply elem_of_cons in Hx as [->|Hx]; apply elem_of_cons in Hy as [->|Hy].
  - reflexivity.
  - exfalso. apply Hnotin. rewrite Hf. apply list_elem_of_fmap. eauto.
  - exfalso. apply Hnotin. rewrite <- Hf. apply list_elem_of_fmap. eauto.
  - apply IH; assumption.
Qed.

Lemma of_opt_inj (a b : option string) : of_opt a = of_opt b -> a = b.
Proof. destruct a, b; simpl; congruence. Qed.

Lemma remove_elem_of (array : list loc) (item x : loc) :
  NoDup array -> item ∈ array ->
  (x ∈ remove array item <-> x ∈ array /\ x <> item) /\ NoDup (remove array item).
Proof.
  intros Hnd Hin.
  apply list_elem_of_split_l in Hin as (pre & post & -> & Hpre).
  rewrite remove_present by exact Hpre.
  apply NoDup_app in Hnd as (Hnd1 & Hdisj & Hnd2).
  apply NoDup_cons in Hnd2 as [Hpost Hnd2].
  split.
  - rewrite !elem_of_app, elem_of_cons. split.
    + intros [Hx|Hx]; (split; [tauto|]); intros ->; tauto.
    + intros [[Hx|[Hx|Hx]] Hne]; tauto.
  - apply NoDup_app. split; [exact Hnd1|]. split; [|exact Hnd2].
    intros y Hy Hy'. apply (Hdisj y Hy). right. exact Hy'.
Qed.

Lemma find_key_some (h : gmap loc obj) (entries : list loc) (key_attr : string)
    (v : jsval) (e : loc) :
  List.find (fun e => strict_eq (get h e key_attr) v) entries = Some e ->
  e ∈ entries /\ get h e key_attr = v.
Proof.
  intros H. apply List.find_some in H as [Hin Heq].
  split; [apply list_elem_of_In, Hin | apply bool_decide_eq_true_1 in Heq; exact Heq].
Qed.

Lemma find_key_none (h : gmap loc obj) (entries : list loc) (key_attr : string)
    (v : jsval) :
  List.find (fun e => strict_eq (get h e key_attr) v) entries = None ->
  forall e, e ∈ entries -> get h e key_attr <> v.
Proof.
  intros H e Hin Heq. apply list_elem_of_In in Hin.
  pose proof (List.find_none _ _ H e Hin) as Hf. simpl in Hf.
  unfold strict_eq in Hf. rewrite bool_decide_eq_true_2 in Hf by exact Heq. discriminate.
Qed.

(** What a settled collection says about the entry found for a property. *)
Lemma keyed_settled_found (h : gmap loc obj) (properties : list property)
    (entries : list loc) (key_attr slot : string) (key : property -> option string)
    (live : property -> loc -> bool) (creates : property -> bool) (p : property) :
  keyed_settled h properties entries key_attr slot key live creates ->
  NoDup (map key properties) ->
  p ∈ properties ->
  match List.find (fun e => strict_eq (get h e key_attr) (of_opt (key p))) entries with
  | Some e => e ∈ entries /\ live p e = true /\ value_settled h (Some p) p e slot
  | None => creates p = false
  end.
Proof.
  intros (Hnd & Hinj & Hbelongs & Hmissing) Hkeys Hp.
  destruct (List.find _ entries) as [e|] eqn:Hf.
  - apply find_key_some in Hf as [Hin Hkey]. split; [exact Hin|].
    destruct (Hbelongs e Hin) as (p' & Hp' & Hkey' & Hlive & Hval).
    assert (p' = p) as ->; [|tauto].
    apply (NoDup_map_inj key properties); try assumption.
    apply of_opt_inj. congruence.
  - apply Hmissing; [exact Hp|]. apply (find_key_none _ _ _ _ Hf).
Qed.

(** On a settled collection the snapshot is empty after the last step. *)
Lemma snapshot_emptied (h : gmap loc obj) (properties : list property)
    (entries : list loc) (key_attr slot : string) (key : property -> option string)
    (live : property -> loc -> bool) (creates : property -> bool) :
  keyed_settled h properties entries key_attr slot key live creates ->
  NoDup (map key properties) ->
  fold_left (snapshot_step h entries key_attr key live) properties entries = [].
Proof.
  intros Hsettled Hkeys.
  pose proof Hsettled as (Hnd & Hinj & Hbelongs & _).
  assert (Hgen : forall rest snapshot,
             (forall p, p ∈ rest -> p ∈ properties) ->
             NoDup (map key rest) ->
             NoDup snapshot ->
             (forall e, e ∈ snapshot -> e ∈ entries) ->
             (forall e, e ∈ snapshot ->
                exists p, p ∈ rest /\ get h e key_attr = of_opt (key p)) ->
             (forall p e, p ∈ rest ->
                List.find (fun e => strict_eq (get h e key_attr) (of_opt (key p))) entries
                = Some e -> e ∈ snapshot) ->
             fold_left (snapshot_step h entries key_attr key live) rest snapshot = []).
  { induction rest as [|p rest IH]; intros snapshot Hsub Hkr Hns Hse Hbel Hstill.
    - simpl. destruct snapshot as [|e ?]; [reflexivity|].
      destruct (Hbel e ltac:(left)) as (p & Hp & _). inversion Hp.
    - simpl. simpl in Hkr. apply NoDup_cons in Hkr as [Hpk Hkr].
      assert (Hp : p ∈ properties) by (apply Hsub; left).
      pose proof (keyed_settled_found h properties entries key_attr slot key live creates p
                    Hsettled Hkeys Hp) as Hfound.
      unfold snapshot_step at 2.
      destruct (List.find _ entries) as [e|] eqn:Hf.
      + destruct Hfound as (Hin & Hlive & _). rewrite Hlive.
        pose proof (find_key_some _ _ _ _ _ Hf) as [_ Hkey].
        assert (He : e ∈ snapshot) by (apply (Hstill p e); [left | exact Hf]).
        destruct (remove_elem_of snapshot e e Hns He) as [_ Hnd'].
        apply IH.
        * intros q Hq. apply Hsub. right. exact Hq.
        * exact Hkr.
        * exact Hnd'.
        * intros x Hx. apply Hse.
          apply (proj1 (proj1 (remove_elem_of snapshot e x Hns He)) Hx).
        * intros x Hx.
          apply (proj1 (remove_elem_of snapshot e x Hns He)) in Hx as [Hx Hne].
          destruct (Hbel x Hx) as (q & Hq & Hkq).
          apply elem_of_cons in Hq as [->|Hq]; [|eauto].
          exfalso. apply Hne. apply Hinj; [apply Hse, Hx | exact Hin | congruence].
        * intros q x Hq Hfq.
          apply (proj1 (remove_elem_of snapshot e x Hns He)).
          split; [apply (Hstill q x); [right; exact Hq | exact Hfq]|].
          intros ->. apply find_key_some in Hfq as [_ Hkq].
          apply Hpk. apply list_elem_of_fmap. exists q. split; [|exact Hq].
          apply of_opt_inj. congruence.
      + apply IH.
        * intros q Hq. apply Hsub. right. exact Hq.
        * exact Hkr.
        * exact Hns.
        * exact Hse.
        * intros x Hx. destruct (Hbel x Hx) as (q & Hq & Hkq).
          apply elem_of_cons in Hq as [->|Hq]; [|eauto].
          exfalso. exact (find_key_none _ _ _ _ Hf x (Hse x Hx) Hkq).
        * intros q x Hq Hfq. apply (Hstill q x); [right; exact Hq | exact Hfq]. }
  apply Hgen; try assumption; auto.
  - intros e He. destruct (Hbelongs e He) as (p & Hp & Hk & _). eauto.
  - intros p e _ Hf. apply find_key_some in Hf as [Hin _]. exact Hin.
Qed.

Lemma find_self_if {K} `{EqDecision K} (kind : property -> bool)
    (key : property -> K) (l : list property) (p : property) :
  NoDup (map key (List.filter kind l)) ->
  p ∈ List.filter kind l ->
  List.find (fun o => if negb (kind o) then false else bool_decide (key o = key p)) l
  = Some p.
Proof.
  intros Hnd Hin. apply list_elem_of_In, List.filter_In in Hin as [Hin Hk].
  rewrite <- (find_self kind key l p Hnd (proj2 (list_elem_of_In _ _) Hin) Hk).
  apply find_ext_eq. intros o. destruct (kind o); reflexivity.
Qed.

Lemma kind_of_filter (kind : property -> bool) (l : list property) (p : property) :
  p ∈ List.filter kind l -> kind p = true.
Proof. intros H. apply list_elem_of_In, List.filter_In in H. tauto. Qed.

Lemma findOldProperty_header_self (t : template) (p : property) :
  NoDup (map (fun p => b_key (p_binding p)) (header_properties t)) ->
  p ∈ header_properties t -> findOldProperty (Some t) p = Some p.
Proof.
  intros Hnd Hin. pose proof (kind_of_filter _ _ _ Hin) as Hk.
  apply bool_decide_eq_true_1 in Hk. unfold findOldProperty. rewrite Hk. simpl.
  apply (find_self_if (fun p => bool_decide (b_type (p_binding p) = "zeebe:taskHeader"))
           (fun p => b_key (p_binding p))); assumption.
Qed.

Lemma findOldProperty_input_self (t : template) (p : property) :
  NoDup (map (fun p => b_name (p_binding p)) (input_properties t)) ->
  p ∈ input_properties t -> findOldProperty (Some t) p = Some p.
Proof.
  intros Hnd Hin. pose proof (kind_of_filter _ _ _ Hin) as Hk.
  apply bool_decide_eq_true_1 in Hk. unfold findOldProperty. rewrite Hk. simpl.
  apply (find_self_if (fun p => bool_decide (b_type (p_binding p) = "zeebe:input"))
           (fun p => b_name (p_binding p))); assumption.
Qed.

Lemma findOldProperty_output_self (t : template) (p : property) :
  NoDup (map (fun p => b_source (p_binding p)) (output_properties t)) ->
  p ∈ output_properties t -> findOldProperty (Some t) p = Some p.
Proof.
  intros Hnd Hin. pose proof (kind_of_filter _ _ _ Hin) as Hk.
  apply bool_decide_eq_true_1 in Hk. unfold findOldProperty. rewrite Hk. simpl.
  apply (find_self_if (fun p => bool_decide (b_type (p_binding p) = "zeebe:output"))
           (fun p => b_source (p_binding p))); assumption.
Qed.

Lemma findOldProperty_zeebe_property_self (t : template) (p : property) :
  NoDup (map (fun p => b_name (p_binding p)) (zeebe_properties t)) ->
  p ∈ zeebe_properties t -> findOldProperty (Some t) p = Some p.
Proof.
  intros Hnd Hin. pose proof (kind_of_filter _ _ _ Hin) as Hk.
  apply bool_decide_eq_true_1 in Hk. unfold findOldProperty. rewrite Hk. simpl.
  apply (find_self_if (fun p => bool_decide (b_type (p_binding p) = "zeebe:property"))
           (fun p => b_name (p_binding p))); assumption.
Qed.

Lemma NoDup_key_of_names (f : property -> option string) (l : list property) :
  NoDup (map (fun p => key_of (f p)) l) -> NoDup (map f l).
Proof.
  intros Hnd. apply (NoDup_fmap_1 key_of). rewrite <- list_fmap_compose. exact Hnd.
Qed.

Lemma findOldProperty_message_self (t : template) (p : property) :
  NoDup (map (fun p => key_of (b_name (p_binding p))) (message_properties t)) ->
  p ∈ message_properties t -> findOldProperty (Some t) p = Some p.
Proof.
  intros Hnd Hin. apply NoDup_key_of_names in Hnd.
  pose proof (kind_of_filter _ _ _ Hin) as Hk.
  apply bool_decide_eq_true_1 in Hk. unfold findOldProperty. rewrite Hk. simpl.
  apply (find_self_if (fun p => bool_decide (b_type (p_binding p) = MESSAGE_PROPERTY_TYPE))
           (fun p => b_name (p_binding p))); assumption.
Qed.

Lemma findOldProperty_subscription_self (t : template) (p : property) :
  NoDup (map (fun p => key_of (b_name (p_binding p))) (subscription_properties t)) ->
  p ∈ subscription_properties t -> findOldProperty (Some t) p = Some p.
Proof.
  intros Hnd Hin. apply NoDup_key_of_names in Hnd.
  pose proof (kind_of_filter _ _ _ Hin) as Hk.
  apply bool_decide_eq_true_1 in Hk. unfold findOldProperty. rewrite Hk. simpl.
  apply (find_self_if (fun p => bool_decide (b_type (p_binding p)
                                            = MESSAGE_ZEEBE_SUBSCRIPTION_PROPERTY_TYPE))
           (fun p => b_name (p_binding p))); assumption.
Qed.

Lemma findBusinessObject_header (h : gmap loc obj) (ee : loc) (p : property) :
  b_type (p_binding p) = "zeebe:taskHeader" ->
  findBusinessObject h (Moddle ee) p
  = match findExtension h ee "zeebe:TaskHeaders" with
    | Some taskHeaders =>
        List.find (fun e => strict_eq (get h e "key") (of_opt (b_key (p_binding p))))
          (get_many h taskHeaders "values")
    | None => None
    end.
Proof. intros Hk. unfold findBusinessObject. rewrite Hk. reflexivity. Qed.

Lemma findBusinessObject_input (h : gmap loc obj) (ee : loc) (p : property) :
  b_type (p_binding p) = "zeebe:input" ->
  findBusinessObject h (Moddle ee) p
  = match findExtension h ee "zeebe:IoMapping" with
    | Some ioMapping =>
        List.find (fun e => strict_eq (get h e "target") (of_opt (b_name (p_binding p))))
          (get_many h ioMapping "inputParameters")
    | None => None
    end.
Proof. intros Hk. unfold findBusinessObject. rewrite Hk. reflexivity. Qed.

Lemma findBusinessObject_output (h : gmap loc obj) (ee : loc) (p : property) :
  b_type (p_binding p) = "zeebe:output" ->
  findBusinessObject h (Moddle ee) p
  = match findExtension h ee "zeebe:IoMapping" with
    | Some ioMapping =>
        List.find (fun e => strict_eq (get h e "source") (of_opt (b_source (p_binding p))))
          (get_many h ioMapping "outputParameters")
    | None => None
    end.
Proof. intros Hk. unfold findBusinessObject. rewrite Hk. reflexivity. Qed.

Lemma findBusinessObject_zeebe_property (h : gmap loc obj) (ee : loc) (p : property) :
  b_type (p_binding p) = "zeebe:property" ->
  findBusinessObject h (Moddle ee) p
  = match findExtension h ee "zeebe:Properties" with
    | Some zeebeProperties =>
        List.find (fun e => strict_eq (get h e "name") (of_opt (b_name (p_binding p))))
          (get_many h zeebeProperties "properties")
    | None => None
    end.
Proof. intros Hk. unfold findBusinessObject. rewrite Hk. reflexivity. Qed.

Lemma taskHeaders_unchanged (t : template) (element : eref) (ee : loc) (s : state) :
  NoDup (map (fun p => b_key (p_binding p)) (header_properties t)) ->
  normal (heap s) ->
  get (heap s) (bo_of element) "extensionElements" = VRef ee ->
  headers_settled (heap s) t ee ->
  unchanged (_updateZeebeTaskHeaderProperties element (Some t) t) tt s.
Proof.
  intros Hkeys Hn Hee Hsettled.
  unfold _updateZeebeTaskHeaderProperties. fold (header_properties t).
  apply unchanged_bind with (a := ee);
    [apply unchanged_getOrCreateExtensionElements, Hee|].
  intros s1 Hh1 _. apply unchanged_gets. rewrite Hh1.
  unfold headers_settled in Hsettled.
  destruct (header_properties t) as [|p0 ps] eqn:Eprops.
  - rewrite Hsettled. apply unchanged_ret.
  - destruct Hsettled as (th & Hfind & Hkeyed). rewrite Hfind.
    change (isEmpty (p0 :: ps)) with false. cbv iota.
    apply unchanged_bind with (a := false); [apply unchanged_ret|].
    intros s2 Hh2 _. cbv iota.
    apply unchanged_bind with (a := th); [apply unchanged_ret|].
    intros s3 Hh3 _. apply unchanged_gets.
    assert (Hh : heap s3 = heap s) by congruence. rewrite Hh.
    set (entries := get_many (heap s) th "values") in *.
    apply unchanged_bind with (a := @nil loc).
    + rewrite <- (snapshot_emptied (heap s) (p0 :: ps) entries "key" "value"
                    (fun p => b_key (p_binding p)) (fun _ _ => true)
                    (fun p => truthy_prim (getDefaultValue p)) Hkeyed Hkeys).
      apply unchanged_forEach_with with (I := fun _ => True); [exact I|].
      intros v p s4 _ Hp Hh4 _. split; [|exact I].
      assert (Hh' : heap s4 = heap s) by congruence.
      unfold _updateZeebeTaskHeaderProperties_each. apply unchanged_gets.
      rewrite Hh'.
      assert (Hk : b_type (p_binding p) = "zeebe:taskHeader").
      { rewrite <- Eprops in Hp. apply kind_of_filter in Hp.
        apply bool_decide_eq_true_1 in Hk || exact (bool_decide_eq_true_1 _ Hp). }
      rewrite (findBusinessObject_header _ _ _ Hk), Hfind.
      rewrite (findOldProperty_header_self t p) by (rewrite ?Eprops; assumption).
      pose proof (keyed_settled_found _ _ _ _ _ _ _ _ p Hkeyed Hkeys Hp) as Hfound.
      unfold snapshot_step. fold entries.
      destruct (List.find _ entries) as [e|].
      * destruct Hfound as (_ & _ & Hval).
        apply unchanged_bind with (a := tt); [|intros; apply unchanged_ret].
        apply unchanged_settled_write; [rewrite Hh'; exact Hn|].
        rewrite Hh'. exact Hval.
      * rewrite Hfound. apply unchanged_ret.
    + intros s4 _ _. apply unchanged_ret.
Qed.

Lemma zeebeProperties_unchanged (t : template) (element : eref) (ee : loc) (s : state) :
  NoDup (map (fun p => b_name (p_binding p)) (zeebe_properties t)) ->
  normal (heap s) ->
  get (heap s) (bo_of element) "extensionElements" = VRef ee ->
  zeebe_properties_settled (heap s) t ee ->
  unchanged (_updateZeebePropertyProperties element (Some t) t) tt s.
Proof.
  intros Hkeys Hn Hee Hsettled.
  unfold _updateZeebePropertyProperties. fold (zeebe_properties t).
  apply unchanged_bind with (a := ee);
    [apply unchanged_getOrCreateExtensionElements, Hee|].
  intros s1 Hh1 _. apply unchanged_gets. rewrite Hh1.
  unfold zeebe_properties_settled in Hsettled.
  destruct (zeebe_properties t) as [|p0 ps] eqn:Eprops.
  - rewrite Hsettled. apply unchanged_ret.
  - destruct Hsettled as (zp & Hfind & Hkeyed). rewrite Hfind.
    change (isEmpty (p0 :: ps)) with false. cbv iota.
    apply unchanged_bind with (a := false); [apply unchanged_ret|].
    intros s2 Hh2 _. cbv iota.
    apply unchanged_bind with (a := zp); [apply unchanged_ret|].
    intros s3 Hh3 _. apply unchanged_gets.
    assert (Hh : heap s3 = heap s) by congruence. rewrite Hh.
    set (entries := get_many (heap s) zp "properties") in *.
    apply unchanged_bind with (a := @nil loc).
    + rewrite <- (snapshot_emptied (heap s) (p0 :: ps) entries "name" "value"
                    (fun p => b_name (p_binding p)) (live_or_kept (heap s))
                    (fun p => shouldUpdate (getDefaultValue p) p) Hkeyed Hkeys).
      apply unchanged_forEach_with with (I := fun _ => True); [exact I|].
      intros v p s4 _ Hp Hh4 _. split; [|exact I].
      assert (Hh' : heap s4 = heap s) by congruence.
      unfold _updateZeebePropertyProperties_each. apply unchanged_gets.
      rewrite Hh'.
      assert (Hk : b_type (p_binding p) = "zeebe:property").
      { rewrite <- Eprops in Hp. apply kind_of_filter in Hp.
        exact (bool_decide_eq_true_1 _ Hp). }
      rewrite (findBusinessObject_zeebe_property _ _ _ Hk), Hfind.
      rewrite (findOldProperty_zeebe_property_self t p) by (rewrite ?Eprops; assumption).
      pose proof (keyed_settled_found _ _ _ _ _ _ _ _ p Hkeyed Hkeys Hp) as Hfound.
      unfold snapshot_step. fold entries.
      destruct (List.find _ entries) as [e|].
      * destruct Hfound as (_ & Hlive & Hval).
        unfold live_or_kept, keeps in Hlive |- *. rewrite Hlive.
        apply unchanged_bind with (a := tt); [|intros; apply unchanged_ret].
        apply unchanged_settled_write; [rewrite Hh'; exact Hn|].
        rewrite Hh'. exact Hval.
      * rewrite Hfound. apply unchanged_ret.
    + intros s4 _ _. apply unchanged_ret.
Qed.

Lemma fold_left_pair {A X Y} (r : A -> bool) (f1 : X -> A -> X) (f2 : Y -> A -> Y)
    (l : list A) (x : X) (y : Y) :
  fold_left (fun v p => if r p then (f1 v.1 p, v.2) else (v.1, f2 v.2 p)) l (x, y)
  = (fold_left f1 (List.filter r l) x,
     fold_left f2 (List.filter (fun p => negb (r p)) l) y).
Proof.
  revert x y. induction l as [|a l IH]; intros x y; simpl; [reflexivity|].
  destruct (r a); simpl; apply IH.
Qed.

Lemma filter_filter_ext {A} (f g k : A -> bool) (l : list A) :
  (forall x, f x && g x = k x) ->
  List.filter f (List.filter g l) = List.filter k l.
Proof.
  intros Hk. induction l as [|a l IH]; simpl; [reflexivity|].
  rewrite <- Hk. destruct (g a); simpl; [destruct (f a)|rewrite andb_false_r];
    simpl; rewrite IH; reflexivity.
Qed.

Lemma input_of_io_properties (t : template) :
  List.filter (fun p => bool_decide (b_type (p_binding p) = "zeebe:input"))
    (io_properties t) = input_properties t.
Proof.
  apply filter_filter_ext. intros p.
  destruct (bool_decide (b_type (p_binding p) = "zeebe:input")); reflexivity.
Qed.

Lemma output_of_io_properties (t : template) :
  List.filter (fun p => negb (bool_decide (b_type (p_binding p) = "zeebe:input")))
    (io_properties t) = output_properties t.
Proof.
  apply filter_filter_ext. intros p.
  case_bool_decide as Hi; simpl; [|reflexivity].
  rewrite bool_decide_eq_false_2; [reflexivity|]. rewrite Hi. discriminate.
Qed.

Lemma io_kind (t : template) (p : property) :
  p ∈ io_properties t ->
  (b_type (p_binding p) = "zeebe:input" /\ p ∈ input_properties t) \/
  (b_type (p_binding p) = "zeebe:output" /\ b_type (p_binding p) <> "zeebe:input"
   /\ p ∈ output_properties t).
Proof.
  intros Hp. apply list_elem_of_In, List.filter_In in Hp as [Hin Hk].
  apply orb_true_iff in Hk as [Hk|Hk]; pose proof (bool_decide_eq_true_1 _ Hk) as Hty.
  - left. split; [exact Hty|]. apply list_elem_of_In, List.filter_In. tauto.
  - right. split; [exact Hty|]. split; [rewrite Hty; discriminate|].
    apply list_elem_of_In, List.filter_In. tauto.
Qed.

Lemma inputOutput_unchanged (t : template) (element : eref) (ee : loc) (s : state) :
  NoDup (map (fun p => b_name (p_binding p)) (input_properties t)) ->
  NoDup (map (fun p => b_source (p_binding p)) (output_properties t)) ->
  normal (heap s) ->
  get (heap s) (bo_of element) "extensionElements" = VRef ee ->
  io_settled (heap s) t ee ->
  unchanged (_updateZeebeInputOutputParameterProperties element (Some t) t) tt s.
Proof.
  intros Hkin Hkout Hn Hee Hsettled.
  unfold _updateZeebeInputOutputParameterProperties. fold (io_properties t).
  apply unchanged_bind with (a := ee);
    [apply unchanged_getOrCreateExtensionElements, Hee|].
  intros s1 Hh1 _. apply unchanged_gets. rewrite Hh1.
  unfold io_settled in Hsettled.
  destruct (io_properties t) as [|p0 ps] eqn:Eprops.
  - rewrite Hsettled. apply unchanged_ret.
  - destruct Hsettled as (io & Hfind & Hin & Hintype & Hout & Houttype). rewrite Hfind.
    change (isEmpty (p0 :: ps)) with false. cbv iota.
    apply unchanged_bind with (a := false); [apply unchanged_ret|].
    intros s2 Hh2 _. cbv iota.
    apply unchanged_bind with (a := io); [apply unchanged_ret|].
    intros s3 Hh3 _. apply unchanged_gets.
    assert (Hh : heap s3 = heap s) by congruence. rewrite Hh.
    set (inputs := get_many (heap s) io "inputParameters") in *.
    set (outputs := get_many (heap s) io "outputParameters") in *.
    set (step_in := snapshot_step (heap s) inputs "target"
                      (fun p => b_name (p_binding p)) (live_or_kept (heap s))).
    set (step_out := snapshot_step (heap s) outputs "source"
                       (fun p => b_source (p_binding p)) (live_or_kept (heap s))).
    apply unchanged_bind with (a := (@nil loc, @nil loc)).
    + assert (Hfold : fold_left
                (fun v p => if bool_decide (b_type (p_binding p) = "zeebe:input")
                            then (step_in v.1 p, v.2) else (v.1, step_out v.2 p))
                (p0 :: ps) (inputs, outputs) = ([], [])).
      { rewrite fold_left_pair, <- Eprops.
        rewrite input_of_io_properties, output_of_io_properties.
        subst step_in step_out.
        rewrite (snapshot_emptied _ _ _ _ _ _ _ _ Hin Hkin).
        rewrite (snapshot_emptied _ _ _ _ _ _ _ _ Hout Hkout). reflexivity. }
      rewrite <- Hfold.
      apply unchanged_forEach_with with (I := fun _ => True); [exact I|].
      intros [oi oo] p s4 _ Hp Hh4 _. split; [|exact I].
      assert (Hh' : heap s4 = heap s) by congruence.
      unfold _updateZeebeInputOutputParameterProperties_each. apply unchanged_gets.
      rewrite Hh'. rewrite <- Eprops in Hp.
      destruct (io_kind t p Hp) as [[Hk Hpin]|(Hk & Hnk & Hpout)].
      * rewrite (findBusinessObject_input _ _ _ Hk), Hfind.
        rewrite (findOldProperty_input_self t p Hkin Hpin).
        rewrite (bool_decide_eq_true_2 _ Hk).
        pose proof (keyed_settled_found _ _ _ _ _ _ _ _ p Hin Hkin Hpin) as Hfound.
        subst step_in. unfold snapshot_step. fold inputs. simpl fst. simpl snd.
        destruct (List.find _ inputs) as [e|].
        -- destruct Hfound as (He & Hlive & Hval).
           unfold live_or_kept, keeps in Hlive |- *. rewrite Hlive.
           rewrite (Hintype e He).
           apply unchanged_bind with (a := tt); [|intros; apply unchanged_ret].
           apply unchanged_settled_write; [rewrite Hh'; exact Hn|].
           rewrite Hh'. exact Hval.
        -- rewrite Hfound. apply unchanged_ret.
      * rewrite (findBusinessObject_output _ _ _ Hk), Hfind.
        rewrite (findOldProperty_output_self t p Hkout Hpout).
        rewrite (bool_decide_eq_false_2 _ Hnk).
        pose proof (keyed_settled_found _ _ _ _ _ _ _ _ p Hout Hkout Hpout) as Hfound.
        subst step_out. unfold snapshot_step. fold outputs. simpl fst. simpl snd.
        destruct (List.find _ outputs) as [e|].
        -- destruct Hfound as (He & Hlive & Hval).
           unfold live_or_kept, keeps in Hlive |- *. rewrite Hlive.
           rewrite (Houttype e He).
           apply unchanged_bind with (a := tt); [|intros; apply unchanged_ret].
           apply unchanged_settled_write; [rewrite Hh'; exact Hn|].
           rewrite Hh'. exact Hval.
        -- rewrite Hfound. apply unchanged_ret.
    + intros s4 _ _. apply unchanged_ret.
Qed.

(** ** The message on a settled document *)

Lemma findMessage_getMessage (h : gmap loc obj) (element : eref) :
  findMessage h (bo_of element) = _getMessage h element.
Proof.
  unfold findMessage, _getMessage.
  destruct (is_a h (bo_of element) "bpmn:Event"); [|reflexivity].
  destruct (get_many h (bo_of element) "eventDefinitions"); reflexivity.
Qed.

Lemma unchanged_getOrCreateMessage (t : template) (element : eref) (m : loc)
    (s : state) :
  _getMessage (heap s) element = VRef m ->
  unchanged (_getOrCreateMessage element t) m s.
Proof.
  intros Hm. unfold _getOrCreateMessage. apply unchanged_gets. rewrite Hm.
  apply unchanged_ret.
Qed.

Lemma assign_elem_of (properties : props) (name : string) (value : jsval)
    (k : string) (v : jsval) :
  (k, v) ∈ assign properties name value ->
  (k, v) ∈ properties \/ (k, v) = (name, value).
Proof.
  induction properties as [|[k' v'] ps IH]; simpl.
  - intros Hin. apply list_elem_of_singleton in Hin. right. exact Hin.
  - case_bool_decide as Hk.
    + intros Hin. apply elem_of_cons in Hin as [Hin|Hin].
      * right. subst k'. exact Hin.
      * left. right. exact Hin.
    + intros Hin. apply elem_of_cons in Hin as [Hin|Hin].
      * left. rewrite Hin. left.
      * destruct (IH Hin) as [H|H]; [left; right; exact H | right; exact H].
Qed.

Lemma messageProperties_unchanged (t : template) (element : eref) (s : state) :
  NoDup (map (fun p => key_of (b_name (p_binding p))) (message_properties t)) ->
  normal (heap s) ->
  message_settled (heap s) t element ->
  unchanged (_updateMessageProperties element (Some t) t) tt s.
Proof.
  intros Hkeys Hn (Hmsg & _).
  unfold _updateMessageProperties. fold (message_properties t).
  pose proof (no_dropped_property
                (fun p => bool_decide (b_type (p_binding p) = MESSAGE_PROPERTY_TYPE))
                (fun p => b_name (p_binding p)) t) as Hdropped.
  cbv beta in Hdropped. fold (message_properties t) in Hdropped.
  rewrite Hdropped. clear Hdropped.
  apply unchanged_gets.
  apply unchanged_bind with (a := tt).
  { destruct (truthy _); apply unchanged_ret. }
  intros s1 Hh1 _.
  destruct (message_properties t) as [|p0 ps] eqn:Eprops; [apply unchanged_ret|].
  change (isEmpty (p0 :: ps)) with false. cbv iota.
  destruct (Hmsg ltac:(discriminate)) as (m & Hm & Hfields).
  apply unchanged_bind with (a := m).
  { apply unchanged_getOrCreateMessage. rewrite Hh1. exact Hm. }
  intros s2 Hh2 _. apply unchanged_forEach. intros p s3 Hp Hh3 _.
  assert (Hh : heap s3 = heap s) by congruence.
  unfold _updateMessageProperties_each. apply unchanged_gets. rewrite Hh.
  rewrite (findOldProperty_message_self t p) by (rewrite ?Eprops; assumption).
  destruct (Hfields p Hp) as [Hkeep|Hget].
  - unfold keeps in Hkeep. rewrite Hkeep. apply unchanged_ret.
  - destruct (truthy_prim _); [apply unchanged_ret|].
    apply unchanged_update; [rewrite Hh; exact Hn|].
    intros k v Hin. apply list_elem_of_singleton in Hin. injection Hin as -> ->.
    rewrite Hh. exact Hget.
Qed.

Lemma subscription_unchanged (t : template) (element : eref) (s : state) :
  NoDup (map (fun p => key_of (b_name (p_binding p))) (subscription_properties t)) ->
  normal (heap s) ->
  message_settled (heap s) t element ->
  unchanged (_updateMessageZeebeSubscriptionProperties element (Some t) t) tt s.
Proof.
  intros Hkeys Hn (_ & Hsub & _).
  unfold _updateMessageZeebeSubscriptionProperties. fold (subscription_properties t).
  pose proof (no_dropped_property
                (fun p => bool_decide (b_type (p_binding p)
                                       = MESSAGE_ZEEBE_SUBSCRIPTION_PROPERTY_TYPE))
                (fun p => b_name (p_binding p)) t) as Hdropped.
  cbv beta in Hdropped. fold (subscription_properties t) in Hdropped.
  rewrite Hdropped. clear Hdropped.
  destruct (subscription_properties t) as [|p0 ps] eqn:Eprops; [apply unchanged_ret|].
  change (isEmpty (p0 :: ps) && isEmpty []) with false. cbv iota.
  destruct (Hsub ltac:(discriminate)) as (m & mee & sub & Hm & Hmee & Hfind & Hfields).
  apply unchanged_bind with (a := m); [apply unchanged_getOrCreateMessage, Hm|].
  intros s1 Hh1 _.
  apply unchanged_bind with (a := mee).
  { apply unchanged_getOrCreateExtensionElements. rewrite Hh1. exact Hmee. }
  intros s2 Hh2 _.
  apply unchanged_bind with (a := Some sub).
  { unfold _getSubscription. apply unchanged_bind with (a := mee).
    - apply unchanged_getOrCreateExtensionElements. rewrite Hh2, Hh1. exact Hmee.
    - intros s3 Hh3 _. apply unchanged_gets. rewrite Hh3, Hh2, Hh1, Hfind.
      apply unchanged_ret. }
  intros s3 Hh3 _. apply unchanged_gets.
  assert (Hh : heap s3 = heap s) by congruence. rewrite Hh.
  apply unchanged_bind with (a := tt).
  - apply unchanged_update; [rewrite Hh; exact Hn|].
    intros k v. rewrite Hh.
    assert (Hgen : forall l acc,
               (forall p, p ∈ l -> p ∈ p0 :: ps) ->
               (forall k v, (k, v) ∈ acc -> get (heap s) sub k = v) ->
               forall k v,
                 (k, v) ∈ fold_left (fun properties newProperty =>
                    if truthy_prim (shouldKeepValue (heap s)
                                      (option_map Moddle (Some sub))
                                      (findOldProperty (Some t) newProperty) newProperty)
                    then properties
                    else assign properties (key_of (b_name (p_binding newProperty)))
                           (VPrim (getDefaultValue newProperty))) l acc ->
                 get (heap s) sub k = v).
    { induction l as [|p l IH]; intros acc Hsubl Hacc k' v'; cbn [fold_left];
        [apply Hacc|].
      apply IH; [intros q Hq; apply Hsubl; right; exact Hq|].
      intros k'' v'' Hin.
      assert (Hp : p ∈ p0 :: ps) by (apply Hsubl; left).
      rewrite (findOldProperty_subscription_self t p) in Hin
        by (rewrite ?Eprops; assumption).
      destruct (Hfields p Hp) as [Hkeep|Hget].
      - unfold keeps in Hkeep. cbn [option_map] in Hin. rewrite Hkeep in Hin.
        apply Hacc, Hin.
      - destruct (truthy_prim _); [apply Hacc, Hin|].
        apply assign_elem_of in Hin as [Hin|[= -> ->]]; [apply Hacc, Hin | exact Hget]. }
    apply Hgen; [auto|]. intros ? ? Hnil. inversion Hnil.
  - intros s4 Hh4 _. apply unchanged_execute. apply alter_set_props_nil.
Qed.

Lemma referencedTemplate_unchanged (t : template) (element : eref) (s : state) :
  message_settled (heap s) t element ->
  unchanged (_updateZeebeModelerTemplateOnReferencedElement element (Some t) t) tt s.
Proof.
  intros (_ & _ & Hstamp & _).
  unfold _updateZeebeModelerTemplateOnReferencedElement. apply unchanged_gets.
  rewrite findMessage_getMessage.
  destruct (truthy (_getMessage (heap s) element)) eqn:Htruthy; [|apply unchanged_ret].
  destruct (Hstamp eq_refl) as (m & Hm & Hid). rewrite Hm. simpl negb. cbv iota.
  apply unchanged_bind with (a := m); [apply unchanged_ret|].
  intros s1 Hh1 _. unfold getTemplateId, strict_eq.
  rewrite bool_decide_eq_true_2 by exact Hid. apply unchanged_ret.
Qed.

Lemma removeMessage_unchanged (removeMessage : eref -> M unit) (t : template)
    (element : eref) (s : state) :
  remove_ok removeMessage ->
  message_settled (heap s) t element ->
  unchanged (if negb (hasMessageProperties t) then removeMessage element
             else ret tt) tt s.
Proof.
  intros Hok (_ & _ & _ & Habsent).
  destruct (hasMessageProperties t); [apply unchanged_ret|].
  simpl negb. cbv iota. apply (Hok element s), Habsent. reflexivity.
Qed.

(** ** The second application *)

(** On a document on which the template is settled, applying it again
    with itself as the old template returns the element and leaves the
    store and the allocator as they are; the type-replacement collaborator
    is not called. *)
Lemma settled_unchanged
    (replaceElement : eref -> string -> option string -> M eref)
    (removeMessage : eref -> M unit)
    (t : template) (element : eref) (s : state) :
  remove_ok removeMessage ->
  distinct_keys t ->
  settled (heap s) t element ->
  unchanged (preExecute replaceElement removeMessage element (Some t) (Some t))
    element s.
Proof.
  intros Hremove (Hplain & _ & Htd & Hin & Hout & Hth & Hzp & Hmsg & Hsub & _) Hsettled.
  pose proof Hsettled as (Hn & _ & _ & _ & _ & Hext & Hmessage).
  destruct Hext as (ee & Hee & Hvalues & Std & Sio & Sth & Szp & Sce).
  unfold preExecute.
  assert (Hstep : forall {A B} (m : M A) (k : A -> M B) (a : A) (b : B) s0,
             heap s0 = heap s ->
             (forall s', heap s' = heap s -> unchanged m a s') ->
             (forall s', heap s' = heap s -> unchanged (k a) b s') ->
             unchanged (bind m k) b s0).
  { intros A B m k a b s0 Hs0 Hm Hk. apply unchanged_bind with (a := a).
    - apply Hm, Hs0.
    - intros s' Hh' _. apply Hk. congruence. }
  apply Hstep with (a := tt); [reflexivity| |].
  { intros s' Hs'. apply modelerTemplate_unchanged. rewrite Hs'. exact Hsettled. }
  intros s0 Hs0. apply Hstep with (a := tt); [exact Hs0| |].
  { intros s' Hs'. apply modelerTemplateIcon_unchanged. rewrite Hs'. exact Hsettled. }
  intros s1 Hs1.
  { apply Hstep with (a := element); [exact Hs1 | intros; apply elementType_unchanged|].
    intros s2 Hs2. apply Hstep with (a := tt); [exact Hs2| |].
    { intros s' Hs'. apply properties_unchanged; [exact Hplain | rewrite Hs'; exact Hsettled]. }
    intros s3 Hs3. apply Hstep with (a := tt); [exact Hs3| |].
    { intros s' Hs'. apply taskDefinition_unchanged with (ee := ee); rewrite ?Hs'; assumption. }
    intros s4 Hs4. apply Hstep with (a := tt); [exact Hs4| |].
    { intros s' Hs'. apply inputOutput_unchanged with (ee := ee); rewrite ?Hs'; assumption. }
    intros s5 Hs5. apply Hstep with (a := tt); [exact Hs5| |].
    { intros s' Hs'. apply taskHeaders_unchanged with (ee := ee); rewrite ?Hs'; assumption. }
    intros s6 Hs6. apply Hstep with (a := tt); [exact Hs6| |].
    { intros s' Hs'. apply zeebeProperties_unchanged with (ee := ee); rewrite ?Hs'; assumption. }
    intros s7 Hs7. apply Hstep with (a := tt); [exact Hs7| |].
    { intros s' Hs'. unfold _updateMessage.
      apply Hstep with (a := tt); [exact Hs'| |].
      { intros s'' Hs''. apply messageProperties_unchanged; rewrite ?Hs''; assumption. }
      intros s8 Hs8. apply Hstep with (a := tt); [exact Hs8| |].
      { intros s'' Hs''. apply subscription_unchanged; rewrite ?Hs''; assumption. }
      intros s9 Hs9. apply Hstep with (a := tt); [exact Hs9| |].
      { intros s'' Hs''. apply referencedTemplate_unchanged; rewrite ?Hs''; assumption. }
      intros s10 Hs10. apply removeMessage_unchanged; [exact Hremove|].
      rewrite Hs10. exact Hmessage. }
    intros s8 Hs8. apply Hstep with (a := tt); [exact Hs8| |].
    { intros s' Hs'. apply calledElement_unchanged with (ee := ee); rewrite ?Hs'; assumption. }
    intros s9 Hs9. apply unchanged_ret. }
Qed.

Lemma normal_checked (h : gmap loc obj) :
  forallb (fun lo => forallb (fun kv => negb (isUndefined kv.2)) (map_to_list (attrs lo.2)))
    (map_to_list h) = true ->
  normal h.
Proof.
  intros Hall l o Hl name Hname.
  rewrite forallb_forall in Hall.
  specialize (Hall (l, o)). simpl in Hall.
  rewrite forallb_forall in Hall.
  assert (Hin : In (l, o) (map_to_list h)).
  { apply list_elem_of_In, elem_of_map_to_list. exact Hl. }
  specialize (Hall Hin (name, undefined)). simpl in Hall.
  assert (Hin' : In (name, undefined) (map_to_list (attrs o))).
  { apply list_elem_of_In, elem_of_map_to_list. exact Hname. }
  specialize (Hall Hin'). discriminate.
Qed.

Lemma ex_task_settled_is_settled :
  settled (heap ex_task_settled) ex_template_v2 (Shape 0%nat).
Proof.
  unfold settled. split; [apply normal_checked; vm_compute; reflexivity|].
  split; [reflexivity|]. split; [reflexivity|]. split; [reflexivity|].
  split; [|split].
  - intros p Hp. apply list_elem_of_singleton in Hp. subst p. left. reflexivity.
  - exists 1%nat. split; [reflexivity|]. split; [exists []; reflexivity|].
    repeat split; reflexivity.
  - unfold message_settled. repeat split; try (intros H; exfalso; apply H; reflexivity).
    + intros H. discriminate.
Qed.

Lemma ex_template_v2_distinct_keys : distinct_keys ex_template_v2.
Proof.
  unfold distinct_keys. vm_compute.
  repeat split; try apply NoDup_nil_2; try apply Forall_nil_2.
  apply NoDup_singleton.
Qed.

(** * The first application *)

(** ** Rules for runs *)

Lemma runs_ret {A} (a : A) (s : state) (Q : A -> state -> Prop) :
  Q a s -> runs (ret a) s Q.
Proof. intros HQ a' s' E. injection E as <- <-. exact HQ. Qed.

Lemma runs_bind {A B} (m : M A) (k : A -> M B) (s : state)
    (Q : B -> state -> Prop) :
  runs m s (fun a s1 => runs (k a) s1 Q) -> runs (bind m k) s Q.
Proof.
  intros Hm b s' E. unfold bind in E.
  destruct (m s) as [[a s1]|] eqn:Em; [|discriminate].
  exact (Hm a s1 Em b s' E).
Qed.

Lemma runs_gets {A} (f : state -> A) (s : state) (Q : A -> state -> Prop) :
  Q (f s) s -> runs (gets f) s Q.
Proof. intros HQ a' s' E. injection E as <- <-. exact HQ. Qed.

Lemma runs_throw {A} (s : state) (Q : A -> state -> Prop) : runs throw s Q.
Proof. intros a s' E. discriminate. Qed.

Lemma runs_mono {A} (m : M A) (s : state) (Q Q' : A -> state -> Prop) :
  runs m s Q -> (forall a s', Q a s' -> Q' a s') -> runs m s Q'.
Proof. intros Hm HQ a s' E. apply HQ, Hm, E. Qed.

Lemma runs_conj {A} (m : M A) (s : state) (Q Q' : A -> state -> Prop) :
  runs m s Q -> runs m s Q' -> runs m s (fun a s' => Q a s' /\ Q' a s').
Proof. intros H H' a s' E. split; [apply H | apply H']; exact E. Qed.

Lemma runs_execute (c : command) (s : state) (Q : unit -> state -> Prop) :
  (forall s', heap s' = apply_command c (heap s) -> next s' = next s -> Q tt s') ->
  runs (execute c) s Q.
Proof. intros HQ a s' E. injection E as <- <-. apply HQ; reflexivity. Qed.

Lemma runs_create (type : string) (init : props) (s : state)
    (Q : loc -> state -> Prop) :
  (forall s', heap s' = <[next s := set_props init (Obj type None ∅)]> (heap s) ->
              next s' = S (next s) -> Q (next s) s') ->
  runs (create type init) s Q.
Proof. intros HQ a s' E. injection E as <- <-. apply HQ; reflexivity. Qed.

Lemma runs_set_parent (l parent : loc) (s : state) (Q : unit -> state -> Prop) :
  (forall s', heap s' = alter (fun o => Obj (otype o) (Some parent) (attrs o)) l (heap s) ->
              next s' = next s -> Q tt s') ->
  runs (set_parent l parent) s Q.
Proof. intros HQ a s' E. injection E as <- <-. apply HQ; reflexivity. Qed.

Lemma runs_as_object (v : jsval) (s : state) (Q : loc -> state -> Prop) :
  (forall l, v = VRef l -> Q l s) -> runs (as_object v) s Q.
Proof.
  intros HQ a s' E. destruct v as [p|l|ls]; try discriminate.
  injection E as <- <-. apply HQ. reflexivity.
Qed.

Lemma runs_forEach_with {A V} (I : list A -> V -> state -> Prop)
    (f : V -> A -> M V) (array : list A) (vars : V) (s : state) :
  I [] vars s ->
  (forall done x todo v s1, array = done ++ x :: todo -> I done v s1 ->
     runs (f v x) s1 (fun v' s2 => I (done ++ [x]) v' s2)) ->
  runs (forEach_with f array vars) s (fun v s' => I array v s').
Proof.
  intros H0 Hstep.
  enough (G : forall todo done v s1, array = done ++ todo -> I done v s1 ->
            runs (forEach_with f todo v) s1 (fun v' s' => I array v' s')).
  { apply (G array [] vars s); [reflexivity | exact H0]. }
  induction todo as [|x todo IH]; intros done v s1 Harr HI; simpl.
  - apply runs_ret. rewrite Harr, app_nil_r. exact HI.
  - apply runs_bind. eapply runs_mono; [apply (Hstep done x todo v s1 Harr HI)|].
    intros v' s2 HI'. apply (IH (done ++ [x])); [|exact HI'].
    rewrite Harr, <- app_assoc. reflexivity.
Qed.

Lemma runs_forEach {A} (I : list A -> state -> Prop) (f : A -> M unit)
    (array : list A) (s : state) :
  I [] s ->
  (forall done x todo s1, array = done ++ x :: todo -> I done s1 ->
     runs (f x) s1 (fun _ s2 => I (done ++ [x]) s2)) ->
  runs (forEach f array) s (fun _ s' => I array s').
Proof.
  intros H0 Hstep.
  enough (G : forall todo done s1, array = done ++ todo -> I done s1 ->
            runs (forEach f todo) s1 (fun _ s' => I array s')).
  { apply (G array [] s); [reflexivity | exact H0]. }
  induction todo as [|x todo IH]; intros done s1 Harr HI; simpl.
  - apply runs_ret. rewrite Harr, app_nil_r. exact HI.
  - apply runs_bind. eapply runs_mono; [apply (Hstep done x todo s1 Harr HI)|].
    intros [] s2 HI'. apply (IH (done ++ [x])); [|exact HI'].
    rewrite Harr, <- app_assoc. reflexivity.
Qed.

(** ** Types *)

Lemma is_a_type_of (h : gmap loc obj) (l : loc) (type T : string) :
  type_of h l = Some type -> is_a h l T = instanceOf type T.
Proof.
  unfold type_of, is_a. destruct (h !! l) as [o|]; simpl; [|discriminate].
  intros E. injection E as <-. reflexivity.
Qed.

Lemma is_a_node (h : gmap loc obj) (l : loc) (T : string) :
  T <> "bpmn:Event" -> is_a h l T = true -> type_of h l = Some T.
Proof.
  unfold type_of, is_a, instanceOf. intros HT.
  destruct (h !! l) as [o|]; simpl; [|discriminate].
  rewrite (bool_decide_eq_false_2 (T = "bpmn:Event")) by exact HT.
  rewrite andb_false_l, orb_false_r. intros E.
  apply bool_decide_eq_true_1 in E. rewrite E. reflexivity.
Qed.

Lemma is_a_absent (h : gmap loc obj) (l : loc) (T : string) :
  h !! l = None -> is_a h l T = false.
Proof. unfold is_a. intros ->. reflexivity. Qed.

Lemma type_of_is_Some (h : gmap loc obj) (l : loc) (type : string) :
  type_of h l = Some type -> is_Some (h !! l).
Proof. unfold type_of. destruct (h !! l); [eauto | discriminate]. Qed.

Lemma type_of_lookup (h : gmap loc obj) (l : loc) (type : string) :
  type_of h l = Some type -> exists o, h !! l = Some o /\ otype o = type.
Proof.
  unfold type_of. destruct (h !! l) as [o|]; simpl; [|discriminate].
  intros E. injection E as <-. eauto.
Qed.

Lemma find_head_filter {A} (f : A -> bool) (l : list A) :
  List.find f l = head (List.filter f l).
Proof.
  induction l as [|x xs IH]; simpl; [reflexivity|].
  destruct (f x); [reflexivity | exact IH].
Qed.

Lemma findExtension_container (h : gmap loc obj) (ee : loc) (T : string) :
  type_of h ee = Some "bpmn:ExtensionElements" ->
  findExtension h ee T = head (typed_values h ee T).
Proof.
  intros Hty. unfold findExtension.
  rewrite (is_a_type_of h ee _ _ Hty). simpl.
  apply find_head_filter.
Qed.

(** ** Frames *)

Lemma frame_refl (K : list string) (W : string -> string -> bool) (s : state) :
  frame K W s s.
Proof.
  split; try (intros; assumption); try lia.
  - intros l o Hl. exists o. auto.
  - intros l o' Hn Hs. congruence.
  - intros. reflexivity.
Qed.

Lemma frame_trans (K : list string) (W : string -> string -> bool)
    (s s' s'' : state) :
  frame K W s s' -> frame K W s' s'' -> frame K W s s''.
Proof.
  intros F1 F2. split.
  - pose proof (frame_next _ _ _ _ F1). pose proof (frame_next _ _ _ _ F2). lia.
  - intros Hb. apply (frame_bounded _ _ _ _ F2), (frame_bounded _ _ _ _ F1), Hb.
  - intros Hn. apply (frame_normal _ _ _ _ F2), (frame_normal _ _ _ _ F1), Hn.
  - intros l o Hl.
    destruct (frame_kept _ _ _ _ F1 l o Hl) as (o' & Hl' & Hty & Hat).
    destruct (frame_kept _ _ _ _ F2 l o' Hl') as (o'' & Hl'' & Hty' & Hat').
    exists o''. split; [exact Hl''|]. split; [congruence|].
    intros k Hk. rewrite Hat' by (rewrite Hty; exact Hk). apply Hat, Hk.
  - intros l o'' Hn Hl''.
    destruct (heap s' !! l) as [o'|] eqn:Hl'.
    + pose proof (frame_new _ _ _ _ F1 l o' Hn Hl') as Hin.
      destruct (frame_kept _ _ _ _ F2 l o' Hl') as (o2 & Hl2 & Hty & _).
      rewrite Hl'' in Hl2. injection Hl2 as <-. rewrite Hty. exact Hin.
    + apply (frame_new _ _ _ _ F2 l o'' Hl' Hl'').
  - intros l o T Hl Hty HT HE.
    destruct (frame_kept _ _ _ _ F1 l o Hl) as (o' & Hl' & Hty' & _).
    rewrite (frame_values _ _ _ _ F2 l o' T Hl') by congruence.
    apply (frame_values _ _ _ _ F1 l o T Hl Hty HT HE).
  - intros l o Hl Hty Harr.
    destruct (frame_kept _ _ _ _ F1 l o Hl) as (o' & Hl' & Hty' & _).
    apply (frame_array _ _ _ _ F2 l o' Hl'); [congruence|].
    apply (frame_array _ _ _ _ F1 l o Hl Hty Harr).
Qed.

Lemma frame_weaken (K K' : list string) (W W' : string -> string -> bool)
    (s s' : state) :
  (forall T, T ∈ K -> T ∈ K') ->
  (forall type k, W type k = true -> W' type k = true) ->
  frame K W s s' -> frame K' W' s s'.
Proof.
  intros HK HW F. split.
  - apply (frame_next _ _ _ _ F).
  - apply (frame_bounded _ _ _ _ F).
  - apply (frame_normal _ _ _ _ F).
  - intros l o Hl. destruct (frame_kept _ _ _ _ F l o Hl) as (o' & Hl' & Hty & Hat).
    exists o'. split; [exact Hl'|]. split; [exact Hty|].
    intros k Hk. apply Hat. destruct (W (otype o) k) eqn:E; [|reflexivity].
    rewrite (HW _ _ E) in Hk. discriminate.
  - intros l o' Hn Hl'. apply HK, (frame_new _ _ _ _ F l o' Hn Hl').
  - intros l o T Hl Hty HT HE. apply (frame_values _ _ _ _ F l o T Hl Hty); [|exact HE].
    intros Hin. apply HT, HK, Hin.
  - apply (frame_array _ _ _ _ F).
Qed.

Lemma is_a_alter_set_props (h : gmap loc obj) (properties : props) (l l' : loc)
    (T : string) :
  is_a (alter (set_props properties) l h) l' T = is_a h l' T.
Proof.
  unfold is_a. pose proof (otype_alter_set_props h properties l l') as E.
  destruct (alter (set_props properties) l h !! l') as [o'|],
           (h !! l') as [o|]; simpl in E; try discriminate; [|reflexivity].
  injection E as ->. reflexivity.
Qed.

Lemma normal_alter_set_props (h : gmap loc obj) (properties : props) (l : loc) :
  normal h -> normal (alter (set_props properties) l h).
Proof.
  intros Hn l' o' Hl'.
  destruct (decide (l = l')) as [<-|Hne].
  - rewrite lookup_alter_eq in Hl'.
    destruct (h !! l) as [o|] eqn:Hl; simpl in Hl'; [|discriminate].
    injection Hl' as <-. apply normal_set_props, (Hn l o Hl).
  - rewrite lookup_alter_ne in Hl' by exact Hne. apply (Hn l' o' Hl').
Qed.

Lemma is_Some_alter (h : gmap loc obj) (f : obj -> obj) (l l' : loc) :
  is_Some (alter f l h !! l') <-> is_Some (h !! l').
Proof.
  destruct (decide (l = l')) as [<-|Hne].
  - rewrite lookup_alter_eq. destruct (h !! l); simpl; split; intros [x Hx];
      try discriminate; eauto.
  - rewrite lookup_alter_ne by exact Hne. reflexivity.
Qed.

(** A write to an object that is no container. *)
Lemma frame_write (K : list string) (W : string -> string -> bool)
    (s s' : state) (l : loc) (properties : props) :
  heap s' = alter (set_props properties) l (heap s) -> next s' = next s ->
  (forall o, heap s !! l = Some o ->
     otype o <> "bpmn:ExtensionElements" /\
     forall k, k ∈ properties.*1 -> W (otype o) k = true) ->
  frame K W s s'.
Proof.
  intros Hh Hnext Hperm. split.
  - lia.
  - intros Hb l' Hl'. rewrite Hh, is_Some_alter in Hl'. rewrite Hnext. apply Hb, Hl'.
  - intros Hn. rewrite Hh. apply normal_alter_set_props, Hn.
  - intros l' o Hl'. rewrite Hh.
    destruct (decide (l = l')) as [<-|Hne].
    + rewrite lookup_alter_eq, Hl'. simpl. eexists. split; [reflexivity|].
      split; [apply otype_set_props|].
      intros k Hk. apply attrs_set_props_other. intros Hin.
      destruct (Hperm o Hl') as [_ HW]. rewrite (HW k Hin) in Hk. discriminate.
    + rewrite lookup_alter_ne by exact Hne. exists o. auto.
  - intros l' o' Hn Hl'. rewrite Hh in Hl'.
    assert (is_Some (heap s !! l')) as [o Ho].
    { apply (is_Some_alter _ (set_props properties) l). eauto. }
    congruence.
  - intros l' o T Hl' Hty _ _. unfold typed_values. rewrite Hh.
    assert (l <> l') as Hne.
    { intros <-. destruct (Hperm o Hl') as [Hc _]. contradiction. }
    rewrite get_many_alter_ne by exact Hne.
    apply filter_ext. intros v. apply is_a_alter_set_props.
  - intros l' o Hl' Hty Harr. rewrite Hh.
    assert (l <> l') as Hne.
    { intros <-. destruct (Hperm o Hl') as [Hc _]. contradiction. }
    rewrite get_alter_ne by exact Hne. exact Harr.
Qed.

(** A write to the [values] of an object, a container or not. *)
Lemma frame_write_values (K : list string) (W : string -> string -> bool)
    (s s' : state) (l : loc) (values : list loc) :
  heap s' = alter (set_props [("values", VArr values)]) l (heap s) ->
  next s' = next s ->
  (forall o, heap s !! l = Some o ->
     W (otype o) "values" = true /\
     (otype o = "bpmn:ExtensionElements" ->
      forall T, T ∉ K -> T <> "bpmn:Event" ->
        List.filter (fun value => is_a (heap s) value T) values
        = typed_values (heap s) l T)) ->
  frame K W s s'.
Proof.
  intros Hh Hnext Hperm. split.
  - lia.
  - intros Hb l' Hl'. rewrite Hh, is_Some_alter in Hl'. rewrite Hnext. apply Hb, Hl'.
  - intros Hn. rewrite Hh. apply normal_alter_set_props, Hn.
  - intros l' o Hl'. rewrite Hh.
    destruct (decide (l = l')) as [<-|Hne].
    + exists (set_props [("values", VArr values)] o).
      split; [rewrite lookup_alter_eq, Hl'; reflexivity|].
      split; [apply otype_set_props|].
      intros k Hk. apply attrs_set_props_other. intros Hin.
      simpl in Hin. apply list_elem_of_singleton in Hin. subst k.
      destruct (Hperm o Hl') as [HW _]. rewrite HW in Hk. discriminate.
    + rewrite lookup_alter_ne by exact Hne. exists o. auto.
  - intros l' o' Hn Hl'. rewrite Hh in Hl'.
    assert (is_Some (heap s !! l')) as [o Ho].
    { apply (is_Some_alter _ (set_props [("values", VArr values)]) l). eauto. }
    congruence.
  - intros l' o T Hl' Hty HT HE. unfold typed_values at 1. rewrite Hh.
    rewrite (filter_ext _ (fun value => is_a (heap s) value T))
      by (intros v; apply is_a_alter_set_props).
    destruct (decide (l = l')) as [<-|Hne].
    + rewrite get_many_alter_set_props_single by eauto.
      destruct (Hperm o Hl') as [_ Hf]. apply Hf; assumption.
    + rewrite get_many_alter_ne by exact Hne. reflexivity.
  - intros l' o Hl' Hty Harr. rewrite Hh.
    destruct (decide (l = l')) as [<-|Hne].
    + exists values. apply get_alter_set_props_single. eauto.
    + rewrite get_alter_ne by exact Hne. exact Harr.
Qed.

Lemma normal_obj_empty (type : string) (parent : option loc) :
  normal_obj (Obj type parent ∅).
Proof. intros name. simpl. rewrite lookup_empty. discriminate. Qed.

Lemma frame_create (K : list string) (W : string -> string -> bool)
    (s s' : state) (type : string) (init : props) :
  heap s' = <[next s := set_props init (Obj type None ∅)]> (heap s) ->
  next s' = S (next s) ->
  bounded s -> type ∈ K ->
  frame K W s s'.
Proof.
  intros Hh Hnext Hb HK.
  assert (Hfresh : heap s !! next s = None).
  { destruct (heap s !! next s) eqn:E; [|reflexivity].
    assert (next s < next s)%nat by (apply Hb; eauto). lia. }
  assert (Hold : forall l o, heap s !! l = Some o -> l <> next s).
  { intros l o Hl ->. congruence. }
  assert (Hisa : forall v T, T ∉ K -> T <> "bpmn:Event" ->
             is_a (heap s') v T = is_a (heap s) v T).
  { intros v T HT HE. unfold is_a. rewrite Hh.
    destruct (decide (v = next s)) as [->|Hne].
    - rewrite lookup_insert_eq, Hfresh, otype_set_props. simpl.
      unfold instanceOf.
      rewrite (bool_decide_eq_false_2 (T = "bpmn:Event")) by exact HE.
      rewrite andb_false_l, orb_false_r.
      apply bool_decide_eq_false_2. intros <-. contradiction.
    - rewrite lookup_insert_ne by congruence. reflexivity. }
  split.
  - lia.
  - intros _ l Hl. rewrite Hh in Hl. rewrite Hnext.
    destruct (decide (l = next s)) as [->|Hne]; [lia|].
    rewrite lookup_insert_ne in Hl by congruence.
    pose proof (Hb l Hl). lia.
  - intros Hn l o Hl. rewrite Hh in Hl.
    destruct (decide (l = next s)) as [->|Hne].
    + rewrite lookup_insert_eq in Hl. injection Hl as <-.
      apply normal_set_props, normal_obj_empty.
    + rewrite lookup_insert_ne in Hl by congruence. apply (Hn l o Hl).
  - intros l o Hl. exists o. rewrite Hh.
    rewrite lookup_insert_ne by (intros E; apply (Hold l o Hl); congruence).
    auto.
  - intros l o' Hn Hl. rewrite Hh in Hl.
    destruct (decide (l = next s)) as [->|Hne].
    + rewrite lookup_insert_eq in Hl. injection Hl as <-.
      rewrite otype_set_props. exact HK.
    + rewrite lookup_insert_ne in Hl by congruence. congruence.
  - intros l o T Hl Hty HT HE. unfold typed_values.
    rewrite (filter_ext _ (fun value => is_a (heap s) value T))
      by (intros v; apply Hisa; assumption).
    f_equal. unfold get_many, get. rewrite Hh.
    rewrite lookup_insert_ne by (intros E; apply (Hold l o Hl); congruence).
    reflexivity.
  - intros l o Hl Hty Harr. unfold get. rewrite Hh.
    rewrite lookup_insert_ne by (intros E; apply (Hold l o Hl); congruence).
    exact Harr.
Qed.

Lemma frame_set_parent (K : list string) (W : string -> string -> bool)
    (s s' : state) (l parent : loc) :
  heap s' = alter (fun o => Obj (otype o) (Some parent) (attrs o)) l (heap s) ->
  next s' = next s ->
  frame K W s s'.
Proof.
  intros Hh Hnext.
  assert (Hget : forall l' k, get (heap s') l' k = get (heap s) l' k).
  { intros l' k. unfold get. rewrite Hh.
    destruct (decide (l = l')) as [<-|Hne].
    - rewrite lookup_alter_eq. destruct (heap s !! l); reflexivity.
    - rewrite lookup_alter_ne by exact Hne. reflexivity. }
  assert (Hisa : forall v T, is_a (heap s') v T = is_a (heap s) v T).
  { intros v T. unfold is_a. rewrite Hh.
    destruct (decide (l = v)) as [<-|Hne].
    - rewrite lookup_alter_eq. destruct (heap s !! l); reflexivity.
    - rewrite lookup_alter_ne by exact Hne. reflexivity. }
  split.
  - lia.
  - intros Hb l' Hl'. rewrite Hh, is_Some_alter in Hl'. rewrite Hnext. apply Hb, Hl'.
  - intros Hn l' o' Hl'. rewrite Hh in Hl'.
    destruct (decide (l = l')) as [<-|Hne].
    + rewrite lookup_alter_eq in Hl'.
      destruct (heap s !! l) as [o|] eqn:Hl; simpl in Hl'; [|discriminate].
      injection Hl' as <-. exact (Hn l o Hl).
    + rewrite lookup_alter_ne in Hl' by exact Hne. apply (Hn l' o' Hl').
  - intros l' o Hl'. rewrite Hh.
    destruct (decide (l = l')) as [<-|Hne].
    + rewrite lookup_alter_eq, Hl'. simpl. eexists. split; [reflexivity|]. auto.
    + rewrite lookup_alter_ne by exact Hne. exists o. auto.
  - intros l' o' Hn Hl'. rewrite Hh in Hl'.
    assert (is_Some (heap s !! l')) as [o Ho].
    { eapply is_Some_alter. eauto. }
    congruence.
  - intros l' o T Hl' Hty _ _. unfold typed_values, get_many.
    rewrite Hget. apply filter_ext. intros v. apply Hisa.
  - intros l' o Hl' Hty Harr. rewrite Hget. exact Harr.
Qed.

(** ** What a frame keeps *)

Section Frame.

Context {K : list string} {W : string -> string -> bool} {s s' : state}.
Hypothesis F : frame K W s s'.

Lemma frame_type_of (l : loc) :
  is_Some (heap s !! l) -> type_of (heap s') l = type_of (heap s) l.
Proof.
  intros [o Hl]. destruct (frame_kept _ _ _ _ F l o Hl) as (o' & Hl' & Hty & _).
  unfold type_of. rewrite Hl, Hl'. simpl. congruence.
Qed.

Lemma frame_typed (l : loc) (type : string) :
  type_of (heap s) l = Some type -> type_of (heap s') l = Some type.
Proof.
  intros Hty. rewrite frame_type_of; [exact Hty|].
  apply (type_of_is_Some _ _ _ Hty).
Qed.

Lemma frame_is_a (l : loc) (T : string) :
  is_Some (heap s !! l) -> is_a (heap s') l T = is_a (heap s) l T.
Proof.
  intros [o Hl]. destruct (frame_kept _ _ _ _ F l o Hl) as (o' & Hl' & Hty & _).
  unfold is_a. rewrite Hl, Hl', Hty. reflexivity.
Qed.

Lemma frame_get (l : loc) (type k : string) :
  type_of (heap s) l = Some type -> W type k = false ->
  get (heap s') l k = get (heap s) l k.
Proof.
  intros Hty HW. destruct (type_of_lookup _ _ _ Hty) as (o & Hl & <-).
  destruct (frame_kept _ _ _ _ F l o Hl) as (o' & Hl' & _ & Hat).
  unfold get. rewrite Hl, Hl', (Hat k HW). reflexivity.
Qed.

Lemma frame_get_many (l : loc) (type k : string) :
  type_of (heap s) l = Some type -> W type k = false ->
  get_many (heap s') l k = get_many (heap s) l k.
Proof. intros Hty HW. unfold get_many. rewrite (frame_get l type k Hty HW). reflexivity. Qed.

Lemma frame_findExtension (ee : loc) (T : string) :
  type_of (heap s) ee = Some "bpmn:ExtensionElements" ->
  T ∉ K -> T <> "bpmn:Event" ->
  findExtension (heap s') ee T = findExtension (heap s) ee T.
Proof.
  intros Hty HT HE.
  rewrite !findExtension_container by (try apply frame_typed; exact Hty).
  destruct (type_of_lookup _ _ _ Hty) as (o & Hl & Ho).
  rewrite (frame_values _ _ _ _ F ee o T Hl Ho HT HE). reflexivity.
Qed.

Lemma frame_unique_node (ee : loc) (T : string) :
  type_of (heap s) ee = Some "bpmn:ExtensionElements" ->
  T ∉ K -> T <> "bpmn:Event" ->
  unique_node (heap s) ee T -> unique_node (heap s') ee T.
Proof.
  intros Hty HT HE. unfold unique_node.
  destruct (type_of_lookup _ _ _ Hty) as (o & Hl & Ho).
  rewrite (frame_values _ _ _ _ F ee o T Hl Ho HT HE). auto.
Qed.

End Frame.

(** ** What the settled parts of a document read *)

Lemma findExtension_some (h : gmap loc obj) (ee : loc) (T : string) (node : loc) :
  T <> "bpmn:Event" ->
  findExtension h ee T = Some node -> type_of h node = Some T.
Proof.
  intros HT. unfold findExtension.
  destruct (if is_a h ee "bpmn:ExtensionElements" then _ else _); try discriminate.
  intros Hfind. apply find_some in Hfind as [_ Hisa].
  apply is_a_node; assumption.
Qed.

Lemma findExtension_elem_of (h : gmap loc obj) (ee : loc) (T : string) (node : loc) :
  type_of h ee = Some "bpmn:ExtensionElements" ->
  findExtension h ee T = Some node -> node ∈ get_many h ee "values".
Proof.
  intros Hty. unfold findExtension. rewrite (is_a_type_of h ee _ _ Hty). simpl.
  intros Hfind. apply find_some in Hfind as [Hin _].
  apply list_elem_of_In, Hin.
Qed.

Lemma getPropertyValue_agree (h h' : gmap loc obj) (node : loc) (p : property) :
  (forall k, get h' node k = get h node k) ->
  getPropertyValue h' (Some (Moddle node)) p = getPropertyValue h (Some (Moddle node)) p.
Proof.
  intros Hget. unfold getPropertyValue. simpl.
  repeat (destruct (_ : bool); [apply Hget|]). reflexivity.
Qed.

Lemma shouldKeepValue_agree (h h' : gmap loc obj) (node : loc)
    (old : option property) (p : property) :
  (forall k, get h' node k = get h node k) ->
  shouldKeepValue h' (Some (Moddle node)) old p
  = shouldKeepValue h (Some (Moddle node)) old p.
Proof.
  intros Hget. unfold shouldKeepValue, propertyChanged.
  rewrite (getPropertyValue_agree h h' node p Hget).
  destruct old as [o|]; [rewrite (getPropertyValue_agree h h' node o Hget)|];
    reflexivity.
Qed.

Lemma keeps_agree (h h' : gmap loc obj) (node : loc) (old : option property)
    (p : property) :
  (forall k, get h' node k = get h node k) ->
  keeps h' old p node = keeps h old p node.
Proof. intros Hget. unfold keeps. rewrite (shouldKeepValue_agree h h' node old p Hget). reflexivity. Qed.

Lemma value_settled_agree (h h' : gmap loc obj) (node : loc)
    (old : option property) (p : property) (slot : string) :
  (forall k, get h' node k = get h node k) ->
  value_settled h old p node slot -> value_settled h' old p node slot.
Proof.
  intros Hget. unfold value_settled.
  rewrite (keeps_agree h h' node old p Hget), Hget. auto.
Qed.

Lemma live_or_kept_agree (h h' : gmap loc obj) (p : property) (e : loc) :
  (forall k, get h' e k = get h e k) ->
  live_or_kept h' p e = live_or_kept h p e.
Proof. intros Hget. unfold live_or_kept. rewrite (keeps_agree h h' e _ p Hget). reflexivity. Qed.

Lemma keyed_settled_agree (h h' : gmap loc obj) (properties : list property)
    (entries : list loc) (key_attr slot : string) (key : property -> option string)
    (live live' : property -> loc -> bool) (creates : property -> bool) :
  (forall e k, e ∈ entries -> get h' e k = get h e k) ->
  (forall p e, e ∈ entries -> live' p e = live p e) ->
  keyed_settled h properties entries key_attr slot key live creates ->
  keyed_settled h' properties entries key_attr slot key live' creates.
Proof.
  intros Hget Hlive (Hnd & Hinj & Hent & Hcr).
  split; [exact Hnd|]. split; [|split].
  - intros e e' He He'. rewrite !Hget by assumption. apply Hinj; assumption.
  - intros e He. destruct (Hent e He) as (p & Hp & Hk & Hl & Hv).
    exists p. split; [exact Hp|]. rewrite Hget by exact He.
    split; [exact Hk|]. split; [rewrite Hlive by exact He; exact Hl|].
    apply (value_settled_agree h h'); [intros k; apply Hget, He | exact Hv].
  - intros p Hp Hno. apply (Hcr p Hp). intros e He.
    rewrite <- Hget by exact He. apply Hno, He.
Qed.

Section Kept.

Context {K : list string} {W : string -> string -> bool} {s s' : state}.
Hypothesis F : frame K W s s'.

Lemma frame_node (l : loc) (type : string) :
  type_of (heap s) l = Some type -> (forall k, W type k = false) ->
  forall k, get (heap s') l k = get (heap s) l k.
Proof. intros Hty HW k. apply (frame_get F l type k Hty (HW k)). Qed.

Lemma entries_wf_frame (ee : loc) (holderType listAttr entryType : string) :
  type_of (heap s) ee = Some "bpmn:ExtensionElements" ->
  holderType ∉ K -> holderType <> "bpmn:Event" ->
  W holderType listAttr = false ->
  entries_wf (heap s) ee holderType listAttr entryType ->
  entries_wf (heap s') ee holderType listAttr entryType.
Proof.
  intros Hee HK HE HW Hwf holder Hfind.
  rewrite (frame_findExtension F) in Hfind by assumption.
  destruct (Hwf holder Hfind) as [Hnd Hty].
  pose proof (findExtension_some _ _ _ _ HE Hfind) as Hholder.
  rewrite (frame_get_many F holder holderType listAttr Hholder HW).
  split; [exact Hnd|].
  intros e He. apply (frame_typed F), Hty, He.
Qed.

Lemma singleton_settled_frame (properties : list property)
    (old : property -> option property) (T : string) (slot : property -> string)
    (ee : loc) :
  type_of (heap s) ee = Some "bpmn:ExtensionElements" ->
  T ∉ K -> T <> "bpmn:Event" -> (forall k, W T k = false) ->
  singleton_settled (heap s) properties old T slot ee ->
  singleton_settled (heap s') properties old T slot ee.
Proof.
  intros Hee HK HE HW. unfold singleton_settled.
  rewrite (frame_findExtension F) by assumption.
  destruct properties as [|p0 ps]; [auto|].
  intros (node & Hfind & Hval). exists node. split; [exact Hfind|].
  intros p Hp. apply (value_settled_agree (heap s)); [|apply Hval, Hp].
  apply (frame_node node T); [|exact HW].
  apply (findExtension_some _ _ _ _ HE Hfind).
Qed.

Lemma keyed_settled_frame (properties : list property) (entries : list loc)
    (key_attr slot entryType : string) (key : property -> option string)
    (live live' : property -> loc -> bool) (creates : property -> bool) :
  (forall e, e ∈ entries -> type_of (heap s) e = Some entryType) ->
  (forall k, W entryType k = false) ->
  (forall p e, (forall k, get (heap s') e k = get (heap s) e k) ->
     live' p e = live p e) ->
  keyed_settled (heap s) properties entries key_attr slot key live creates ->
  keyed_settled (heap s') properties entries key_attr slot key live' creates.
Proof.
  intros Hty HW Hlive. apply keyed_settled_agree.
  - intros e k He. apply (frame_node e entryType); [apply Hty, He | exact HW].
  - intros p e He. apply Hlive. apply (frame_node e entryType); [apply Hty, He | exact HW].
Qed.

Lemma headers_settled_frame (t : template) (ee : loc) :
  type_of (heap s) ee = Some "bpmn:ExtensionElements" ->
  "zeebe:TaskHeaders" ∉ K -> W "zeebe:TaskHeaders" "values" = false ->
  (forall k, W "zeebe:Header" k = false) ->
  entries_wf (heap s) ee "zeebe:TaskHeaders" "values" "zeebe:Header" ->
  headers_settled (heap s) t ee -> headers_settled (heap s') t ee.
Proof.
  intros Hee HK HW HWe Hwf. unfold headers_settled.
  rewrite (frame_findExtension F) by (try assumption; discriminate).
  destruct (header_properties t) as [|p0 ps]; [auto|].
  intros (holder & Hfind & Hkeyed). exists holder. split; [exact Hfind|].
  assert (Hholder : type_of (heap s) holder = Some "zeebe:TaskHeaders").
  { apply (findExtension_some _ _ _ _) in Hfind; [exact Hfind | discriminate]. }
  rewrite (frame_get_many F holder _ _ Hholder HW).
  apply (keyed_settled_frame _ _ _ _ "zeebe:Header" _ (fun _ _ => true));
    [apply (Hwf holder Hfind) | exact HWe | reflexivity | exact Hkeyed].
Qed.

Lemma zeebe_properties_settled_frame (t : template) (ee : loc) :
  type_of (heap s) ee = Some "bpmn:ExtensionElements" ->
  "zeebe:Properties" ∉ K -> W "zeebe:Properties" "properties" = false ->
  (forall k, W "zeebe:Property" k = false) ->
  entries_wf (heap s) ee "zeebe:Properties" "properties" "zeebe:Property" ->
  zeebe_properties_settled (heap s) t ee -> zeebe_properties_settled (heap s') t ee.
Proof.
  intros Hee HK HW HWe Hwf. unfold zeebe_properties_settled.
  rewrite (frame_findExtension F) by (try assumption; discriminate).
  destruct (zeebe_properties t) as [|p0 ps]; [auto|].
  intros (holder & Hfind & Hkeyed). exists holder. split; [exact Hfind|].
  assert (Hholder : type_of (heap s) holder = Some "zeebe:Properties").
  { apply (findExtension_some _ _ _ _) in Hfind; [exact Hfind | discriminate]. }
  rewrite (frame_get_many F holder _ _ Hholder HW).
  apply (keyed_settled_frame _ _ _ _ "zeebe:Property" _ (live_or_kept (heap s)));
    [apply (Hwf holder Hfind) | exact HWe | | exact Hkeyed].
  intros p e Hget. apply live_or_kept_agree, Hget.
Qed.

Lemma io_settled_frame (t : template) (ee : loc) :
  type_of (heap s) ee = Some "bpmn:ExtensionElements" ->
  "zeebe:IoMapping" ∉ K ->
  W "zeebe:IoMapping" "inputParameters" = false ->
  W "zeebe:IoMapping" "outputParameters" = false ->
  (forall k, W "zeebe:Input" k = false) ->
  (forall k, W "zeebe:Output" k = false) ->
  entries_wf (heap s) ee "zeebe:IoMapping" "inputParameters" "zeebe:Input" ->
  entries_wf (heap s) ee "zeebe:IoMapping" "outputParameters" "zeebe:Output" ->
  io_settled (heap s) t ee -> io_settled (heap s') t ee.
Proof.
  intros Hee HK HWi HWo HWin HWout Hwfi Hwfo. unfold io_settled.
  rewrite (frame_findExtension F) by (try assumption; discriminate).
  destruct (io_properties t) as [|p0 ps]; [auto|].
  intros (holder & Hfind & Hin & Hintype & Hout & Houttype).
  exists holder. split; [exact Hfind|].
  assert (Hholder : type_of (heap s) holder = Some "zeebe:IoMapping").
  { apply (findExtension_some _ _ _ _) in Hfind; [exact Hfind | discriminate]. }
  rewrite (frame_get_many F holder _ _ Hholder HWi).
  rewrite (frame_get_many F holder _ _ Hholder HWo).
  destruct (Hwfi holder Hfind) as [_ Htyi].
  destruct (Hwfo holder Hfind) as [_ Htyo].
  split; [|split; [|split]].
  - apply (keyed_settled_frame _ _ _ _ "zeebe:Input" _ (live_or_kept (heap s)));
      [exact Htyi | exact HWin | | exact Hin].
    intros p e Hget. apply live_or_kept_agree, Hget.
  - intros e He. rewrite (frame_is_a F); [apply Hintype, He|].
    apply (type_of_is_Some _ _ _ (Htyi e He)).
  - apply (keyed_settled_frame _ _ _ _ "zeebe:Output" _ (live_or_kept (heap s)));
      [exact Htyo | exact HWout | | exact Hout].
    intros p e Hget. apply live_or_kept_agree, Hget.
  - intros e He. rewrite (frame_is_a F); [apply Houttype, He|].
    apply (type_of_is_Some _ _ _ (Htyo e He)).
Qed.

Lemma stamped_frame (t : template) (bo : loc) (type : string) :
  type_of (heap s) bo = Some type ->
  (forall k, k ∈ stamp_names -> W type k = false) ->
  stamped t (heap s) bo -> stamped t (heap s') bo.
Proof.
  intros Hty HW (H1 & H2 & H3). unfold stamped.
  rewrite !(frame_get F bo type) by (try exact Hty; apply HW; compute_done).
  auto.
Qed.

Lemma referrer_frame (bo : loc) (type : string) :
  type_of (heap s) bo = Some type ->
  W type "eventDefinitions" = false ->
  referrer (heap s') bo = referrer (heap s) bo.
Proof.
  intros Hty HW. unfold referrer.
  rewrite (frame_is_a F) by (apply (type_of_is_Some _ _ _ Hty)).
  rewrite (frame_get_many F bo type _ Hty HW). reflexivity.
Qed.

Lemma getMessage_referrer (h : gmap loc obj) (element : eref) :
  _getMessage h element
  = match referrer h (bo_of element) with
    | Some r => get h r "messageRef"
    | None => undefined
    end.
Proof. reflexivity. Qed.

Lemma message_wf_frame (element : eref) (type : string) :
  type_of (heap s) (bo_of element) = Some type ->
  W type "eventDefinitions" = false ->
  (forall ty, external ty = true -> W ty "messageRef" = false) ->
  W "bpmn:Message" "extensionElements" = false ->
  message_wf (heap s) element -> message_wf (heap s') element.
Proof.
  intros Hty HWe HWm HWx (Href & Hmsg). unfold message_wf.
  rewrite getMessage_referrer, (referrer_frame _ _ Hty HWe).
  split.
  - intros r Hr. destruct (Href r Hr) as (o & Hl & Hext).
    destruct (frame_kept _ _ _ _ F r o Hl) as (o' & Hl' & Hty' & _).
    exists o'. split; [exact Hl'|]. rewrite Hty'. exact Hext.
  - intros m Hm.
    destruct (referrer (heap s) (bo_of element)) as [r|] eqn:Hr; [|discriminate].
    destruct (Href r eq_refl) as (o & Hl & Hext).
    rewrite (frame_get F r (otype o)) in Hm;
      [|unfold type_of; rewrite Hl; reflexivity | apply HWm, Hext].
    assert (Hm0 : _getMessage (heap s) element = VRef m).
    { rewrite getMessage_referrer, Hr. exact Hm. }
    destruct (Hmsg m Hm0) as [Htm Hmee].
    split; [apply (frame_typed F), Htm|].
    intros mee Hx. rewrite (frame_get F m _ _ Htm HWx) in Hx.
    apply (frame_typed F), Hmee, Hx.
Qed.

End Kept.

(** ** Object literals *)

(** The object literal [fold_left] builds with [assign]: one entry for
    each property that is not kept. *)
Lemma assign_keys (properties : props) (name : string) (value : jsval) (k : string) :
  k ∈ (assign properties name value).*1 <-> k ∈ properties.*1 \/ k = name.
Proof.
  induction properties as [|[k0 v0] ps IH]; simpl.
  - rewrite list_elem_of_singleton. split; [auto|]. intros [H|H]; [|exact H].
    apply elem_of_nil in H. contradiction.
  - case_bool_decide as Hk; simpl.
    + subst k0. rewrite elem_of_cons. tauto.
    + rewrite !elem_of_cons, IH. tauto.
Qed.

Lemma attrs_set_props_unset (properties : props) (o : obj) (k : string) :
  (forall kv, kv ∈ properties -> kv.2 = undefined) ->
  k ∈ properties.*1 -> attrs (set_props properties o) !! k = None.
Proof.
  revert o. induction properties as [|[k0 v0] ps IH]; intros o Hall Hin.
  - apply elem_of_nil in Hin. contradiction.
  - change (set_props ((k0, v0) :: ps) o) with (set_props ps (set_attr k0 v0 o)).
    destruct (decide (k ∈ ps.*1)) as [Hps|Hps].
    + apply IH; [|exact Hps]. intros kv Hkv. apply Hall. right. exact Hkv.
    + simpl in Hin. apply elem_of_cons in Hin as [->|Hin]; [|contradiction].
      rewrite attrs_set_props_other by exact Hps.
      assert (v0 = undefined) as -> by (apply (Hall (k0, v0)); left).
      unfold set_attr, isUndefined. simpl. apply lookup_delete_eq.
Qed.

Lemma unset_payload (properties : list property) (key : property -> string) :
  let payload :=
    fold_left (fun acc p => assign acc (key p) undefined) properties [] in
  (forall kv, kv ∈ payload -> kv.2 = undefined) /\
  (forall k, k ∈ payload.*1 <-> k ∈ map key properties).
Proof.
  cbv zeta.
  enough (G : forall todo acc,
            (forall kv, kv ∈ acc -> kv.2 = undefined) ->
            let payload := fold_left (fun acc p => assign acc (key p) undefined) todo acc in
            (forall kv, kv ∈ payload -> kv.2 = undefined) /\
            (forall k, k ∈ payload.*1 <-> k ∈ acc.*1 \/ k ∈ map key todo)).
  { destruct (G properties []) as [G1 G2].
    - intros kv Hkv. apply elem_of_nil in Hkv. contradiction.
    - split; [exact G1|]. intros k. rewrite G2. simpl. rewrite elem_of_nil. tauto. }
  induction todo as [|p todo IH]; intros acc Hacc; simpl.
  - split; [exact Hacc|]. intros k. rewrite elem_of_nil. tauto.
  - destruct (IH (assign acc (key p) undefined)) as [G1 G2].
    + intros [k v] Hkv. apply assign_elem_of in Hkv as [Hkv|Hkv].
      * apply (Hacc _ Hkv).
      * injection Hkv as _ ->. reflexivity.
    + split; [exact G1|]. intros k. rewrite G2, assign_keys, elem_of_cons. tauto.
Qed.


(** ** Values a first application keeps *)

(** A value the policy keeps when there is no old template is one it
    keeps against the template itself, or it is the default of the
    template. *)
Lemma fresh_kept_settled (h : gmap loc obj) (node : loc) (p : property)
    (slot : string) :
  getPropertyValue h (Some (Moddle node)) p = get h node slot ->
  keeps h None p node = true ->
  value_settled h (Some p) p node slot /\
  (truthy_prim (getDefaultValue p) = false -> keeps h (Some p) p node = true).
Proof.
  intros Hslot. unfold value_settled, keeps, shouldKeepValue, propertyChanged.
  destruct (bool_decide (p_type p = "Hidden")); [discriminate|].
  destruct (bool_decide (p_type p = "Dropdown")); [auto|].
  rewrite Hslot. unfold getDefaultValue, strict_eq. simpl.
  intros Htruthy. case_bool_decide as Heq; simpl.
  - split; [right; exact Heq|].
    intros Hfalsy. rewrite Heq in Htruthy. simpl in Htruthy. congruence.
  - split; [left|]; reflexivity.
Qed.

(** A value the policy keeps, whatever the old property it was decided
    against, is one it keeps against the template itself, or it is the
    default of the template: the decision was taken on a store [h0] in
    which the property read the value it has now. *)
Lemma kept_settled (h h0 : gmap loc obj) (node : loc) (element0 : option eref)
    (old : option property) (p : property) (slot : string) :
  getPropertyValue h (Some (Moddle node)) p = get h node slot ->
  getPropertyValue h0 element0 p = get h node slot ->
  truthy_prim (shouldKeepValue h0 element0 old p) = true ->
  value_settled h (Some p) p node slot.
Proof.
  intros Hslot Hslot0. unfold value_settled, keeps, shouldKeepValue, propertyChanged.
  destruct (bool_decide (p_type p = "Hidden")); [discriminate|].
  destruct (bool_decide (p_type p = "Dropdown")).
  { rewrite Hslot, Hslot0. auto. }
  intros _. rewrite Hslot. unfold getDefaultValue, strict_eq. simpl.
  case_bool_decide as Heq; [right; exact Heq | left; reflexivity].
Qed.

(** A value kept against an old property is kept against the template
    itself when the default is empty and the old property had the same
    default. *)
Lemma kept_live (h : gmap loc obj) (e : loc) (old : option property) (p : property) :
  (forall q, old = Some q ->
     getPropertyValue h (Some (Moddle e)) q = getPropertyValue h (Some (Moddle e)) p /\
     p_value q = p_value p) ->
  truthy_prim (getDefaultValue p) = false ->
  keeps h old p e = true -> keeps h (Some p) p e = true.
Proof.
  intros Hold Hempty. unfold keeps, shouldKeepValue, propertyChanged.
  destruct (bool_decide (p_type p = "Hidden")); [discriminate|].
  destruct (bool_decide (p_type p = "Dropdown")); [auto|].
  destruct old as [q|]; simpl.
  - destruct (Hold q eq_refl) as [-> ->]. auto.
  - unfold strict_eq. intros Htruthy. case_bool_decide as Heq; [|reflexivity].
    rewrite Heq in Htruthy. unfold getDefaultValue in Hempty. simpl in Htruthy.
    congruence.
Qed.

Lemma get_set_props_in (properties : props) (o : obj) (k : string) (v : jsval) :
  NoDup properties.*1 -> (k, v) ∈ properties ->
  default undefined (attrs (set_props properties o) !! k) = v.
Proof.
  revert o. induction properties as [|[k0 v0] ps IH]; intros o Hnd Hin.
  - apply elem_of_nil in Hin. contradiction.
  - simpl in Hnd. apply NoDup_cons in Hnd as [Hk0 Hnd].
    apply elem_of_cons in Hin as [Heq|Hin].
    + injection Heq as -> ->.
      change (set_props ((k0, v0) :: ps) o) with (set_props ps (set_attr k0 v0 o)).
      rewrite attrs_set_props_other by exact Hk0.
      unfold set_attr, isUndefined. simpl. case_bool_decide as Hu.
      * rewrite lookup_delete_eq. simpl. congruence.
      * rewrite lookup_insert_eq. reflexivity.
    + apply (IH (set_attr k0 v0 o) Hnd Hin).
Qed.

Lemma get_alter_set_props_in (h : gmap loc obj) (l : loc) (properties : props)
    (k : string) (v : jsval) :
  is_Some (h !! l) -> NoDup properties.*1 -> (k, v) ∈ properties ->
  get (alter (set_props properties) l h) l k = v.
Proof.
  intros [o Hl] Hnd Hin. unfold get. rewrite lookup_alter_eq, Hl.
  apply get_set_props_in; assumption.
Qed.

Lemma get_alter_set_props_notin (h : gmap loc obj) (l l' : loc) (properties : props)
    (k : string) :
  k ∉ properties.*1 ->
  get (alter (set_props properties) l h) l' k = get h l' k.
Proof.
  intros Hk. unfold get. destruct (decide (l = l')) as [<-|Hne].
  - rewrite lookup_alter_eq. destruct (h !! l) as [o|]; simpl; [|reflexivity].
    rewrite attrs_set_props_other by exact Hk. reflexivity.
  - rewrite lookup_alter_ne by exact Hne. reflexivity.
Qed.

Lemma external_not_container (type : string) :
  external type = true -> type <> "bpmn:ExtensionElements".
Proof. intros He ->. vm_compute in He. discriminate. Qed.

Lemma external_node (type : string) :
  type ∈ node_types -> external type = false.
Proof. intros Hin. unfold external. rewrite bool_decide_eq_true_2 by exact Hin. reflexivity. Qed.

Lemma W_names_node (names : list string) (type k : string) :
  type ∈ node_types -> W_names names type k = false.
Proof. intros Hin. unfold W_names. rewrite (external_node _ Hin). reflexivity. Qed.

Lemma W_names_other (names : list string) (type k : string) :
  k ∉ names -> W_names names type k = false.
Proof.
  intros Hk. unfold W_names. rewrite (bool_decide_eq_false_2 _ Hk).
  apply andb_false_r.
Qed.

Lemma singleton_not_event (T : string) :
  T ∈ singleton_types -> T <> "bpmn:Event".
Proof.
  intros Hin ->. unfold singleton_types in Hin.
  repeat (apply elem_of_cons in Hin as [Hin|Hin]; [discriminate|]).
  apply elem_of_nil in Hin. contradiction.
Qed.

(** ** The stamps *)

(** A reconciler that writes only attributes of the business object, none
    of them one the handler navigates by, leaves the document well-formed. *)
Lemma wf_document_names (names : list string) (element : eref) (s s' : state) :
  frame [] (W_names names) s s' ->
  "extensionElements" ∉ names -> "eventDefinitions" ∉ names ->
  "messageRef" ∉ names ->
  wf_document element s -> wf_document element s'.
Proof.
  intros F Hx He Hm (Hn & Hb & (o & Hbo & Hext) & Hcont & Hmsg).
  assert (Hty : type_of (heap s) (bo_of element) = Some (otype o)).
  { unfold type_of. rewrite Hbo. reflexivity. }
  split; [apply (frame_normal _ _ _ _ F), Hn|].
  split; [apply (frame_bounded _ _ _ _ F), Hb|].
  split; [|split].
  - destruct (frame_kept _ _ _ _ F _ o Hbo) as (o' & Hbo' & Hty' & _).
    exists o'. split; [exact Hbo'|]. rewrite Hty'. exact Hext.
  - intros ee Hee.
    rewrite (frame_get F _ _ _ Hty (W_names_other _ _ _ Hx)) in Hee.
    destruct (Hcont ee Hee) as (Htee & Huniq & Hi & Ho & Hh & Hp).
    split; [apply (frame_typed F), Htee|].
    split; [|split; [|split; [|split]]].
    + intros T HT. apply (frame_unique_node F); [exact Htee | apply not_elem_of_nil | |].
      * apply singleton_not_event, HT.
      * apply Huniq, HT.
    + apply (entries_wf_frame F); [exact Htee | apply not_elem_of_nil | discriminate | | exact Hi].
      apply W_names_node. compute_done.
    + apply (entries_wf_frame F); [exact Htee | apply not_elem_of_nil | discriminate | | exact Ho].
      apply W_names_node. compute_done.
    + apply (entries_wf_frame F); [exact Htee | apply not_elem_of_nil | discriminate | | exact Hh].
      apply W_names_node. compute_done.
    + apply (entries_wf_frame F); [exact Htee | apply not_elem_of_nil | discriminate | | exact Hp].
      apply W_names_node. compute_done.
  - apply (message_wf_frame F element (otype o) Hty).
    + apply W_names_other, He.
    + intros ty _. apply W_names_other, Hm.
    + apply W_names_node. compute_done.
    + exact Hmsg.
Qed.

Lemma stamps_first (t : template) (element : eref) (s : state) :
  wf_document element s ->
  runs (_updateZeebeModelerTemplate element (Some t) >>
        _updateZeebeModelerTemplateIcon element (Some t)) s
    (fun _ s' => wf_document element s' /\ stamped t (heap s') (bo_of element)).
Proof.
  intros Hwf.
  pose proof Hwf as (_ & _ & (o & Hbo & Hext) & _).
  assert (Hperm : forall (s1 : state) (properties : props),
             (forall k, k ∈ properties.*1 -> k ∈ stamp_names) ->
             (exists o1, heap s1 !! bo_of element = Some o1 /\ external (otype o1) = true) ->
             forall s2, heap s2 = alter (set_props properties) (bo_of element) (heap s1) ->
                        next s2 = next s1 ->
                        frame [] (W_names stamp_names) s1 s2).
  { intros s1 properties Hsub (o1 & Ho1 & Hx1) s2 Hh2 Hn2.
    apply (frame_write _ _ _ _ _ _ Hh2 Hn2). intros o2 Ho2.
    assert (o2 = o1) as -> by congruence.
    split; [apply external_not_container, Hx1|].
    intros k Hk. unfold W_names. rewrite Hx1. simpl.
    apply bool_decide_eq_true_2, Hsub, Hk. }
  apply runs_bind. apply runs_execute. intros s1 Hh1 Hn1.
  apply runs_execute. intros s2 Hh2 Hn2. simpl in Hh1, Hh2.
  assert (F1 : frame [] (W_names stamp_names) s s1).
  { eapply Hperm; [|eauto|exact Hh1|exact Hn1].
    intros k Hk. simpl in Hk. revert Hk. unfold stamp_names.
    rewrite !elem_of_cons, !elem_of_nil. tauto. }
  assert (Hwf1 : wf_document element s1).
  { apply (wf_document_names stamp_names element s s1 F1); try compute_done. exact Hwf. }
  pose proof Hwf1 as (_ & _ & Hbo1 & _).
  assert (F2 : frame [] (W_names stamp_names) s1 s2).
  { eapply Hperm; [|exact Hbo1|exact Hh2|exact Hn2].
    intros k Hk. simpl in Hk. revert Hk. unfold stamp_names.
    rewrite !elem_of_cons, !elem_of_nil. tauto. }
  split.
  { apply (wf_document_names stamp_names element s1 s2 F2); try compute_done. exact Hwf1. }
  destruct Hbo1 as (o1 & Ho1 & _).
  unfold stamped. rewrite Hh2.
  rewrite !(get_alter_set_props_notin _ _ _ [("zeebe:modelerTemplateIcon", _)])
    by compute_done.
  rewrite Hh1.
  split; [|split].
  - apply get_alter_set_props_in; [eauto | compute_done | set_solver].
  - apply get_alter_set_props_in; [eauto | compute_done | set_solver].
  - rewrite <- Hh1. apply get_alter_set_props_in; [eauto | compute_done |].
    destruct (t_icon t); set_solver.
Qed.

(** ** Plain properties *)

Lemma value_settled_plain_slot (h h' : gmap loc obj) (bo : loc) (p : property) :
  b_type (p_binding p) = "property" ->
  get h' bo (key_of (b_name (p_binding p))) = get h bo (key_of (b_name (p_binding p))) ->
  value_settled h (Some p) p bo (key_of (b_name (p_binding p))) ->
  value_settled h' (Some p) p bo (key_of (b_name (p_binding p))).
Proof.
  intros Hty Hget. unfold value_settled, keeps.
  rewrite (shouldKeepValue_plain_slot h h' bo (Some p) p Hty); [| |exact Hget].
  - rewrite Hget. auto.
  - intros o Ho. injection Ho as <-. auto.
Qed.

Lemma plain_settled_stable (t : template) (bo : loc) (type : string)
    (K : list string) (W : string -> string -> bool) (s s' : state) :
  frame K W s s' ->
  type_of (heap s) bo = Some type ->
  (forall k, k ∈ plain_keys t -> W type k = false) ->
  (forall p, p ∈ plain_properties t ->
     value_settled (heap s) (Some p) p bo (key_of (b_name (p_binding p)))) ->
  forall p, p ∈ plain_properties t ->
    value_settled (heap s') (Some p) p bo (key_of (b_name (p_binding p))).
Proof.
  intros F Hty HW Hs p Hp.
  apply (value_settled_plain_slot (heap s)).
  - apply kind_of_filter in Hp. apply bool_decide_eq_true_1 in Hp. exact Hp.
  - apply (frame_get F bo type _ Hty). apply HW.
    unfold plain_keys. apply list_elem_of_In, in_map_iff. exists p.
    split; [reflexivity | apply list_elem_of_In, Hp].
  - apply Hs, Hp.
Qed.

Lemma properties_first (oldTemplate : option template) (t : template)
    (element : eref) (s : state) :
  NoDup (plain_keys t) ->
  (exists o, heap s !! bo_of element = Some o /\ external (otype o) = true) ->
  runs (_updateProperties element oldTemplate t) s
    (fun _ s' =>
       frame [] (W_names (plain_keys t ++ dropped_plain_keys oldTemplate t)) s s' /\
       forall p, p ∈ plain_properties t ->
         value_settled (heap s') (Some p) p (bo_of element)
           (key_of (b_name (p_binding p)))).
Proof.
  intros Hnd Hbo. unfold _updateProperties.
  change (old_properties oldTemplate _) with (dropped_plain oldTemplate t).
  change (List.filter _ (t_properties t)) with (plain_properties t).
  set (W := W_names (plain_keys t ++ dropped_plain_keys oldTemplate t)).
  destruct Hbo as (o & Hbo & Hext).
  apply runs_bind.
  apply (runs_mono _ _ (fun _ s0 => frame [] W s s0)).
  { destruct (dropped_plain oldTemplate t) as [|q qs] eqn:Hdropped; cbn [isEmpty negb].
    - apply runs_ret, frame_refl.
    - rewrite <- Hdropped. apply runs_execute. intros s0 Hh0 Hn0. simpl in Hh0.
      apply (frame_write _ _ _ _ _ _ Hh0 Hn0). intros o0 Ho0.
      assert (o0 = o) as -> by congruence.
      split; [apply external_not_container, Hext|].
      intros k Hk. unfold W, W_names. rewrite Hext. simpl.
      apply bool_decide_eq_true_2, elem_of_app. right. unfold dropped_plain_keys.
      apply (unset_payload (dropped_plain oldTemplate t)
               (fun q => key_of (b_name (p_binding q)))).
      exact Hk. }
  intros _ s0 F0. cbv beta.
  destruct (plain_properties t) as [|p0 ps] eqn:Hps.
  { apply runs_ret. split; [exact F0|].
    intros p Hp. apply elem_of_nil in Hp. contradiction. }
  cbn [isEmpty]. rewrite <- Hps.
  set (I := fun (done : list property) (s1 : state) =>
              frame [] W s s1 /\
              forall p, p ∈ done ->
                value_settled (heap s1) (Some p) p (bo_of element)
                  (key_of (b_name (p_binding p)))).
  apply (runs_forEach I).
  { split; [exact F0|]. intros p Hp. apply elem_of_nil in Hp. contradiction. }
  intros done p todo s1 Harr [F1 Hdone].
  assert (Hp : p ∈ plain_properties t).
  { rewrite Harr. apply elem_of_app. right. left. }
  assert (Hkind : b_type (p_binding p) = "property").
  { apply kind_of_filter in Hp. apply bool_decide_eq_true_1 in Hp. exact Hp. }
  destruct (frame_kept _ _ _ _ F1 _ o Hbo) as (o1 & Hbo1 & Hty1 & _).
  unfold _updateProperties_each. apply runs_bind, runs_gets.
  destruct (truthy_prim (shouldKeepValue (heap s1) (Some (Moddle (bo_of element)))
                           (findOldProperty oldTemplate p) p))
    eqn:Hkeep.
  - apply runs_ret. split; [exact F1|].
    intros p' Hp'. apply elem_of_app in Hp' as [Hp'|Hp']; [apply Hdone, Hp'|].
    apply list_elem_of_singleton in Hp'. subst p'.
    apply (kept_settled _ (heap s1) _ (Some (Moddle (bo_of element)))
             (findOldProperty oldTemplate p));
      [apply getPropertyValue_plain, Hkind | apply getPropertyValue_plain, Hkind
      | exact Hkeep].
  - apply runs_execute. intros s2 Hh2 Hn2. simpl in Hh2.
    assert (F2 : frame [] W s1 s2).
    { apply (frame_write _ _ _ _ _ _ Hh2 Hn2). intros o2 Ho2.
      assert (o2 = o1) as -> by congruence.
      split; [apply external_not_container; rewrite Hty1; exact Hext|].
      intros k Hk. simpl in Hk. apply list_elem_of_singleton in Hk. subst k.
      unfold W, W_names. rewrite Hty1, Hext. simpl.
      apply bool_decide_eq_true_2, elem_of_app. left. unfold plain_keys.
      apply list_elem_of_In, in_map_iff. exists p.
      split; [reflexivity | apply list_elem_of_In, Hp]. }
    split; [apply (frame_trans _ _ _ _ _ F1 F2)|].
    intros p' Hp'. apply elem_of_app in Hp' as [Hp'|Hp'].
    + assert (Hp'in : p' ∈ plain_properties t).
      { rewrite Harr. apply elem_of_app. left. exact Hp'. }
      apply (value_settled_plain_slot (heap s1)); [| |apply Hdone, Hp'].
      * apply kind_of_filter in Hp'in. apply bool_decide_eq_true_1 in Hp'in. exact Hp'in.
      * rewrite Hh2. apply get_alter_set_props_other.
        intros Heq. unfold plain_keys in Hnd. rewrite Harr, map_app in Hnd.
        apply NoDup_app in Hnd as (_ & Hdisj & _).
        apply (Hdisj (key_of (b_name (p_binding p')))).
        -- apply list_elem_of_In, in_map_iff. exists p'.
           split; [reflexivity | apply list_elem_of_In, Hp'].
        -- rewrite <- Heq. simpl. left.
    + apply list_elem_of_singleton in Hp'. subst p'. right.
      rewrite Hh2. apply get_alter_set_props_single. eauto.
Qed.

(** ** The store after a primitive step *)

Lemma get_insert_eq (h : gmap loc obj) (l : loc) (o : obj) (k : string) :
  get (<[l := o]> h) l k = default undefined (attrs o !! k).
Proof. unfold get. rewrite lookup_insert_eq. reflexivity. Qed.

Lemma get_insert_ne (h : gmap loc obj) (l l' : loc) (o : obj) (k : string) :
  l <> l' -> get (<[l := o]> h) l' k = get h l' k.
Proof. intros Hne. unfold get. rewrite lookup_insert_ne by exact Hne. reflexivity. Qed.

Lemma type_of_insert_eq (h : gmap loc obj) (l : loc) (o : obj) :
  type_of (<[l := o]> h) l = Some (otype o).
Proof. unfold type_of. rewrite lookup_insert_eq. reflexivity. Qed.

Lemma type_of_insert_ne (h : gmap loc obj) (l l' : loc) (o : obj) :
  l <> l' -> type_of (<[l := o]> h) l' = type_of h l'.
Proof. intros Hne. unfold type_of. rewrite lookup_insert_ne by exact Hne. reflexivity. Qed.

Lemma get_set_parent (h : gmap loc obj) (l parent l' : loc) (k : string) :
  get (alter (fun o => Obj (otype o) (Some parent) (attrs o)) l h) l' k = get h l' k.
Proof.
  unfold get. destruct (decide (l = l')) as [<-|Hne].
  - rewrite lookup_alter_eq. destruct (h !! l); reflexivity.
  - rewrite lookup_alter_ne by exact Hne. reflexivity.
Qed.

Lemma type_of_set_parent (h : gmap loc obj) (l parent l' : loc) :
  type_of (alter (fun o => Obj (otype o) (Some parent) (attrs o)) l h) l' = type_of h l'.
Proof.
  unfold type_of. destruct (decide (l = l')) as [<-|Hne].
  - rewrite lookup_alter_eq. destruct (h !! l); reflexivity.
  - rewrite lookup_alter_ne by exact Hne. reflexivity.
Qed.

Lemma type_of_alter_set_props (h : gmap loc obj) (properties : props) (l l' : loc) :
  type_of (alter (set_props properties) l h) l' = type_of h l'.
Proof. apply otype_alter_set_props. Qed.

Lemma is_a_same_type (h h' : gmap loc obj) (l : loc) (T : string) :
  type_of h' l = type_of h l -> is_a h' l T = is_a h l T.
Proof.
  unfold type_of, is_a. destruct (h' !! l), (h !! l); simpl; intros E;
    try discriminate; [injection E as ->|]; reflexivity.
Qed.

Lemma bounded_fresh (s : state) : bounded s -> heap s !! next s = None.
Proof.
  intros Hb. destruct (heap s !! next s) eqn:E; [|reflexivity].
  assert (next s < next s)%nat by (apply Hb; eauto). lia.
Qed.

Lemma typed_bounded (s : state) (l : loc) (type : string) :
  bounded s -> type_of (heap s) l = Some type -> l <> next s.
Proof.
  intros Hb Hty ->. apply type_of_is_Some in Hty.
  pose proof (Hb _ Hty). lia.
Qed.

Lemma get_many_elem_array (h : gmap loc obj) (l : loc) (k : string) (x : loc) :
  x ∈ get_many h l k -> exists values, get h l k = VArr values.
Proof.
  unfold get_many. destruct (get h l k) as [p|r|vs]; intros Hin;
    try (apply elem_of_nil in Hin; contradiction).
  eauto.
Qed.

Lemma W_nodes_own (own : list string) (type k : string) :
  type ∈ own -> W_nodes own type k = true.
Proof. intros Hin. unfold W_nodes. rewrite bool_decide_eq_true_2 by exact Hin. reflexivity. Qed.

Lemma W_nodes_values (own : list string) :
  W_nodes own "bpmn:ExtensionElements" "values" = true.
Proof. unfold W_nodes. simpl. apply orb_true_r. Qed.

Lemma W_nodes_external (own : list string) (type k : string) :
  (forall T, T ∈ own -> T ∈ node_types) ->
  external type = true -> W_nodes own type k = false.
Proof.
  intros Hown Hext. unfold W_nodes.
  rewrite bool_decide_eq_false_2.
  - rewrite bool_decide_eq_false_2; [reflexivity|].
    apply external_not_container, Hext.
  - intros Hin. rewrite (external_node _ (Hown _ Hin)) in Hext. discriminate.
Qed.

Lemma W_extension_nodes (own : list string) (type k : string) :
  W_nodes own type k = true -> W_extension own type k = true.
Proof. intros HW. unfold W_extension. rewrite HW. reflexivity. Qed.

Lemma W_extension_values (own : list string) :
  W_extension own "bpmn:ExtensionElements" "values" = true.
Proof. apply W_extension_nodes, W_nodes_values. Qed.

Lemma W_extension_link (own : list string) (type : string) :
  external type = true -> W_extension own type "extensionElements" = true.
Proof. intros He. unfold W_extension. rewrite He. simpl. apply orb_true_r. Qed.

Lemma frame_nodes_extension (own : list string) (s s' : state) :
  frame (K_extension own) (W_nodes own) s s' ->
  frame (K_extension own) (W_extension own) s s'.
Proof. apply frame_weaken; [auto | apply W_extension_nodes]. Qed.

(** ** The extension container *)

Lemma getOrCreateExtensionElements_first (K : list string)
    (W : string -> string -> bool) (element : eref) (bo : loc) (type : string)
    (s : state) :
  bounded s ->
  type_of (heap s) bo = Some type -> type <> "bpmn:ExtensionElements" ->
  W type "extensionElements" = true -> "bpmn:ExtensionElements" ∈ K ->
  runs (_getOrCreateExtensionElements element bo) s
    (fun ee s' =>
       frame K W s s' /\
       get (heap s') bo "extensionElements" = VRef ee /\
       ((s' = s /\ get (heap s) bo "extensionElements" = VRef ee) \/
        (heap s !! ee = None /\
         type_of (heap s') ee = Some "bpmn:ExtensionElements" /\
         get (heap s') ee "values" = VArr []))).
Proof.
  intros Hb Hty Hnc HW HK. unfold _getOrCreateExtensionElements.
  apply runs_bind, runs_gets.
  destruct (truthy (get (heap s) bo "extensionElements")) eqn:Htruthy; simpl.
  - apply runs_as_object. intros ee Hee.
    split; [apply frame_refl|]. split; [exact Hee|]. left. auto.
  - apply runs_bind, runs_create. intros s1 Hh1 Hn1.
    apply runs_bind, runs_set_parent. intros s2 Hh2 Hn2.
    apply runs_bind. unfold updateModdleProperties.
    apply runs_execute. intros s3 Hh3 Hn3. simpl in Hh3.
    apply runs_ret.
    pose proof (typed_bounded s bo type Hb Hty) as Hne.
    assert (F1 : frame K W s s1) by (apply (frame_create K W s s1 _ _ Hh1 Hn1 Hb HK)).
    assert (F2 : frame K W s1 s2) by (apply (frame_set_parent K W s1 s2 _ _ Hh2 Hn2)).
    assert (Hty2 : type_of (heap s2) bo = Some type).
    { apply (frame_typed F2), (frame_typed F1), Hty. }
    assert (F3 : frame K W s2 s3).
    { apply (frame_write K W s2 s3 _ _ Hh3 Hn3). intros o Ho.
      assert (otype o = type) as ->.
      { unfold type_of in Hty2. rewrite Ho in Hty2. simpl in Hty2. congruence. }
      split; [exact Hnc|]. intros k Hk. simpl in Hk.
      apply list_elem_of_singleton in Hk. subst k. exact HW. }
    split; [apply (frame_trans _ _ _ _ _ F1), (frame_trans _ _ _ _ _ F2), F3|].
    split.
    { rewrite Hh3. apply get_alter_set_props_single.
      apply (type_of_is_Some _ _ _ Hty2). }
    right. split; [apply bounded_fresh, Hb|]. split.
    + apply (frame_typed F3), (frame_typed F2). rewrite Hh1, type_of_insert_eq.
      rewrite otype_set_props. reflexivity.
    + rewrite Hh3, get_alter_ne by exact Hne.
      rewrite Hh2, get_set_parent, Hh1, get_insert_eq.
      apply get_set_props_in; [compute_done | left].
Qed.

Lemma getOrCreateExtensionElements_same (element : eref) (bo : loc) (s : state) :
  runs (_getOrCreateExtensionElements element bo) s
    (fun ee _ => forall ee0, get (heap s) bo "extensionElements" = VRef ee0 -> ee0 = ee).
Proof.
  unfold _getOrCreateExtensionElements. apply runs_bind, runs_gets.
  destruct (truthy (get (heap s) bo "extensionElements")) eqn:Htruthy; simpl.
  - apply runs_as_object. intros ee Hee ee0 Hee0. congruence.
  - intros ee s' _ ee0 Hee0. rewrite Hee0 in Htruthy. discriminate.
Qed.

(** ** Singleton nodes *)

Lemma typed_values_alter (h : gmap loc obj) (properties : props) (l ee : loc)
    (T : string) :
  l <> ee ->
  typed_values (alter (set_props properties) l h) ee T = typed_values h ee T.
Proof.
  intros Hne. unfold typed_values. rewrite get_many_alter_ne by exact Hne.
  apply filter_ext. intros v. apply is_a_alter_set_props.
Qed.

Lemma head_filter_none {A} (f : A -> bool) (l : list A) (x : A) :
  head (List.filter f l) = None -> x ∈ l -> f x = false.
Proof.
  rewrite <- find_head_filter. intros Hnone Hin.
  apply (find_none f l Hnone). apply list_elem_of_In, Hin.
Qed.

Lemma find_app_new {A} (f : A -> bool) (l : list A) (x : A) :
  (forall y, y ∈ l -> f y = true -> y = x) -> f x = true ->
  List.find f (l ++ [x]) = Some x.
Proof.
  intros Hall Hx. induction l as [|y ys IH]; simpl.
  - rewrite Hx. reflexivity.
  - destruct (f y) eqn:Hy.
    + f_equal. apply Hall; [left | exact Hy].
    + apply IH. intros z Hz. apply Hall. right. exact Hz.
Qed.

Lemma filter_app_foreign {A} (f : A -> bool) (l : list A) (x : A) :
  f x = false -> List.filter f (l ++ [x]) = List.filter f l.
Proof. intros Hx. rewrite List.filter_app. simpl. rewrite Hx. apply app_nil_r. Qed.

Lemma filter_without_foreign (f : loc -> bool) (l : list loc) (x : loc) :
  f x = false -> List.filter f (without l (Some x)) = List.filter f l.
Proof.
  intros Hx. unfold without. induction l as [|y ys IH]; [reflexivity|].
  rewrite filter_cons. destruct (decide (Some y <> Some x)) as [Hne|Heq]; simpl.
  - destruct (f y); [f_equal|]; exact IH.
  - assert (y = x) as ->.
    { destruct (decide (y = x)) as [E|E]; [exact E|].
      exfalso. apply Heq. intros H. injection H. exact E. }
    rewrite Hx. exact IH.
Qed.

Lemma filter_without_unique (f : loc -> bool) (l : list loc) (x : loc) :
  head (List.filter f l) = Some x -> (length (List.filter f l) <= 1)%nat ->
  List.filter f (without l (Some x)) = [].
Proof.
  intros Hhead Hlen.
  assert (Hx : List.filter f l = [x]).
  { destruct (List.filter f l) as [|y [|z zs]]; simpl in *; try discriminate; [congruence | lia]. }
  assert (Hall : forall y, y ∈ l -> f y = true -> y = x).
  { intros y Hy Hfy.
    assert (Hin : In y (List.filter f l)) by (apply filter_In; split; [apply list_elem_of_In, Hy | exact Hfy]).
    rewrite Hx in Hin. destruct Hin as [<-|[]]. reflexivity. }
  clear Hhead Hlen Hx. unfold without. induction l as [|y ys IH]; [reflexivity|].
  rewrite filter_cons. destruct (decide (Some y <> Some x)) as [Hne|Heq]; simpl.
  - destruct (f y) eqn:Hfy.
    + exfalso. apply Hne. f_equal. apply Hall; [left | exact Hfy].
    + apply IH. intros z Hz. apply Hall. right. exact Hz.
  - apply IH. intros z Hz. apply Hall. right. exact Hz.
Qed.

Lemma findExtension_agree (h h' : gmap loc obj) (ee : loc) (T : string) :
  type_of h ee = Some "bpmn:ExtensionElements" ->
  get h' ee "values" = get h ee "values" ->
  (forall x, type_of h' x = type_of h x) ->
  findExtension h' ee T = findExtension h ee T.
Proof.
  intros Hee Hget Hty.
  rewrite !findExtension_container by (try rewrite Hty; exact Hee).
  unfold typed_values, get_many. rewrite Hget. f_equal.
  apply filter_ext. intros v. apply is_a_same_type, Hty.
Qed.

(** The loop that unsets attributes of a node of the container. *)
Lemma unset_loop (element : eref) (T bo_type : string) (ee n : loc)
    (key : property -> string) (dropped : list property) (s : state) :
  T <> "bpmn:Event" -> T <> "bpmn:ExtensionElements" -> T ∈ node_types ->
  type_of (heap s) (bo_of element) = Some bo_type -> external bo_type = true ->
  type_of (heap s) ee = Some "bpmn:ExtensionElements" ->
  get (heap s) (bo_of element) "extensionElements" = VRef ee ->
  findExtension (heap s) ee T = Some n ->
  runs (forEach (fun q => execute_on element (Some n) [(key q, undefined)]) dropped) s
    (fun _ s' =>
       frame (K_extension [T]) (W_nodes [T]) s s' /\
       get (heap s') (bo_of element) "extensionElements" = VRef ee /\
       findExtension (heap s') ee T = Some n /\
       (forall k, k ∉ map key dropped -> get (heap s') n k = get (heap s) n k) /\
       (forall q, q ∈ dropped -> get (heap s') n (key q) = undefined)).
Proof.
  intros HT_event HT_container HT_node Hbo Hext Hee Hlink Hfind.
  assert (Hn : type_of (heap s) n = Some T).
  { apply (findExtension_some _ ee); assumption. }
  assert (Hne : n <> ee) by (intros ->; congruence).
  assert (Hnb : n <> bo_of element).
  { intros E. rewrite E in Hn. rewrite Hbo in Hn. injection Hn as ->.
    rewrite (external_node _ HT_node) in Hext. discriminate. }
  set (I := fun (done : list property) (s3 : state) =>
              frame (K_extension [T]) (W_nodes [T]) s s3 /\
              type_of (heap s3) n = Some T /\
              type_of (heap s3) ee = Some "bpmn:ExtensionElements" /\
              get (heap s3) (bo_of element) "extensionElements" = VRef ee /\
              findExtension (heap s3) ee T = Some n /\
              (forall k, k ∉ map key done -> get (heap s3) n k = get (heap s) n k) /\
              (forall q, q ∈ done -> get (heap s3) n (key q) = undefined)).
  apply (runs_mono _ _ (fun _ s3 => I dropped s3)).
  2:{ intros _ s3 (H0 & _ & _ & H1 & H2 & H3 & H4). auto. }
  apply (runs_forEach I).
  { split; [apply frame_refl|].
    split; [exact Hn|]. split; [exact Hee|]. split; [exact Hlink|].
    split; [exact Hfind|]. split; [auto|].
    intros q Hq. apply elem_of_nil in Hq. contradiction. }
  intros done q todo s3 Harr (F3 & Hn3 & Hee3 & Hlink3 & Hfind3 & Hsame3 & Hunset3).
  unfold execute_on. apply runs_execute. intros s4 Hh4 Hn4. simpl in Hh4.
  split.
  { apply (frame_trans _ _ _ _ _ F3).
    apply (frame_write _ _ _ _ _ _ Hh4 Hn4). intros o Ho.
    assert (otype o = T) as ->.
    { unfold type_of in Hn3. rewrite Ho in Hn3. simpl in Hn3. congruence. }
    split; [exact HT_container|]. intros k _. apply W_nodes_own. left. }
  split; [rewrite Hh4, type_of_alter_set_props; exact Hn3|].
  split; [rewrite Hh4, type_of_alter_set_props; exact Hee3|].
  split; [rewrite Hh4, get_alter_ne by exact Hnb; exact Hlink3|].
  split.
  { rewrite (findExtension_agree (heap s3)); [exact Hfind3 | exact Hee3 | |].
    - rewrite Hh4. apply get_alter_ne, Hne.
    - intros x. rewrite Hh4. apply type_of_alter_set_props. }
  split.
  - intros k Hk. rewrite map_app, elem_of_app in Hk. simpl in Hk.
    rewrite Hh4, get_alter_set_props_other; [apply Hsame3; tauto|].
    intros E. apply Hk. right. rewrite <- E. left.
  - intros q' Hq'. apply elem_of_app in Hq' as [Hq'|Hq'].
    + destruct (decide (key q = key q')) as [E|E].
      * rewrite Hh4, <- E. apply get_alter_set_props_single.
        apply (type_of_is_Some _ _ _ Hn3).
      * rewrite Hh4, get_alter_set_props_other by exact E. apply Hunset3, Hq'.
    + apply list_elem_of_singleton in Hq'. subst q'.
      rewrite Hh4. apply get_alter_set_props_single, (type_of_is_Some _ _ _ Hn3).
Qed.

Section Singleton.

Variables (T : string) (name : property -> string)
  (old : property -> option property) (kind : property -> Prop)
  (element : eref) (oldTemplate : option template).

Hypothesis HT_event : T <> "bpmn:Event".
Hypothesis HT_container : T <> "bpmn:ExtensionElements".
Hypothesis HT_node : T ∈ node_types.

Hypothesis Hsettle : forall p h n, kind p ->
  keeps h (findOldProperty oldTemplate p) p n = true ->
  value_settled h (old p) p n (name p).

Hypothesis Hstable : forall p h h' n, kind p ->
  get h' n (name p) = get h n (name p) ->
  value_settled h (old p) p n (name p) -> value_settled h' (old p) p n (name p).

Hypothesis Hdefault : forall p h n, kind p ->
  get h n (name p) = VPrim (getDefaultValue p) -> value_settled h (old p) p n (name p).

Lemma singleton_loop_first (ee : loc) (properties : list property)
    (node0 : option loc) (s : state) :
  NoDup (map name properties) ->
  (forall p, p ∈ properties -> kind p) ->
  bounded s ->
  type_of (heap s) ee = Some "bpmn:ExtensionElements" ->
  findExtension (heap s) ee T = node0 ->
  runs (forEach_with (singleton_each T name element ee oldTemplate) properties node0) s
    (fun node s' =>
       frame (K_extension [T]) (W_nodes [T]) s s' /\
       findExtension (heap s') ee T = node /\
       match node with
       | Some n => forall p, p ∈ properties ->
                     value_settled (heap s') (old p) p n (name p)
       | None => properties = []
       end).
Proof.
  intros Hnd Hkind Hb Hee Hfind0.
  set (I := fun (done : list property) (node : option loc) (s1 : state) =>
              frame (K_extension [T]) (W_nodes [T]) s s1 /\
              findExtension (heap s1) ee T = node /\
              match node with
              | Some n => forall p, p ∈ done ->
                            value_settled (heap s1) (old p) p n (name p)
              | None => done = []
              end).
  apply (runs_forEach_with I).
  { split; [apply frame_refl|]. split; [exact Hfind0|].
    destruct node0; [|reflexivity].
    intros p Hp. apply elem_of_nil in Hp. contradiction. }
  intros done p todo node s1 Harr (F1 & Hfind & Hnode).
  assert (Hp : kind p).
  { apply Hkind. rewrite Harr. apply elem_of_app. right. left. }
  assert (Hdone : forall p', p' ∈ done -> kind p').
  { intros p' Hp'. apply Hkind. rewrite Harr. apply elem_of_app. left. exact Hp'. }
  pose proof (frame_bounded _ _ _ _ F1 Hb) as Hb1.
  pose proof (frame_typed F1 _ _ Hee) as Hee1.
  unfold singleton_each.
  destruct node as [n|].
  - pose proof (findExtension_some _ _ _ _ HT_event Hfind) as Hn.
    assert (Hne : n <> ee) by (intros ->; congruence).
    apply runs_bind, runs_gets. apply runs_bind.
    destruct (truthy_prim (shouldKeepValue (heap s1) (Some (Moddle n))
                             (findOldProperty oldTemplate p) p))
      eqn:Hkeep; cbn [negb].
    + apply runs_ret, runs_ret. split; [exact F1|]. split; [exact Hfind|].
      intros p' Hp'. apply elem_of_app in Hp' as [Hp'|Hp']; [apply Hnode, Hp'|].
      apply list_elem_of_singleton in Hp'. subst p'. apply Hsettle; [exact Hp | exact Hkeep].
    + apply runs_execute. intros s2 Hh2 Hn2. simpl in Hh2. apply runs_ret.
      assert (F2 : frame (K_extension [T]) (W_nodes [T]) s1 s2).
      { apply (frame_write _ _ _ _ _ _ Hh2 Hn2). intros o Ho.
        assert (otype o = T) as ->.
        { unfold type_of in Hn. rewrite Ho in Hn. simpl in Hn. congruence. }
        split; [exact HT_container|]. intros k _.
        apply W_nodes_own. left. }
      split; [apply (frame_trans _ _ _ _ _ F1 F2)|]. split.
      { rewrite !findExtension_container in *
          by (try apply (frame_typed F2); exact Hee1).
        rewrite Hh2, typed_values_alter by exact Hne. exact Hfind. }
      intros p' Hp'. apply elem_of_app in Hp' as [Hp'|Hp'].
      * apply (Hstable p' (heap s1)); [apply Hdone, Hp'| |apply Hnode, Hp'].
        rewrite Hh2. apply get_alter_set_props_other.
        intros Heq. rewrite Harr, map_app in Hnd.
        apply NoDup_app in Hnd as (_ & Hdisj & _).
        apply (Hdisj (name p')).
        -- apply list_elem_of_In, in_map. apply list_elem_of_In, Hp'.
        -- rewrite <- Heq. simpl. left.
      * apply list_elem_of_singleton in Hp'. subst p'. apply Hdefault; [exact Hp|].
        rewrite Hh2. apply get_alter_set_props_single.
        apply (type_of_is_Some _ _ _ Hn).
  - subst done.
    apply runs_bind, runs_create. intros s2 Hh2 Hn2.
    apply runs_bind, runs_set_parent. intros s3 Hh3 Hn3.
    apply runs_bind, runs_gets. apply runs_bind.
    apply runs_execute. intros s4 Hh4 Hn4. simpl in Hh4. apply runs_ret.
    pose proof (typed_bounded s1 ee _ Hb1 Hee1) as Hne.
    assert (F2 : frame (K_extension [T]) (W_nodes [T]) s1 s2).
    { apply (frame_create _ _ _ _ _ _ Hh2 Hn2 Hb1). right. left. }
    assert (F3 : frame (K_extension [T]) (W_nodes [T]) s2 s3).
    { apply (frame_set_parent _ _ _ _ _ _ Hh3 Hn3). }
    assert (Hnew : type_of (heap s3) (next s1) = Some T).
    { apply (frame_typed F3). rewrite Hh2, type_of_insert_eq, otype_set_props.
      reflexivity. }
    assert (Hee3 : type_of (heap s3) ee = Some "bpmn:ExtensionElements").
    { apply (frame_typed F3), (frame_typed F2), Hee1. }
    assert (Hold : forall v, v <> next s1 -> type_of (heap s3) v = type_of (heap s1) v).
    { intros v Hv. rewrite Hh3, type_of_set_parent, Hh2.
      apply type_of_insert_ne. congruence. }
    assert (Hvals : get_many (heap s3) ee "values" = get_many (heap s1) ee "values").
    { unfold get_many. rewrite Hh3, get_set_parent, Hh2, get_insert_ne by congruence.
      reflexivity. }
    assert (Hnone : forall v, v ∈ get_many (heap s1) ee "values" -> v <> next s1 ->
                      is_a (heap s3) v T = false).
    { intros v Hv Hvn. rewrite (is_a_same_type (heap s1)) by (apply Hold, Hvn).
      rewrite findExtension_container in Hfind by exact Hee1.
      apply (head_filter_none _ _ v Hfind Hv). }
    assert (F4 : frame (K_extension [T]) (W_nodes [T]) s3 s4).
    { apply (frame_write_values _ _ _ _ _ _ Hh4 Hn4). intros o Ho.
      assert (otype o = "bpmn:ExtensionElements") as Hoty.
      { unfold type_of in Hee3. rewrite Ho in Hee3. simpl in Hee3. congruence. }
      rewrite Hoty. split; [apply W_nodes_values|].
      intros _ T' HT' HE'. unfold typed_values.
      apply filter_app_foreign.
      rewrite (is_a_type_of _ _ _ _ Hnew). unfold instanceOf.
      rewrite (bool_decide_eq_false_2 (T' = "bpmn:Event")) by exact HE'.
      rewrite andb_false_l, orb_false_r. apply bool_decide_eq_false_2.
      intros <-. apply HT'. right. left. }
    split.
    { apply (frame_trans _ _ _ _ _ F1), (frame_trans _ _ _ _ _ F2),
        (frame_trans _ _ _ _ _ F3), F4. }
    assert (Hee4 : type_of (heap s4) ee = Some "bpmn:ExtensionElements").
    { apply (frame_typed F4), Hee3. }
    split.
    { unfold findExtension. rewrite (is_a_type_of _ _ _ _ Hee4). simpl.
      rewrite Hh4, get_many_alter_set_props_single
        by (apply (type_of_is_Some _ _ _ Hee3)).
      rewrite (find_ext_eq _ (fun value => is_a (heap s3) value T))
        by (intros v; apply is_a_alter_set_props).
      apply find_app_new.
      - intros v Hv Hisa. destruct (decide (v = next s1)) as [|Hvn]; [assumption|].
        rewrite Hvals in Hv. rewrite (Hnone v Hv Hvn) in Hisa. discriminate.
      - rewrite (is_a_type_of _ _ _ _ Hnew). unfold instanceOf.
        rewrite bool_decide_eq_true_2 by reflexivity. reflexivity. }
    intros p' Hp'. simpl in Hp'. apply list_elem_of_singleton in Hp'. subst p'.
    apply Hdefault; [exact Hp|].
    rewrite Hh4, get_alter_ne by congruence.
    rewrite Hh3, get_set_parent, Hh2, get_insert_eq.
    apply get_set_props_in; [apply NoDup_singleton | left].
Qed.

Lemma singleton_first (properties dropped : list property) (bo_type : string)
    (s : state) :
  NoDup (map name properties) ->
  (forall p, p ∈ properties -> kind p) ->
  (forall q, q ∈ dropped ->
     key_of (b_property (p_binding q)) ∉ map name properties) ->
  bounded s ->
  type_of (heap s) (bo_of element) = Some bo_type -> external bo_type = true ->
  (forall ee, get (heap s) (bo_of element) "extensionElements" = VRef ee ->
     type_of (heap s) ee = Some "bpmn:ExtensionElements" /\
     unique_node (heap s) ee T) ->
  runs (singleton_reconciler T name properties dropped oldTemplate element) s
    (fun _ s' =>
       frame (K_extension [T]) (W_extension [T]) s s' /\
       exists ee,
         get (heap s') (bo_of element) "extensionElements" = VRef ee /\
         type_of (heap s') ee = Some "bpmn:ExtensionElements" /\
         (get (heap s) (bo_of element) "extensionElements" = VRef ee \/
          heap s !! ee = None) /\
         (forall ee0, get (heap s) (bo_of element) "extensionElements" = VRef ee0 ->
            ee0 = ee) /\
         (exists values, get (heap s') ee "values" = VArr values) /\
         (forall T', T' ∉ K_extension [T] -> T' <> "bpmn:Event" ->
            typed_values (heap s') ee T' = typed_values (heap s) ee T') /\
         singleton_settled (heap s') properties old T name ee).
Proof.
  intros Hnd Hkind Hapart Hb Hbo Hext Hcont. unfold singleton_reconciler.
  apply runs_bind.
  eapply runs_mono.
  { apply runs_conj; [|apply getOrCreateExtensionElements_same].
    apply (getOrCreateExtensionElements_first (K_extension [T]) (W_extension [T])
             element (bo_of element) bo_type s Hb Hbo).
    - apply external_not_container, Hext.
    - apply W_extension_link, Hext.
    - left. }
  intros ee s1 [(F1 & Hlink & Hcase) Hsame_link].
  pose proof (frame_bounded _ _ _ _ F1 Hb) as Hb1.
  assert (Hee1 : type_of (heap s1) ee = Some "bpmn:ExtensionElements").
  { destruct Hcase as [[-> Hl]|(_ & Hty & _)]; [apply Hcont, Hl | exact Hty]. }
  assert (Horigin : get (heap s) (bo_of element) "extensionElements" = VRef ee \/
                    heap s !! ee = None).
  { destruct Hcase as [[_ Hl]|(Hnone & _)]; auto. }
  assert (Huniq : unique_node (heap s1) ee T).
  { destruct Hcase as [[-> Hl]|(_ & _ & Hv)]; [apply Hcont, Hl|].
    unfold unique_node, typed_values, get_many. rewrite Hv. simpl. lia. }
  assert (Hforeign1 : forall T', T' ∉ K_extension [T] -> T' <> "bpmn:Event" ->
            typed_values (heap s1) ee T' = typed_values (heap s) ee T').
  { intros T' HT' HE'. destruct Hcase as [[-> _]|(Hnone & _ & Hv)]; [reflexivity|].
    unfold typed_values, get_many. rewrite Hv. unfold get. rewrite Hnone. reflexivity. }
  assert (Hbo1 : type_of (heap s1) (bo_of element) = Some bo_type).
  { apply (frame_typed F1), Hbo. }
  assert (Hne : bo_of element <> ee).
  { intros E. rewrite E in Hbo1. rewrite Hbo1 in Hee1. injection Hee1 as ->.
    vm_compute in Hext. discriminate. }
  assert (Hlinked : forall s2, frame (K_extension [T]) (W_extension [T]) s1 s2 ->
            (forall k, get (heap s2) (bo_of element) k = get (heap s1) (bo_of element) k) ->
            get (heap s2) (bo_of element) "extensionElements" = VRef ee).
  { intros s2 F2 Hsame. rewrite Hsame. exact Hlink. }
  apply runs_bind, runs_gets.
  destruct properties as [|p0 ps] eqn:Hps; cbn [isEmpty].
  - apply runs_execute. intros s2 Hh2 Hn2. simpl in Hh2.
    assert (Hfilter : forall T', T' ∉ K_extension [T] -> T' <> "bpmn:Event" ->
              List.filter (fun value => is_a (heap s1) value T')
                (without (get_many (heap s1) ee "values") (findExtension (heap s1) ee T))
              = typed_values (heap s1) ee T').
    { intros T' HT' HE'. destruct (findExtension (heap s1) ee T) as [n|] eqn:Hfind.
      - apply filter_without_foreign.
        rewrite (is_a_type_of _ _ _ _ (findExtension_some _ _ _ _ HT_event Hfind)).
        unfold instanceOf.
        rewrite (bool_decide_eq_false_2 (T' = "bpmn:Event")) by exact HE'.
        rewrite andb_false_l, orb_false_r. apply bool_decide_eq_false_2.
        intros <-. apply HT'. right. left.
      - rewrite without_None. reflexivity. }
    assert (F2 : frame (K_extension [T]) (W_extension [T]) s1 s2).
    { apply (frame_write_values _ _ _ _ _ _ Hh2 Hn2). intros o Ho.
      assert (otype o = "bpmn:ExtensionElements") as Hoty.
      { unfold type_of in Hee1. rewrite Ho in Hee1. simpl in Hee1. congruence. }
      rewrite Hoty. split; [apply W_extension_values|].
      intros _ T' HT' HE'. apply Hfilter; assumption. }
    split; [apply (frame_trans _ _ _ _ _ F1 F2)|].
    exists ee. split.
    { rewrite Hh2, get_alter_ne by congruence. exact Hlink. }
    split; [apply (frame_typed F2), Hee1|]. split; [exact Horigin|]. split; [exact Hsame_link|]. split.
    { eexists. rewrite Hh2. apply get_alter_set_props_single.
      apply (type_of_is_Some _ _ _ Hee1). }
    split.
    { intros T' HT' HE'. rewrite <- (Hforeign1 T' HT' HE'), <- (Hfilter T' HT' HE').
      unfold typed_values. rewrite Hh2.
      rewrite get_many_alter_set_props_single by (apply (type_of_is_Some _ _ _ Hee1)).
      apply filter_ext. intros v. apply is_a_alter_set_props. }
    unfold singleton_settled.
    rewrite findExtension_container by (apply (frame_typed F2), Hee1).
    unfold typed_values. rewrite Hh2.
    rewrite get_many_alter_set_props_single by (apply (type_of_is_Some _ _ _ Hee1)).
    rewrite (filter_ext _ (fun value => is_a (heap s1) value T))
      by (intros v; apply is_a_alter_set_props).
    rewrite findExtension_container by exact Hee1.
    destruct (head (typed_values (heap s1) ee T)) as [n|] eqn:Hhead.
    + rewrite (filter_without_unique _ _ n Hhead Huniq). reflexivity.
    + rewrite without_None. exact Hhead.
  - rewrite <- Hps in *. apply runs_bind.
    eapply runs_mono.
    { apply (singleton_loop_first ee properties _ s1 Hnd Hkind Hb1 Hee1 eq_refl). }
    intros node s2 (F2 & Hfind & Hnode). cbv beta.
    destruct node as [n|]; [|rewrite Hnode in Hps; discriminate].
    pose proof (frame_typed F2 _ _ Hee1) as Hee2.
    pose proof (frame_typed F2 _ _ Hbo1) as Hbo2.
    assert (Hlink2 : get (heap s2) (bo_of element) "extensionElements" = VRef ee).
    { rewrite (frame_get F2 _ _ _ Hbo1); [exact Hlink|].
      apply W_nodes_external; [|exact Hext].
      intros T' HT'. apply list_elem_of_singleton in HT'. subst T'. exact HT_node. }
    eapply runs_mono.
    { apply (unset_loop element T bo_type ee n
               (fun q => key_of (b_property (p_binding q))) dropped s2
               HT_event HT_container HT_node Hbo2 Hext Hee2 Hlink2 Hfind). }
    intros _ s3 (F3 & Hlink3 & Hfind3 & Hsame3 & _). cbv beta.
    assert (F23 : frame (K_extension [T]) (W_nodes [T]) s1 s3).
    { apply (frame_trans _ _ _ _ _ F2 F3). }
    split; [apply (frame_trans _ _ _ _ _ F1), frame_nodes_extension, F23|].
    pose proof (frame_typed F3 _ _ Hee2) as Hee3.
    exists ee. split; [exact Hlink3|].
    split; [exact Hee3|]. split; [exact Horigin|]. split; [exact Hsame_link|].
    split.
    { apply (get_many_elem_array _ _ _ n), (findExtension_elem_of _ _ T); assumption. }
    split.
    { intros T' HT' HE'. rewrite <- (Hforeign1 T' HT' HE').
      destruct (type_of_lookup _ _ _ Hee1) as (o & Ho & Hoty).
      apply (frame_values _ _ _ _ F23 ee o T' Ho Hoty HT' HE'). }
    unfold singleton_settled. rewrite Hps, <- Hps.
    exists n. split; [exact Hfind3|].
    intros p Hp. apply (Hstable p (heap s2)); [apply Hkind, Hp| |apply Hnode, Hp].
    apply Hsame3. intros Hin.
    apply list_elem_of_In, in_map_iff in Hin as (q & Heq & Hq).
    apply (Hapart q); [apply list_elem_of_In, Hq|].
    rewrite Heq. apply list_elem_of_In, in_map, list_elem_of_In, Hp.
Qed.

End Singleton.

(** ** The task definition and the called element *)

Lemma shouldKeepValue_slot (h h' : gmap loc obj) (element : option eref)
    (old : option property) (p : property) :
  getPropertyValue h' element p = getPropertyValue h element p ->
  (forall o, old = Some o ->
     getPropertyValue h' element o = getPropertyValue h element o) ->
  shouldKeepValue h' element old p = shouldKeepValue h element old p.
Proof.
  intros Hp Hold. unfold shouldKeepValue, propertyChanged. rewrite Hp.
  destruct old as [o|]; [rewrite (Hold o eq_refl)|]; reflexivity.
Qed.

Lemma getPropertyValue_taskdef (h : gmap loc obj) (node : loc) (p : property) :
  is_task_definition_type (b_type (p_binding p)) = true ->
  getPropertyValue h (Some (Moddle node)) p = get h node (taskdef_name p).
Proof.
  intros Hkind. unfold getPropertyValue. simpl. rewrite Hkind.
  case_bool_decide as Hplain; [|reflexivity].
  rewrite Hplain in Hkind. vm_compute in Hkind. discriminate.
Qed.

Lemma getPropertyValue_called_element (h : gmap loc obj) (element : option eref)
    (p : property) :
  b_type (p_binding p) = ZEEBE_CALLED_ELEMENT ->
  getPropertyValue h element p = undefined.
Proof.
  intros Hkind. unfold getPropertyValue. rewrite Hkind.
  destruct (getBusinessObject element); reflexivity.
Qed.

Lemma updateZeebeTaskDefinition_shape (element : eref)
    (oldTemplate : option template) (t : template) :
  _updateZeebeTaskDefinition element oldTemplate t
  = singleton_reconciler "zeebe:TaskDefinition" taskdef_name (taskdef_properties t)
      (dropped_taskdef oldTemplate t) oldTemplate element.
Proof. reflexivity. Qed.

Lemma updateCalledElement_shape (element : eref)
    (oldTemplate : option template) (t : template) :
  _updateCalledElement element oldTemplate t
  = singleton_reconciler "zeebe:CalledElement" called_element_name
      (called_element_properties t) (dropped_called oldTemplate t) oldTemplate element.
Proof. reflexivity. Qed.

Lemma taskDefinition_first (oldTemplate : option template) (t : template)
    (element : eref) (bo_type : string) (s : state) :
  NoDup (map taskdef_name (taskdef_properties t)) ->
  (forall q, q ∈ dropped_taskdef oldTemplate t ->
     key_of (b_property (p_binding q)) ∉ map taskdef_name (taskdef_properties t)) ->
  bounded s ->
  type_of (heap s) (bo_of element) = Some bo_type -> external bo_type = true ->
  (forall ee, get (heap s) (bo_of element) "extensionElements" = VRef ee ->
     type_of (heap s) ee = Some "bpmn:ExtensionElements" /\
     unique_node (heap s) ee "zeebe:TaskDefinition") ->
  runs (_updateZeebeTaskDefinition element oldTemplate t) s
    (fun _ s' =>
       frame (K_extension ["zeebe:TaskDefinition"])
         (W_extension ["zeebe:TaskDefinition"]) s s' /\
       exists ee,
         get (heap s') (bo_of element) "extensionElements" = VRef ee /\
         type_of (heap s') ee = Some "bpmn:ExtensionElements" /\
         (get (heap s) (bo_of element) "extensionElements" = VRef ee \/
          heap s !! ee = None) /\
         (forall ee0, get (heap s) (bo_of element) "extensionElements" = VRef ee0 ->
            ee0 = ee) /\
         (exists values, get (heap s') ee "values" = VArr values) /\
         (forall T', T' ∉ K_extension ["zeebe:TaskDefinition"] -> T' <> "bpmn:Event" ->
            typed_values (heap s') ee T' = typed_values (heap s) ee T') /\
         singleton_settled (heap s') (taskdef_properties t) Some
           "zeebe:TaskDefinition" taskdef_name ee).
Proof.
  intros Hnd Hapart Hb Hbo Hext Hcont. rewrite updateZeebeTaskDefinition_shape.
  apply (singleton_first "zeebe:TaskDefinition" taskdef_name Some
           (fun p => is_task_definition_type (b_type (p_binding p)) = true) element
           oldTemplate)
    with (bo_type := bo_type); try assumption; try discriminate.
  - compute_done.
  - intros p h n Hkind Hkeep.
    apply (kept_settled h h n (Some (Moddle n)) (findOldProperty oldTemplate p));
      [apply getPropertyValue_taskdef, Hkind | apply getPropertyValue_taskdef, Hkind
      | exact Hkeep].
  - intros p h h' n Hkind Hget. unfold value_settled, keeps.
    rewrite (shouldKeepValue_slot h h' (Some (Moddle n)) (Some p) p).
    + rewrite Hget. auto.
    + rewrite !getPropertyValue_taskdef by exact Hkind. exact Hget.
    + intros o Ho. injection Ho as <-.
      rewrite !getPropertyValue_taskdef by exact Hkind. exact Hget.
  - intros p h n _ Hget. right. exact Hget.
  - intros p Hp. apply (kind_of_filter _ _ _ Hp).
Qed.

Lemma calledElement_first (oldTemplate : option template) (t : template)
    (element : eref) (bo_type : string) (s : state) :
  NoDup (map called_element_name (called_element_properties t)) ->
  (forall q, q ∈ dropped_called oldTemplate t ->
     called_element_name q ∉ map called_element_name (called_element_properties t)) ->
  bounded s ->
  type_of (heap s) (bo_of element) = Some bo_type -> external bo_type = true ->
  (forall ee, get (heap s) (bo_of element) "extensionElements" = VRef ee ->
     type_of (heap s) ee = Some "bpmn:ExtensionElements" /\
     unique_node (heap s) ee "zeebe:CalledElement") ->
  runs (_updateCalledElement element oldTemplate t) s
    (fun _ s' =>
       frame (K_extension ["zeebe:CalledElement"])
         (W_extension ["zeebe:CalledElement"]) s s' /\
       exists ee,
         get (heap s') (bo_of element) "extensionElements" = VRef ee /\
         type_of (heap s') ee = Some "bpmn:ExtensionElements" /\
         (get (heap s) (bo_of element) "extensionElements" = VRef ee \/
          heap s !! ee = None) /\
         (forall ee0, get (heap s) (bo_of element) "extensionElements" = VRef ee0 ->
            ee0 = ee) /\
         (exists values, get (heap s') ee "values" = VArr values) /\
         (forall T', T' ∉ K_extension ["zeebe:CalledElement"] -> T' <> "bpmn:Event" ->
            typed_values (heap s') ee T' = typed_values (heap s) ee T') /\
         singleton_settled (heap s') (called_element_properties t) (fun _ => None)
           "zeebe:CalledElement" called_element_name ee).
Proof.
  intros Hnd Hapart Hb Hbo Hext Hcont. rewrite updateCalledElement_shape.
  apply (singleton_first "zeebe:CalledElement" called_element_name (fun _ => None)
           (fun p => b_type (p_binding p) = ZEEBE_CALLED_ELEMENT) element
           oldTemplate)
    with (bo_type := bo_type); try assumption; try discriminate.
  - compute_done.
  - intros p h n Hkind Hkeep. left.
    rewrite (findOldProperty_called_element oldTemplate p Hkind) in Hkeep. exact Hkeep.
  - intros p h h' n Hkind Hget. unfold value_settled, keeps.
    rewrite (shouldKeepValue_slot h h' (Some (Moddle n)) None p).
    + rewrite Hget. auto.
    + rewrite !getPropertyValue_called_element by exact Hkind. reflexivity.
    + intros o Ho. discriminate.
  - intros p h n _ Hget. right. exact Hget.
  - intros p Hp. apply kind_of_filter in Hp. apply bool_decide_eq_true_1 in Hp. exact Hp.
Qed.

(** ** Keyed collections *)

Lemma headers_each_shape :
  _updateZeebeTaskHeaderProperties_each
  = keyed_each "values" "zeebe:Header" "value" header_init (fun _ _ => true)
      (fun p => truthy_prim (getDefaultValue p)).
Proof. reflexivity. Qed.

Lemma zeebeProperties_each_shape :
  _updateZeebePropertyProperties_each
  = keyed_each "properties" "zeebe:Property" "value" zeebe_property_init
      gate_live gate_creates.
Proof. reflexivity. Qed.

Lemma headers_shape (element : eref) (oldTemplate : option template) (t : template) :
  _updateZeebeTaskHeaderProperties element oldTemplate t
  = keyed_reconciler "zeebe:TaskHeaders" "values" "zeebe:Header" "value" header_init
      (fun _ _ => true) (fun p => truthy_prim (getDefaultValue p))
      (header_properties t) oldTemplate element.
Proof. reflexivity. Qed.

Lemma zeebeProperties_shape (element : eref) (oldTemplate : option template)
    (t : template) :
  _updateZeebePropertyProperties element oldTemplate t
  = keyed_reconciler "zeebe:Properties" "properties" "zeebe:Property" "value"
      zeebe_property_init gate_live gate_creates
      (zeebe_properties t) oldTemplate element.
Proof. reflexivity. Qed.

Lemma elem_of_without_fn (l snapshot : list loc) (x : loc) :
  x ∈ without_fn l (includes snapshot) <-> x ∈ l /\ x ∉ snapshot.
Proof.
  unfold without_fn, includes. rewrite list_elem_of_In, filter_In, <- list_elem_of_In.
  rewrite negb_true_iff, bool_decide_eq_false. reflexivity.
Qed.

Lemma NoDup_without_fn (l : list loc) (fn : loc -> bool) :
  NoDup l -> NoDup (without_fn l fn).
Proof.
  intros Hnd. unfold without_fn. apply NoDup_ListNoDup, List.NoDup_filter, NoDup_ListNoDup, Hnd.
Qed.

Lemma without_fn_nil (l : list loc) : without_fn l (includes []) = l.
Proof.
  unfold without_fn. induction l as [|x xs IH]; [reflexivity|].
  cbn [List.filter].
  replace (includes [] x) with false
    by (symmetry; apply bool_decide_eq_false_2, not_elem_of_nil).
  simpl. f_equal. exact IH.
Qed.

Section KeyedSettled.

Variables (key_attr slot : string) (key : property -> option string)
  (creates : property -> bool).

Lemma keyed_settled_skip (h : gmap loc obj) (done : list property)
    (entries : list loc) (live : property -> loc -> bool) (p : property) :
  creates p = false ->
  keyed_settled h done entries key_attr slot key live creates ->
  keyed_settled h (done ++ [p]) entries key_attr slot key live creates.
Proof.
  intros Hcr (Hnd & Hinj & Hent & Hno).
  split; [exact Hnd|]. split; [exact Hinj|]. split.
  - intros e He. destruct (Hent e He) as (p' & Hp' & Hrest).
    exists p'. split; [apply elem_of_app; left; exact Hp' | exact Hrest].
  - intros p' Hp' Hnone. apply elem_of_app in Hp' as [Hp'|Hp'].
    + apply (Hno p' Hp' Hnone).
    + apply list_elem_of_singleton in Hp'. subst p'. exact Hcr.
Qed.

Lemma keyed_settled_add (h1 h2 : gmap loc obj) (done : list property)
    (entries entries' : list loc) (live1 live2 : property -> loc -> bool)
    (p : property) (x : loc) :
  keyed_settled h1 done entries key_attr slot key live1 creates ->
  (forall e k, e ∈ entries -> get h2 e k = get h1 e k) ->
  (forall p' e, e ∈ entries -> live2 p' e = live1 p' e) ->
  x ∉ entries ->
  (forall p', p' ∈ done -> key p' <> key p) ->
  get h2 x key_attr = of_opt (key p) ->
  live2 p x = true ->
  value_settled h2 (Some p) p x slot ->
  NoDup entries' ->
  (forall e, e ∈ entries' <-> e ∈ entries \/ e = x) ->
  keyed_settled h2 (done ++ [p]) entries' key_attr slot key live2 creates.
Proof.
  intros (Hnd & Hinj & Hent & Hno) Hget Hlive Hx Hkeys Hkx Hlx Hvx Hnd' Hmem.
  assert (Hforeign : forall e, e ∈ entries -> get h2 e key_attr <> of_opt (key p)).
  { intros e He Heq. destruct (Hent e He) as (p' & Hp' & Hk & _).
    rewrite Hget, Hk in Heq by exact He. apply of_opt_inj in Heq.
    apply (Hkeys p' Hp' Heq). }
  split; [exact Hnd'|]. split; [|split].
  - intros e e' He He' Heq.
    apply Hmem in He as [He| ->], He' as [He'| ->].
    + apply Hinj; try assumption. rewrite <- !Hget by assumption. exact Heq.
    + exfalso. apply (Hforeign e He). rewrite Heq. exact Hkx.
    + exfalso. apply (Hforeign e' He'). rewrite <- Heq. exact Hkx.
    + reflexivity.
  - intros e He. apply Hmem in He as [He| ->].
    + destruct (Hent e He) as (p' & Hp' & Hk & Hl & Hv).
      exists p'. split; [apply elem_of_app; left; exact Hp'|].
      rewrite Hget by exact He. split; [exact Hk|].
      rewrite Hlive by exact He. split; [exact Hl|].
      apply (value_settled_agree h1 h2); [intros k; apply Hget, He | exact Hv].
    + exists p. split; [apply elem_of_app; right; left|]. auto.
  - intros p' Hp' Hnone. apply elem_of_app in Hp' as [Hp'|Hp'].
    + apply (Hno p' Hp'). intros e He. rewrite <- Hget by exact He.
      apply Hnone, Hmem. left. exact He.
    + apply list_elem_of_singleton in Hp'. subst p'.
      exfalso. apply (Hnone x); [apply Hmem; right; reflexivity | exact Hkx].
Qed.

End KeyedSettled.

(** ** The holder of a keyed collection *)

Lemma is_a_foreign (h : gmap loc obj) (l : loc) (type T : string) :
  type_of h l = Some type -> T <> type -> T <> "bpmn:Event" -> is_a h l T = false.
Proof.
  intros Hty Hne HE. rewrite (is_a_type_of _ _ _ _ Hty). unfold instanceOf.
  rewrite (bool_decide_eq_false_2 (T = "bpmn:Event")) by exact HE.
  rewrite andb_false_l, orb_false_r. apply bool_decide_eq_false_2. congruence.
Qed.

Lemma is_a_own (h : gmap loc obj) (l : loc) (type : string) :
  type_of h l = Some type -> is_a h l type = true.
Proof.
  intros Hty. rewrite (is_a_type_of _ _ _ _ Hty). unfold instanceOf.
  rewrite bool_decide_eq_true_2 by reflexivity. reflexivity.
Qed.

Lemma holder_removal_first (K : list string) (W : string -> string -> bool)
    (element : eref) (ee : loc) (holderType : string) (s : state) :
  holderType <> "bpmn:Event" -> holderType ∈ K ->
  W "bpmn:ExtensionElements" "values" = true ->
  type_of (heap s) ee = Some "bpmn:ExtensionElements" ->
  unique_node (heap s) ee holderType ->
  runs (execute (UpdateModdleProperties element ee
                   [("values",
                     VArr (without (get_many (heap s) ee "values")
                             (findExtension (heap s) ee holderType)))])) s
    (fun _ s' =>
       frame K W s s' /\
       findExtension (heap s') ee holderType = None /\
       (forall x k, x <> ee -> get (heap s') x k = get (heap s) x k) /\
       (forall x, type_of (heap s') x = type_of (heap s) x)).
Proof.
  intros HE HK HW Hee Huniq.
  apply runs_execute. intros s' Hh' Hn'. simpl in Hh'.
  assert (Hfilter : forall T', T' ∉ K -> T' <> "bpmn:Event" ->
            List.filter (fun value => is_a (heap s) value T')
              (without (get_many (heap s) ee "values") (findExtension (heap s) ee holderType))
            = typed_values (heap s) ee T').
  { intros T' HT' HE'. destruct (findExtension (heap s) ee holderType) as [n|] eqn:Hfind.
    - apply filter_without_foreign.
      apply (is_a_foreign _ _ holderType); [|congruence|exact HE'].
      apply (findExtension_some _ _ _ _ HE Hfind).
    - rewrite without_None. reflexivity. }
  split.
  { apply (frame_write_values _ _ _ _ _ _ Hh' Hn'). intros o Ho.
    assert (otype o = "bpmn:ExtensionElements") as Hoty.
    { unfold type_of in Hee. rewrite Ho in Hee. simpl in Hee. congruence. }
    rewrite Hoty. split; [exact HW|].
    intros _ T' HT' HE'. apply Hfilter; assumption. }
  split.
  { rewrite findExtension_container
      by (rewrite Hh', type_of_alter_set_props; exact Hee).
    unfold typed_values. rewrite Hh'.
    rewrite get_many_alter_set_props_single by (apply (type_of_is_Some _ _ _ Hee)).
    rewrite (filter_ext _ (fun value => is_a (heap s) value holderType))
      by (intros v; apply is_a_alter_set_props).
    rewrite findExtension_container by exact Hee.
    destruct (head (typed_values (heap s) ee holderType)) as [n|] eqn:Hhead.
    + rewrite (filter_without_unique _ _ n Hhead Huniq). reflexivity.
    + rewrite without_None. exact Hhead. }
  split.
  { intros x k Hx. rewrite Hh'. apply get_alter_ne. congruence. }
  intros x. rewrite Hh'. apply type_of_alter_set_props.
Qed.

Lemma create_holder_first (K : list string) (W : string -> string -> bool)
    (element : eref) (ee : loc) (holderType : string) (s : state) :
  holderType <> "bpmn:Event" -> holderType ∈ K ->
  W "bpmn:ExtensionElements" "values" = true ->
  bounded s ->
  type_of (heap s) ee = Some "bpmn:ExtensionElements" ->
  findExtension (heap s) ee holderType = None ->
  runs (create_holder element ee holderType) s
    (fun holder s' =>
       frame K W s s' /\
       findExtension (heap s') ee holderType = Some holder /\
       type_of (heap s') holder = Some holderType /\
       (forall k, get (heap s') holder k = undefined)).
Proof.
  intros HE HK HW Hb Hee Hfind. unfold create_holder.
  apply runs_bind, runs_create. intros s2 Hh2 Hn2.
  apply runs_bind, runs_set_parent. intros s3 Hh3 Hn3.
  apply runs_bind, runs_gets. apply runs_bind.
  apply runs_execute. intros s4 Hh4 Hn4. simpl in Hh4. apply runs_ret.
  pose proof (typed_bounded s ee _ Hb Hee) as Hne.
  assert (F2 : frame K W s s2) by (apply (frame_create _ _ _ _ _ _ Hh2 Hn2 Hb HK)).
  assert (F3 : frame K W s2 s3) by (apply (frame_set_parent _ _ _ _ _ _ Hh3 Hn3)).
  assert (Hnew : type_of (heap s3) (next s) = Some holderType).
  { apply (frame_typed F3). rewrite Hh2, type_of_insert_eq, otype_set_props.
    reflexivity. }
  assert (Hee3 : type_of (heap s3) ee = Some "bpmn:ExtensionElements").
  { apply (frame_typed F3), (frame_typed F2), Hee. }
  assert (Hold : forall v, v <> next s -> type_of (heap s3) v = type_of (heap s) v).
  { intros v Hv. rewrite Hh3, type_of_set_parent, Hh2.
    apply type_of_insert_ne. congruence. }
  assert (Hvals : get_many (heap s3) ee "values" = get_many (heap s) ee "values").
  { unfold get_many. rewrite Hh3, get_set_parent, Hh2, get_insert_ne by congruence.
    reflexivity. }
  assert (Hnone : forall v, v ∈ get_many (heap s) ee "values" -> v <> next s ->
                    is_a (heap s3) v holderType = false).
  { intros v Hv Hvn. rewrite (is_a_same_type (heap s)) by (apply Hold, Hvn).
    rewrite findExtension_container in Hfind by exact Hee.
    apply (head_filter_none _ _ v Hfind Hv). }
  assert (F4 : frame K W s3 s4).
  { apply (frame_write_values _ _ _ _ _ _ Hh4 Hn4). intros o Ho.
    assert (otype o = "bpmn:ExtensionElements") as Hoty.
    { unfold type_of in Hee3. rewrite Ho in Hee3. simpl in Hee3. congruence. }
    rewrite Hoty. split; [exact HW|].
    intros _ T' HT' HE'. unfold typed_values. apply filter_app_foreign.
    apply (is_a_foreign _ _ holderType); [exact Hnew | congruence | exact HE']. }
  split.
  { apply (frame_trans _ _ _ _ _ F2), (frame_trans _ _ _ _ _ F3), F4. }
  split.
  { unfold findExtension.
    rewrite (is_a_type_of _ _ _ _ (frame_typed F4 _ _ Hee3)). simpl.
    rewrite Hh4, get_many_alter_set_props_single
      by (apply (type_of_is_Some _ _ _ Hee3)).
    rewrite (find_ext_eq _ (fun value => is_a (heap s3) value holderType))
      by (intros v; apply is_a_alter_set_props).
    apply find_app_new.
    - intros v Hv Hisa. destruct (decide (v = next s)) as [|Hvn]; [assumption|].
      rewrite Hvals in Hv. rewrite (Hnone v Hv Hvn) in Hisa. discriminate.
    - apply is_a_own, Hnew. }
  split; [apply (frame_typed F4), Hnew|].
  intros k. rewrite Hh4, get_alter_ne by congruence.
  rewrite Hh3, get_set_parent, Hh2, get_insert_eq. simpl.
  rewrite lookup_empty. reflexivity.
Qed.

(** ** One step on a keyed collection *)

Lemma W_keyed_entry (holderType listAttr entryType k : string) :
  W_keyed holderType listAttr entryType entryType k = true.
Proof. unfold W_keyed. rewrite bool_decide_eq_true_2 by reflexivity. reflexivity. Qed.

Lemma W_keyed_list (holderType listAttr entryType : string) :
  W_keyed holderType listAttr entryType holderType listAttr = true.
Proof.
  unfold W_keyed.
  rewrite (bool_decide_eq_true_2 (holderType = holderType)) by reflexivity.
  rewrite (bool_decide_eq_true_2 (listAttr = listAttr)) by reflexivity.
  apply orb_true_r.
Qed.

Lemma runs_det {A} (m : M A) (s s1 : state) (a : A) (Q : A -> state -> Prop) :
  m s = Some (a, s1) -> Q a s1 -> runs m s Q.
Proof. intros Hm HQ a' s' E. rewrite Hm in E. injection E as <- <-. exact HQ. Qed.

Section Keyed.

Variables (holderType listAttr entryType keyAttr slot : string)
  (key : property -> option string) (init : property -> props)
  (live : property -> bool -> bool) (creates : property -> bool)
  (live' : gmap loc obj -> property -> loc -> bool)
  (kind : property -> Prop) (element : eref) (oldTemplate : option template).

Hypothesis holder_event : holderType <> "bpmn:Event".
Hypothesis holder_container : holderType <> "bpmn:ExtensionElements".
Hypothesis entry_container : entryType <> "bpmn:ExtensionElements".
Hypothesis holder_entry : holderType <> entryType.
Hypothesis key_slot : keyAttr <> slot.

Hypothesis Hfind : forall p h ee, kind p ->
  findBusinessObject h (Moddle ee) p
  = match findExtension h ee holderType with
    | Some holder =>
        List.find (fun e => strict_eq (get h e keyAttr) (of_opt (key p)))
          (get_many h holder listAttr)
    | None => None
    end.

Hypothesis Hvalue : forall p h e, kind p ->
  getPropertyValue h (Some (Moddle e)) p = get h e slot.

Hypothesis Hinit : forall p, kind p ->
  NoDup (init p).*1 /\ (keyAttr, of_opt (key p)) ∈ init p /\
  (slot, VPrim (getDefaultValue p)) ∈ init p.

Hypothesis Hlive_keep : forall p h e, kind p ->
  keeps h (findOldProperty oldTemplate p) p e = true -> live p true = true ->
  live' h p e = true.

Hypothesis Hlive_default : forall p h e, kind p ->
  live p false = true -> live' h p e = true.

Hypothesis Hlive_creates : forall p h e, kind p ->
  creates p = true -> live' h p e = true.

Hypothesis Hdead : forall p keep, kind p ->
  live p keep = false -> creates p = false.

Hypothesis Hagree : forall p h h' e,
  (forall k, get h' e k = get h e k) -> live' h' p e = live' h p e.

Lemma keyed_step (ee holder : loc) (done : list property) (snapshot : list loc)
    (p : property) (s1 : state) :
  kind p -> (forall p', p' ∈ done -> key p' <> key p) ->
  bounded s1 ->
  type_of (heap s1) ee = Some "bpmn:ExtensionElements" ->
  findExtension (heap s1) ee holderType = Some holder ->
  keyed_inv (heap s1) holder listAttr entryType keyAttr slot key (live' (heap s1))
    creates done snapshot ->
  runs (keyed_each listAttr entryType slot init live creates element ee holder
          oldTemplate snapshot p) s1
    (fun snapshot' s2 =>
       frame [entryType] (W_keyed holderType listAttr entryType) s1 s2 /\
       keyed_inv (heap s2) holder listAttr entryType keyAttr slot key (live' (heap s2))
         creates (done ++ [p]) snapshot').
Proof.
  intros Hkind Hkeys Hb Hee Hholder (Hnd & Htyped & HndS & Hsub & Hsettled).
  pose proof (findExtension_some _ _ _ _ holder_event Hholder) as Hhd.
  unfold keyed_each. apply runs_bind, runs_gets. cbv zeta.
  rewrite (Hfind p (heap s1) ee Hkind), Hholder.
  destruct (List.find _ (get_many (heap s1) holder listAttr)) as [e|] eqn:Hfound.
  - (* the entry is there *)
    apply find_key_some in Hfound as [He Hke].
    pose proof (Htyped e He) as Hte.
    assert (HeS : e ∈ snapshot).
    { destruct (decide (e ∈ snapshot)) as [|HnS]; [assumption|]. exfalso.
      destruct Hsettled as (_ & _ & Hent & _).
      destruct (Hent e) as (p' & Hp' & Hk' & _).
      { apply elem_of_without_fn. auto. }
      rewrite Hke in Hk'. apply of_opt_inj in Hk'. apply (Hkeys p' Hp'). congruence. }
    assert (Hne : e <> holder) by (intros ->; congruence).
    set (keep := truthy_prim (shouldKeepValue (heap s1) (Some (Moddle e))
                                (findOldProperty oldTemplate p) p)).
    assert (Hstep : forall s2,
              (keep = true /\ s2 = s1) \/
              (keep = false /\
               heap s2 = alter (set_props [(slot, VPrim (getDefaultValue p))]) e (heap s1) /\
               next s2 = next s1) ->
              frame [entryType] (W_keyed holderType listAttr entryType) s1 s2 /\
              keyed_inv (heap s2) holder listAttr entryType keyAttr slot key
                (live' (heap s2)) creates (done ++ [p])
                (if live p keep then remove snapshot e else snapshot)).
    { intros s2 Hcase.
      assert (F : frame [entryType] (W_keyed holderType listAttr entryType) s1 s2).
      { destruct Hcase as [[_ ->]|(_ & Hh2 & Hn2)]; [apply frame_refl|].
        apply (frame_write _ _ _ _ _ _ Hh2 Hn2). intros o Ho.
        assert (otype o = entryType) as ->.
        { unfold type_of in Hte. rewrite Ho in Hte. simpl in Hte. congruence. }
        split; [exact entry_container|]. intros k _. apply W_keyed_entry. }
      split; [exact F|].
      assert (Hother : forall x k, x <> e -> get (heap s2) x k = get (heap s1) x k).
      { intros x k Hx. destruct Hcase as [[_ ->]|(_ & Hh2 & _)]; [reflexivity|].
        rewrite Hh2. apply get_alter_ne. congruence. }
      assert (Hentries : get_many (heap s2) holder listAttr
                         = get_many (heap s1) holder listAttr).
      { unfold get_many. rewrite Hother by congruence. reflexivity. }
      assert (Hkey2 : get (heap s2) e keyAttr = of_opt (key p)).
      { destruct Hcase as [[_ ->]|(_ & Hh2 & _)]; [exact Hke|].
        rewrite Hh2, get_alter_set_props_other by congruence. exact Hke. }
      assert (Hsettled_e : live p keep = true ->
                live' (heap s2) p e = true /\
                value_settled (heap s2) (Some p) p e slot).
      { intros Hlive. destruct Hcase as [[Hk ->]|(Hk & Hh2 & _)].
        - rewrite Hk in Hlive. split; [apply Hlive_keep; assumption|].
          apply (kept_settled _ (heap s1) e (Some (Moddle e))
                   (findOldProperty oldTemplate p));
            [apply Hvalue, Hkind | apply Hvalue, Hkind | exact Hk].
        - rewrite Hk in Hlive. split; [apply Hlive_default; assumption|].
          right. rewrite Hh2. apply get_alter_set_props_single.
          apply (type_of_is_Some _ _ _ Hte). }
      unfold keyed_inv. rewrite Hentries.
      destruct (remove_elem_of snapshot e e HndS HeS) as [_ HndR].
      assert (HmemR : forall x, x ∈ remove snapshot e <-> x ∈ snapshot /\ x <> e).
      { intros x. apply (remove_elem_of snapshot e x HndS HeS). }
      split; [exact Hnd|]. split.
      { intros x Hx. apply (frame_typed F), Htyped, Hx. }
      destruct (live p keep) eqn:Hlive.
      - split; [exact HndR|]. split.
        { intros x Hx. apply Hsub, HmemR, Hx. }
        destruct (Hsettled_e eq_refl) as [Hl Hv].
        apply (keyed_settled_add keyAttr slot key creates (heap s1) (heap s2) done
                 (without_fn (get_many (heap s1) holder listAttr) (includes snapshot))
                 _ (live' (heap s1)) (live' (heap s2)) p e); try assumption.
        + intros x k Hx. apply Hother. apply elem_of_without_fn in Hx as [_ Hx].
          congruence.
        + intros p' x Hx. apply Hagree. intros k. apply Hother.
          apply elem_of_without_fn in Hx as [_ Hx]. congruence.
        + intros Hin. apply elem_of_without_fn in Hin as [_ Hin]. contradiction.
        + apply NoDup_without_fn, Hnd.
        + intros x. rewrite !elem_of_without_fn, HmemR. split.
          * intros [Hx Hnot]. destruct (decide (x = e)) as [|Hxe]; [auto|].
            left. split; [exact Hx|]. intros HxS. apply Hnot. auto.
          * intros [[Hx Hnot]| ->]; [split; [exact Hx|]; intros [HxS _]; auto|].
            split; [exact He|]. intros [_ Hc]. congruence.
      - split; [exact HndS|]. split; [exact Hsub|].
        apply keyed_settled_skip; [apply (Hdead p keep Hkind Hlive)|].
        apply (keyed_settled_agree (heap s1) (heap s2) done _ keyAttr slot key
                 (live' (heap s1)) (live' (heap s2)) creates); [| |exact Hsettled].
        + intros x k Hx. apply Hother. apply elem_of_without_fn in Hx as [_ Hx].
          congruence.
        + intros p' x Hx. apply Hagree. intros k. apply Hother.
          apply elem_of_without_fn in Hx as [_ Hx]. congruence. }
    fold keep. apply runs_bind. destruct keep eqn:Hkeep; cbn [negb].
    + apply runs_ret, runs_ret. apply Hstep. left. auto.
    + apply runs_execute. intros s2 Hh2 Hn2. simpl in Hh2.
      apply runs_ret. apply Hstep. right. auto.
  - (* there is no entry *)
    pose proof (find_key_none _ _ _ _ Hfound) as Hnone.
    destruct (creates p) eqn:Hcreates.
    + apply runs_bind, runs_create. intros s2 Hh2 Hn2.
      apply runs_bind, runs_set_parent. intros s3 Hh3 Hn3.
      apply runs_bind, runs_gets. apply runs_bind.
      apply runs_execute. intros s4 Hh4 Hn4. simpl in Hh4. apply runs_ret.
      pose proof (typed_bounded s1 holder _ Hb Hhd) as Hhne.
      assert (F2 : frame [entryType] (W_keyed holderType listAttr entryType) s1 s2).
      { apply (frame_create _ _ _ _ _ _ Hh2 Hn2 Hb). left. }
      assert (F3 : frame [entryType] (W_keyed holderType listAttr entryType) s2 s3).
      { apply (frame_set_parent _ _ _ _ _ _ Hh3 Hn3). }
      assert (Hhd3 : type_of (heap s3) holder = Some holderType).
      { apply (frame_typed F3), (frame_typed F2), Hhd. }
      assert (F4 : frame [entryType] (W_keyed holderType listAttr entryType) s3 s4).
      { apply (frame_write _ _ _ _ _ _ Hh4 Hn4). intros o Ho.
        assert (otype o = holderType) as ->.
        { unfold type_of in Hhd3. rewrite Ho in Hhd3. simpl in Hhd3. congruence. }
        split; [exact holder_container|]. intros k Hk. simpl in Hk.
        apply list_elem_of_singleton in Hk. subst k. apply W_keyed_list. }
      assert (F : frame [entryType] (W_keyed holderType listAttr entryType) s1 s4).
      { apply (frame_trans _ _ _ _ _ F2), (frame_trans _ _ _ _ _ F3), F4. }
      split; [exact F|].
      assert (Hfresh : forall x, x ∈ get_many (heap s1) holder listAttr -> x <> next s1).
      { intros x Hx. apply (typed_bounded s1 x _ Hb (Htyped x Hx)). }
      assert (Hother : forall x k, x <> next s1 -> x <> holder ->
                get (heap s4) x k = get (heap s1) x k).
      { intros x k Hx Hxh. rewrite Hh4, get_alter_ne by congruence.
        rewrite Hh3, get_set_parent, Hh2. apply get_insert_ne. congruence. }
      assert (Hnew : forall k v, (k, v) ∈ init p -> get (heap s4) (next s1) k = v).
      { intros k v Hkv. rewrite Hh4, get_alter_ne by congruence.
        rewrite Hh3, get_set_parent, Hh2, get_insert_eq.
        apply get_set_props_in; [apply (Hinit p Hkind) | exact Hkv]. }
      assert (Hentries : get_many (heap s4) holder listAttr
                         = get_many (heap s1) holder listAttr ++ [next s1]).
      { rewrite Hh4, get_many_alter_set_props_single
          by (apply (type_of_is_Some _ _ _ Hhd3)).
        f_equal. unfold get_many. rewrite Hh3, get_set_parent, Hh2.
        rewrite get_insert_ne by congruence. reflexivity. }
      assert (Hentry_ne : forall x, x ∈ get_many (heap s1) holder listAttr ->
                x <> holder).
      { intros x Hx ->. pose proof (Htyped holder Hx). congruence. }
      unfold keyed_inv. rewrite Hentries.
      split.
      { apply NoDup_app. split; [exact Hnd|]. split; [|apply NoDup_singleton].
        intros x Hx Hx'. apply list_elem_of_singleton in Hx'.
        apply (Hfresh x Hx Hx'). }
      split.
      { intros x Hx. apply elem_of_app in Hx as [Hx|Hx].
        - apply (frame_typed F), Htyped, Hx.
        - apply list_elem_of_singleton in Hx. subst x.
          apply (frame_typed F4), (frame_typed F3).
          rewrite Hh2, type_of_insert_eq, otype_set_props. reflexivity. }
      split; [exact HndS|]. split.
      { intros x Hx. apply elem_of_app. left. apply Hsub, Hx. }
      assert (HnS : next s1 ∉ snapshot).
      { intros Hin. apply (Hfresh _ (Hsub _ Hin)). reflexivity. }
      apply (keyed_settled_add keyAttr slot key creates (heap s1) (heap s4) done
               (without_fn (get_many (heap s1) holder listAttr) (includes snapshot))
               _ (live' (heap s1)) (live' (heap s4)) p (next s1)); try assumption.
      * intros x k Hx. apply elem_of_without_fn in Hx as [Hx _].
        apply Hother; [apply Hfresh, Hx | apply Hentry_ne, Hx].
      * intros p' x Hx. apply Hagree. intros k.
        apply elem_of_without_fn in Hx as [Hx _].
        apply Hother; [apply Hfresh, Hx | apply Hentry_ne, Hx].
      * intros Hin. apply elem_of_without_fn in Hin as [Hin _].
        apply (Hfresh _ Hin). reflexivity.
      * apply Hnew, (Hinit p Hkind).
      * apply Hlive_creates; assumption.
      * right. apply Hnew, (Hinit p Hkind).
      * apply NoDup_without_fn.
        apply NoDup_app. split; [exact Hnd|]. split; [|apply NoDup_singleton].
        intros x Hx Hx'. apply list_elem_of_singleton in Hx'.
        apply (Hfresh x Hx Hx').
      * intros x. rewrite !elem_of_without_fn, elem_of_app, list_elem_of_singleton.
        split.
        -- intros [[Hx| ->] Hnot]; auto.
        -- intros [[Hx Hnot]| ->]; auto.
    + apply runs_ret. split; [apply frame_refl|].
      unfold keyed_inv. split; [exact Hnd|]. split; [exact Htyped|].
      split; [exact HndS|]. split; [exact Hsub|].
      apply keyed_settled_skip; assumption.
Qed.


Lemma keyed_inv_start (h : gmap loc obj) (holder : loc) :
  NoDup (get_many h holder listAttr) ->
  (forall e, e ∈ get_many h holder listAttr -> type_of h e = Some entryType) ->
  keyed_inv h holder listAttr entryType keyAttr slot key (live' h) creates []
    (get_many h holder listAttr).
Proof.
  intros Hnd Htyped. unfold keyed_inv.
  split; [exact Hnd|]. split; [exact Htyped|]. split; [exact Hnd|].
  split; [auto|]. rewrite without_fn_includes_self.
  split; [apply NoDup_nil_2|]. split; [|split].
  - intros e e' He. apply elem_of_nil in He. contradiction.
  - intros e He. apply elem_of_nil in He. contradiction.
  - intros p Hp. apply elem_of_nil in Hp. contradiction.
Qed.

Lemma keyed_loop (ee holder : loc) (properties : list property) (s : state) :
  (forall p, p ∈ properties -> kind p) -> NoDup (map key properties) ->
  bounded s ->
  type_of (heap s) ee = Some "bpmn:ExtensionElements" ->
  findExtension (heap s) ee holderType = Some holder ->
  NoDup (get_many (heap s) holder listAttr) ->
  (forall e, e ∈ get_many (heap s) holder listAttr ->
     type_of (heap s) e = Some entryType) ->
  runs (forEach_with
          (keyed_each listAttr entryType slot init live creates element ee holder
             oldTemplate)
          properties (get_many (heap s) holder listAttr)) s
    (fun snapshot s' =>
       frame [entryType] (W_keyed holderType listAttr entryType) s s' /\
       keyed_inv (heap s') holder listAttr entryType keyAttr slot key (live' (heap s'))
         creates properties snapshot).
Proof.
  intros Hkind Hkeys Hb Hee Hholder Hnd Htyped.
  set (I := fun (done : list property) (snapshot : list loc) (s1 : state) =>
              frame [entryType] (W_keyed holderType listAttr entryType) s s1 /\
              keyed_inv (heap s1) holder listAttr entryType keyAttr slot key
                (live' (heap s1)) creates done snapshot).
  apply (runs_forEach_with I).
  { split; [apply frame_refl | apply keyed_inv_start; assumption]. }
  intros done p todo snapshot s1 Harr [F1 Hinv].
  eapply runs_mono.
  { apply (keyed_step ee holder done snapshot p s1).
    - apply Hkind. rewrite Harr. apply elem_of_app. right. left.
    - intros p' Hp' Heq. rewrite Harr, map_app in Hkeys.
      apply NoDup_app in Hkeys as (_ & Hdisj & _).
      apply (Hdisj (key p')).
      + apply list_elem_of_In, in_map. apply list_elem_of_In, Hp'.
      + rewrite Heq. simpl. left.
    - apply (frame_bounded _ _ _ _ F1 Hb).
    - apply (frame_typed F1), Hee.
    - rewrite (frame_findExtension F1); [exact Hholder | exact Hee | | exact holder_event].
      intros Hin. apply list_elem_of_singleton in Hin. contradiction.
    - exact Hinv. }
  intros snapshot' s2 [F2 Hinv']. split; [apply (frame_trans _ _ _ _ _ F1 F2) | exact Hinv'].
Qed.

(** The cleanup after the loop: the entries still in the snapshot leave
    the list of the holder. *)
Lemma keyed_cleanup (W : string -> string -> bool) (K : list string)
    (holder : loc) (properties : list property) (snapshot : list loc) (s : state) :
  W holderType listAttr = true ->
  type_of (heap s) holder = Some holderType ->
  keyed_inv (heap s) holder listAttr entryType keyAttr slot key (live' (heap s))
    creates properties snapshot ->
  runs (if negb (isEmpty snapshot) then
          let* h := gets heap in
          execute (UpdateModdleProperties element holder
                     [(listAttr,
                       VArr (without_fn (get_many h holder listAttr) (includes snapshot)))])
        else ret tt) s
    (fun _ s' =>
       frame K W s s' /\
       (forall x k, x <> holder -> get (heap s') x k = get (heap s) x k) /\
       (forall x, type_of (heap s') x = type_of (heap s) x) /\
       NoDup (get_many (heap s') holder listAttr) /\
       (forall e, e ∈ get_many (heap s') holder listAttr ->
          type_of (heap s') e = Some entryType) /\
       keyed_settled (heap s') properties (get_many (heap s') holder listAttr)
         keyAttr slot key (live' (heap s')) creates).
Proof.
  intros HW Hhd (Hnd & Htyped & HndS & Hsub & Hsettled).
  destruct snapshot as [|x0 xs] eqn:HS; cbn [isEmpty negb].
  - apply runs_ret. split; [apply frame_refl|]. split; [auto|]. split; [auto|].
    split; [exact Hnd|]. split; [exact Htyped|].
    rewrite without_fn_nil in Hsettled. exact Hsettled.
  - rewrite <- HS in *. apply runs_bind, runs_gets.
    apply runs_execute. intros s' Hh' Hn'. simpl in Hh'.
    assert (F : frame K W s s').
    { apply (frame_write _ _ _ _ _ _ Hh' Hn'). intros o Ho.
      assert (otype o = holderType) as ->.
      { unfold type_of in Hhd. rewrite Ho in Hhd. simpl in Hhd. congruence. }
      split; [exact holder_container|]. intros k Hk. simpl in Hk.
      apply list_elem_of_singleton in Hk. subst k. exact HW. }
    split; [exact F|].
    assert (Hother : forall x k, x <> holder -> get (heap s') x k = get (heap s) x k).
    { intros x k Hx. rewrite Hh'. apply get_alter_ne. congruence. }
    split; [exact Hother|].
    split; [intros x; rewrite Hh'; apply type_of_alter_set_props|].
    assert (Hentries : get_many (heap s') holder listAttr
                       = without_fn (get_many (heap s) holder listAttr) (includes snapshot)).
    { rewrite Hh'. apply get_many_alter_set_props_single.
      apply (type_of_is_Some _ _ _ Hhd). }
    rewrite Hentries.
    assert (Hentry_ne : forall e, e ∈ get_many (heap s) holder listAttr -> e <> holder).
    { intros e He ->. pose proof (Htyped holder He). congruence. }
    split; [apply NoDup_without_fn, Hnd|]. split.
    { intros e He. apply elem_of_without_fn in He as [He _].
      apply (frame_typed F), Htyped, He. }
    apply (keyed_settled_agree (heap s) (heap s') properties _ keyAttr slot key
             (live' (heap s)) (live' (heap s')) creates); [| |exact Hsettled].
    + intros e k He. apply elem_of_without_fn in He as [He _].
      apply Hother, Hentry_ne, He.
    + intros p e He. apply Hagree. intros k.
      apply elem_of_without_fn in He as [He _]. apply Hother, Hentry_ne, He.
Qed.


Lemma W_keyed_nodes (type k : string) :
  W_keyed holderType listAttr entryType type k = true ->
  W_nodes [holderType; entryType] type k = true.
Proof.
  unfold W_keyed, W_nodes. intros HW.
  apply orb_true_iff. left. apply bool_decide_eq_true_2.
  apply orb_true_iff in HW as [HW|HW].
  - apply bool_decide_eq_true_1 in HW. subst type. right. left.
  - apply andb_true_iff in HW as [HW _].
    apply bool_decide_eq_true_1 in HW. subst type. left.
Qed.

Lemma frame_keyed_nodes (s s' : state) :
  frame [entryType] (W_keyed holderType listAttr entryType) s s' ->
  frame (K_extension [holderType; entryType]) (W_nodes [holderType; entryType]) s s'.
Proof.
  apply frame_weaken; [|apply W_keyed_nodes].
  intros T HT. apply list_elem_of_singleton in HT. subst T. right. right. left.
Qed.

Lemma keyed_first (properties : list property) (ee : loc) (s : state) :
  (forall p, p ∈ properties -> kind p) -> NoDup (map key properties) ->
  bounded s ->
  get (heap s) (bo_of element) "extensionElements" = VRef ee ->
  type_of (heap s) ee = Some "bpmn:ExtensionElements" ->
  unique_node (heap s) ee holderType ->
  entries_wf (heap s) ee holderType listAttr entryType ->
  runs (keyed_reconciler holderType listAttr entryType slot init live creates
          properties oldTemplate element) s
    (fun _ s' =>
       frame (K_extension [holderType; entryType]) (W_nodes [holderType; entryType])
         s s' /\
       match properties with
       | [] => findExtension (heap s') ee holderType = None
       | _ :: _ =>
           exists holder,
             findExtension (heap s') ee holderType = Some holder /\
             keyed_settled (heap s') properties (get_many (heap s') holder listAttr)
               keyAttr slot key (live' (heap s')) creates
       end /\
       entries_wf (heap s') ee holderType listAttr entryType).
Proof.
  intros Hkind Hkeys Hb Hlink Hee Huniq Hwf.
  set (K := K_extension [holderType; entryType]).
  set (W := W_nodes [holderType; entryType]).
  assert (HWv : W "bpmn:ExtensionElements" "values" = true) by apply W_nodes_values.
  assert (HWl : W holderType listAttr = true) by (apply W_nodes_own; left).
  assert (HKh : holderType ∈ K) by (right; left).
  unfold keyed_reconciler. apply runs_bind.
  apply (runs_det _ s s ee); [apply getOrCreateExtensionElements_existing, Hlink|].
  apply runs_bind, runs_gets.
  destruct properties as [|p0 ps] eqn:Hps; cbn [isEmpty].
  - destruct (findExtension (heap s) ee holderType) as [holder|] eqn:Hholder.
    + apply runs_bind, runs_bind. rewrite <- Hholder.
      eapply runs_mono;
        [apply (holder_removal_first K W element ee holderType s); assumption|].
      intros [] s1 (F1 & Hnone & Hother & Htypes). apply runs_ret. cbn iota.
      apply runs_bind, runs_ret. apply runs_bind, runs_gets.
      cbn [forEach_with]. apply runs_bind, runs_ret.
      pose proof (findExtension_some _ _ _ _ holder_event Hholder) as Hhd.
      assert (Hne : holder <> ee) by (intros ->; congruence).
      destruct (Hwf holder Hholder) as [Hnd Htyped].
      assert (Hentries : get_many (heap s1) holder listAttr
                         = get_many (heap s) holder listAttr).
      { unfold get_many. rewrite Hother by exact Hne. reflexivity. }
      eapply runs_mono.
      { apply (keyed_cleanup W K holder [] _ s1 HWl).
        - rewrite Htypes. exact Hhd.
        - apply keyed_inv_start.
          + rewrite Hentries. exact Hnd.
          + intros e He. rewrite Htypes. apply Htyped. rewrite <- Hentries. exact He. }
      intros [] s2 (F2 & Hother2 & Htypes2 & _).
      split; [apply (frame_trans _ _ _ _ _ F1 F2)|].
      assert (Hnone2 : findExtension (heap s2) ee holderType = None).
      { rewrite (findExtension_agree (heap s1)); [exact Hnone| | |exact Htypes2].
        - rewrite Htypes. exact Hee.
        - apply Hother2. congruence. }
      split; [exact Hnone2|].
      intros holder' Hfind'. congruence.
    + apply runs_bind, runs_ret. cbn iota. apply runs_ret.
      split; [apply frame_refl|]. split; [exact Hholder | exact Hwf].
  - rewrite <- Hps in *. apply runs_bind, runs_ret. cbn iota.
    assert (Hacquire :
      runs (match findExtension (heap s) ee holderType with
            | Some holder => ret holder
            | None => create_holder element ee holderType
            end) s
        (fun holder s1 =>
           frame K W s s1 /\
           findExtension (heap s1) ee holderType = Some holder /\
           NoDup (get_many (heap s1) holder listAttr) /\
           forall e, e ∈ get_many (heap s1) holder listAttr ->
             type_of (heap s1) e = Some entryType)).
    { destruct (findExtension (heap s) ee holderType) as [holder|] eqn:Hholder.
      - apply runs_ret. split; [apply frame_refl|]. split; [exact Hholder|].
        apply (Hwf holder Hholder).
      - eapply runs_mono;
          [apply (create_holder_first K W element ee holderType s); assumption|].
        intros holder s1 (F1 & Hfind1 & Hty1 & Hattrs).
        split; [exact F1|]. split; [exact Hfind1|].
        unfold get_many. rewrite Hattrs. split; [apply NoDup_nil_2|].
        intros e He. apply elem_of_nil in He. contradiction. }
    apply runs_bind. eapply runs_mono; [exact Hacquire|].
    intros holder s1 (F1 & Hfind1 & Hnd1 & Htyped1).
    pose proof (frame_bounded _ _ _ _ F1 Hb) as Hb1.
    pose proof (frame_typed F1 _ _ Hee) as Hee1.
    apply runs_bind, runs_gets. apply runs_bind.
    eapply runs_mono;
      [apply (keyed_loop ee holder properties s1); assumption|].
    intros snapshot s2 (F2 & Hinv).
    pose proof (frame_typed F2 _ _ Hee1) as Hee2.
    assert (Hfind2 : findExtension (heap s2) ee holderType = Some holder).
    { rewrite (frame_findExtension F2); [exact Hfind1 | exact Hee1 | | exact holder_event].
      intros Hin. apply list_elem_of_singleton in Hin. contradiction. }
    pose proof (findExtension_some _ _ _ _ holder_event Hfind2) as Hhd2.
    assert (Hne : holder <> ee) by (intros ->; congruence).
    eapply runs_mono;
      [apply (keyed_cleanup W K holder properties snapshot s2 HWl Hhd2 Hinv)|].
    intros [] s3 (F3 & Hother3 & Htypes3 & Hnd3 & Htyped3 & Hsettled3).
    split.
    { apply (frame_trans _ _ _ _ _ F1), (frame_trans _ _ _ _ _ (frame_keyed_nodes _ _ F2)), F3. }
    assert (Hfind3 : findExtension (heap s3) ee holderType = Some holder).
    { rewrite (findExtension_agree (heap s2)); [exact Hfind2 | exact Hee2 | | exact Htypes3].
      apply Hother3. congruence. }
    rewrite Hps, <- Hps. split; [exists holder; auto|].
    intros holder' Hfind'. rewrite Hfind3 in Hfind'. injection Hfind' as <-. auto.
Qed.

End Keyed.

(** ** Task headers and custom properties *)

Lemma getPropertyValue_header (h : gmap loc obj) (e : loc) (p : property) :
  b_type (p_binding p) = "zeebe:taskHeader" ->
  getPropertyValue h (Some (Moddle e)) p = get h e "value".
Proof. intros Hkind. unfold getPropertyValue. rewrite Hkind. reflexivity. Qed.

Lemma getPropertyValue_zeebe_property (h : gmap loc obj) (e : loc) (p : property) :
  b_type (p_binding p) = "zeebe:property" ->
  getPropertyValue h (Some (Moddle e)) p = get h e "value".
Proof. intros Hkind. unfold getPropertyValue. rewrite Hkind. reflexivity. Qed.

Lemma getPropertyValue_input (h : gmap loc obj) (e : loc) (p : property) :
  b_type (p_binding p) = "zeebe:input" ->
  getPropertyValue h (Some (Moddle e)) p = get h e "source".
Proof. intros Hkind. unfold getPropertyValue. rewrite Hkind. reflexivity. Qed.

Lemma getPropertyValue_output (h : gmap loc obj) (e : loc) (p : property) :
  b_type (p_binding p) = "zeebe:output" ->
  getPropertyValue h (Some (Moddle e)) p = get h e "target".
Proof. intros Hkind. unfold getPropertyValue. rewrite Hkind. reflexivity. Qed.

(** The gate of the mappings and of the custom properties. *)
Lemma gate_live_kept (oldTemplate : option template) (p : property)
    (h : gmap loc obj) (e : loc) :
  is_task_definition_type (b_type (p_binding p)) = false ->
  (shouldUpdate (getDefaultValue p) p = false ->
   forall q, findOldProperty oldTemplate p = Some q -> p_value q = p_value p) ->
  keeps h (findOldProperty oldTemplate p) p e = true -> live_or_kept h p e = true.
Proof.
  intros Hnt Hsame Hkeep. unfold live_or_kept.
  destruct (shouldUpdate (getDefaultValue p) p) eqn:Hup; [reflexivity|]. simpl.
  apply (kept_live h e (findOldProperty oldTemplate p) p); [| |exact Hkeep].
  - intros q Hq. split; [|apply (Hsame eq_refl q Hq)].
    destruct oldTemplate as [o|]; [|discriminate].
    apply (matched_property_same_slot h _ o q p Hq). left. exact Hnt.
  - unfold shouldUpdate in Hup. apply orb_false_iff in Hup as [Hup _]. exact Hup.
Qed.

Lemma gate_live_default (p : property) (h : gmap loc obj) (e : loc) :
  gate_live p false = true -> live_or_kept h p e = true.
Proof.
  unfold gate_live, live_or_kept. rewrite orb_false_r. intros ->. reflexivity.
Qed.

Lemma gate_creates_live (p : property) (h : gmap loc obj) (e : loc) :
  gate_creates p = true -> live_or_kept h p e = true.
Proof. unfold gate_creates, live_or_kept. intros ->. reflexivity. Qed.

Lemma gate_dead (p : property) (keep : bool) :
  gate_live p keep = false -> gate_creates p = false.
Proof.
  unfold gate_live, gate_creates. intros H. apply orb_false_iff in H as [H _]. exact H.
Qed.

Lemma taskHeaders_first (oldTemplate : option template) (t : template)
    (element : eref) (ee : loc) (s : state) :
  NoDup (map (fun p => b_key (p_binding p)) (header_properties t)) ->
  bounded s ->
  get (heap s) (bo_of element) "extensionElements" = VRef ee ->
  type_of (heap s) ee = Some "bpmn:ExtensionElements" ->
  unique_node (heap s) ee "zeebe:TaskHeaders" ->
  entries_wf (heap s) ee "zeebe:TaskHeaders" "values" "zeebe:Header" ->
  runs (_updateZeebeTaskHeaderProperties element oldTemplate t) s
    (fun _ s' =>
       frame (K_extension ["zeebe:TaskHeaders"; "zeebe:Header"])
         (W_nodes ["zeebe:TaskHeaders"; "zeebe:Header"]) s s' /\
       headers_settled (heap s') t ee /\
       entries_wf (heap s') ee "zeebe:TaskHeaders" "values" "zeebe:Header").
Proof.
  intros Hkeys Hb Hlink Hee Huniq Hwf. rewrite headers_shape.
  apply (keyed_first "zeebe:TaskHeaders" "values" "zeebe:Header" "key" "value"
           (fun p => b_key (p_binding p)) header_init (fun _ _ => true)
           (fun p => truthy_prim (getDefaultValue p)) (fun _ _ _ => true)
           (fun p => b_type (p_binding p) = "zeebe:taskHeader") element oldTemplate);
    try assumption; try discriminate; try reflexivity.
  - intros p h ee' Hkind. apply findBusinessObject_header, Hkind.
  - intros p h e Hkind. apply getPropertyValue_header, Hkind.
  - intros p _. unfold header_init. split; [compute_done|]. split; [left | right; left].
  - intros p Hp. apply kind_of_filter in Hp. apply bool_decide_eq_true_1 in Hp. exact Hp.
Qed.

Lemma zeebeProperties_first (oldTemplate : option template) (t : template)
    (element : eref) (ee : loc) (s : state) :
  NoDup (map (fun p => b_name (p_binding p)) (zeebe_properties t)) ->
  (forall p q, p ∈ zeebe_properties t ->
     shouldUpdate (getDefaultValue p) p = false ->
     findOldProperty oldTemplate p = Some q -> p_value q = p_value p) ->
  bounded s ->
  get (heap s) (bo_of element) "extensionElements" = VRef ee ->
  type_of (heap s) ee = Some "bpmn:ExtensionElements" ->
  unique_node (heap s) ee "zeebe:Properties" ->
  entries_wf (heap s) ee "zeebe:Properties" "properties" "zeebe:Property" ->
  runs (_updateZeebePropertyProperties element oldTemplate t) s
    (fun _ s' =>
       frame (K_extension ["zeebe:Properties"; "zeebe:Property"])
         (W_nodes ["zeebe:Properties"; "zeebe:Property"]) s s' /\
       zeebe_properties_settled (heap s') t ee /\
       entries_wf (heap s') ee "zeebe:Properties" "properties" "zeebe:Property").
Proof.
  intros Hkeys Hsame Hb Hlink Hee Huniq Hwf. rewrite zeebeProperties_shape.
  assert (Hk : forall p, p ∈ zeebe_properties t -> b_type (p_binding p) = "zeebe:property").
  { intros p Hp. apply kind_of_filter in Hp. apply bool_decide_eq_true_1 in Hp. exact Hp. }
  apply (keyed_first "zeebe:Properties" "properties" "zeebe:Property" "name" "value"
           (fun p => b_name (p_binding p)) zeebe_property_init gate_live gate_creates
           live_or_kept
           (fun p => p ∈ zeebe_properties t) element oldTemplate);
    try assumption; try discriminate.
  - intros p h ee' Hkind. apply findBusinessObject_zeebe_property, Hk, Hkind.
  - intros p h e Hkind. apply getPropertyValue_zeebe_property, Hk, Hkind.
  - intros p _. unfold zeebe_property_init. split; [compute_done|].
    split; [left | right; left].
  - intros p h e Hkind Hkeep _.
    apply (gate_live_kept oldTemplate); [rewrite (Hk p Hkind); reflexivity| |exact Hkeep].
    intros Hup q Hq. apply (Hsame p q Hkind Hup Hq).
  - intros p h e _. apply gate_live_default.
  - intros p h e _. apply gate_creates_live.
  - intros p keep _. apply gate_dead.
  - intros p h h' e. apply live_or_kept_agree.
  - auto.
Qed.

(** ** Input and output mappings *)

Lemma keyed_inv_frame (K : list string) (W : string -> string -> bool)
    (s s' : state) (holder : loc) (holderType listAttr entryType keyAttr slot : string)
    (key : property -> option string) (creates : property -> bool)
    (done : list property) (snapshot : list loc) :
  frame K W s s' ->
  type_of (heap s) holder = Some holderType ->
  W holderType listAttr = false ->
  (forall k, W entryType k = false) ->
  keyed_inv (heap s) holder listAttr entryType keyAttr slot key
    (live_or_kept (heap s)) creates done snapshot ->
  keyed_inv (heap s') holder listAttr entryType keyAttr slot key
    (live_or_kept (heap s')) creates done snapshot.
Proof.
  intros F Hhd HWl HWe (Hnd & Htyped & HndS & Hsub & Hsettled).
  unfold keyed_inv. rewrite (frame_get_many F holder _ _ Hhd HWl).
  split; [exact Hnd|]. split.
  { intros e He. apply (frame_typed F), Htyped, He. }
  split; [exact HndS|]. split; [exact Hsub|].
  apply (keyed_settled_frame F _ _ _ _ entryType _ (live_or_kept (heap s)));
    [| exact HWe | | exact Hsettled].
  - intros e He. apply elem_of_without_fn in He as [He _]. apply Htyped, He.
  - intros p e Hget. apply live_or_kept_agree, Hget.
Qed.

Lemma input_step (oldTemplate : option template) (element : eref) (ee ioMapping : loc)
    (done : list property) (snapshot : list loc) (p : property) (s1 : state) :
  b_type (p_binding p) = "zeebe:input" ->
  same_default oldTemplate p ->
  (forall p', p' ∈ done -> b_name (p_binding p') <> b_name (p_binding p)) ->
  bounded s1 ->
  type_of (heap s1) ee = Some "bpmn:ExtensionElements" ->
  findExtension (heap s1) ee "zeebe:IoMapping" = Some ioMapping ->
  input_inv (heap s1) ioMapping done snapshot ->
  runs (keyed_each "inputParameters" "zeebe:Input" "source" input_init gate_live
          gate_creates element ee ioMapping oldTemplate snapshot p) s1
    (fun snapshot' s2 =>
       frame ["zeebe:Input"] (W_keyed "zeebe:IoMapping" "inputParameters" "zeebe:Input")
         s1 s2 /\
       input_inv (heap s2) ioMapping (done ++ [p]) snapshot').
Proof.
  intros Hkind Hsame Hkeys Hb Hee Hholder Hinv.
  apply (keyed_step "zeebe:IoMapping" "inputParameters" "zeebe:Input" "target" "source"
           (fun p => b_name (p_binding p)) input_init gate_live gate_creates
           live_or_kept (fun p => b_type (p_binding p) = "zeebe:input" /\ same_default oldTemplate p)
           element oldTemplate);
    try assumption; try discriminate; try (split; assumption).
  - intros p0 h ee' [Hk _]. apply findBusinessObject_input, Hk.
  - intros p0 h e [Hk _]. apply getPropertyValue_input, Hk.
  - intros p0 _. unfold input_init. split; [compute_done|]. split; [right; left | left].
  - intros p0 h e [Hk Hsame0] Hkeep _.
    apply (gate_live_kept oldTemplate); [rewrite Hk; reflexivity | exact Hsame0 | exact Hkeep].
  - intros p0 h e _. apply gate_live_default.
  - intros p0 h e _. apply gate_creates_live.
  - intros p0 keep _. apply gate_dead.
  - intros p0 h h' e. apply live_or_kept_agree.
Qed.

Lemma output_step (oldTemplate : option template) (element : eref) (ee ioMapping : loc)
    (done : list property) (snapshot : list loc) (p : property) (s1 : state) :
  b_type (p_binding p) = "zeebe:output" ->
  same_default oldTemplate p ->
  (forall p', p' ∈ done -> b_source (p_binding p') <> b_source (p_binding p)) ->
  bounded s1 ->
  type_of (heap s1) ee = Some "bpmn:ExtensionElements" ->
  findExtension (heap s1) ee "zeebe:IoMapping" = Some ioMapping ->
  output_inv (heap s1) ioMapping done snapshot ->
  runs (keyed_each "outputParameters" "zeebe:Output" "target" output_init gate_live
          gate_creates element ee ioMapping oldTemplate snapshot p) s1
    (fun snapshot' s2 =>
       frame ["zeebe:Output"]
         (W_keyed "zeebe:IoMapping" "outputParameters" "zeebe:Output") s1 s2 /\
       output_inv (heap s2) ioMapping (done ++ [p]) snapshot').
Proof.
  intros Hkind Hsame Hkeys Hb Hee Hholder Hinv.
  apply (keyed_step "zeebe:IoMapping" "outputParameters" "zeebe:Output" "source" "target"
           (fun p => b_source (p_binding p)) output_init gate_live gate_creates
           live_or_kept (fun p => b_type (p_binding p) = "zeebe:output" /\ same_default oldTemplate p)
           element oldTemplate);
    try assumption; try discriminate; try (split; assumption).
  - intros p0 h ee' [Hk _]. apply findBusinessObject_output, Hk.
  - intros p0 h e [Hk _]. apply getPropertyValue_output, Hk.
  - intros p0 _. unfold output_init. split; [compute_done|]. split; [left | right; left].
  - intros p0 h e [Hk Hsame0] Hkeep _.
    apply (gate_live_kept oldTemplate); [rewrite Hk; reflexivity | exact Hsame0 | exact Hkeep].
  - intros p0 h e _. apply gate_live_default.
  - intros p0 h e _. apply gate_creates_live.
  - intros p0 keep _. apply gate_dead.
  - intros p0 h h' e. apply live_or_kept_agree.
Qed.

Lemma bind_assoc {A B C} (m : M A) (k1 : A -> M B) (k2 : B -> M C) (s : state) :
  bind (bind m k1) k2 s = bind m (fun a => bind (k1 a) k2) s.
Proof. unfold bind. destruct (m s) as [[a s1]|]; reflexivity. Qed.

(** The callback of the mapping reconciler is a step on the inputs for an
    input property and a step on the outputs for an output property. *)
Lemma io_each_input (oldTemplate : option template) (element : eref) (ee ioMapping : loc)
    (oldInputs oldOutputs : list loc) (p : property) (s : state) :
  b_type (p_binding p) = "zeebe:input" ->
  (forall e, findBusinessObject (heap s) (Moddle ee) p = Some e ->
     is_a (heap s) e "zeebe:Input" = true) ->
  _updateZeebeInputOutputParameterProperties_each element ee ioMapping oldTemplate
    (oldInputs, oldOutputs) p s
  = (let* oldInputs :=
       keyed_each "inputParameters" "zeebe:Input" "source" input_init gate_live
         gate_creates element ee ioMapping oldTemplate oldInputs p in
     ret (oldInputs, oldOutputs)) s.
Proof.
  intros Hkind Hty.
  unfold _updateZeebeInputOutputParameterProperties_each, keyed_each, gate_live,
    gate_creates.
  rewrite bind_assoc, !bind_gets. cbv beta zeta.
  destruct (findBusinessObject (heap s) (Moddle ee) p) as [e|] eqn:Hfound.
  - rewrite (Hty e eq_refl).
    destruct (truthy_prim (shouldKeepValue (heap s) (Some (Moddle e))
                             (findOldProperty oldTemplate p) p));
      destruct (shouldUpdate (getDefaultValue p) p); reflexivity.
  - rewrite Hkind.
    rewrite (bool_decide_eq_true_2 ("zeebe:input" = "zeebe:input")) by reflexivity.
    destruct (shouldUpdate (getDefaultValue p) p); reflexivity.
Qed.

Lemma io_each_output (oldTemplate : option template) (element : eref) (ee ioMapping : loc)
    (oldInputs oldOutputs : list loc) (p : property) (s : state) :
  b_type (p_binding p) = "zeebe:output" ->
  (forall e, findBusinessObject (heap s) (Moddle ee) p = Some e ->
     is_a (heap s) e "zeebe:Input" = false) ->
  _updateZeebeInputOutputParameterProperties_each element ee ioMapping oldTemplate
    (oldInputs, oldOutputs) p s
  = (let* oldOutputs :=
       keyed_each "outputParameters" "zeebe:Output" "target" output_init gate_live
         gate_creates element ee ioMapping oldTemplate oldOutputs p in
     ret (oldInputs, oldOutputs)) s.
Proof.
  intros Hkind Hty.
  unfold _updateZeebeInputOutputParameterProperties_each, keyed_each, gate_live,
    gate_creates.
  rewrite bind_assoc, !bind_gets. cbv beta zeta.
  destruct (findBusinessObject (heap s) (Moddle ee) p) as [e|] eqn:Hfound.
  - rewrite (Hty e eq_refl).
    destruct (truthy_prim (shouldKeepValue (heap s) (Some (Moddle e))
                             (findOldProperty oldTemplate p) p));
      destruct (shouldUpdate (getDefaultValue p) p); reflexivity.
  - rewrite Hkind.
    rewrite (bool_decide_eq_false_2 ("zeebe:output" = "zeebe:input")) by discriminate.
    destruct (shouldUpdate (getDefaultValue p) p); reflexivity.
Qed.

Lemma runs_eq {A} (m m' : M A) (s : state) (Q : A -> state -> Prop) :
  m s = m' s -> runs m' s Q -> runs m s Q.
Proof. intros E H a s' Hm. rewrite E in Hm. exact (H a s' Hm). Qed.

Lemma frame_input_io (s s' : state) :
  frame ["zeebe:Input"] (W_keyed "zeebe:IoMapping" "inputParameters" "zeebe:Input") s s' ->
  frame ["zeebe:Input"; "zeebe:Output"]
    (W_nodes ["zeebe:IoMapping"; "zeebe:Input"; "zeebe:Output"]) s s'.
Proof.
  apply frame_weaken.
  - intros T HT. apply list_elem_of_singleton in HT. subst T. left.
  - intros type k HW. unfold W_keyed in HW. unfold W_nodes.
    apply orb_true_iff. left. apply bool_decide_eq_true_2.
    apply orb_true_iff in HW as [HW|HW].
    + apply bool_decide_eq_true_1 in HW. subst type. right. left.
    + apply andb_true_iff in HW as [HW _].
      apply bool_decide_eq_true_1 in HW. subst type. left.
Qed.

Lemma frame_output_io (s s' : state) :
  frame ["zeebe:Output"] (W_keyed "zeebe:IoMapping" "outputParameters" "zeebe:Output") s s' ->
  frame ["zeebe:Input"; "zeebe:Output"]
    (W_nodes ["zeebe:IoMapping"; "zeebe:Input"; "zeebe:Output"]) s s'.
Proof.
  apply frame_weaken.
  - intros T HT. apply list_elem_of_singleton in HT. subst T. right. left.
  - intros type k HW. unfold W_keyed in HW. unfold W_nodes.
    apply orb_true_iff. left. apply bool_decide_eq_true_2.
    apply orb_true_iff in HW as [HW|HW].
    + apply bool_decide_eq_true_1 in HW. subst type. right. right. left.
    + apply andb_true_iff in HW as [HW _].
      apply bool_decide_eq_true_1 in HW. subst type. left.
Qed.

Lemma frame_io_extension (s s' : state) :
  frame ["zeebe:Input"; "zeebe:Output"]
    (W_nodes ["zeebe:IoMapping"; "zeebe:Input"; "zeebe:Output"]) s s' ->
  frame (K_extension ["zeebe:IoMapping"; "zeebe:Input"; "zeebe:Output"])
    (W_nodes ["zeebe:IoMapping"; "zeebe:Input"; "zeebe:Output"]) s s'.
Proof.
  apply frame_weaken; [|auto].
  intros T HT. right. right. exact HT.
Qed.

Lemma filter_app_one {A} (f : A -> bool) (l : list A) (x : A) :
  List.filter f (l ++ [x]) = List.filter f l ++ (if f x then [x] else []).
Proof. rewrite List.filter_app. simpl. destruct (f x); reflexivity. Qed.

Lemma NoDup_map_filter_split {A B} (f : A -> B) (g : A -> bool)
    (done todo : list A) (x : A) :
  NoDup (map f (List.filter g (done ++ x :: todo))) -> g x = true ->
  forall y, y ∈ List.filter g done -> f y <> f x.
Proof.
  intros Hnd Hgx y Hy Heq.
  rewrite List.filter_app in Hnd. simpl in Hnd. rewrite Hgx, map_app in Hnd.
  apply NoDup_app in Hnd as (_ & Hdisj & _).
  apply (Hdisj (f y)).
  - apply list_elem_of_In, in_map. apply list_elem_of_In, Hy.
  - rewrite Heq. simpl. left.
Qed.

Lemma io_loop (oldTemplate : option template) (element : eref) (ee ioMapping : loc)
    (properties : list property) (s : state) :
  (forall p, p ∈ properties ->
     b_type (p_binding p) = "zeebe:input" \/ b_type (p_binding p) = "zeebe:output") ->
  (forall p, p ∈ properties -> same_default oldTemplate p) ->
  NoDup (map (fun p => b_name (p_binding p)) (List.filter is_input properties)) ->
  NoDup (map (fun p => b_source (p_binding p))
           (List.filter (fun p => negb (is_input p)) properties)) ->
  bounded s ->
  type_of (heap s) ee = Some "bpmn:ExtensionElements" ->
  findExtension (heap s) ee "zeebe:IoMapping" = Some ioMapping ->
  input_inv (heap s) ioMapping [] (get_many (heap s) ioMapping "inputParameters") ->
  output_inv (heap s) ioMapping [] (get_many (heap s) ioMapping "outputParameters") ->
  runs (forEach_with
          (_updateZeebeInputOutputParameterProperties_each element ee ioMapping oldTemplate)
          properties
          (get_many (heap s) ioMapping "inputParameters",
           get_many (heap s) ioMapping "outputParameters")) s
    (fun snapshots s' =>
       frame ["zeebe:Input"; "zeebe:Output"]
         (W_nodes ["zeebe:IoMapping"; "zeebe:Input"; "zeebe:Output"]) s s' /\
       input_inv (heap s') ioMapping (List.filter is_input properties) snapshots.1 /\
       output_inv (heap s') ioMapping
         (List.filter (fun p => negb (is_input p)) properties) snapshots.2).
Proof.
  intros Hkinds Hsame Hin Hout Hb Hee Hholder Hinv_in Hinv_out.
  set (I := fun (done : list property) (snapshots : list loc * list loc) (s1 : state) =>
              frame ["zeebe:Input"; "zeebe:Output"]
                (W_nodes ["zeebe:IoMapping"; "zeebe:Input"; "zeebe:Output"]) s s1 /\
              input_inv (heap s1) ioMapping (List.filter is_input done) snapshots.1 /\
              output_inv (heap s1) ioMapping
                (List.filter (fun p => negb (is_input p)) done) snapshots.2).
  apply (runs_forEach_with I).
  { split; [apply frame_refl|]. split; assumption. }
  intros done p todo [oldInputs oldOutputs] s1 Harr (F1 & Hi & Ho).
  cbn [fst snd] in Hi, Ho.
  pose proof (frame_bounded _ _ _ _ F1 Hb) as Hb1.
  pose proof (frame_typed F1 _ _ Hee) as Hee1.
  assert (Hholder1 : findExtension (heap s1) ee "zeebe:IoMapping" = Some ioMapping).
  { rewrite (frame_findExtension F1); [exact Hholder | exact Hee | | discriminate].
    compute_done. }
  assert (Hio1 : type_of (heap s1) ioMapping = Some "zeebe:IoMapping").
  { apply (findExtension_some _ ee); [discriminate | exact Hholder1]. }
  assert (Hp : p ∈ properties).
  { rewrite Harr. apply elem_of_app. right. left. }
  destruct (Hkinds p Hp) as [Hkind|Hkind].
  - assert (His : is_input p = true) by (apply bool_decide_eq_true_2, Hkind).
    eapply runs_eq.
    { apply io_each_input; [exact Hkind|].
      intros e Hfound. rewrite (findBusinessObject_input _ _ _ Hkind), Hholder1 in Hfound.
      apply find_key_some in Hfound as [He _].
      destruct Hi as (_ & Htyped & _). apply is_a_own, Htyped, He. }
    apply runs_bind. eapply runs_mono.
    { apply (input_step oldTemplate element ee ioMapping (List.filter is_input done)
               oldInputs p s1 Hkind (Hsame p Hp)); try assumption.
      rewrite Harr in Hin.
      apply (NoDup_map_filter_split (fun p => b_name (p_binding p)) is_input
               done todo p Hin His). }
    intros oldInputs' s2 (F2 & Hi'). apply runs_ret.
    split; [apply (frame_trans _ _ _ _ _ F1), frame_input_io, F2|].
    cbn [fst snd]. rewrite !filter_app_one, His. cbn [negb]. rewrite app_nil_r.
    split; [exact Hi'|].
    apply (keyed_inv_frame _ _ _ _ _ "zeebe:IoMapping" _ _ _ _ _ _ _ _ F2 Hio1);
      [reflexivity | reflexivity | exact Ho].
  - assert (His : is_input p = false).
    { apply bool_decide_eq_false_2. rewrite Hkind. discriminate. }
    eapply runs_eq.
    { apply io_each_output; [exact Hkind|].
      intros e Hfound. rewrite (findBusinessObject_output _ _ _ Hkind), Hholder1 in Hfound.
      apply find_key_some in Hfound as [He _].
      destruct Ho as (_ & Htyped & _).
      apply (is_a_foreign _ _ "zeebe:Output"); [apply Htyped, He | discriminate | discriminate]. }
    apply runs_bind. eapply runs_mono.
    { apply (output_step oldTemplate element ee ioMapping
               (List.filter (fun p => negb (is_input p)) done) oldOutputs
               p s1 Hkind (Hsame p Hp)); try assumption.
      rewrite Harr in Hout.
      apply (NoDup_map_filter_split (fun p => b_source (p_binding p))
               (fun p => negb (is_input p)) done todo p Hout).
      rewrite His. reflexivity. }
    intros oldOutputs' s2 (F2 & Ho'). apply runs_ret.
    split; [apply (frame_trans _ _ _ _ _ F1), frame_output_io, F2|].
    cbn [fst snd]. rewrite !filter_app_one, His. cbn [negb]. rewrite app_nil_r.
    split; [|exact Ho'].
    apply (keyed_inv_frame _ _ _ _ _ "zeebe:IoMapping" _ _ _ _ _ _ _ _ F2 Hio1);
      [reflexivity | reflexivity | exact Hi].
Qed.

Lemma io_cleanup (listAttr entryType keyAttr slot : string)
    (key : property -> option string) (element : eref) (W : string -> string -> bool)
    (K : list string) (holder : loc) (properties : list property)
    (snapshot : list loc) (s : state) :
  "zeebe:IoMapping" <> entryType ->
  W "zeebe:IoMapping" listAttr = true ->
  type_of (heap s) holder = Some "zeebe:IoMapping" ->
  keyed_inv (heap s) holder listAttr entryType keyAttr slot key (live_or_kept (heap s))
    gate_creates properties snapshot ->
  runs (if negb (isEmpty snapshot) then
          let* h := gets heap in
          execute (UpdateModdleProperties element holder
                     [(listAttr,
                       VArr (without_fn (get_many h holder listAttr) (includes snapshot)))])
        else ret tt) s
    (fun _ s' =>
       frame K W s s' /\
       (forall x k, x <> holder -> get (heap s') x k = get (heap s) x k) /\
       (forall x, type_of (heap s') x = type_of (heap s) x) /\
       NoDup (get_many (heap s') holder listAttr) /\
       (forall e, e ∈ get_many (heap s') holder listAttr ->
          type_of (heap s') e = Some entryType) /\
       keyed_settled (heap s') properties (get_many (heap s') holder listAttr)
         keyAttr slot key (live_or_kept (heap s')) gate_creates).
Proof.
  intros Hne HW Hhd Hinv.
  apply (keyed_cleanup "zeebe:IoMapping" listAttr entryType keyAttr slot key
           gate_creates live_or_kept element); try assumption.
  - discriminate.
  - intros p h h' e. apply live_or_kept_agree.
Qed.

Lemma inputOutput_first (oldTemplate : option template) (t : template) (element : eref)
    (ee : loc) (s : state) :
  (forall p, p ∈ io_properties t -> same_default oldTemplate p) ->
  NoDup (map (fun p => b_name (p_binding p)) (input_properties t)) ->
  NoDup (map (fun p => b_source (p_binding p)) (output_properties t)) ->
  bounded s ->
  get (heap s) (bo_of element) "extensionElements" = VRef ee ->
  type_of (heap s) ee = Some "bpmn:ExtensionElements" ->
  unique_node (heap s) ee "zeebe:IoMapping" ->
  entries_wf (heap s) ee "zeebe:IoMapping" "inputParameters" "zeebe:Input" ->
  entries_wf (heap s) ee "zeebe:IoMapping" "outputParameters" "zeebe:Output" ->
  runs (_updateZeebeInputOutputParameterProperties element oldTemplate t) s
    (fun _ s' =>
       frame (K_extension ["zeebe:IoMapping"; "zeebe:Input"; "zeebe:Output"])
         (W_nodes ["zeebe:IoMapping"; "zeebe:Input"; "zeebe:Output"]) s s' /\
       io_settled (heap s') t ee /\
       entries_wf (heap s') ee "zeebe:IoMapping" "inputParameters" "zeebe:Input" /\
       entries_wf (heap s') ee "zeebe:IoMapping" "outputParameters" "zeebe:Output").
Proof.
  intros Hsame Hin Hout Hb Hlink Hee Huniq Hwfi Hwfo.
  set (own := ["zeebe:IoMapping"; "zeebe:Input"; "zeebe:Output"]).
  set (K := K_extension own). set (W := W_nodes own).
  assert (HWv : W "bpmn:ExtensionElements" "values" = true) by apply W_nodes_values.
  assert (HWi : W "zeebe:IoMapping" "inputParameters" = true) by (apply W_nodes_own; left).
  assert (HWo : W "zeebe:IoMapping" "outputParameters" = true) by (apply W_nodes_own; left).
  assert (HKh : "zeebe:IoMapping" ∈ K) by (right; left).
  assert (HE : "zeebe:IoMapping" <> "bpmn:Event") by discriminate.
  unfold _updateZeebeInputOutputParameterProperties.
  change (List.filter _ (t_properties t)) with (io_properties t).
  apply runs_bind.
  apply (runs_det _ s s ee); [apply getOrCreateExtensionElements_existing, Hlink|].
  apply runs_bind, runs_gets.
  assert (Hcleanups : forall (holder : loc) (s2 : state) (oldInputs oldOutputs : list loc),
    type_of (heap s2) holder = Some "zeebe:IoMapping" ->
    input_inv (heap s2) holder (input_properties t) oldInputs ->
    output_inv (heap s2) holder (output_properties t) oldOutputs ->
    runs ((if negb (isEmpty oldInputs) then
             let* h := gets heap in
             execute (UpdateModdleProperties element holder
                        [("inputParameters",
                          VArr (without_fn (get_many h holder "inputParameters")
                                  (includes oldInputs)))])
           else ret tt) >>
          (if negb (isEmpty oldOutputs) then
             let* h := gets heap in
             execute (UpdateModdleProperties element holder
                        [("outputParameters",
                          VArr (without_fn (get_many h holder "outputParameters")
                                  (includes oldOutputs)))])
           else ret tt)) s2
      (fun _ s4 =>
         frame K W s2 s4 /\
         (forall x k, x <> holder -> get (heap s4) x k = get (heap s2) x k) /\
         (forall x, type_of (heap s4) x = type_of (heap s2) x) /\
         (NoDup (get_many (heap s4) holder "inputParameters") /\
          forall e, e ∈ get_many (heap s4) holder "inputParameters" ->
            type_of (heap s4) e = Some "zeebe:Input") /\
         (NoDup (get_many (heap s4) holder "outputParameters") /\
          forall e, e ∈ get_many (heap s4) holder "outputParameters" ->
            type_of (heap s4) e = Some "zeebe:Output") /\
         keyed_settled (heap s4) (input_properties t)
           (get_many (heap s4) holder "inputParameters") "target" "source"
           (fun p => b_name (p_binding p)) (live_or_kept (heap s4)) gate_creates /\
         keyed_settled (heap s4) (output_properties t)
           (get_many (heap s4) holder "outputParameters") "source" "target"
           (fun p => b_source (p_binding p)) (live_or_kept (heap s4)) gate_creates)).
  { intros holder s2 oldInputs oldOutputs Hhd2 Hi2 Ho2.
    apply runs_bind. eapply runs_mono.
    { apply (io_cleanup "inputParameters" "zeebe:Input" "target" "source"
               (fun p => b_name (p_binding p)) element
               (W_keyed "zeebe:IoMapping" "inputParameters" "zeebe:Input")
               ["zeebe:Input"] holder (input_properties t) oldInputs s2);
        [discriminate | reflexivity | exact Hhd2 | exact Hi2]. }
    intros [] s3 (F3 & Hother3 & Htypes3 & Hnd3 & Htyped3 & Hsettled3).
    assert (Ho3 : output_inv (heap s3) holder (output_properties t) oldOutputs).
    { apply (keyed_inv_frame _ _ _ _ _ "zeebe:IoMapping" _ _ _ _ _ _ _ _ F3 Hhd2);
        [reflexivity | reflexivity | exact Ho2]. }
    assert (Hhd3 : type_of (heap s3) holder = Some "zeebe:IoMapping").
    { rewrite Htypes3. exact Hhd2. }
    eapply runs_mono.
    { apply (io_cleanup "outputParameters" "zeebe:Output" "source" "target"
               (fun p => b_source (p_binding p)) element
               (W_keyed "zeebe:IoMapping" "outputParameters" "zeebe:Output")
               ["zeebe:Output"] holder (output_properties t) oldOutputs s3);
        [discriminate | reflexivity | exact Hhd3 | exact Ho3]. }
    intros [] s4 (F4 & Hother4 & Htypes4 & Hnd4 & Htyped4 & Hsettled4).
    assert (Hinputs4 : get_many (heap s4) holder "inputParameters"
                       = get_many (heap s3) holder "inputParameters").
    { apply (frame_get_many F4 holder "zeebe:IoMapping"); [exact Hhd3 | reflexivity]. }
    split.
    { apply (frame_trans _ _ _ _ _ (frame_io_extension _ _ (frame_input_io _ _ F3))),
        frame_io_extension, frame_output_io, F4. }
    split.
    { intros x k Hx. rewrite Hother4, Hother3 by exact Hx. reflexivity. }
    split.
    { intros x. rewrite Htypes4, Htypes3. reflexivity. }
    rewrite Hinputs4. split.
    { split; [exact Hnd3|]. intros e He. rewrite Htypes4. apply Htyped3, He. }
    split; [split; assumption|].
    split; [|exact Hsettled4].
    apply (keyed_settled_frame F4 _ _ _ _ "zeebe:Input" _ (live_or_kept (heap s3)));
      [exact Htyped3 | reflexivity | | exact Hsettled3].
    intros p e Hget. apply live_or_kept_agree, Hget. }
  destruct (io_properties t) as [|p0 ps] eqn:Hps; cbn [isEmpty].
  - assert (Hinp : input_properties t = []).
    { rewrite <- input_of_io_properties, Hps. reflexivity. }
    assert (Houtp : output_properties t = []).
    { rewrite <- output_of_io_properties, Hps. reflexivity. }
    destruct (findExtension (heap s) ee "zeebe:IoMapping") as [holder|] eqn:Hholder.
    + apply runs_bind, runs_bind. rewrite <- Hholder.
      eapply runs_mono;
        [apply (holder_removal_first K W element ee "zeebe:IoMapping" s); assumption|].
      intros [] s1 (F1 & Hnone & Hother & Htypes). apply runs_ret. cbn iota.
      apply runs_bind, runs_ret. apply runs_bind, runs_gets.
      cbn [forEach_with]. apply runs_bind, runs_ret.
      assert (Hhd : type_of (heap s) holder = Some "zeebe:IoMapping").
      { apply (findExtension_some _ ee); [discriminate | exact Hholder]. }
      assert (Hne : holder <> ee) by (intros ->; congruence).
      destruct (Hwfi holder Hholder) as [Hndi Htypedi].
      destruct (Hwfo holder Hholder) as [Hndo Htypedo].
      assert (Hentries : forall k, get_many (heap s1) holder k = get_many (heap s) holder k).
      { intros k. unfold get_many. rewrite Hother by exact Hne. reflexivity. }
      eapply runs_mono.
      { apply (Hcleanups holder s1).
        - rewrite Htypes. exact Hhd.
        - rewrite Hinp. apply keyed_inv_start.
          + rewrite Hentries. exact Hndi.
          + intros e He. rewrite Htypes. apply Htypedi. rewrite <- Hentries. exact He.
        - rewrite Houtp. apply keyed_inv_start.
          + rewrite Hentries. exact Hndo.
          + intros e He. rewrite Htypes. apply Htypedo. rewrite <- Hentries. exact He. }
      intros [] s4 (F4 & Hother4 & Htypes4 & _).
      split; [apply (frame_trans _ _ _ _ _ F1 F4)|].
      assert (Hnone4 : findExtension (heap s4) ee "zeebe:IoMapping" = None).
      { rewrite (findExtension_agree (heap s1)); [exact Hnone| | |exact Htypes4].
        - rewrite Htypes. exact Hee.
        - apply Hother4. congruence. }
      unfold io_settled. rewrite Hps.
      split; [exact Hnone4|].
      split; intros holder' Hfind'; congruence.
    + apply runs_bind, runs_ret. cbn iota. apply runs_ret.
      split; [apply frame_refl|]. unfold io_settled. rewrite Hps. auto.
  - rewrite <- Hps in *. apply runs_bind, runs_ret. cbn iota.
    assert (Hacquire :
      runs (match findExtension (heap s) ee "zeebe:IoMapping" with
            | Some holder => ret holder
            | None => create_holder element ee "zeebe:IoMapping"
            end) s
        (fun holder s1 =>
           frame K W s s1 /\
           findExtension (heap s1) ee "zeebe:IoMapping" = Some holder /\
           (NoDup (get_many (heap s1) holder "inputParameters") /\
            forall e, e ∈ get_many (heap s1) holder "inputParameters" ->
              type_of (heap s1) e = Some "zeebe:Input") /\
           (NoDup (get_many (heap s1) holder "outputParameters") /\
            forall e, e ∈ get_many (heap s1) holder "outputParameters" ->
              type_of (heap s1) e = Some "zeebe:Output"))).
    { destruct (findExtension (heap s) ee "zeebe:IoMapping") as [holder|] eqn:Hholder.
      - apply runs_ret. split; [apply frame_refl|]. split; [exact Hholder|].
        split; [apply (Hwfi holder Hholder) | apply (Hwfo holder Hholder)].
      - eapply runs_mono;
          [apply (create_holder_first K W element ee "zeebe:IoMapping" s); assumption|].
        intros holder s1 (F1 & Hfind1 & Hty1 & Hattrs).
        split; [exact F1|]. split; [exact Hfind1|].
        unfold get_many. rewrite !Hattrs.
        split; (split; [apply NoDup_nil_2|]);
          intros e He; apply elem_of_nil in He; contradiction. }
    apply runs_bind. eapply runs_mono; [exact Hacquire|].
    intros holder s1 (F1 & Hfind1 & [Hndi Htypedi] & [Hndo Htypedo]).
    pose proof (frame_bounded _ _ _ _ F1 Hb) as Hb1.
    pose proof (frame_typed F1 _ _ Hee) as Hee1.
    apply runs_bind, runs_gets. apply runs_bind.
    eapply runs_mono.
    { apply (io_loop oldTemplate element ee holder (io_properties t) s1); try assumption.
      - intros p Hp. destruct (io_kind t p Hp) as [[Hk _]|(Hk & _)]; auto.
      - change (List.filter is_input (io_properties t))
          with (List.filter (fun p => bool_decide (b_type (p_binding p) = "zeebe:input"))
                  (io_properties t)).
        rewrite input_of_io_properties. exact Hin.
      - change (List.filter (fun p => negb (is_input p)) (io_properties t))
          with (List.filter (fun p => negb (bool_decide (b_type (p_binding p) = "zeebe:input")))
                  (io_properties t)).
        rewrite output_of_io_properties. exact Hout.
      - apply keyed_inv_start; assumption.
      - apply keyed_inv_start; assumption. }
    intros [oldInputs oldOutputs] s2 (F2 & Hi2 & Ho2). cbn [fst snd] in Hi2, Ho2.
    change (List.filter is_input (io_properties t))
      with (List.filter (fun p => bool_decide (b_type (p_binding p) = "zeebe:input"))
              (io_properties t)) in Hi2.
    change (List.filter (fun p => negb (is_input p)) (io_properties t))
      with (List.filter (fun p => negb (bool_decide (b_type (p_binding p) = "zeebe:input")))
              (io_properties t)) in Ho2.
    rewrite input_of_io_properties in Hi2. rewrite output_of_io_properties in Ho2.
    pose proof (frame_typed F2 _ _ Hee1) as Hee2.
    assert (Hfind2 : findExtension (heap s2) ee "zeebe:IoMapping" = Some holder).
    { rewrite (frame_findExtension F2); [exact Hfind1 | exact Hee1 | | discriminate].
      compute_done. }
    assert (Hhd2 : type_of (heap s2) holder = Some "zeebe:IoMapping").
    { apply (findExtension_some _ ee); [discriminate | exact Hfind2]. }
    assert (Hne : holder <> ee) by (intros ->; congruence).
    eapply runs_mono; [apply (Hcleanups holder s2 oldInputs oldOutputs Hhd2 Hi2 Ho2)|].
    intros [] s4 (F4 & Hother4 & Htypes4 & [Hndi4 Htypedi4] & [Hndo4 Htypedo4]
                  & Hsi4 & Hso4).
    split.
    { apply (frame_trans _ _ _ _ _ F1), (frame_trans _ _ _ _ _ (frame_io_extension _ _ F2)), F4. }
    assert (Hfind4 : findExtension (heap s4) ee "zeebe:IoMapping" = Some holder).
    { rewrite (findExtension_agree (heap s2)); [exact Hfind2 | exact Hee2 | | exact Htypes4].
      apply Hother4. congruence. }
    split.
    { unfold io_settled. rewrite Hps. exists holder.
      split; [exact Hfind4|]. split; [exact Hsi4|]. split.
      { intros e He. apply is_a_own, Htypedi4, He. }
      split; [exact Hso4|].
      intros e He. apply (is_a_foreign _ _ "zeebe:Output");
        [apply Htypedo4, He | discriminate | discriminate]. }
    split; intros holder' Hfind'; rewrite Hfind4 in Hfind'; injection Hfind' as <-; auto.
Qed.

(** ** The referenced message *)

Lemma runs_getRoot (businessObject : loc) (s : state) (Q : loc -> state -> Prop) :
  (forall root, Q root s) -> runs (getRoot businessObject) s Q.
Proof.
  intros HQ root s' E. unfold getRoot in E.
  destruct (getRoot_from _ _ _); [|discriminate].
  injection E as <- <-. apply HQ.
Qed.

Lemma getPropertyValue_message (h : gmap loc obj) (m : loc) (p : property) :
  b_type (p_binding p) = MESSAGE_PROPERTY_TYPE ->
  getPropertyValue h (Some (Moddle m)) p = get h m (key_of (b_name (p_binding p))).
Proof. intros Hkind. unfold getPropertyValue. rewrite Hkind. reflexivity. Qed.

Lemma getPropertyValue_subscription (h : gmap loc obj) (m : loc) (p : property) :
  b_type (p_binding p) = MESSAGE_ZEEBE_SUBSCRIPTION_PROPERTY_TYPE ->
  getPropertyValue h (Some (Moddle m)) p = get h m (key_of (b_name (p_binding p))).
Proof. intros Hkind. unfold getPropertyValue. rewrite Hkind. reflexivity. Qed.

Lemma message_kind (t : template) (p : property) :
  p ∈ message_properties t -> b_type (p_binding p) = MESSAGE_PROPERTY_TYPE.
Proof. intros Hp. apply kind_of_filter in Hp. apply bool_decide_eq_true_1 in Hp. exact Hp. Qed.

Lemma subscription_kind (t : template) (p : property) :
  p ∈ subscription_properties t ->
  b_type (p_binding p) = MESSAGE_ZEEBE_SUBSCRIPTION_PROPERTY_TYPE.
Proof. intros Hp. apply kind_of_filter in Hp. apply bool_decide_eq_true_1 in Hp. exact Hp. Qed.

Lemma hasMessageProperties_false (t : template) :
  hasMessageProperties t = false ->
  message_properties t = [] /\ subscription_properties t = [].
Proof.
  unfold hasMessageProperties, message_properties, subscription_properties.
  induction (t_properties t) as [|p ps IH]; [auto|].
  simpl. intros H. apply orb_false_iff in H as [Hp Hps].
  destruct (IH Hps) as [IH1 IH2].
  apply bool_decide_eq_false_1 in Hp.
  rewrite !bool_decide_eq_false_2; [auto| |].
  - intros E. apply Hp. rewrite E. right. left.
  - intros E. apply Hp. rewrite E. left.
Qed.

Lemma assign_NoDup (properties : props) (name : string) (value : jsval) :
  NoDup properties.*1 -> NoDup (assign properties name value).*1.
Proof.
  induction properties as [|[k0 v0] ps IH]; simpl; intros Hnd.
  - apply NoDup_singleton.
  - apply NoDup_cons in Hnd as [Hk0 Hnd]. case_bool_decide as Hk; simpl.
    + apply NoDup_cons. auto.
    + apply NoDup_cons. split; [|apply IH, Hnd].
      rewrite assign_keys. intros [H|H]; [contradiction | congruence].
Qed.

Lemma assign_new (properties : props) (name : string) (value : jsval) :
  name ∉ properties.*1 -> (name, value) ∈ assign properties name value.
Proof.
  induction properties as [|[k0 v0] ps IH]; simpl; intros Hni.
  - left.
  - apply not_elem_of_cons in Hni as [Hne Hni].
    rewrite bool_decide_eq_false_2 by congruence. right. apply IH, Hni.
Qed.

Lemma assign_old (properties : props) (name : string) (value : jsval)
    (k : string) (v : jsval) :
  k <> name -> (k, v) ∈ properties -> (k, v) ∈ assign properties name value.
Proof.
  intros Hne. induction properties as [|[k0 v0] ps IH]; simpl; intros Hin.
  - apply elem_of_nil in Hin. contradiction.
  - apply elem_of_cons in Hin as [Heq|Hin].
    + injection Heq as <- <-. rewrite bool_decide_eq_false_2 by exact Hne. left.
    + case_bool_decide; right; [exact Hin | apply IH, Hin].
Qed.

Lemma assign_fold (kept : property -> bool) (key : property -> string)
    (value : property -> jsval) (properties : list property) :
  NoDup (map key properties) ->
  let payload :=
    fold_left (fun acc p => if kept p then acc else assign acc (key p) (value p))
      properties [] in
  NoDup payload.*1 /\
  forall p, p ∈ properties ->
    (kept p = false -> (key p, value p) ∈ payload) /\
    (kept p = true -> key p ∉ payload.*1).
Proof.
  intros Hnd. cbv zeta.
  enough (G : forall todo done acc,
            properties = done ++ todo ->
            NoDup acc.*1 ->
            (forall k, k ∈ acc.*1 -> k ∈ map key done) ->
            (forall p, p ∈ done ->
               (kept p = false -> (key p, value p) ∈ acc) /\
               (kept p = true -> key p ∉ acc.*1)) ->
            let payload :=
              fold_left (fun acc p => if kept p then acc else assign acc (key p) (value p))
                todo acc in
            NoDup payload.*1 /\
            forall p, p ∈ properties ->
              (kept p = false -> (key p, value p) ∈ payload) /\
              (kept p = true -> key p ∉ payload.*1)).
  { apply (G properties [] []); [reflexivity | apply NoDup_nil_2 | |].
    - intros k Hk. apply elem_of_nil in Hk. contradiction.
    - intros p Hp. apply elem_of_nil in Hp. contradiction. }
  induction todo as [|p todo IH]; intros done acc Harr Hacc Hsub Hdone; simpl.
  - rewrite app_nil_r in Harr. subst done. auto.
  - assert (Hfresh : key p ∉ map key done).
    { rewrite Harr, map_app in Hnd. apply NoDup_app in Hnd as (_ & Hdisj & _).
      intros Hin. apply (Hdisj (key p) Hin). simpl. left. }
    apply (IH (done ++ [p])).
    + rewrite Harr, <- app_assoc. reflexivity.
    + destruct (kept p); [exact Hacc | apply assign_NoDup, Hacc].
    + intros k Hk. rewrite map_app. apply elem_of_app.
      destruct (kept p); [left; apply Hsub, Hk|].
      apply assign_keys in Hk as [Hk| ->]; [left; apply Hsub, Hk | right; left].
    + intros p' Hp'. apply elem_of_app in Hp' as [Hp'|Hp'].
      * destruct (Hdone p' Hp') as [Hset Hkept].
        assert (Hne : key p' <> key p).
        { intros E. apply Hfresh. rewrite <- E.
          apply list_elem_of_In, in_map. apply list_elem_of_In, Hp'. }
        destruct (kept p); [auto|]. split.
        -- intros Hk. apply assign_old; [exact Hne | apply Hset, Hk].
        -- intros Hk Hin. apply assign_keys in Hin as [Hin|Hin]; [|contradiction].
           apply (Hkept Hk Hin).
      * apply list_elem_of_singleton in Hp'. subst p'.
        assert (Hni : key p ∉ acc.*1).
        { intros Hin. apply Hfresh, Hsub, Hin. }
        destruct (kept p) eqn:Hk; split; try discriminate; intros _.
        -- exact Hni.
        -- apply assign_new, Hni.
Qed.

Lemma W_reference_external (type : string) :
  external type = true -> W_reference type "messageRef" = true.
Proof. intros He. unfold W_reference. rewrite He. reflexivity. Qed.

Lemma W_reference_other (type k : string) :
  k <> "messageRef" -> W_reference type k = false.
Proof.
  intros Hk. unfold W_reference. rewrite (bool_decide_eq_false_2 _ Hk).
  apply andb_false_r.
Qed.

Lemma W_reference_node (type k : string) :
  type ∈ node_types -> W_reference type k = false.
Proof. intros Hin. unfold W_reference. rewrite (external_node _ Hin). reflexivity. Qed.

Lemma external_not_node (type T : string) :
  external type = true -> T ∈ node_types -> type <> T.
Proof. intros He HT ->. rewrite (external_node _ HT) in He. discriminate. Qed.

Lemma W_fields_other_type (names : list string) (type k : string) :
  type <> "bpmn:Message" -> W_fields names type k = false.
Proof. intros Hty. unfold W_fields. rewrite (bool_decide_eq_false_2 _ Hty). reflexivity. Qed.

Lemma W_fields_other (names : list string) (type k : string) :
  k ∉ names -> W_fields names type k = false.
Proof.
  intros Hk. unfold W_fields. rewrite (bool_decide_eq_false_2 _ Hk).
  apply andb_false_r.
Qed.

Lemma W_fields_external (names : list string) (type k : string) :
  external type = true -> W_fields names type k = false.
Proof.
  intros He. apply W_fields_other_type, (external_not_node _ _ He). compute_done.
Qed.

Lemma W_subscription_external (type k : string) :
  external type = true -> W_subscription type k = false.
Proof.
  intros He. unfold W_subscription.
  rewrite (bool_decide_eq_false_2 (type = "zeebe:Subscription"))
    by (apply (external_not_node _ _ He); compute_done).
  rewrite (bool_decide_eq_false_2 (type = "bpmn:ExtensionElements"))
    by (apply (external_not_node _ _ He); compute_done).
  rewrite (bool_decide_eq_false_2 (type = "bpmn:Message"))
    by (apply (external_not_node _ _ He); compute_done).
  reflexivity.
Qed.

(** The message the element references, found or created. *)
Lemma getOrCreateMessage_first (t : template) (element : eref) (bo_type : string)
    (s : state) :
  bounded s ->
  type_of (heap s) (bo_of element) = Some bo_type -> external bo_type = true ->
  message_wf (heap s) element ->
  runs (_getOrCreateMessage element t) s
    (fun m s1 =>
       frame ["bpmn:Message"] W_reference s s1 /\
       _getMessage (heap s1) element = VRef m /\
       type_of (heap s1) m = Some "bpmn:Message" /\
       message_wf (heap s1) element /\
       (s1 = s \/
        (truthy (_getMessage (heap s) element) = false /\
         get (heap s1) m "zeebe:modelerTemplate" = VPrim (t_id t) /\
         forall k, k <> "zeebe:modelerTemplate" -> get (heap s1) m k = undefined))).
Proof.
  intros Hb Hbo Hext Hwf. pose proof Hwf as [Href Hmsg].
  unfold _getOrCreateMessage. apply runs_bind, runs_gets.
  destruct (truthy (_getMessage (heap s) element)) eqn:Htruthy.
  - apply runs_as_object. intros m Hm.
    split; [apply frame_refl|]. split; [exact Hm|].
    split; [apply (Hmsg m Hm)|]. split; [exact Hwf|]. left. reflexivity.
  - unfold _createMessage. apply runs_bind, runs_gets.
    apply runs_bind, runs_create. intros s2 Hh2 Hn2.
    change (if is_a (heap s) (bo_of element) "bpmn:Event" then _ else _)
      with (referrer (heap s) (bo_of element)).
    destruct (referrer (heap s) (bo_of element)) as [r|] eqn:Hr; [|apply runs_throw].
    apply runs_bind, runs_getRoot. intros root.
    apply runs_bind, runs_set_parent. intros s3 Hh3 Hn3.
    apply runs_bind. unfold updateModdleProperties.
    apply runs_execute. intros s4 Hh4 Hn4. simpl in Hh4. apply runs_ret.
    destruct (Href r eq_refl) as (o & Hro & Hrext).
    assert (Hrty : type_of (heap s) r = Some (otype o)).
    { unfold type_of. rewrite Hro. reflexivity. }
    pose proof (typed_bounded s r _ Hb Hrty) as Hrne.
    assert (F2 : frame ["bpmn:Message"] W_reference s s2).
    { apply (frame_create _ _ _ _ _ _ Hh2 Hn2 Hb). left. }
    assert (F3 : frame ["bpmn:Message"] W_reference s2 s3).
    { apply (frame_set_parent _ _ _ _ _ _ Hh3 Hn3). }
    assert (Hrty3 : type_of (heap s3) r = Some (otype o)).
    { apply (frame_typed F3), (frame_typed F2), Hrty. }
    assert (F4 : frame ["bpmn:Message"] W_reference s3 s4).
    { apply (frame_write _ _ _ _ _ _ Hh4 Hn4). intros o3 Ho3.
      assert (otype o3 = otype o) as ->.
      { unfold type_of in Hrty3. rewrite Ho3 in Hrty3. simpl in Hrty3. congruence. }
      split; [apply external_not_container, Hrext|].
      intros k Hk. simpl in Hk. apply list_elem_of_singleton in Hk. subst k.
      apply W_reference_external, Hrext. }
    assert (F : frame ["bpmn:Message"] W_reference s s4).
    { apply (frame_trans _ _ _ _ _ F2), (frame_trans _ _ _ _ _ F3), F4. }
    assert (Href4 : referrer (heap s4) (bo_of element) = Some r).
    { rewrite (referrer_frame F _ _ Hbo); [exact Hr|].
      apply W_reference_other. discriminate. }
    assert (Hm4 : _getMessage (heap s4) element = VRef (next s)).
    { rewrite getMessage_referrer, Href4, Hh4.
      apply get_alter_set_props_single. apply (type_of_is_Some _ _ _ Hrty3). }
    assert (Hty4 : type_of (heap s4) (next s) = Some "bpmn:Message").
    { apply (frame_typed F4), (frame_typed F3).
      rewrite Hh2, type_of_insert_eq, otype_set_props. reflexivity. }
    assert (Hattrs : forall k v,
              default undefined
                (attrs (set_props [("zeebe:modelerTemplate", VPrim (t_id t))]
                          (Obj "bpmn:Message" None ∅)) !! k) = v ->
              get (heap s4) (next s) k = v).
    { intros k v Hv. rewrite Hh4, get_alter_ne by congruence.
      rewrite Hh3, get_set_parent, Hh2, get_insert_eq. exact Hv. }
    assert (Hempty : forall k, k <> "zeebe:modelerTemplate" ->
              get (heap s4) (next s) k = undefined).
    { intros k Hk. apply Hattrs.
      rewrite get_set_props_single_other by congruence. simpl.
      rewrite lookup_empty. reflexivity. }
    split; [exact F|]. split; [exact Hm4|]. split; [exact Hty4|]. split.
    { split.
      - intros r' Hr'. rewrite Href4 in Hr'. injection Hr' as <-.
        destruct (frame_kept _ _ _ _ F r o Hro) as (o' & Hro' & Hty' & _).
        exists o'. split; [exact Hro'|]. rewrite Hty'. exact Hrext.
      - intros m Hm. rewrite Hm4 in Hm. injection Hm as <-.
        split; [exact Hty4|]. intros mee Hx.
        rewrite Hempty in Hx by discriminate. discriminate. }
    right. split; [reflexivity|]. split; [|exact Hempty].
    apply Hattrs. apply get_set_props_in; [apply NoDup_singleton | left].
Qed.

Lemma frame_message_reference (K : list string) (s s' : state) :
  (forall T, T ∈ K -> T ∈ K_message) ->
  frame K W_reference s s' -> frame K_message W_message s s'.
Proof.
  intros HK. apply frame_weaken; [exact HK|].
  intros type k H. unfold W_message, W_removal. unfold W_reference in H.
  apply andb_true_iff in H as [-> H]. apply bool_decide_eq_true_1 in H. subst k.
  apply orb_true_r.
Qed.

Lemma frame_message_removal (K : list string) (s s' : state) :
  (forall T, T ∈ K -> T ∈ K_message) ->
  frame K W_removal s s' -> frame K_message W_message s s'.
Proof.
  intros HK. apply frame_weaken; [exact HK|].
  intros type k H. unfold W_message. rewrite H. apply orb_true_r.
Qed.

Lemma frame_message_fields (K : list string) (names : list string) (s s' : state) :
  (forall T, T ∈ K -> T ∈ K_message) ->
  frame K (W_fields names) s s' -> frame K_message W_message s s'.
Proof.
  intros HK. apply frame_weaken; [exact HK|].
  intros type k H. unfold W_message. unfold W_fields in H.
  apply andb_true_iff in H as [H _]. apply bool_decide_eq_true_1 in H. subst type.
  reflexivity.
Qed.

Lemma frame_message_subscription (K : list string) (s s' : state) :
  (forall T, T ∈ K -> T ∈ K_message) ->
  frame K W_subscription s s' -> frame K_message W_message s s'.
Proof.
  intros HK. apply frame_weaken; [exact HK|].
  intros type k H. unfold W_message. unfold W_subscription in H.
  apply orb_true_iff in H as [H|H]; [apply orb_true_iff in H as [H|H]|].
  - apply bool_decide_eq_true_1 in H. subst type. reflexivity.
  - rewrite H. rewrite orb_true_r. reflexivity.
  - apply andb_true_iff in H as [H _]. apply bool_decide_eq_true_1 in H. subst type.
    reflexivity.
Qed.

(** A settled value stays settled while its slot keeps its value. *)
Lemma value_settled_slot (h h' : gmap loc obj) (node : loc) (p : property)
    (slot : string) :
  (forall h0, getPropertyValue h0 (Some (Moddle node)) p = get h0 node slot) ->
  get h' node slot = get h node slot ->
  value_settled h (Some p) p node slot -> value_settled h' (Some p) p node slot.
Proof.
  intros Hv Hget. unfold value_settled, keeps.
  rewrite (shouldKeepValue_slot h h' _ (Some p) p).
  - rewrite Hget. auto.
  - rewrite !Hv. exact Hget.
  - intros o Ho. injection Ho as <-. rewrite !Hv. exact Hget.
Qed.

Section MessageKept.

Context {K : list string} {W : string -> string -> bool} {s s' : state}.
Hypothesis F : frame K W s s'.
Variables (element : eref) (type : string).
Hypothesis Hbo : type_of (heap s) (bo_of element) = Some type.
Hypothesis HWe : W type "eventDefinitions" = false.
Hypothesis HWm : forall ty, external ty = true -> W ty "messageRef" = false.
Hypothesis Hwf : message_wf (heap s) element.

Lemma getMessage_frame :
  _getMessage (heap s') element = _getMessage (heap s) element.
Proof.
  rewrite !getMessage_referrer, (referrer_frame F _ _ Hbo HWe).
  destruct (referrer (heap s) (bo_of element)) as [r|] eqn:Hr; [|reflexivity].
  destruct Hwf as [Href _]. destruct (Href r Hr) as (o & Hl & Hext).
  apply (frame_get F r (otype o)); [|apply HWm, Hext].
  unfold type_of. rewrite Hl. reflexivity.
Qed.

Lemma message_fields_frame (t : template) (m : loc) :
  (forall k, k ∈ message_keys t -> W "bpmn:Message" k = false) ->
  _getMessage (heap s) element = VRef m ->
  (forall p, p ∈ message_properties t ->
     value_settled (heap s) (Some p) p m (key_of (b_name (p_binding p)))) ->
  forall p, p ∈ message_properties t ->
    value_settled (heap s') (Some p) p m (key_of (b_name (p_binding p))).
Proof.
  intros HW Hm Hs p Hp. destruct Hwf as [_ Hmsg]. destruct (Hmsg m Hm) as [Hty _].
  apply (value_settled_slot (heap s)); [| |apply Hs, Hp].
  - intros h0. apply getPropertyValue_message, (message_kind t), Hp.
  - apply (frame_get F m _ _ Hty), HW. unfold message_keys.
    apply list_elem_of_In, in_map_iff. exists p.
    split; [reflexivity | apply list_elem_of_In, Hp].
Qed.

Lemma message_subscription_frame (t : template) (m mee sub : loc) :
  W "bpmn:Message" "extensionElements" = false ->
  (forall k, W "zeebe:Subscription" k = false) ->
  "zeebe:Subscription" ∉ K ->
  _getMessage (heap s) element = VRef m ->
  get (heap s) m "extensionElements" = VRef mee ->
  findExtension (heap s) mee "zeebe:Subscription" = Some sub ->
  (forall p, p ∈ subscription_properties t ->
     value_settled (heap s) (Some p) p sub (key_of (b_name (p_binding p)))) ->
  get (heap s') m "extensionElements" = VRef mee /\
  findExtension (heap s') mee "zeebe:Subscription" = Some sub /\
  forall p, p ∈ subscription_properties t ->
    value_settled (heap s') (Some p) p sub (key_of (b_name (p_binding p))).
Proof.
  intros HWx HWs HK Hm Hlink Hfind Hs.
  destruct Hwf as [_ Hmsg]. destruct (Hmsg m Hm) as [Hty Hmee].
  pose proof (Hmee mee Hlink) as Htee.
  assert (Hsub : type_of (heap s) sub = Some "zeebe:Subscription").
  { apply (findExtension_some _ mee); [discriminate | exact Hfind]. }
  split; [rewrite (frame_get F m _ _ Hty HWx); exact Hlink|].
  split; [rewrite (frame_findExtension F mee _ Htee HK); [exact Hfind | discriminate]|].
  intros p Hp. apply (value_settled_agree (heap s)); [|apply Hs, Hp].
  apply (frame_node F sub _ Hsub HWs).
Qed.

End MessageKept.

(** *** The fields of the message *)

Lemma message_unset_loop (oldTemplate : option template) (t : template)
    (element : eref) (s : state) :
  message_wf (heap s) element ->
  runs (if truthy (_getMessage (heap s) element) then
          forEach (fun removedProperty =>
                     let* message := as_object (_getMessage (heap s) element) in
                     updateModdleProperties element message
                       [(key_of (b_name (p_binding removedProperty)), undefined)])
                  (dropped_message oldTemplate t)
        else ret tt) s
    (fun _ s' => frame [] (W_fields (dropped_message_keys oldTemplate t)) s s').
Proof.
  intros Hwf. destruct (truthy (_getMessage (heap s) element)); [|apply runs_ret, frame_refl].
  set (I := fun (done : list property) (s1 : state) =>
              frame [] (W_fields (dropped_message_keys oldTemplate t)) s s1).
  apply (runs_mono _ _ (fun _ s' => I (dropped_message oldTemplate t) s')); [|auto].
  apply (runs_forEach I); [apply frame_refl|].
  intros done q todo s1 Harr F1.
  apply runs_bind, runs_as_object. intros m Hm.
  destruct Hwf as [_ Hmsg]. destruct (Hmsg m Hm) as [Hty _].
  pose proof (frame_typed F1 _ _ Hty) as Hty1.
  unfold updateModdleProperties. apply runs_execute. intros s2 Hh2 Hn2. simpl in Hh2.
  apply (frame_trans _ _ _ _ _ F1).
  apply (frame_write _ _ _ _ _ _ Hh2 Hn2). intros o2 Ho2.
  assert (otype o2 = "bpmn:Message") as ->.
  { unfold type_of in Hty1. rewrite Ho2 in Hty1. simpl in Hty1. congruence. }
  split; [discriminate|].
  intros k Hk. simpl in Hk. apply list_elem_of_singleton in Hk. subst k.
  unfold W_fields. rewrite bool_decide_eq_true_2 by reflexivity. simpl.
  apply bool_decide_eq_true_2. unfold dropped_message_keys.
  apply list_elem_of_In, in_map_iff. exists q.
  split; [reflexivity|]. apply list_elem_of_In. rewrite Harr.
  apply elem_of_app. right. left.
Qed.

Lemma messageProperties_first (oldTemplate : option template) (t : template)
    (element : eref) (bo_type : string) (s : state) :
  NoDup (message_keys t) ->
  (forall k, k ∈ message_keys t -> k ∉ reserved_message_names) ->
  (forall k, k ∈ dropped_message_keys oldTemplate t -> k ∉ reserved_message_names) ->
  bounded s ->
  type_of (heap s) (bo_of element) = Some bo_type -> external bo_type = true ->
  message_wf (heap s) element ->
  runs (_updateMessageProperties element oldTemplate t) s
    (fun _ s' =>
       frame K_message W_message s s' /\
       message_wf (heap s') element /\
       (message_properties t <> [] ->
        exists m, _getMessage (heap s') element = VRef m /\
          forall p, p ∈ message_properties t ->
            value_settled (heap s') (Some p) p m (key_of (b_name (p_binding p))))).
Proof.
  intros Hnd Hfree Hdropped Hb0 Hbo0 Hext Hwf0. unfold _updateMessageProperties.
  change (List.filter _ (t_properties t)) with (message_properties t).
  change (old_properties oldTemplate _) with (dropped_message oldTemplate t).
  apply runs_bind, runs_gets. apply runs_bind.
  eapply runs_mono; [apply (message_unset_loop oldTemplate t element s Hwf0)|].
  intros [] s0 F0. cbv beta in F0.
  assert (Hlink0 : "extensionElements" ∉ dropped_message_keys oldTemplate t).
  { intros Hin. apply (Hdropped _ Hin). right. left. }
  assert (F0' : frame K_message W_message s s0).
  { apply (frame_message_fields [] (dropped_message_keys oldTemplate t)); [|exact F0].
    intros T HT. apply elem_of_nil in HT. contradiction. }
  assert (Hwf : message_wf (heap s0) element).
  { apply (message_wf_frame F0 element bo_type Hbo0);
      [apply W_fields_external, Hext
      | intros ty Hty; apply W_fields_external, Hty
      | apply W_fields_other, Hlink0
      | exact Hwf0]. }
  pose proof (frame_bounded _ _ _ _ F0 Hb0) as Hb.
  pose proof (frame_typed F0 _ _ Hbo0) as Hbo.
  apply (runs_mono _ _ (fun _ s' =>
           (frame K_message W_message s0 s' /\
            message_wf (heap s') element /\
            (message_properties t <> [] ->
             exists m, _getMessage (heap s') element = VRef m /\
               forall p, p ∈ message_properties t ->
                 value_settled (heap s') (Some p) p m
                   (key_of (b_name (p_binding p)))))%type)).
  2:{ intros _ s' (F' & Hwf' & Hset').
      split; [apply (frame_trans _ _ _ _ _ F0' F')|]. auto. }
  clear F0 F0' Hwf0 Hb0 Hbo0. revert Hwf Hb Hbo. generalize s0. clear s0 s.
  intros s Hwf Hb Hbo.
  destruct (message_properties t) as [|p0 ps] eqn:Hps.
  { apply runs_ret. split; [apply frame_refl|]. split; [exact Hwf|].
    intros H. contradiction. }
  cbn [isEmpty]. rewrite <- Hps.
  apply runs_bind.
  eapply runs_mono; [apply (getOrCreateMessage_first t element bo_type s Hb Hbo Hext Hwf)|].
  intros m sa (Fa & Hma & Htya & Hwfa & _). cbv beta.
  assert (Hboa : type_of (heap sa) (bo_of element) = Some bo_type).
  { apply (frame_typed Fa), Hbo. }
  assert (Hlink : "extensionElements" ∉ message_keys t).
  { intros Hin. apply (Hfree _ Hin). right. left. }
  set (I := fun (done : list property) (s1 : state) =>
              frame [] (W_fields (message_keys t)) sa s1 /\
              forall p, p ∈ done ->
                value_settled (heap s1) (Some p) p m (key_of (b_name (p_binding p)))).
  apply (runs_mono _ _ (fun _ s' => I (message_properties t) s')).
  2:{ intros _ s1 [F1 Hdone]. split.
      { apply (frame_trans _ _ _ sa).
        - apply (frame_message_reference ["bpmn:Message"]); [|exact Fa].
          intros T HT. apply list_elem_of_singleton in HT. subst T. left.
        - apply (frame_message_fields [] (message_keys t)); [|exact F1].
          intros T HT. apply elem_of_nil in HT. contradiction. }
      split.
      { apply (message_wf_frame F1 element bo_type Hboa);
          [apply W_fields_external, Hext
          | intros ty Hty; apply W_fields_external, Hty
          | apply W_fields_other, Hlink
          | exact Hwfa]. }
      intros _. exists m. split; [|exact Hdone].
      rewrite (getMessage_frame F1 element bo_type Hboa); [exact Hma | | |exact Hwfa].
      - apply W_fields_external, Hext.
      - intros ty Hty. apply W_fields_external, Hty. }
  apply (runs_forEach I).
  { split; [apply frame_refl|]. intros p Hp. apply elem_of_nil in Hp. contradiction. }
  intros done p todo s1 Harr [F1 Hdone].
  assert (Hp : p ∈ message_properties t).
  { rewrite Harr. apply elem_of_app. right. left. }
  pose proof (message_kind t p Hp) as Hkind.
  assert (Hty1 : type_of (heap s1) m = Some "bpmn:Message").
  { apply (frame_typed F1), Htya. }
  unfold _updateMessageProperties_each. apply runs_bind, runs_gets.
  destruct (truthy_prim (shouldKeepValue (heap s1) (Some (Moddle m))
                           (findOldProperty oldTemplate p) p)) eqn:Hkeep.
  - apply runs_ret. split; [exact F1|].
    intros p' Hp'. apply elem_of_app in Hp' as [Hp'|Hp']; [apply Hdone, Hp'|].
    apply list_elem_of_singleton in Hp'. subst p'.
    apply (kept_settled (heap s1) (heap s1) m (Some (Moddle m))
             (findOldProperty oldTemplate p));
      [apply getPropertyValue_message, Hkind | apply getPropertyValue_message, Hkind
      | exact Hkeep].
  - unfold updateModdleProperties. apply runs_execute. intros s2 Hh2 Hn2.
    simpl in Hh2.
    assert (F2 : frame [] (W_fields (message_keys t)) s1 s2).
    { apply (frame_write _ _ _ _ _ _ Hh2 Hn2). intros o2 Ho2.
      assert (otype o2 = "bpmn:Message") as ->.
      { unfold type_of in Hty1. rewrite Ho2 in Hty1. simpl in Hty1. congruence. }
      split; [discriminate|].
      intros k Hk. simpl in Hk. apply list_elem_of_singleton in Hk. subst k.
      unfold W_fields. rewrite bool_decide_eq_true_2 by reflexivity. simpl.
      apply bool_decide_eq_true_2. unfold message_keys.
      apply list_elem_of_In, in_map_iff. exists p.
      split; [reflexivity | apply list_elem_of_In, Hp]. }
    split; [apply (frame_trans _ _ _ _ _ F1 F2)|].
    intros p' Hp'. apply elem_of_app in Hp' as [Hp'|Hp'].
    + assert (Hp'in : p' ∈ message_properties t).
      { rewrite Harr. apply elem_of_app. left. exact Hp'. }
      apply (value_settled_slot (heap s1)); [| |apply Hdone, Hp'].
      * intros h0. apply getPropertyValue_message, (message_kind t), Hp'in.
      * rewrite Hh2. apply get_alter_set_props_other.
        intros Heq. unfold message_keys in Hnd. rewrite Harr, map_app in Hnd.
        apply NoDup_app in Hnd as (_ & Hdisj & _).
        apply (Hdisj (key_of (b_name (p_binding p')))).
        -- apply list_elem_of_In, in_map_iff. exists p'.
           split; [reflexivity | apply list_elem_of_In, Hp'].
        -- rewrite <- Heq. simpl. left.
    + apply list_elem_of_singleton in Hp'. subst p'. right.
      rewrite Hh2. apply get_alter_set_props_single.
      apply (type_of_is_Some _ _ _ Hty1).
Qed.

(** *** The stamp of the message *)

Lemma referencedStamp_first (oldTemplate : option template) (t : template)
    (element : eref) (bo_type : string) (s : state) :
  type_of (heap s) (bo_of element) = Some bo_type -> external bo_type = true ->
  message_wf (heap s) element ->
  runs (_updateZeebeModelerTemplateOnReferencedElement element oldTemplate t) s
    (fun _ s' =>
       frame [] (W_fields ["zeebe:modelerTemplate"]) s s' /\
       (truthy (_getMessage (heap s') element) = true ->
        exists m, _getMessage (heap s') element = VRef m /\
          get (heap s') m "zeebe:modelerTemplate" = VPrim (t_id t))).
Proof.
  intros Hbo Hext Hwf. unfold _updateZeebeModelerTemplateOnReferencedElement.
  apply runs_bind, runs_gets. rewrite findMessage_getMessage.
  destruct (truthy (_getMessage (heap s) element)) eqn:Htruthy; simpl.
  2:{ apply runs_ret. split; [apply frame_refl|]. intros H. congruence. }
  apply runs_bind, runs_as_object. intros m Hm.
  destruct Hwf as [Href Hmsg]. destruct (Hmsg m Hm) as [Hty _].
  destruct (strict_eq (getTemplateId (heap s) m) (VPrim (t_id t))) eqn:Hstamp.
  - apply runs_ret. split; [apply frame_refl|]. intros _. exists m.
    split; [exact Hm|]. apply bool_decide_eq_true_1 in Hstamp. exact Hstamp.
  - unfold updateModdleProperties. apply runs_execute. intros s2 Hh2 Hn2.
    simpl in Hh2.
    assert (F2 : frame [] (W_fields ["zeebe:modelerTemplate"]) s s2).
    { apply (frame_write _ _ _ _ _ _ Hh2 Hn2). intros o2 Ho2.
      assert (otype o2 = "bpmn:Message") as ->.
      { unfold type_of in Hty. rewrite Ho2 in Hty. simpl in Hty. congruence. }
      split; [discriminate|]. intros k Hk. simpl in Hk.
      apply list_elem_of_singleton in Hk. subst k. reflexivity. }
    split; [exact F2|]. intros _. exists m. split.
    + rewrite (getMessage_frame F2 element bo_type Hbo); [exact Hm | | |split; assumption].
      * apply W_fields_external, Hext.
      * intros ty Hext'. apply W_fields_external, Hext'.
    + rewrite Hh2. apply get_alter_set_props_single, (type_of_is_Some _ _ _ Hty).
Qed.

(** *** The removal of the reference *)

Lemma W_removal_other (type k : string) :
  k <> "messageRef" -> k <> "rootElements" -> W_removal type k = false.
Proof.
  intros H1 H2. unfold W_removal. rewrite bool_decide_eq_false_2; [apply andb_false_r|].
  intros Hin. apply elem_of_cons in Hin as [->|Hin]; [congruence|].
  apply list_elem_of_singleton in Hin. congruence.
Qed.

Lemma W_removal_node (type k : string) :
  type ∈ node_types -> W_removal type k = false.
Proof. intros Hin. unfold W_removal. rewrite (external_node _ Hin). reflexivity. Qed.

Lemma removeMessage_first (removeMessage : eref -> M unit) (element : eref)
    (bo_type : string) (s : state) :
  remove_ok removeMessage ->
  type_of (heap s) (bo_of element) = Some bo_type -> external bo_type = true ->
  message_wf (heap s) element ->
  runs (removeMessage element) s
    (fun _ s' =>
       frame [] W_removal s s' /\
       truthy (_getMessage (heap s') element) = false /\
       message_wf (heap s') element).
Proof.
  intros Hok Hbo Hext Hwf. destruct (Hok element s) as [_ Hrun].
  eapply runs_mono; [apply Hrun, Hwf|].
  intros _ s' [F Hfalsy]. split; [exact F|]. split; [exact Hfalsy|].
  split.
  - intros r Hr.
    rewrite (referrer_frame F _ _ Hbo) in Hr
      by (apply W_removal_other; discriminate).
    destruct Hwf as [Href _]. destruct (Href r Hr) as (o & Hro & Hrext).
    destruct (frame_kept _ _ _ _ F r o Hro) as (o' & Hro' & Hty' & _).
    exists o'. split; [exact Hro'|]. rewrite Hty'. exact Hrext.
  - intros m Hm. rewrite Hm in Hfalsy. discriminate.
Qed.

(** The collaborator of the examples meets the contract. *)
Lemma removeMessage_detach_ok : remove_ok removeMessage_detach.
Proof.
  intros element s. split.
  - intros Hfalsy. unfold unchanged, removeMessage_detach, bind, gets.
    rewrite getMessage_referrer in Hfalsy. unfold referrer in Hfalsy.
    destruct (if is_a (heap s) (bo_of element) "bpmn:Event"
              then head (get_many (heap s) (bo_of element) "eventDefinitions")
              else Some (bo_of element)) as [r|].
    + rewrite Hfalsy. eexists. split; [reflexivity|]. split; reflexivity.
    + eexists. split; [reflexivity|]. split; reflexivity.
  - intros Hwf. unfold removeMessage_detach.
    apply runs_bind, runs_gets.
    change (if is_a (heap s) (bo_of element) "bpmn:Event" then _ else _)
      with (referrer (heap s) (bo_of element)).
    destruct (referrer (heap s) (bo_of element)) as [r|] eqn:Hr.
    2:{ apply runs_ret. split; [apply frame_refl|].
        rewrite getMessage_referrer, Hr. reflexivity. }
    destruct (truthy (get (heap s) r "messageRef")) eqn:Htruthy.
    2:{ apply runs_ret. split; [apply frame_refl|].
        rewrite getMessage_referrer, Hr. exact Htruthy. }
    apply runs_execute. intros s2 Hh2 Hn2. simpl in Hh2.
    pose proof Hwf as [Href _]. destruct (Href r Hr) as (o & Hro & Hrext).
    split.
    { apply (frame_write _ _ _ _ _ _ Hh2 Hn2). intros o2 Ho2.
      assert (o2 = o) as -> by congruence.
      split; [apply external_not_container, Hrext|].
      intros k Hk. simpl in Hk. apply list_elem_of_singleton in Hk. subst k.
      unfold W_removal. rewrite Hrext. reflexivity. }
    assert (Href2 : referrer (heap s2) (bo_of element) = Some r).
    { rewrite <- Hr. unfold referrer.
      rewrite Hh2, is_a_alter_set_props. unfold get_many.
      destruct (decide (r = bo_of element)) as [->|Hne].
      - rewrite get_alter_set_props_other by discriminate. reflexivity.
      - rewrite get_alter_ne by exact Hne. reflexivity. }
    rewrite getMessage_referrer, Href2, Hh2.
    rewrite get_alter_set_props_single by eauto. reflexivity.
Qed.

(** *** The subscription of the message *)

Lemma W_subscription_message (k : string) :
  k <> "extensionElements" -> W_subscription "bpmn:Message" k = false.
Proof.
  intros Hk. unfold W_subscription.
  rewrite (bool_decide_eq_false_2 (k = "extensionElements")) by exact Hk.
  reflexivity.
Qed.

Lemma getOrCreateExtensionElements_found (element : eref) (bo ee : loc) (s : state) :
  get (heap s) bo "extensionElements" = VRef ee ->
  runs (_getOrCreateExtensionElements element bo) s (fun ee' s' => ee' = ee /\ s' = s).
Proof.
  intros Hee. unfold _getOrCreateExtensionElements. apply runs_bind, runs_gets.
  rewrite Hee. simpl. apply runs_ret. auto.
Qed.

Lemma message_wf_step {K : list string} {W : string -> string -> bool}
    {s s' : state} (F : frame K W s s') (element : eref) (type : string)
    (m mee : loc) :
  type_of (heap s) (bo_of element) = Some type ->
  W type "eventDefinitions" = false ->
  (forall ty, external ty = true -> W ty "messageRef" = false) ->
  message_wf (heap s) element ->
  _getMessage (heap s) element = VRef m ->
  get (heap s') m "extensionElements" = VRef mee ->
  type_of (heap s') mee = Some "bpmn:ExtensionElements" ->
  message_wf (heap s') element.
Proof.
  intros Hbo HWe HWm Hwf Hm Hlink Hmee. split.
  - intros r Hr. rewrite (referrer_frame F _ _ Hbo HWe) in Hr.
    destruct Hwf as [Href _]. destruct (Href r Hr) as (o & Hl & Hext).
    destruct (frame_kept _ _ _ _ F r o Hl) as (o' & Hl' & Hty' & _).
    exists o'. split; [exact Hl'|]. rewrite Hty'. exact Hext.
  - intros m' Hm'. rewrite (getMessage_frame F element type Hbo HWe HWm Hwf), Hm in Hm'.
    injection Hm' as <-. destruct Hwf as [_ Hmsg]. destruct (Hmsg m Hm) as [Hty _].
    split; [apply (frame_typed F), Hty|].
    intros mee' Hx. rewrite Hlink in Hx. injection Hx as <-. exact Hmee.
Qed.

(** A new node with initial attributes, appended to a container that holds
    no node of its type. *)
Lemma append_node_first (K : list string) (W : string -> string -> bool)
    (element : eref) (ee parent : loc) (T : string) (init : props) (s : state) :
  T <> "bpmn:Event" -> T ∈ K ->
  W "bpmn:ExtensionElements" "values" = true ->
  bounded s ->
  type_of (heap s) ee = Some "bpmn:ExtensionElements" ->
  findExtension (heap s) ee T = None ->
  runs (let* node := createElement T init parent in
        let* h := gets heap in
        updateModdleProperties element ee
          [("values", VArr (get_many h ee "values" ++ [node]))]) s
    (fun _ s' =>
       frame K W s s' /\
       findExtension (heap s') ee T = Some (next s) /\
       type_of (heap s') (next s) = Some T /\
       (forall k, get (heap s') (next s) k
                  = default undefined (attrs (set_props init (Obj T None ∅)) !! k)) /\
       (forall x k, x <> ee -> x <> next s -> get (heap s') x k = get (heap s) x k)).
Proof.
  intros HE HK HW Hb Hee Hfind. unfold createElement.
  apply runs_bind, runs_bind, runs_create. intros s2 Hh2 Hn2.
  apply runs_bind, runs_set_parent. intros s3 Hh3 Hn3. apply runs_ret.
  apply runs_bind, runs_gets. unfold updateModdleProperties.
  apply runs_execute. intros s4 Hh4 Hn4. simpl in Hh4.
  pose proof (typed_bounded s ee _ Hb Hee) as Hne.
  assert (F2 : frame K W s s2) by (apply (frame_create _ _ _ _ _ _ Hh2 Hn2 Hb HK)).
  assert (F3 : frame K W s2 s3) by (apply (frame_set_parent _ _ _ _ _ _ Hh3 Hn3)).
  assert (Hnew : type_of (heap s3) (next s) = Some T).
  { apply (frame_typed F3). rewrite Hh2, type_of_insert_eq, otype_set_props.
    reflexivity. }
  assert (Hee3 : type_of (heap s3) ee = Some "bpmn:ExtensionElements").
  { apply (frame_typed F3), (frame_typed F2), Hee. }
  assert (Hold : forall v, v <> next s -> type_of (heap s3) v = type_of (heap s) v).
  { intros v Hv. rewrite Hh3, type_of_set_parent, Hh2.
    apply type_of_insert_ne. congruence. }
  assert (Hvals : get_many (heap s3) ee "values" = get_many (heap s) ee "values").
  { unfold get_many. rewrite Hh3, get_set_parent, Hh2, get_insert_ne by congruence.
    reflexivity. }
  assert (Hnone : forall v, v ∈ get_many (heap s) ee "values" -> v <> next s ->
                    is_a (heap s3) v T = false).
  { intros v Hv Hvn. rewrite (is_a_same_type (heap s)) by (apply Hold, Hvn).
    rewrite findExtension_container in Hfind by exact Hee.
    apply (head_filter_none _ _ v Hfind Hv). }
  assert (F4 : frame K W s3 s4).
  { apply (frame_write_values _ _ _ _ _ _ Hh4 Hn4). intros o Ho.
    assert (otype o = "bpmn:ExtensionElements") as Hoty.
    { unfold type_of in Hee3. rewrite Ho in Hee3. simpl in Hee3. congruence. }
    rewrite Hoty. split; [exact HW|].
    intros _ T' HT' HE'. unfold typed_values. apply filter_app_foreign.
    apply (is_a_foreign _ _ T); [exact Hnew | congruence | exact HE']. }
  split.
  { apply (frame_trans _ _ _ _ _ F2), (frame_trans _ _ _ _ _ F3), F4. }
  split.
  { unfold findExtension.
    rewrite (is_a_type_of _ _ _ _ (frame_typed F4 _ _ Hee3)). simpl.
    rewrite Hh4, get_many_alter_set_props_single
      by (apply (type_of_is_Some _ _ _ Hee3)).
    rewrite (find_ext_eq _ (fun value => is_a (heap s3) value T))
      by (intros v; apply is_a_alter_set_props).
    apply find_app_new.
    - intros v Hv Hisa. destruct (decide (v = next s)) as [|Hvn]; [assumption|].
      rewrite Hvals in Hv. rewrite (Hnone v Hv Hvn) in Hisa. discriminate.
    - apply is_a_own, Hnew. }
  split; [apply (frame_typed F4), Hnew|].
  split.
  - intros k. rewrite Hh4, get_alter_ne by congruence.
    rewrite Hh3, get_set_parent, Hh2, get_insert_eq. reflexivity.
  - intros x k Hx1 Hx2. rewrite Hh4, get_alter_ne by congruence.
    rewrite Hh3, get_set_parent, Hh2, get_insert_ne by congruence. reflexivity.
Qed.

Lemma unset_fold_keys (removed : list property) (k : string) :
  k ∈ (fold_left (fun properties removedProperty =>
                    assign properties (key_of (b_name (p_binding removedProperty)))
                      undefined)
         removed []).*1 ->
  k ∈ map (fun q => key_of (b_name (p_binding q))) removed.
Proof.
  enough (G : forall acc,
            k ∈ (fold_left (fun properties removedProperty =>
                              assign properties
                                (key_of (b_name (p_binding removedProperty))) undefined)
                   removed acc).*1 ->
            k ∈ acc.*1 \/ k ∈ map (fun q => key_of (b_name (p_binding q))) removed).
  { intros H. destruct (G [] H) as [Hin|Hin]; [|exact Hin].
    apply elem_of_nil in Hin. contradiction. }
  induction removed as [|q qs IH]; intros acc; simpl; [auto|].
  intros H. destruct (IH _ H) as [Hin|Hin].
  - apply assign_keys in Hin as [Hin| ->]; [left; exact Hin | right; left].
  - right. right. exact Hin.
Qed.

Lemma subscription_first (oldTemplate : option template) (t : template)
    (element : eref) (bo_type : string) (s : state) :
  NoDup (subscription_keys t) ->
  (forall q, q ∈ dropped_subscription oldTemplate t ->
     key_of (b_name (p_binding q)) ∉ subscription_keys t) ->
  bounded s ->
  type_of (heap s) (bo_of element) = Some bo_type -> external bo_type = true ->
  message_wf (heap s) element ->
  runs (_updateMessageZeebeSubscriptionProperties element oldTemplate t) s
    (fun _ s' =>
       frame K_message W_message s s' /\
       message_wf (heap s') element /\
       (forall m, _getMessage (heap s) element = VRef m ->
          _getMessage (heap s') element = VRef m /\
          forall k, k <> "extensionElements" -> get (heap s') m k = get (heap s) m k) /\
       (subscription_properties t <> [] ->
        exists m mee sub,
          _getMessage (heap s') element = VRef m /\
          get (heap s') m "extensionElements" = VRef mee /\
          findExtension (heap s') mee "zeebe:Subscription" = Some sub /\
          forall p, p ∈ subscription_properties t ->
            value_settled (heap s') (Some p) p sub (key_of (b_name (p_binding p))))).
Proof.
  intros Hnd Hdisjoint Hb Hbo Hext Hwf.
  unfold _updateMessageZeebeSubscriptionProperties.
  change (List.filter _ (t_properties t)) with (subscription_properties t).
  change (old_properties oldTemplate _) with (dropped_subscription oldTemplate t).
  destruct (isEmpty (subscription_properties t)
            && isEmpty (dropped_subscription oldTemplate t)) eqn:Hnone.
  { apply runs_ret. split; [apply frame_refl|]. split; [exact Hwf|].
    split; [auto|]. intros H. apply andb_true_iff in Hnone as [Hnone _].
    destruct (subscription_properties t); [contradiction | discriminate]. }
  apply runs_bind.
  eapply runs_mono; [apply (getOrCreateMessage_first t element bo_type s Hb Hbo Hext Hwf)|].
  intros m sa (Fa & Hma & Htya & Hwfa & Horigin). cbv beta.
  assert (Hboa : type_of (heap sa) (bo_of element) = Some bo_type).
  { apply (frame_typed Fa), Hbo. }
  pose proof (frame_bounded _ _ _ _ Fa Hb) as Hba.
  assert (FA : frame K_message W_message s sa).
  { apply (frame_message_reference ["bpmn:Message"]); [|exact Fa].
    intros T HT. apply list_elem_of_singleton in HT. subst T. left. }
  assert (HK2 : forall T, T ∈ ["bpmn:ExtensionElements"; "zeebe:Subscription"] ->
                  T ∈ K_message).
  { intros T HT. right. exact HT. }
  assert (HWe : W_subscription bo_type "eventDefinitions" = false).
  { apply W_subscription_external, Hext. }
  assert (HWm : forall ty, external ty = true -> W_subscription ty "messageRef" = false).
  { intros ty Hty. apply W_subscription_external, Hty. }
  apply runs_bind.
  eapply runs_mono;
    [apply (getOrCreateExtensionElements_first
              ["bpmn:ExtensionElements"; "zeebe:Subscription"] W_subscription
              element m "bpmn:Message" sa Hba Htya);
     [discriminate | reflexivity | left]|].
  intros mee sb (Fb & Hlinkb & Horiginb). cbv beta.
  assert (Hmeeb : type_of (heap sb) mee = Some "bpmn:ExtensionElements").
  { destruct Horiginb as [[-> Hlinka]|(_ & Hty & _)]; [|exact Hty].
    destruct Hwfa as [_ Hmsg]. destruct (Hmsg m Hma) as [_ Hmee]. apply Hmee, Hlinka. }
  assert (Hwfb : message_wf (heap sb) element).
  { apply (message_wf_step Fb element bo_type m mee Hboa HWe HWm Hwfa Hma Hlinkb Hmeeb). }
  assert (Hmb : _getMessage (heap sb) element = VRef m).
  { rewrite (getMessage_frame Fb element bo_type Hboa HWe HWm Hwfa). exact Hma. }
  assert (Hbob : type_of (heap sb) (bo_of element) = Some bo_type).
  { apply (frame_typed Fb), Hboa. }
  assert (Htyb : type_of (heap sb) m = Some "bpmn:Message").
  { apply (frame_typed Fb), Htya. }
  pose proof (frame_bounded _ _ _ _ Fb Hba) as Hbb.
  assert (FB : frame K_message W_message s sb).
  { apply (frame_trans _ _ _ _ _ FA).
    apply (frame_message_subscription _ _ _ HK2 Fb). }
  assert (Hkeepm : forall m0, _getMessage (heap s) element = VRef m0 ->
            m0 = m /\ forall k, k <> "extensionElements" ->
              get (heap sb) m k = get (heap s) m k).
  { intros m0 Hm0. destruct Horigin as [->|(Hfalsy & _)].
    - split; [congruence|]. intros k Hk.
      apply (frame_get Fb m _ _ Htya), W_subscription_message, Hk.
    - rewrite Hm0 in Hfalsy. discriminate. }
  apply runs_bind. unfold _getSubscription. apply runs_bind.
  eapply runs_mono; [apply (getOrCreateExtensionElements_found element m mee sb Hlinkb)|].
  intros ee' sb' [-> ->]. apply runs_bind, runs_gets. apply runs_ret.
  apply runs_bind, runs_gets.
  set (sub := findExtension (heap sb) mee "zeebe:Subscription").
  set (kept := fun p : property =>
         truthy_prim (shouldKeepValue (heap sb) (option_map Moddle sub)
                        (findOldProperty oldTemplate p) p)).
  set (key := fun p : property => key_of (b_name (p_binding p))).
  set (value := fun p : property => VPrim (getDefaultValue p)).
  change (fold_left _ (subscription_properties t) [])
    with (fold_left (fun acc p => if kept p then acc else assign acc (key p) (value p))
            (subscription_properties t) []).
  destruct (assign_fold kept key value (subscription_properties t) Hnd) as [Hpnd Hpayload].
  set (payload := fold_left _ (subscription_properties t) []) in *.
  destruct sub as [n|] eqn:Hsub; subst sub.
  - (* the subscription is there *)
    assert (Hn : type_of (heap sb) n = Some "zeebe:Subscription").
    { apply (findExtension_some _ mee); [discriminate | exact Hsub]. }
    assert (Hnm : n <> m) by (intros ->; congruence).
    assert (Hnee : n <> mee) by (intros ->; congruence).
    assert (Hwrite : forall (payload' : props) (sc sd : state),
              heap sd = alter (set_props payload') n (heap sc) -> next sd = next sc ->
              type_of (heap sc) n = Some "zeebe:Subscription" ->
              frame ["bpmn:ExtensionElements"; "zeebe:Subscription"] W_subscription sc sd).
    { intros payload' sc sd Hhd Hnd' Hnc.
      apply (frame_write _ _ _ _ _ _ Hhd Hnd'). intros o Ho.
      assert (otype o = "zeebe:Subscription") as ->.
      { unfold type_of in Hnc. rewrite Ho in Hnc. simpl in Hnc. congruence. }
      split; [discriminate|]. intros k _. reflexivity. }
    assert (Hstep : forall (payload' : props) (sc sd : state),
              heap sd = alter (set_props payload') n (heap sc) -> next sd = next sc ->
              (frame K_message W_message s sc /\
               message_wf (heap sc) element /\
               type_of (heap sc) (bo_of element) = Some bo_type /\
               type_of (heap sc) n = Some "zeebe:Subscription" /\
               type_of (heap sc) mee = Some "bpmn:ExtensionElements" /\
               _getMessage (heap sc) element = VRef m /\
               get (heap sc) m "extensionElements" = VRef mee /\
               findExtension (heap sc) mee "zeebe:Subscription" = Some n /\
               forall k, k <> "extensionElements" ->
                 get (heap sc) m k = get (heap sb) m k) ->
              frame K_message W_message s sd /\
              message_wf (heap sd) element /\
              type_of (heap sd) (bo_of element) = Some bo_type /\
              type_of (heap sd) n = Some "zeebe:Subscription" /\
              type_of (heap sd) mee = Some "bpmn:ExtensionElements" /\
              _getMessage (heap sd) element = VRef m /\
              get (heap sd) m "extensionElements" = VRef mee /\
              findExtension (heap sd) mee "zeebe:Subscription" = Some n /\
              forall k, k <> "extensionElements" ->
                get (heap sd) m k = get (heap sb) m k).
    { intros payload' sc sd Hhd Hnd'
        (FC & Hwfc & Hboc & Hnc & Hmeec & Hmc & Hlinkc & Hfindc & Hsamec).
      pose proof (Hwrite payload' sc sd Hhd Hnd' Hnc) as Fd.
      assert (Hlinkd : get (heap sd) m "extensionElements" = VRef mee).
      { rewrite Hhd, get_alter_ne by exact Hnm. exact Hlinkc. }
      assert (Hmd : _getMessage (heap sd) element = VRef m).
      { rewrite (getMessage_frame Fd element bo_type Hboc HWe HWm Hwfc). exact Hmc. }
      split.
      { apply (frame_trans _ _ _ _ _ FC).
        apply (frame_message_subscription _ _ _ HK2 Fd). }
      split.
      { apply (message_wf_step Fd element bo_type m mee Hboc HWe HWm Hwfc Hmc Hlinkd).
        apply (frame_typed Fd), Hmeec. }
      split; [apply (frame_typed Fd), Hboc|].
      split; [apply (frame_typed Fd), Hnc|].
      split; [apply (frame_typed Fd), Hmeec|].
      split; [exact Hmd|]. split; [exact Hlinkd|].
      split.
      { rewrite (findExtension_agree (heap sc)); [exact Hfindc | exact Hmeec | |].
        - rewrite Hhd. apply get_alter_ne, Hnee.
        - intros x. rewrite Hhd. apply type_of_alter_set_props. }
      intros k Hk. rewrite Hhd, get_alter_ne by exact Hnm. apply Hsamec, Hk. }
    assert (Hpost : forall sd,
              (frame K_message W_message s sd /\
               message_wf (heap sd) element /\
               type_of (heap sd) (bo_of element) = Some bo_type /\
               type_of (heap sd) n = Some "zeebe:Subscription" /\
               type_of (heap sd) mee = Some "bpmn:ExtensionElements" /\
               _getMessage (heap sd) element = VRef m /\
               get (heap sd) m "extensionElements" = VRef mee /\
               findExtension (heap sd) mee "zeebe:Subscription" = Some n /\
               forall k, k <> "extensionElements" ->
                 get (heap sd) m k = get (heap sb) m k) ->
              (forall p, p ∈ subscription_properties t ->
                 value_settled (heap sd) (Some p) p n (key p)) ->
              frame K_message W_message s sd /\
              message_wf (heap sd) element /\
              (forall m0, _getMessage (heap s) element = VRef m0 ->
                 _getMessage (heap sd) element = VRef m0 /\
                 forall k, k <> "extensionElements" ->
                   get (heap sd) m0 k = get (heap s) m0 k) /\
              (subscription_properties t <> [] ->
               exists m mee sub,
                 _getMessage (heap sd) element = VRef m /\
                 get (heap sd) m "extensionElements" = VRef mee /\
                 findExtension (heap sd) mee "zeebe:Subscription" = Some sub /\
                 forall p, p ∈ subscription_properties t ->
                   value_settled (heap sd) (Some p) p sub
                     (key_of (b_name (p_binding p))))).
    { intros sd (FD & Hwfd & _ & _ & _ & Hmd & Hlinkd & Hfindd & Hsamed) Hsetd.
      split; [exact FD|]. split; [exact Hwfd|]. split.
      { intros m0 Hm0. destruct (Hkeepm m0 Hm0) as [-> Hsame].
        split; [exact Hmd|]. intros k Hk. rewrite (Hsamed k Hk). apply Hsame, Hk. }
      intros _. exists m, mee, n. auto. }
    apply runs_bind. unfold updateModdleProperties.
    apply runs_execute. intros sd Hhd Hnd'. simpl in Hhd.
    assert (Hfacts_b : frame K_message W_message s sb /\
               message_wf (heap sb) element /\
               type_of (heap sb) (bo_of element) = Some bo_type /\
               type_of (heap sb) n = Some "zeebe:Subscription" /\
               type_of (heap sb) mee = Some "bpmn:ExtensionElements" /\
               _getMessage (heap sb) element = VRef m /\
               get (heap sb) m "extensionElements" = VRef mee /\
               findExtension (heap sb) mee "zeebe:Subscription" = Some n /\
               forall k, k <> "extensionElements" ->
                 get (heap sb) m k = get (heap sb) m k) by auto 10.
    pose proof (Hstep payload sb sd Hhd Hnd' Hfacts_b) as Hfacts_d.
    assert (Hsetd : forall p, p ∈ subscription_properties t ->
              value_settled (heap sd) (Some p) p n (key p)).
    { intros p Hp. destruct (Hpayload p Hp) as [Hset Hskip].
      pose proof (getPropertyValue_subscription (heap sb) n p
                    (subscription_kind t p Hp)) as Hvalue.
      destruct (kept p) eqn:Hkept.
      + apply (value_settled_slot (heap sb)).
        * intros h0. apply getPropertyValue_subscription, (subscription_kind t), Hp.
        * rewrite Hhd. apply get_alter_set_props_notin, Hskip. reflexivity.
        * apply (kept_settled (heap sb) (heap sb) n (Some (Moddle n))
                   (findOldProperty oldTemplate p));
            [exact Hvalue | exact Hvalue | exact Hkept].
      + right. rewrite Hhd.
        apply get_alter_set_props_in;
          [apply (type_of_is_Some _ _ _ Hn) | exact Hpnd | apply Hset; reflexivity]. }
    destruct oldTemplate as [o|].
    2:{ apply runs_ret. apply (Hpost sd Hfacts_d Hsetd). }
    apply runs_execute. intros se Hhe Hne. simpl in Hhe.
    apply (Hpost se).
    { apply (Hstep _ sd se Hhe Hne Hfacts_d). }
    intros p Hp. apply (value_settled_slot (heap sd)); [| |apply Hsetd, Hp].
    * intros h0. apply getPropertyValue_subscription, (subscription_kind t), Hp.
    * rewrite Hhe. apply get_alter_set_props_notin. intros Hin.
      apply unset_fold_keys in Hin.
      apply list_elem_of_In, in_map_iff in Hin as (q & Hq & Hqin).
      apply (Hdisjoint q); [apply list_elem_of_In, Hqin|].
      rewrite Hq. unfold subscription_keys.
      apply list_elem_of_In, in_map. apply list_elem_of_In, Hp.
  - (* the subscription is created *)
    apply runs_bind.
    eapply runs_mono;
      [apply (append_node_first ["bpmn:ExtensionElements"; "zeebe:Subscription"]
                W_subscription element mee m "zeebe:Subscription" payload sb);
       [discriminate | right; left | reflexivity | exact Hbb | exact Hmeeb | exact Hsub]|].
    intros _ sd (Fd & Hfindd & Hnd' & Hnew & Hothers). cbv beta.
    apply (runs_mono _ _ (fun _ s' => s' = sd)).
    { destruct oldTemplate; apply runs_ret; reflexivity. }
    intros _ sd' ->.
    assert (Hmee_m : m <> mee) by (intros ->; congruence).
    pose proof (typed_bounded sb m _ Hbb Htyb) as Hm_new.
    assert (Hlinkd : get (heap sd) m "extensionElements" = VRef mee).
    { rewrite (Hothers m _ Hmee_m Hm_new). exact Hlinkb. }
    assert (Hmd : _getMessage (heap sd) element = VRef m).
    { rewrite (getMessage_frame Fd element bo_type Hbob HWe HWm Hwfb). exact Hmb. }
    split.
    { apply (frame_trans _ _ _ _ _ FB).
      apply (frame_message_subscription _ _ _ HK2 Fd). }
    split.
    { apply (message_wf_step Fd element bo_type m mee Hbob HWe HWm Hwfb Hmb Hlinkd).
      apply (frame_typed Fd), Hmeeb. }
    split.
    { intros m0 Hm0. destruct (Hkeepm m0 Hm0) as [-> Hsame].
      split; [exact Hmd|]. intros k Hk.
      rewrite (Hothers m _ Hmee_m Hm_new). apply Hsame, Hk. }
    intros _. exists m, mee, (next sb). split; [exact Hmd|]. split; [exact Hlinkd|].
    split; [exact Hfindd|].
    intros p Hp. destruct (Hpayload p Hp) as [Hset Hskip].
    pose proof (getPropertyValue_subscription (heap sd) (next sb) p
                  (subscription_kind t p Hp)) as Hvalue.
    destruct (kept p) eqn:Hkept.
    + apply (kept_settled (heap sd) (heap sb) (next sb) None
               (findOldProperty oldTemplate p)); [exact Hvalue | | exact Hkept].
      rewrite Hnew. fold (key p).
      rewrite attrs_set_props_other by (apply Hskip; reflexivity).
      simpl. rewrite lookup_empty. reflexivity.
    + right. rewrite Hnew. apply get_set_props_in; [exact Hpnd | apply Hset; reflexivity].
Qed.

(** *** The message reconciler *)

Lemma message_first (removeMessage : eref -> M unit) (oldTemplate : option template)
    (t : template) (element : eref) (bo_type : string) (s : state) :
  remove_ok removeMessage ->
  NoDup (message_keys t) -> NoDup (subscription_keys t) ->
  (forall k, k ∈ message_keys t -> k ∉ reserved_message_names) ->
  (forall k, k ∈ dropped_message_keys oldTemplate t -> k ∉ reserved_message_names) ->
  (forall q, q ∈ dropped_subscription oldTemplate t ->
     key_of (b_name (p_binding q)) ∉ subscription_keys t) ->
  bounded s ->
  type_of (heap s) (bo_of element) = Some bo_type -> external bo_type = true ->
  message_wf (heap s) element ->
  runs (_updateMessage removeMessage element oldTemplate t) s
    (fun _ s' =>
       frame K_message W_message s s' /\
       message_wf (heap s') element /\
       message_settled (heap s') t element).
Proof.
  intros Hok Hndm Hnds Hfree Hdm Hds Hb Hbo Hext Hwf. unfold _updateMessage.
  apply runs_bind.
  eapply runs_mono;
    [apply (messageProperties_first oldTemplate t element bo_type s Hndm Hfree Hdm
              Hb Hbo Hext Hwf)|].
  intros _ s1 (F1 & Hwf1 & Ha1). cbv beta.
  pose proof (frame_bounded _ _ _ _ F1 Hb) as Hb1.
  pose proof (frame_typed F1 _ _ Hbo) as Hbo1.
  apply runs_bind.
  eapply runs_mono;
    [apply (subscription_first oldTemplate t element bo_type s1 Hnds Hds Hb1 Hbo1 Hext
              Hwf1)|].
  intros _ s2 (F2 & Hwf2 & Hkeep2 & Hsub2). cbv beta.
  pose proof (frame_typed F2 _ _ Hbo1) as Hbo2.
  apply runs_bind.
  eapply runs_mono;
    [apply (referencedStamp_first oldTemplate t element bo_type s2 Hbo2 Hext Hwf2)|].
  intros _ s3 (F3 & Hstamp3). cbv beta.
  pose proof (frame_typed F3 _ _ Hbo2) as Hbo3.
  assert (HWe : W_fields ["zeebe:modelerTemplate"] bo_type "eventDefinitions" = false).
  { apply W_fields_external, Hext. }
  assert (HWm : forall ty, external ty = true ->
                  W_fields ["zeebe:modelerTemplate"] ty "messageRef" = false).
  { intros ty Hty. apply W_fields_external, Hty. }
  assert (Hwf3 : message_wf (heap s3) element).
  { apply (message_wf_frame F3 element bo_type Hbo2 HWe HWm); [reflexivity | exact Hwf2]. }
  assert (F03 : frame K_message W_message s s3).
  { apply (frame_trans _ _ _ _ _ F1), (frame_trans _ _ _ _ _ F2).
    apply (frame_message_fields [] ["zeebe:modelerTemplate"]); [|exact F3].
    intros T HT. apply elem_of_nil in HT. contradiction. }
  destruct (hasMessageProperties t) eqn:Hhas; simpl.
  - apply runs_ret. split; [exact F03|]. split; [exact Hwf3|].
    unfold message_settled.
    rewrite (getMessage_frame F3 element bo_type Hbo2 HWe HWm Hwf2).
    split; [|split; [|split]].
    + intros Hne. destruct (Ha1 Hne) as (m & Hm1 & Hset1).
      destruct (Hkeep2 m Hm1) as [Hm2 Hsame].
      exists m. split; [exact Hm2|].
      apply (message_fields_frame F3 element Hwf2 t m);
        [|exact Hm2|].
      * intros k Hk. apply W_fields_other. intros Hin.
        apply list_elem_of_singleton in Hin. subst k. apply (Hfree _ Hk). left.
      * intros p Hp. apply (value_settled_slot (heap s1)); [| |apply Hset1, Hp].
        -- intros h0. apply getPropertyValue_message, (message_kind t), Hp.
        -- apply Hsame. intros Heq. apply (Hfree (key_of (b_name (p_binding p)))).
           ++ unfold message_keys. apply list_elem_of_In, in_map_iff. exists p.
              split; [reflexivity | apply list_elem_of_In, Hp].
           ++ rewrite Heq. right. left.
    + intros Hne. destruct (Hsub2 Hne) as (m & mee & sub & Hm2 & Hlink2 & Hfind2 & Hset2).
      exists m, mee, sub. split; [exact Hm2|].
      apply (message_subscription_frame F3 element Hwf2 t m mee sub);
        [reflexivity | | |exact Hm2|exact Hlink2|exact Hfind2|exact Hset2].
      * intros k. apply W_fields_other_type. discriminate.
      * apply not_elem_of_nil.
    + rewrite <- (getMessage_frame F3 element bo_type Hbo2 HWe HWm Hwf2). exact Hstamp3.
    + intros H. congruence.
  - eapply runs_mono;
      [apply (removeMessage_first removeMessage element bo_type s3 Hok Hbo3 Hext Hwf3)|].
    intros _ s4 (F4 & Hfalsy & Hwf4). cbv beta.
    destruct (hasMessageProperties_false t Hhas) as [Hnom Hnos].
    split.
    { apply (frame_trans _ _ _ _ _ F03).
      apply (frame_message_removal []); [|exact F4].
      intros T HT. apply elem_of_nil in HT. contradiction. }
    split; [exact Hwf4|].
    unfold message_settled. split; [|split; [|split]].
    + intros Hne. contradiction.
    + intros Hne. contradiction.
    + intros Htruthy. congruence.
    + intros _. exact Hfalsy.
Qed.

(** The settled form of the message survives what the later reconcilers
    write. *)
Lemma message_settled_frame {K : list string} {W : string -> string -> bool}
    {s s' : state} (F : frame K W s s') (t : template) (element : eref)
    (type : string) :
  type_of (heap s) (bo_of element) = Some type ->
  W type "eventDefinitions" = false ->
  (forall ty, external ty = true -> W ty "messageRef" = false) ->
  (forall k, W "bpmn:Message" k = false) ->
  (forall k, W "zeebe:Subscription" k = false) ->
  "zeebe:Subscription" ∉ K ->
  message_wf (heap s) element ->
  message_settled (heap s) t element -> message_settled (heap s') t element.
Proof.
  intros Hbo HWe HWm HWmsg HWsub HK Hwf (Ha & Hb & Hc & Hd).
  unfold message_settled. rewrite (getMessage_frame F element type Hbo HWe HWm Hwf).
  split; [|split; [|split]].
  - intros Hne. destruct (Ha Hne) as (m & Hm & Hset). exists m. split; [exact Hm|].
    apply (message_fields_frame F element Hwf t m);
      [intros k _; apply HWmsg | exact Hm | exact Hset].
  - intros Hne. destruct (Hb Hne) as (m & mee & sub & Hm & Hlink & Hfind & Hset).
    exists m, mee, sub. split; [exact Hm|].
    apply (message_subscription_frame F element Hwf t m mee sub);
      [apply HWmsg | exact HWsub | exact HK | exact Hm | exact Hlink | exact Hfind
      | exact Hset].
  - intros Htruthy. destruct (Hc Htruthy) as (m & Hm & Hstamp). exists m.
    split; [exact Hm|]. destruct Hwf as [_ Hmsg]. destruct (Hmsg m Hm) as [Hty _].
    rewrite (frame_get F m _ _ Hty (HWmsg _)). exact Hstamp.
  - exact Hd.
Qed.
(** ** The reconcilers, one after the other *)

Lemma runs_assoc {A B C} (m : M A) (k1 : A -> M B) (k2 : B -> M C) (s : state)
    (Q : C -> state -> Prop) :
  runs (bind (bind m k1) k2) s Q -> runs (bind m (fun a => bind (k1 a) k2)) s Q.
Proof. apply runs_eq. symmetry. apply bind_assoc. Qed.

Lemma updateElementType_first
    (replaceElement : eref -> string -> option string -> M eref)
    (oldTemplate : option template) (t : template) (element : eref) (s : state) :
  replace_ok t replaceElement ->
  wf_document element s -> stamped t (heap s) (bo_of element) ->
  runs (_updateElementType replaceElement element oldTemplate t) s
    (fun element' s' =>
       wf_document element' s' /\ stamped t (heap s') (bo_of element')).
Proof.
  intros Hok Hwf Hstamped. unfold _updateElementType.
  destruct (t_elementType t) as [newType|]; [|apply runs_ret; auto].
  match goal with |- runs (if ?c then _ else _) _ _ => destruct c end;
    [apply runs_ret; auto|].
  intros element' s' E. apply (Hok _ _ _ _ _ _ Hwf Hstamped E).
Qed.

Lemma W_nodes_foreign (own : list string) (T k : string) :
  T <> "bpmn:ExtensionElements" -> T ∉ own -> W_nodes own T k = false.
Proof.
  intros HT Hown. unfold W_nodes.
  rewrite (bool_decide_eq_false_2 _ Hown), (bool_decide_eq_false_2 _ HT). reflexivity.
Qed.

Lemma family_frame_extension (own : list string) :
  Forall (fun T => T ∈ node_types) own ->
  family_frame own (K_extension own) (W_extension own).
Proof.
  intros Hown. rewrite Forall_forall in Hown. split.
  - intros T HT Hne Hni. split.
    + unfold K_extension. rewrite not_elem_of_cons. auto.
    + intros k. unfold W_extension.
      rewrite (W_nodes_foreign own T k Hne Hni), (external_node _ HT). reflexivity.
  - intros type k Hext Hk1 Hk2 Hk3. unfold W_extension.
    rewrite (W_nodes_external own type k Hown Hext), Hext.
    rewrite (bool_decide_eq_false_2 _ Hk1). reflexivity.
Qed.

Lemma family_frame_message :
  family_frame ["bpmn:Message"; "zeebe:Subscription"] K_message W_message.
Proof.
  split.
  - intros T HT Hne Hni. split.
    + unfold K_message. rewrite !not_elem_of_cons in *.
      destruct Hni as (Hm & Hs & _). split; [exact Hm|]. split; [exact Hne|].
      split; [exact Hs | apply not_elem_of_nil].
    + intros k. unfold W_message.
      rewrite (bool_decide_eq_false_2 _ Hni), (bool_decide_eq_false_2 _ Hne),
        (W_removal_node _ k HT).
      reflexivity.
  - intros type k Hext Hk1 Hk2 Hk3. unfold W_message.
    rewrite (W_removal_other type k Hk2 Hk3).
    rewrite (bool_decide_eq_false_2 (type = "bpmn:ExtensionElements"))
      by (apply (external_not_node _ _ Hext); compute_done).
    rewrite bool_decide_eq_false_2; [reflexivity|].
    intros Hin. apply elem_of_cons in Hin as [->|Hin]; [vm_compute in Hext; discriminate|].
    apply list_elem_of_singleton in Hin. subst type. vm_compute in Hext. discriminate.
Qed.

Lemma W_nodes_link (own : list string) (type k : string) :
  Forall (fun T => T ∈ node_types) own -> external type = true ->
  W_nodes own type k = false.
Proof. intros Hown. apply W_nodes_external. rewrite Forall_forall in Hown. exact Hown. Qed.

Lemma W_extension_reference (own : list string) (type : string) :
  Forall (fun T => T ∈ node_types) own -> external type = true ->
  W_extension own type "messageRef" = false.
Proof.
  intros Hown Hext. unfold W_extension. rewrite (W_nodes_link own type _ Hown Hext).
  rewrite Hext. reflexivity.
Qed.

Lemma W_message_link (type : string) :
  external type = true -> W_message type "extensionElements" = false.
Proof.
  intros Hext. unfold W_message.
  rewrite (bool_decide_eq_false_2 (type = "bpmn:ExtensionElements"))
    by (apply (external_not_node _ _ Hext); compute_done).
  rewrite (W_removal_other type "extensionElements") by discriminate.
  rewrite bool_decide_eq_false_2; [reflexivity|].
  intros Hin. apply elem_of_cons in Hin as [->|Hin]; [vm_compute in Hext; discriminate|].
  apply list_elem_of_singleton in Hin. subst type. vm_compute in Hext. discriminate.
Qed.

Section Family.

Context {K : list string} {W : string -> string -> bool} {s s' : state}.
Hypothesis F : frame K W s s'.
Variable own : list string.
Hypothesis HF : family_frame own K W.

Lemma family_foreign (T : string) :
  T ∈ node_types -> T <> "bpmn:ExtensionElements" -> T ∉ own ->
  (T ∉ K) /\ (forall k, W T k = false).
Proof. destruct HF as [H _]. apply H. Qed.

(** The stamps and the plain properties of the business object. *)
Lemma business_object_kept (t : template) (bo : loc) (type : string) :
  free_names t ->
  type_of (heap s) bo = Some type -> external type = true ->
  stamped t (heap s) bo ->
  (forall p, p ∈ plain_properties t ->
     value_settled (heap s) (Some p) p bo (key_of (b_name (p_binding p)))) ->
  type_of (heap s') bo = Some type /\
  stamped t (heap s') bo /\
  (forall p, p ∈ plain_properties t ->
     value_settled (heap s') (Some p) p bo (key_of (b_name (p_binding p)))).
Proof.
  intros [Hfree _] Hty Hext Hstamped Hplain. destruct HF as [_ Hlinks].
  split; [apply (frame_typed F), Hty|]. split.
  - apply (stamped_frame F t bo type Hty); [|exact Hstamped].
    intros k Hk. apply Hlinks; [exact Hext| | |]; intros ->; revert Hk; compute_done.
  - apply (plain_settled_stable t bo type K W s s' F Hty); [|exact Hplain].
    intros k Hk. apply Hlinks; [exact Hext| | |]; intros ->; apply (Hfree _ Hk);
      compute_done.
Qed.

Lemma container_kept (bo : loc) (type : string) (ee : loc) :
  type_of (heap s) bo = Some type -> W type "extensionElements" = false ->
  get (heap s) bo "extensionElements" = VRef ee ->
  type_of (heap s) ee = Some "bpmn:ExtensionElements" ->
  (exists values, get (heap s) ee "values" = VArr values) ->
  get (heap s') bo "extensionElements" = VRef ee /\
  type_of (heap s') ee = Some "bpmn:ExtensionElements" /\
  (exists values, get (heap s') ee "values" = VArr values).
Proof.
  intros Hty HW Hlink Hee Harr.
  split; [rewrite (frame_get F bo type _ Hty HW); exact Hlink|].
  split; [apply (frame_typed F), Hee|].
  destruct (type_of_lookup _ _ _ Hee) as (o & Ho & Hoty).
  apply (frame_array _ _ _ _ F ee o Ho Hoty Harr).
Qed.

Lemma message_wf_kept (element : eref) (type : string) :
  "bpmn:Message" ∉ own ->
  type_of (heap s) (bo_of element) = Some type -> external type = true ->
  (forall ty, external ty = true -> W ty "messageRef" = false) ->
  message_wf (heap s) element -> message_wf (heap s') element.
Proof.
  intros Hown Hty Hext HWm. destruct HF as [_ Hlinks].
  apply (message_wf_frame F element type Hty);
    [apply Hlinks; [exact Hext | discriminate | discriminate | discriminate] | exact HWm |].
  apply family_foreign; [compute_done | discriminate | exact Hown].
Qed.

Lemma unique_node_kept (ee : loc) (T : string) :
  T ∈ later_types -> T ∉ own ->
  type_of (heap s) ee = Some "bpmn:ExtensionElements" ->
  unique_node (heap s) ee T -> unique_node (heap s') ee T.
Proof.
  intros HT Hown Hee.
  assert (HTn : T ∈ node_types /\ T <> "bpmn:ExtensionElements" /\ T <> "bpmn:Event").
  { revert HT. unfold later_types. rewrite !elem_of_cons, elem_of_nil.
    intros [->|[->|[->|[->|[]]]]]; (split; [compute_done | split; discriminate]). }
  destruct HTn as (HTn & HTc & HTe).
  apply (frame_unique_node F ee T Hee); [|exact HTe].
  apply (family_foreign T HTn HTc Hown).
Qed.

Lemma entries_kept (ee : loc) (holderType listAttr entryType : string) :
  holderType ∈ later_types -> holderType ∉ own ->
  type_of (heap s) ee = Some "bpmn:ExtensionElements" ->
  entries_wf (heap s) ee holderType listAttr entryType ->
  entries_wf (heap s') ee holderType listAttr entryType.
Proof.
  intros HT Hown Hee.
  assert (HTn : holderType ∈ node_types /\ holderType <> "bpmn:ExtensionElements"
                /\ holderType <> "bpmn:Event").
  { revert HT. unfold later_types. rewrite !elem_of_cons, elem_of_nil.
    intros [->|[->|[->|[->|[]]]]]; (split; [compute_done | split; discriminate]). }
  destruct HTn as (HTn & HTc & HTe).
  destruct (family_foreign holderType HTn HTc Hown) as [HK HW].
  apply (entries_wf_frame F ee holderType listAttr entryType Hee HK HTe (HW _)).
Qed.

Lemma taskDefinition_kept (t : template) (ee : loc) :
  "zeebe:TaskDefinition" ∉ own ->
  type_of (heap s) ee = Some "bpmn:ExtensionElements" ->
  singleton_settled (heap s) (taskdef_properties t) Some "zeebe:TaskDefinition"
    taskdef_name ee ->
  singleton_settled (heap s') (taskdef_properties t) Some "zeebe:TaskDefinition"
    taskdef_name ee.
Proof.
  intros Hown Hee.
  destruct (family_foreign "zeebe:TaskDefinition") as [HK HW];
    [compute_done | discriminate | exact Hown|].
  apply (singleton_settled_frame F _ _ _ _ ee Hee HK); [discriminate | exact HW].
Qed.

Lemma io_kept (t : template) (ee : loc) :
  "zeebe:IoMapping" ∉ own -> "zeebe:Input" ∉ own -> "zeebe:Output" ∉ own ->
  type_of (heap s) ee = Some "bpmn:ExtensionElements" ->
  entries_wf (heap s) ee "zeebe:IoMapping" "inputParameters" "zeebe:Input" ->
  entries_wf (heap s) ee "zeebe:IoMapping" "outputParameters" "zeebe:Output" ->
  io_settled (heap s) t ee -> io_settled (heap s') t ee.
Proof.
  intros H1 H2 H3 Hee.
  destruct (family_foreign "zeebe:IoMapping") as [HK HW];
    [compute_done | discriminate | exact H1|].
  destruct (family_foreign "zeebe:Input") as [_ HWi];
    [compute_done | discriminate | exact H2|].
  destruct (family_foreign "zeebe:Output") as [_ HWo];
    [compute_done | discriminate | exact H3|].
  apply (io_settled_frame F t ee Hee HK (HW _) (HW _) HWi HWo).
Qed.

Lemma headers_kept (t : template) (ee : loc) :
  "zeebe:TaskHeaders" ∉ own -> "zeebe:Header" ∉ own ->
  type_of (heap s) ee = Some "bpmn:ExtensionElements" ->
  entries_wf (heap s) ee "zeebe:TaskHeaders" "values" "zeebe:Header" ->
  headers_settled (heap s) t ee -> headers_settled (heap s') t ee.
Proof.
  intros H1 H2 Hee.
  destruct (family_foreign "zeebe:TaskHeaders") as [HK HW];
    [compute_done | discriminate | exact H1|].
  destruct (family_foreign "zeebe:Header") as [_ HWe];
    [compute_done | discriminate | exact H2|].
  apply (headers_settled_frame F t ee Hee HK (HW _) HWe).
Qed.

Lemma zeebe_properties_kept (t : template) (ee : loc) :
  "zeebe:Properties" ∉ own -> "zeebe:Property" ∉ own ->
  type_of (heap s) ee = Some "bpmn:ExtensionElements" ->
  entries_wf (heap s) ee "zeebe:Properties" "properties" "zeebe:Property" ->
  zeebe_properties_settled (heap s) t ee -> zeebe_properties_settled (heap s') t ee.
Proof.
  intros H1 H2 Hee.
  destruct (family_foreign "zeebe:Properties") as [HK HW];
    [compute_done | discriminate | exact H1|].
  destruct (family_foreign "zeebe:Property") as [_ HWe];
    [compute_done | discriminate | exact H2|].
  apply (zeebe_properties_settled_frame F t ee Hee HK (HW _) HWe).
Qed.

Lemma message_kept (t : template) (element : eref) (type : string) :
  "bpmn:Message" ∉ own -> "zeebe:Subscription" ∉ own ->
  type_of (heap s) (bo_of element) = Some type -> external type = true ->
  (forall ty, external ty = true -> W ty "messageRef" = false) ->
  message_wf (heap s) element ->
  message_settled (heap s) t element -> message_settled (heap s') t element.
Proof.
  intros H1 H2 Hty Hext HWm. pose proof HF as [_ Hlinks].
  destruct (family_foreign "bpmn:Message") as [_ HWmsg];
    [compute_done | discriminate | exact H1|].
  destruct (family_foreign "zeebe:Subscription") as [HK HWsub];
    [compute_done | discriminate | exact H2|].
  apply (message_settled_frame F t element type Hty);
    [apply Hlinks; [exact Hext | discriminate | discriminate | discriminate]
    | exact HWm | exact HWmsg | exact HWsub | exact HK].
Qed.

End Family.

Lemma later_node (T : string) :
  T ∈ later_types ->
  T ∈ node_types /\ T ∈ singleton_types /\ T <> "bpmn:ExtensionElements"
  /\ T <> "bpmn:Event".
Proof.
  unfold later_types. rewrite !elem_of_cons, elem_of_nil.
  intros [->|[->|[->|[->|[]]]]];
    (split; [compute_done | split; [compute_done | split; discriminate]]).
Qed.

(** The container the first reconciler found or created holds, for the
    later reconcilers, what the container of a well-formed document
    holds. *)
Lemma later_container_first (s s' : state) (bo ee : loc) :
  frame (K_extension ["zeebe:TaskDefinition"]) (W_extension ["zeebe:TaskDefinition"])
    s s' ->
  (forall ee0, get (heap s) bo "extensionElements" = VRef ee0 ->
     container_wf (heap s) ee0) ->
  (get (heap s) bo "extensionElements" = VRef ee \/ heap s !! ee = None) ->
  type_of (heap s') ee = Some "bpmn:ExtensionElements" ->
  (forall T', T' ∉ K_extension ["zeebe:TaskDefinition"] -> T' <> "bpmn:Event" ->
     typed_values (heap s') ee T' = typed_values (heap s) ee T') ->
  (forall T, T ∈ later_types -> unique_node (heap s') ee T) /\
  entries_wf (heap s') ee "zeebe:IoMapping" "inputParameters" "zeebe:Input" /\
  entries_wf (heap s') ee "zeebe:IoMapping" "outputParameters" "zeebe:Output" /\
  entries_wf (heap s') ee "zeebe:TaskHeaders" "values" "zeebe:Header" /\
  entries_wf (heap s') ee "zeebe:Properties" "properties" "zeebe:Property".
Proof.
  intros F Hcont Horigin Hee' Hforeign.
  assert (HF : family_frame ["zeebe:TaskDefinition"]
                 (K_extension ["zeebe:TaskDefinition"])
                 (W_extension ["zeebe:TaskDefinition"])).
  { apply family_frame_extension. compute_done. }
  assert (Hown : forall T, T ∈ later_types -> T ∉ ["zeebe:TaskDefinition"]).
  { intros T HT Hin. apply list_elem_of_singleton in Hin. subst T. revert HT.
    compute_done. }
  destruct Horigin as [Hlink|Hnone].
  - destruct (Hcont ee Hlink) as (Hee & Huniq & E1 & E2 & E3 & E4).
    split.
    { intros T HT. apply (unique_node_kept F _ HF ee T HT (Hown T HT) Hee).
      apply Huniq, (later_node T HT). }
    split; [|split; [|split]];
      (apply (entries_kept F _ HF); [compute_done | apply Hown; compute_done
                                    | exact Hee | assumption]).
  - assert (Hnil : forall T, T ∈ later_types -> typed_values (heap s') ee T = []).
    { intros T HT. destruct (later_node T HT) as (HTn & _ & HTc & HTe).
      rewrite Hforeign; [|apply (family_foreign _ HF T HTn HTc (Hown T HT))|exact HTe].
      unfold typed_values, get_many, get. rewrite Hnone. reflexivity. }
    assert (Hnone' : forall T listAttr entryType, T ∈ later_types ->
              entries_wf (heap s') ee T listAttr entryType).
    { intros T listAttr entryType HT holder Hfind.
      rewrite findExtension_container, (Hnil T HT) in Hfind by exact Hee'.
      discriminate. }
    split.
    { intros T HT. unfold unique_node. rewrite (Hnil T HT). simpl. lia. }
    split; [|split; [|split]]; apply Hnone'; compute_done.
Qed.

Lemma W_application_links (oldTemplate : option template) (t : template)
    (W : string -> string -> bool) :
  links_only W ->
  forall type k, W type k = true -> W_application oldTemplate t type k = true.
Proof.
  intros Hlinks type k HW. unfold W_application.
  destruct (external type) eqn:Hext; [|reflexivity].
  apply bool_decide_eq_true_2. apply elem_of_app. right.
  destruct (decide (k = "extensionElements")) as [->|H1]; [left|].
  destruct (decide (k = "messageRef")) as [->|H2]; [right; left|].
  destruct (decide (k = "rootElements")) as [->|H3]; [right; right; left|].
  rewrite (Hlinks type k Hext H1 H2 H3) in HW. discriminate.
Qed.

Lemma frame_application_names (oldTemplate : option template) (t : template)
    (s s' : state) :
  frame [] (W_names (plain_keys t ++ dropped_plain_keys oldTemplate t)) s s' ->
  frame node_types (W_application oldTemplate t) s s'.
Proof.
  apply frame_weaken.
  - intros T HT. apply elem_of_nil in HT. contradiction.
  - intros type k HW. unfold W_names in HW. apply andb_true_iff in HW as [Hext Hk].
    unfold W_application. rewrite Hext. apply bool_decide_eq_true_1 in Hk.
    apply bool_decide_eq_true_2, elem_of_app. left. exact Hk.
Qed.

Lemma frame_application_extension (oldTemplate : option template) (t : template)
    (own : list string) (s s' : state) :
  Forall (fun T => T ∈ node_types) own ->
  frame (K_extension own) (W_extension own) s s' ->
  frame node_types (W_application oldTemplate t) s s'.
Proof.
  intros Hown. apply frame_weaken.
  - intros T HT. unfold K_extension in HT. apply elem_of_cons in HT as [->|HT]; [left|].
    rewrite Forall_forall in Hown. apply Hown, HT.
  - apply W_application_links. apply (family_frame_extension own Hown).
Qed.

Lemma frame_application_message (oldTemplate : option template) (t : template)
    (s s' : state) :
  frame K_message W_message s s' -> frame node_types (W_application oldTemplate t) s s'.
Proof.
  apply frame_weaken.
  - intros T. unfold K_message, node_types. rewrite !elem_of_cons, !elem_of_nil. tauto.
  - apply W_application_links. apply family_frame_message.
Qed.

(** The reconcilers of an application, after the stamps and the type of
    the element are set: they settle the template on the element, and they
    write, on an object that is no extension node and no message, no
    attribute but those of the plain properties of the two templates, the
    two links and the list of root elements. *)
Lemma reconcilers_first (removeMessage : eref -> M unit)
    (oldTemplate : option template) (t : template) (element : eref) (sB : state) :
  remove_ok removeMessage ->
  distinct_keys t -> free_names t -> upgrade_ok oldTemplate t ->
  wf_document element sB -> stamped t (heap sB) (bo_of element) ->
  runs (_updateProperties element oldTemplate t >>
        _updateZeebeTaskDefinition element oldTemplate t >>
        _updateZeebeInputOutputParameterProperties element oldTemplate t >>
        _updateZeebeTaskHeaderProperties element oldTemplate t >>
        _updateZeebePropertyProperties element oldTemplate t >>
        _updateMessage removeMessage element oldTemplate t >>
        _updateCalledElement element oldTemplate t >>
        ret element) sB
    (fun element' s' =>
       element' = element /\ settled (heap s') t element /\
       frame node_types (W_application oldTemplate t) sB s').
Proof.
  intros Hremove (Kplain & Ktd & _ & Kin & Kout & Khd & Kzp & Kmsg & Ksub & Kce) Hfree
    (Uplain & Umsg & Utd & Usub & Uce & Usame) HwfB HstB.
  (* plain properties *)
  apply runs_bind.
  pose proof HwfB as (_ & _ & HboB & _).
  eapply runs_mono; [apply (properties_first oldTemplate t element sB Kplain HboB)|].
  intros _ sC [FC HplainC]. cbv beta.
  pose proof Hfree as [Hfree1 Hfree2].
  assert (Hreserved : forall k, k ∈ reserved_names ->
            k ∉ plain_keys t ++ dropped_plain_keys oldTemplate t).
  { intros k Hk Hin. apply elem_of_app in Hin as [Hin|Hin];
      [apply (Hfree1 k Hin Hk) | apply (Uplain k Hin Hk)]. }
  assert (HwfC : wf_document element sC).
  { apply (wf_document_names (plain_keys t ++ dropped_plain_keys oldTemplate t)
             element sB sC FC);
      [apply Hreserved; compute_done | apply Hreserved; compute_done
      | apply Hreserved; compute_done | exact HwfB]. }
  destruct HboB as (oB & HoB & Hext).
  set (bo_type := otype oB) in *.
  assert (HboB : type_of (heap sB) (bo_of element) = Some bo_type).
  { unfold type_of. rewrite HoB. reflexivity. }
  assert (HstC : stamped t (heap sC) (bo_of element)).
  { apply (stamped_frame FC t _ bo_type HboB); [|exact HstB].
    intros k Hk. apply W_names_other, Hreserved. revert Hk. unfold stamp_names, reserved_names.
    rewrite !elem_of_cons. tauto. }
  pose proof (frame_typed FC _ _ HboB) as HboC.
  destruct HwfC as (HnC & HbC & _ & HcontC & HmwfC).
  (* task definition *)
  apply runs_bind.
  eapply runs_mono.
  { apply (taskDefinition_first oldTemplate t element bo_type sC Ktd Utd HbC HboC Hext).
    intros ee0 Hee0. destruct (HcontC ee0 Hee0) as (Hty & Huniq & _).
    split; [exact Hty|]. apply Huniq. compute_done. }
  intros _ sD (FD & ee & HlinkD & HeeD & Horigin & _ & HarrD & Hforeign & StdD). cbv beta.
  assert (HFD : family_frame ["zeebe:TaskDefinition"]
                  (K_extension ["zeebe:TaskDefinition"])
                  (W_extension ["zeebe:TaskDefinition"])).
  { apply family_frame_extension. compute_done. }
  destruct (later_container_first sC sD (bo_of element) ee FD HcontC Horigin HeeD Hforeign)
    as (HuniqD & EinD & EoutD & EthD & EzpD).
  destruct (business_object_kept FD _ HFD t _ bo_type Hfree HboC Hext HstC HplainC)
    as (HboD & HstD & HplainD).
  assert (HmwfD : message_wf (heap sD) element).
  { apply (message_wf_kept FD _ HFD element bo_type); [compute_done | exact HboC | exact Hext | | exact HmwfC].
    intros ty Hty. apply W_extension_reference; [compute_done | exact Hty]. }
  pose proof (frame_normal _ _ _ _ FD HnC) as HnD.
  pose proof (frame_bounded _ _ _ _ FD HbC) as HbD.
  (* input and output mappings *)
  apply runs_bind.
  eapply runs_mono.
  { apply (inputOutput_first oldTemplate t element ee sD); try assumption.
    - intros p Hp. apply Usame, elem_of_app. left. exact Hp.
    - apply HuniqD; compute_done. }
  intros _ sE (FE & SioE & EinE & EoutE). cbv beta.
  assert (HFE : family_frame ["zeebe:IoMapping"; "zeebe:Input"; "zeebe:Output"]
                  (K_extension ["zeebe:IoMapping"; "zeebe:Input"; "zeebe:Output"])
                  (W_extension ["zeebe:IoMapping"; "zeebe:Input"; "zeebe:Output"])).
  { apply family_frame_extension. compute_done. }
  pose proof (frame_nodes_extension _ _ _ FE) as FE'.
  destruct (business_object_kept FE' _ HFE t _ bo_type Hfree HboD Hext HstD HplainD)
    as (HboE & HstE & HplainE).
  destruct (container_kept FE (bo_of element) bo_type ee HboD
              (W_nodes_link ["zeebe:IoMapping"; "zeebe:Input"; "zeebe:Output"] _ _ ltac:(compute_done) Hext) HlinkD HeeD HarrD)
    as (HlinkE & HeeE & HarrE).
  assert (HmwfE : message_wf (heap sE) element).
  { apply (message_wf_kept FE' _ HFE element bo_type); [compute_done | exact HboD | exact Hext | | exact HmwfD].
    intros ty Hty. apply W_extension_reference; [compute_done | exact Hty]. }
  pose proof (frame_normal _ _ _ _ FE HnD) as HnE.
  pose proof (frame_bounded _ _ _ _ FE HbD) as HbE.
  pose proof (taskDefinition_kept FE' _ HFE t ee ltac:(compute_done) HeeD StdD) as StdE.
  assert (HuniqE : forall T, T ∈ ["zeebe:TaskHeaders"; "zeebe:Properties"; "zeebe:CalledElement"] ->
            unique_node (heap sE) ee T).
  { intros T HT.
    assert (HTl : T ∈ later_types) by (right; exact HT).
    apply (unique_node_kept FE' _ HFE ee T HTl); [|exact HeeD|apply HuniqD, HTl].
    revert HT. rewrite !elem_of_cons, elem_of_nil.
    intros [->|[->|[->|[]]]]; compute_done. }
  pose proof (entries_kept FE' _ HFE ee "zeebe:TaskHeaders" "values" "zeebe:Header"
                ltac:(compute_done) ltac:(compute_done) HeeD EthD) as EthE.
  pose proof (entries_kept FE' _ HFE ee "zeebe:Properties" "properties" "zeebe:Property"
                ltac:(compute_done) ltac:(compute_done) HeeD EzpD) as EzpE.
  (* task headers *)
  apply runs_bind.
  eapply runs_mono.
  { apply (taskHeaders_first oldTemplate t element ee sE Khd HbE HlinkE HeeE);
      [apply HuniqE; compute_done | exact EthE]. }
  intros _ sF (FF & SthF & EthF). cbv beta.
  assert (HFF : family_frame ["zeebe:TaskHeaders"; "zeebe:Header"]
                  (K_extension ["zeebe:TaskHeaders"; "zeebe:Header"])
                  (W_extension ["zeebe:TaskHeaders"; "zeebe:Header"])).
  { apply family_frame_extension. compute_done. }
  pose proof (frame_nodes_extension _ _ _ FF) as FF'.
  destruct (business_object_kept FF' _ HFF t _ bo_type Hfree HboE Hext HstE HplainE)
    as (HboF & HstF & HplainF).
  destruct (container_kept FF (bo_of element) bo_type ee HboE
              (W_nodes_link ["zeebe:TaskHeaders"; "zeebe:Header"] _ _ ltac:(compute_done) Hext) HlinkE HeeE HarrE)
    as (HlinkF & HeeF & HarrF).
  assert (HmwfF : message_wf (heap sF) element).
  { apply (message_wf_kept FF' _ HFF element bo_type); [compute_done | exact HboE | exact Hext | | exact HmwfE].
    intros ty Hty. apply W_extension_reference; [compute_done | exact Hty]. }
  pose proof (frame_normal _ _ _ _ FF HnE) as HnF.
  pose proof (frame_bounded _ _ _ _ FF HbE) as HbF.
  pose proof (taskDefinition_kept FF' _ HFF t ee ltac:(compute_done) HeeE StdE) as StdF.
  pose proof (io_kept FF' _ HFF t ee ltac:(compute_done) ltac:(compute_done)
                ltac:(compute_done) HeeE EinE EoutE SioE) as SioF.
  pose proof (entries_kept FF' _ HFF ee "zeebe:IoMapping" "inputParameters" "zeebe:Input"
                ltac:(compute_done) ltac:(compute_done) HeeE EinE) as EinF.
  pose proof (entries_kept FF' _ HFF ee "zeebe:IoMapping" "outputParameters" "zeebe:Output"
                ltac:(compute_done) ltac:(compute_done) HeeE EoutE) as EoutF.
  pose proof (entries_kept FF' _ HFF ee "zeebe:Properties" "properties" "zeebe:Property"
                ltac:(compute_done) ltac:(compute_done) HeeE EzpE) as EzpF.
  assert (HuniqF : forall T, T ∈ ["zeebe:Properties"; "zeebe:CalledElement"] ->
            unique_node (heap sF) ee T).
  { intros T HT.
    assert (HTl : T ∈ later_types) by (right; right; exact HT).
    apply (unique_node_kept FF' _ HFF ee T HTl); [|exact HeeE|apply HuniqE; right; exact HT].
    revert HT. rewrite !elem_of_cons, elem_of_nil.
    intros [->|[->|[]]]; compute_done. }
  (* custom properties *)
  apply runs_bind.
  eapply runs_mono.
  { apply (zeebeProperties_first oldTemplate t element ee sF Kzp); try assumption.
    - intros p q Hp Hup Hq.
      apply (Usame p); [apply elem_of_app; right; exact Hp | exact Hup | exact Hq].
    - apply HuniqF; compute_done. }
  intros _ sG (FG & SzpG & EzpG). cbv beta.
  assert (HFG : family_frame ["zeebe:Properties"; "zeebe:Property"]
                  (K_extension ["zeebe:Properties"; "zeebe:Property"])
                  (W_extension ["zeebe:Properties"; "zeebe:Property"])).
  { apply family_frame_extension. compute_done. }
  pose proof (frame_nodes_extension _ _ _ FG) as FG'.
  destruct (business_object_kept FG' _ HFG t _ bo_type Hfree HboF Hext HstF HplainF)
    as (HboG & HstG & HplainG).
  destruct (container_kept FG (bo_of element) bo_type ee HboF
              (W_nodes_link ["zeebe:Properties"; "zeebe:Property"] _ _ ltac:(compute_done) Hext) HlinkF HeeF HarrF)
    as (HlinkG & HeeG & HarrG).
  assert (HmwfG : message_wf (heap sG) element).
  { apply (message_wf_kept FG' _ HFG element bo_type); [compute_done | exact HboF | exact Hext | | exact HmwfF].
    intros ty Hty. apply W_extension_reference; [compute_done | exact Hty]. }
  pose proof (frame_normal _ _ _ _ FG HnF) as HnG.
  pose proof (frame_bounded _ _ _ _ FG HbF) as HbG.
  pose proof (taskDefinition_kept FG' _ HFG t ee ltac:(compute_done) HeeF StdF) as StdG.
  pose proof (io_kept FG' _ HFG t ee ltac:(compute_done) ltac:(compute_done)
                ltac:(compute_done) HeeF EinF EoutF SioF) as SioG.
  pose proof (headers_kept FG' _ HFG t ee ltac:(compute_done) ltac:(compute_done)
                HeeF EthF SthF) as SthG.
  pose proof (entries_kept FG' _ HFG ee "zeebe:IoMapping" "inputParameters" "zeebe:Input"
                ltac:(compute_done) ltac:(compute_done) HeeF EinF) as EinG.
  pose proof (entries_kept FG' _ HFG ee "zeebe:IoMapping" "outputParameters" "zeebe:Output"
                ltac:(compute_done) ltac:(compute_done) HeeF EoutF) as EoutG.
  pose proof (entries_kept FG' _ HFG ee "zeebe:TaskHeaders" "values" "zeebe:Header"
                ltac:(compute_done) ltac:(compute_done) HeeF EthF) as EthG.
  pose proof (unique_node_kept FG' _ HFG ee "zeebe:CalledElement"
                ltac:(compute_done) ltac:(compute_done) HeeF
                (HuniqF "zeebe:CalledElement" ltac:(compute_done))) as HuniqG.
  (* message *)
  apply runs_bind.
  eapply runs_mono.
  { apply (message_first removeMessage oldTemplate t element bo_type sG Hremove Kmsg Ksub);
      [|exact Umsg|exact Usub|exact HbG|exact HboG|exact Hext|exact HmwfG].
    intros k Hk. unfold message_keys in Hk.
    apply list_elem_of_In, in_map_iff in Hk as (p & <- & Hp).
    apply Hfree2, list_elem_of_In, Hp. }
  intros _ sH (FH & HmwfH & SmsgH). cbv beta.
  pose proof family_frame_message as HFH.
  destruct (business_object_kept FH _ HFH t _ bo_type Hfree HboG Hext HstG HplainG)
    as (HboH & HstH & HplainH).
  destruct (container_kept FH (bo_of element) bo_type ee HboG
              (W_message_link _ Hext) HlinkG HeeG HarrG)
    as (HlinkH & HeeH & HarrH).
  pose proof (frame_normal _ _ _ _ FH HnG) as HnH.
  pose proof (frame_bounded _ _ _ _ FH HbG) as HbH.
  pose proof (taskDefinition_kept FH _ HFH t ee ltac:(compute_done) HeeG StdG) as StdH.
  pose proof (io_kept FH _ HFH t ee ltac:(compute_done) ltac:(compute_done)
                ltac:(compute_done) HeeG EinG EoutG SioG) as SioH.
  pose proof (headers_kept FH _ HFH t ee ltac:(compute_done) ltac:(compute_done)
                HeeG EthG SthG) as SthH.
  pose proof (zeebe_properties_kept FH _ HFH t ee ltac:(compute_done) ltac:(compute_done)
                HeeG EzpG SzpG) as SzpH.
  pose proof (entries_kept FH _ HFH ee "zeebe:IoMapping" "inputParameters" "zeebe:Input"
                ltac:(compute_done) ltac:(compute_done) HeeG EinG) as EinH.
  pose proof (entries_kept FH _ HFH ee "zeebe:IoMapping" "outputParameters" "zeebe:Output"
                ltac:(compute_done) ltac:(compute_done) HeeG EoutG) as EoutH.
  pose proof (entries_kept FH _ HFH ee "zeebe:TaskHeaders" "values" "zeebe:Header"
                ltac:(compute_done) ltac:(compute_done) HeeG EthG) as EthH.
  pose proof (entries_kept FH _ HFH ee "zeebe:Properties" "properties" "zeebe:Property"
                ltac:(compute_done) ltac:(compute_done) HeeG EzpG) as EzpH.
  pose proof (unique_node_kept FH _ HFH ee "zeebe:CalledElement"
                ltac:(compute_done) ltac:(compute_done) HeeG HuniqG) as HuniqH.
  (* called element *)
  apply runs_bind.
  eapply runs_mono.
  { apply (calledElement_first oldTemplate t element bo_type sH Kce Uce HbH HboH Hext).
    intros ee0 Hee0. rewrite HlinkH in Hee0. injection Hee0 as <-.
    split; [exact HeeH | exact HuniqH]. }
  intros _ sI (FI & ee' & HlinkI & HeeI & _ & Hsame & HarrI & _ & SceI). cbv beta.
  apply runs_ret.
  pose proof (Hsame ee HlinkH) as <-.
  assert (HFI : family_frame ["zeebe:CalledElement"]
                  (K_extension ["zeebe:CalledElement"])
                  (W_extension ["zeebe:CalledElement"])).
  { apply family_frame_extension. compute_done. }
  destruct (business_object_kept FI _ HFI t _ bo_type Hfree HboH Hext HstH HplainH)
    as (HboI & (Hs1 & Hs2 & Hs3) & HplainI).
  split; [reflexivity|]. split.
  {
    split; [apply (frame_normal _ _ _ _ FI HnH)|].
    split; [exact Hs1|]. split; [exact Hs2|]. split; [exact Hs3|].
    split; [exact HplainI|].
    split.
    { exists ee. split; [exact HlinkI|]. split; [exact HarrI|].
      split; [apply (taskDefinition_kept FI _ HFI t ee ltac:(compute_done) HeeH StdH)|].
      split.
      { apply (io_kept FI _ HFI t ee); try assumption; compute_done. }
      split.
      { apply (headers_kept FI _ HFI t ee); try assumption; compute_done. }
      split.
      { apply (zeebe_properties_kept FI _ HFI t ee); try assumption; compute_done. }
      exact SceI. }
    apply (message_kept FI _ HFI t element bo_type); try assumption; try compute_done.
    intros ty Hty. apply W_extension_reference; [compute_done | exact Hty].
  }
  apply (frame_trans _ _ _ _ _ (frame_application_names oldTemplate t _ _ FC)).
  apply (frame_trans _ _ _ _ _
           (frame_application_extension oldTemplate t ["zeebe:TaskDefinition"] _ _
              ltac:(compute_done) FD)).
  apply (frame_trans _ _ _ _ _
           (frame_application_extension oldTemplate t
              ["zeebe:IoMapping"; "zeebe:Input"; "zeebe:Output"] _ _
              ltac:(compute_done) FE')).
  apply (frame_trans _ _ _ _ _
           (frame_application_extension oldTemplate t ["zeebe:TaskHeaders"; "zeebe:Header"] _ _
              ltac:(compute_done) FF')).
  apply (frame_trans _ _ _ _ _
           (frame_application_extension oldTemplate t ["zeebe:Properties"; "zeebe:Property"] _ _
              ltac:(compute_done) FG')).
  apply (frame_trans _ _ _ _ _ (frame_application_message oldTemplate t _ _ FH)).
  apply (frame_application_extension oldTemplate t ["zeebe:CalledElement"] _ _
           ltac:(compute_done) FI).
Qed.

(** An application settles the template on the element. *)
Lemma application_settles
    (replaceElement : eref -> string -> option string -> M eref)
    (removeMessage : eref -> M unit)
    (oldTemplate : option template) (t : template) (element : eref) (s0 : state) :
  distinct_keys t -> free_names t -> upgrade_ok oldTemplate t ->
  replace_ok t replaceElement -> remove_ok removeMessage ->
  wf_document element s0 ->
  runs (preExecute replaceElement removeMessage element oldTemplate (Some t)) s0
    (fun element' s' => settled (heap s') t element').
Proof.
  intros Hkeys Hfree Hup Hok Hremove Hwf0.
  unfold preExecute.
  apply runs_assoc, runs_bind.
  eapply runs_mono; [apply (stamps_first t element s0 Hwf0)|].
  intros _ sA [HwfA HstA]. cbv beta.
  apply runs_bind.
  eapply runs_mono;
    [apply (updateElementType_first replaceElement oldTemplate t element sA Hok HwfA
              HstA)|].
  intros element1 sB [HwfB HstB]. cbv beta.
  eapply runs_mono;
    [apply (reconcilers_first removeMessage oldTemplate t element1 sB Hremove Hkeys Hfree
              Hup HwfB HstB)|].
  intros element' s' (-> & Hsettled & _). exact Hsettled.
Qed.

(** Without old template nothing is dropped and nothing is matched. *)
Lemma upgrade_ok_none (t : template) : upgrade_ok None t.
Proof.
  unfold upgrade_ok.
  repeat split; try (intros x Hx; apply elem_of_nil in Hx; contradiction).
  intros p _ _ q Hq. discriminate.
Qed.
(** ** A first application, run *)

Lemma replaceElement_same_ok (t : template) : replace_ok t replaceElement_same.
Proof.
  intros element type eventDefinitionType s element' s' Hwf Hstamped E.
  injection E as <- <-. auto.
Qed.

Lemma bounded_checked (s : state) :
  forallb (fun lo => bool_decide (lo.1 < next s)%nat) (map_to_list (heap s)) = true ->
  bounded s.
Proof.
  intros Hall l [o Hl]. rewrite forallb_forall in Hall.
  assert (Hin : In (l, o) (map_to_list (heap s))).
  { apply list_elem_of_In, elem_of_map_to_list. exact Hl. }
  apply Hall in Hin. apply bool_decide_eq_true_1 in Hin. exact Hin.
Qed.

Lemma ex_template_service_distinct_keys : distinct_keys ex_template_service.
Proof. unfold distinct_keys. repeat split; compute_done. Qed.

Lemma ex_template_service_free_names : free_names ex_template_service.
Proof.
  split.
  - apply Forall_forall. compute_done.
  - intros p Hp. vm_compute in Hp. apply elem_of_nil in Hp. contradiction.
Qed.

Lemma ex_task_input_wf : wf_document (Shape 0%nat) ex_task_input.
Proof.
  split; [apply normal_checked; vm_compute; reflexivity|].
  split; [apply bounded_checked; vm_compute; reflexivity|].
  split; [eexists; split; [reflexivity | reflexivity]|].
  split.
  - intros ee Hee. vm_compute in Hee. injection Hee as <-.
    split; [reflexivity|]. split.
    { intros T HT. unfold unique_node. revert HT. unfold singleton_types.
      rewrite !elem_of_cons, elem_of_nil.
      intros [->|[->|[->|[->|[->|[]]]]]]; vm_compute; lia. }
    split; [|split; [|split]]; intros holder Hfind; vm_compute in Hfind;
      try discriminate; injection Hfind as <-.
    + split; [vm_compute; apply NoDup_singleton|].
      intros e He. vm_compute in He. apply list_elem_of_singleton in He. subst e.
      reflexivity.
    + split; [vm_compute; apply NoDup_nil_2|].
      intros e He. vm_compute in He. apply elem_of_nil in He. contradiction.
  - split.
    + intros r Hr. vm_compute in Hr. injection Hr as <-.
      eexists. split; reflexivity.
    + intros m Hm. vm_compute in Hm. discriminate.
Qed.

Lemma ex_task_input_first_run :
  preExecute replaceElement_same removeMessage_detach (Shape 0%nat)
    None (Some ex_template_service) ex_task_input
  = Some (Shape 0%nat, ex_task_input_applied).
Proof. vm_compute. reflexivity. Qed.

Lemma no_elem_of_empty {A} (l : list A) (x : A) : l = [] -> x ∈ l -> False.
Proof. intros -> H. apply elem_of_nil in H. exact H. Qed.

Lemma ex_upgrade_input_service_ok :
  upgrade_ok (Some ex_template_input_v1) ex_template_service.
Proof.
  unfold upgrade_ok.
  split; [intros k Hk; exfalso; exact (no_elem_of_empty _ k eq_refl Hk)|].
  split; [intros k Hk; exfalso; exact (no_elem_of_empty _ k eq_refl Hk)|].
  split; [intros q Hq; exfalso; exact (no_elem_of_empty _ q eq_refl Hq)|].
  split; [intros q Hq; exfalso; exact (no_elem_of_empty _ q eq_refl Hq)|].
  split; [intros q Hq; exfalso; exact (no_elem_of_empty _ q eq_refl Hq)|].
  intros p Hp.
  assert (Hp' : p ∈ [ex_input_b]) by exact Hp.
  apply list_elem_of_singleton in Hp'. subst p.
  intros Hupdate. vm_compute in Hupdate. discriminate.
Qed.

Lemma ex_task_input_upgrade_run :
  preExecute replaceElement_same removeMessage_detach (Shape 0%nat)
    (Some ex_template_input_v1) (Some ex_template_service) ex_task_input
  = Some (Shape 0%nat, ex_task_input_upgraded).
Proof. vm_compute. reflexivity. Qed.

(** ** The value policy on the slot of a binding *)

(** For every binding kind the handler reads, it reads the slot the spec
    tracks; it reads nothing for a called-element binding. *)
Lemma getPropertyValue_spec_slot (h : gmap loc obj) (node : loc) (p : property)
    (slot : string) :
  spec_value_slot (p_binding p) = Some slot ->
  b_type (p_binding p) <> ZEEBE_CALLED_ELEMENT ->
  getPropertyValue h (Some (Moddle node)) p = get h node slot.
Proof.
  unfold spec_value_slot, getPropertyValue. simpl. intros Hslot Hce.
  repeat match type of Hslot with
  | (if ?c then _ else _) = _ => destruct c eqn:?
  end; try (injection Hslot as <-; reflexivity); try discriminate.
  exfalso. apply Hce. match goal with H : bool_decide _ = true |- _ =>
    apply bool_decide_eq_true_1 in H; exact H end.
Qed.

Lemma findOldProperty_not_called_element (oldTemplate : option template)
    (p q : property) :
  findOldProperty oldTemplate p = Some q ->
  b_type (p_binding p) <> ZEEBE_CALLED_ELEMENT.
Proof.
  intros Hfind Hk. rewrite (findOldProperty_called_element _ _ Hk) in Hfind. discriminate.
Qed.

(** The policy for a matched property that is neither Hidden nor
    Dropdown, on the slot of the binding. *)
Lemma shouldKeepValue_matched (oldTemplate : template) (q p : property)
    (slot : string) (h : gmap loc obj) (node : loc) :
  findOldProperty (Some oldTemplate) p = Some q ->
  p_type p <> "Hidden" -> p_type p <> "Dropdown" ->
  (is_task_definition_type (b_type (p_binding p)) = true ->
   is_task_definition_type (b_type (p_binding q)) = true) ->
  spec_value_slot (p_binding p) = Some slot ->
  shouldKeepValue h (Some (Moddle node)) (Some q) p
  = PBool (negb (bool_decide (get h node slot = VPrim (p_value q)))).
Proof.
  intros Hfind Hh Hd Htd Hslot.
  rewrite shouldKeepValue_plain by assumption. unfold propertyChanged, strict_eq.
  rewrite (matched_property_same_slot h _ oldTemplate q p Hfind).
  - rewrite (getPropertyValue_spec_slot h node p slot Hslot
               (findOldProperty_not_called_element _ _ _ Hfind)).
    reflexivity.
  - destruct (is_task_definition_type (b_type (p_binding p))); [right; auto | left; auto].
Qed.

(** The policy for a Dropdown. *)
Lemma shouldKeepValue_dropdown (h : gmap loc obj) (element : option eref)
    (old : option property) (p : property) :
  p_type p = "Dropdown" ->
  (shouldKeepValue h element old p = PBool true <->
   chosen p (getPropertyValue h element p)) /\
  (truthy_prim (shouldKeepValue h element old p) = true <->
   chosen p (getPropertyValue h element p)).
Proof.
  intros Hd. unfold shouldKeepValue, chosen.
  rewrite bool_decide_eq_false_2 by (rewrite Hd; discriminate).
  rewrite bool_decide_eq_true_2 by exact Hd.
  destruct (p_choices p) as [choices|]; simpl.
  - assert (Hex : existsb (fun choice =>
                     strict_eq (VPrim (choice_value choice)) (getPropertyValue h element p))
                    choices = true <->
                  exists choices0 c, Some choices = Some choices0 /\ c ∈ choices0 /\
                    VPrim (choice_value c) = getPropertyValue h element p).
    { rewrite existsb_exists. split.
      - intros (c & Hin & Hc). apply bool_decide_eq_true_1 in Hc.
        exists choices, c. rewrite list_elem_of_In. auto.
      - intros (choices' & c & [= <-] & Hin & Hc). exists c.
        rewrite <- list_elem_of_In. split; [exact Hin|].
        apply bool_decide_eq_true_2, Hc. }
    split; [|exact Hex]. rewrite <- Hex. split; [intros [= ->]; reflexivity | intros ->; reflexivity].
  - split; (split; [discriminate|]); intros (? & ? & ? & _); discriminate.
Qed.

(** *** The steps of the reconcilers, written out *)

Lemma updateProperties_each_state (element : eref) (bo : loc)
    (old : option template) (p : property) (s : state) :
  _updateProperties_each element bo old p s
  = Some (tt,
          if truthy_prim (shouldKeepValue (heap s) (Some (Moddle bo))
                            (findOldProperty old p) p)
          then s
          else written s element bo (key_of (b_name (p_binding p))) (getDefaultValue p)).
Proof.
  unfold _updateProperties_each, bind, gets. destruct (truthy_prim _); reflexivity.
Qed.

Lemma updateZeebeTaskDefinition_each_state (element : eref) (ee td : loc)
    (old : option template) (p : property) (s : state) :
  _updateZeebeTaskDefinition_each element ee old (Some td) p s
  = Some (Some td,
          if truthy_prim (shouldKeepValue (heap s) (Some (Moddle td))
                            (findOldProperty old p) p)
          then s
          else written s element td (key_of (getTaskDefinitionPropertyName (p_binding p)))
                 (getDefaultValue p)).
Proof.
  unfold _updateZeebeTaskDefinition_each, bind, gets. destruct (truthy_prim _); reflexivity.
Qed.

Lemma updateCalledElement_each_state (element : eref) (ee ce : loc)
    (old : option template) (p : property) (s : state) :
  _updateCalledElement_each element ee old (Some ce) p s
  = Some (Some ce,
          if truthy_prim (shouldKeepValue (heap s) (Some (Moddle ce))
                            (findOldProperty old p) p)
          then s
          else written s element ce (key_of (b_property (p_binding p)))
                 (getDefaultValue p)).
Proof.
  unfold _updateCalledElement_each, bind, gets. destruct (truthy_prim _); reflexivity.
Qed.

Lemma updateMessageProperties_each_state (element : eref) (message : loc)
    (old : option template) (p : property) (s : state) :
  _updateMessageProperties_each element message old p s
  = Some (tt,
          if truthy_prim (shouldKeepValue (heap s) (Some (Moddle message))
                            (findOldProperty old p) p)
          then s
          else written s element message (key_of (b_name (p_binding p)))
                 (getDefaultValue p)).
Proof.
  unfold _updateMessageProperties_each, updateModdleProperties, bind, gets.
  destruct (truthy_prim _); reflexivity.
Qed.

Lemma updateInputOutput_each_state (element : eref) (ee ioMapping entry : loc)
    (old : option template) (snapshots : list loc * list loc) (p : property)
    (s : state) :
  findBusinessObject (heap s) (Moddle ee) p = Some entry ->
  exists snapshots',
    _updateZeebeInputOutputParameterProperties_each element ee ioMapping old snapshots p s
    = Some (snapshots',
            if truthy_prim (shouldKeepValue (heap s) (Some (Moddle entry))
                              (findOldProperty old p) p)
            then s
            else written s element entry
                   (if is_a (heap s) entry "zeebe:Input" then "source" else "target")
                   (getDefaultValue p)).
Proof.
  intros Hfound. destruct snapshots as [oldInputs oldOutputs].
  unfold _updateZeebeInputOutputParameterProperties_each, bind, gets.
  rewrite Hfound.
  destruct (truthy_prim _); simpl; [eexists; reflexivity|].
  destruct (is_a (heap s) entry "zeebe:Input"); eexists; reflexivity.
Qed.

Lemma updateTaskHeader_each_state (element : eref) (ee taskHeaders entry : loc)
    (old : option template) (snapshot : list loc) (p : property) (s : state) :
  findBusinessObject (heap s) (Moddle ee) p = Some entry ->
  _updateZeebeTaskHeaderProperties_each element ee taskHeaders old snapshot p s
  = Some (remove snapshot entry,
          if truthy_prim (shouldKeepValue (heap s) (Some (Moddle entry))
                            (findOldProperty old p) p)
          then s
          else written s element entry "value" (getDefaultValue p)).
Proof.
  intros Hfound. unfold _updateZeebeTaskHeaderProperties_each, bind, gets.
  rewrite Hfound. destruct (truthy_prim _); reflexivity.
Qed.

Lemma updateZeebeProperty_each_state (element : eref) (ee zeebeProperties entry : loc)
    (old : option template) (snapshot : list loc) (p : property) (s : state) :
  findBusinessObject (heap s) (Moddle ee) p = Some entry ->
  exists snapshot',
    _updateZeebePropertyProperties_each element ee zeebeProperties old snapshot p s
    = Some (snapshot',
            if truthy_prim (shouldKeepValue (heap s) (Some (Moddle entry))
                              (findOldProperty old p) p)
            then s
            else written s element entry "value" (getDefaultValue p)).
Proof.
  intros Hfound. unfold _updateZeebePropertyProperties_each, bind, gets.
  rewrite Hfound. destruct (truthy_prim _); eexists; reflexivity.
Qed.

(** The subscription reconciler on a subscription that is there: the
    field of a property ends with the value it had when the policy keeps
    it, and with the default otherwise. *)
Lemma subscription_slot_after (element : eref) (oldTemplate : option template)
    (t : template) (m mee n : loc) (p : property) (s : state) :
  NoDup (subscription_keys t) ->
  (forall q, q ∈ dropped_subscription oldTemplate t ->
     key_of (b_name (p_binding q)) ∉ subscription_keys t) ->
  p ∈ subscription_properties t ->
  _getMessage (heap s) element = VRef m ->
  get (heap s) m "extensionElements" = VRef mee ->
  findExtension (heap s) mee "zeebe:Subscription" = Some n ->
  exists s',
    _updateMessageZeebeSubscriptionProperties element oldTemplate t s = Some (tt, s') /\
    get (heap s') n (key_of (b_name (p_binding p)))
    = if truthy_prim (shouldKeepValue (heap s) (Some (Moddle n))
                        (findOldProperty oldTemplate p) p)
      then get (heap s) n (key_of (b_name (p_binding p)))
      else VPrim (getDefaultValue p).
Proof.
  intros Hnd Hdisjoint Hp Hm Hlink Hsub.
  assert (Hn : is_Some (heap s !! n)).
  { apply (type_of_is_Some _ _ "zeebe:Subscription"),
      (findExtension_some _ mee); [discriminate | exact Hsub]. }
  unfold _updateMessageZeebeSubscriptionProperties.
  change (List.filter _ (t_properties t)) with (subscription_properties t).
  change (old_properties oldTemplate _) with (dropped_subscription oldTemplate t).
  assert (Hne : isEmpty (subscription_properties t) = false).
  { destruct (subscription_properties t); [apply elem_of_nil in Hp; contradiction|].
    reflexivity. }
  rewrite Hne. cbn [andb].
  assert (Hmsg : _getOrCreateMessage element t s = Some (m, s)).
  { unfold _getOrCreateMessage, bind, gets. rewrite Hm. reflexivity. }
  rewrite (bind_some _ _ _ _ _ Hmsg).
  rewrite (bind_some _ _ _ _ _ (getOrCreateExtensionElements_existing element m s mee Hlink)).
  assert (Hget : _getSubscription element m s = Some (Some n, s)).
  { unfold _getSubscription.
    rewrite (bind_some _ _ _ _ _ (getOrCreateExtensionElements_existing element m s mee Hlink)).
    rewrite bind_gets, Hsub. reflexivity. }
  rewrite (bind_some _ _ _ _ _ Hget), bind_gets.
  set (kept := fun p : property =>
         truthy_prim (shouldKeepValue (heap s) (option_map Moddle (Some n))
                        (findOldProperty oldTemplate p) p)).
  set (key := fun p : property => key_of (b_name (p_binding p))).
  set (value := fun p : property => VPrim (getDefaultValue p)).
  change (fold_left _ (subscription_properties t) [])
    with (fold_left (fun acc p => if kept p then acc else assign acc (key p) (value p))
            (subscription_properties t) []).
  destruct (assign_fold kept key value (subscription_properties t) Hnd) as [Hpnd Hpayload].
  set (payload := fold_left _ (subscription_properties t) []) in *.
  destruct (Hpayload p Hp) as [Hset Hskip].
  assert (Hfirst : get (alter (set_props payload) n (heap s)) n (key p)
                   = if kept p then get (heap s) n (key p) else value p).
  { destruct (kept p) eqn:Hkept.
    - apply get_alter_set_props_notin, Hskip. reflexivity.
    - apply get_alter_set_props_in; [exact Hn | exact Hpnd | apply Hset; reflexivity]. }
  unfold updateModdleProperties, bind, execute. cbn [apply_command heap next log].
  destruct oldTemplate as [o|]; (eexists; split; [reflexivity|]); cbn [heap].
  - rewrite get_alter_set_props_notin; [exact Hfirst|].
    intros Hin. apply unset_fold_keys in Hin.
    apply list_elem_of_In, in_map_iff in Hin as (q & Hq & Hqin).
    apply (Hdisjoint q); [apply list_elem_of_In, Hqin|].
    rewrite Hq. unfold subscription_keys.
    apply list_elem_of_In, (in_map (fun p => key_of (b_name (p_binding p)))),
      list_elem_of_In, Hp.
  - exact Hfirst.
Qed.

Lemma decides_bool {A} (keep : Prop) (b : bool) (m : M A) (a : A) (s s_written : state) :
  (b = true <-> keep) ->
  m s = Some (a, if b then s else s_written) ->
  decides keep m s s_written.
Proof.
  intros Hiff Hrun. split.
  - intros Hk. apply Hiff in Hk. rewrite Hk in Hrun. eauto.
  - intros Hk. destruct b.
    + exfalso. apply Hk, Hiff. reflexivity.
    + eauto.
Qed.






(** * Further properties of the handler *)

(** ** [remove] *)

(** X1. [remove(array, item)] for an item the array holds deletes the first
    occurrence of the item and nothing else: the elements before it and
    after it stay, in their order. *)
Theorem remove_deletes_first_occurrence (array : list loc) (item : loc) :
  item ∈ array ->
  exists pre post,
    array = pre ++ item :: post /\ (item ∉ pre) /\ remove array item = pre ++ post.
Proof.
  intros Hin. apply list_elem_of_split_l in Hin as (pre & post & -> & Hni).
  exists pre, post. split; [reflexivity|]. split; [exact Hni|].
  apply remove_present, Hni.
Qed.

Lemma remove_deletes_first_occurrence_witness :
  exists pre post,
    [3; 5; 7; 5]%nat = pre ++ 5%nat :: post /\ (5%nat ∉ pre) /\
    remove [3; 5; 7; 5]%nat 5%nat = pre ++ post.
Proof.
  apply (remove_deletes_first_occurrence [3; 5; 7; 5]%nat 5%nat).
  right. left.
Defined.

(** ** [findOldProperty] *)

Lemma find_some_in {A} (f : A -> bool) (l : list A) (x : A) :
  List.find f l = Some x -> x ∈ l /\ f x = true.
Proof.
  intros H. apply find_some in H as [Hin Hf]. split; [apply list_elem_of_In, Hin | exact Hf].
Qed.

Lemma keyed_guard (type : string) (b : binding) (ok : bool) :
  (if negb (bool_decide (b_type b = type)) then false else ok) = true ->
  b_type b = type /\ ok = true.
Proof.
  case_bool_decide as Hty; simpl; [auto | discriminate].
Qed.

(** X2. A property [findOldProperty] finds belongs to the old template.
    The binding type of the new property is one of those the function has
    a branch for; for a task-definition binding the found property resolves
    to the same task-definition field, whatever its own binding type is;
    for every other binding type the found property has the same binding
    type and the same identifying field ([source] for an output, [key] for
    a task header, [name] otherwise). For another binding type, such as
    [zeebe:calledElement], nothing is found. *)
Theorem findOldProperty_found_matches (oldTemplate : template) (p q : property) :
  findOldProperty (Some oldTemplate) p = Some q ->
  q ∈ t_properties oldTemplate /\
  ((is_task_definition_type (b_type (p_binding p)) = true /\
    getTaskDefinitionPropertyName (p_binding q)
    = getTaskDefinitionPropertyName (p_binding p)) \/
   (b_type (p_binding p) ∈ keyed_binding_types /\
    b_type (p_binding q) = b_type (p_binding p) /\
    identity_key (b_type (p_binding p)) (p_binding q)
    = identity_key (b_type (p_binding p)) (p_binding p))).
Proof.
  unfold findOldProperty, identity_key, keyed_binding_types.
  set (ty := b_type (p_binding p)).
  case_bool_decide as H1.
  { intros H. apply find_some_in in H as [Hin Hf]. split; [exact Hin|]. right.
    apply andb_true_iff in Hf as [Ha Hb].
    apply bool_decide_eq_true_1 in Ha. apply bool_decide_eq_true_1 in Hb.
    rewrite H1. split; [left|]. split; [exact Ha|]. exact Hb. }
  destruct (is_task_definition_type ty) eqn:Htd.
  { intros H. apply find_some_in in H as [Hin Hf]. split; [exact Hin|]. left.
    apply bool_decide_eq_true_1 in Hf. auto. }
  case_bool_decide as H2.
  { intros H. apply find_some_in in H as [Hin Hf]. split; [exact Hin|]. right.
    apply keyed_guard in Hf as [Ha Hb]. apply bool_decide_eq_true_1 in Hb.
    rewrite H2. split; [right; left|]. split; [exact Ha|]. exact Hb. }
  case_bool_decide as H3.
  { intros H. apply find_some_in in H as [Hin Hf]. split; [exact Hin|]. right.
    apply keyed_guard in Hf as [Ha Hb]. apply bool_decide_eq_true_1 in Hb.
    rewrite H3. split; [right; right; left|]. split; [exact Ha|]. exact Hb. }
  case_bool_decide as H4.
  { intros H. apply find_some_in in H as [Hin Hf]. split; [exact Hin|]. right.
    apply keyed_guard in Hf as [Ha Hb]. apply bool_decide_eq_true_1 in Hb.
    rewrite H4. split; [right; right; right; left|]. split; [exact Ha|]. exact Hb. }
  case_bool_decide as H5.
  { intros H. apply find_some_in in H as [Hin Hf]. split; [exact Hin|]. right.
    apply keyed_guard in Hf as [Ha Hb]. apply bool_decide_eq_true_1 in Hb.
    rewrite H5. split; [right; right; right; right; left|]. split; [exact Ha|]. exact Hb. }
  case_bool_decide as H6.
  { intros H. apply find_some_in in H as [Hin Hf]. split; [exact Hin|]. right.
    apply keyed_guard in Hf as [Ha Hb]. apply bool_decide_eq_true_1 in Hb.
    rewrite H6. split; [do 5 right; left|]. split; [exact Ha|]. exact Hb. }
  case_bool_decide as H7.
  { intros H. apply find_some_in in H as [Hin Hf]. split; [exact Hin|]. right.
    apply keyed_guard in Hf as [Ha Hb]. apply bool_decide_eq_true_1 in Hb.
    rewrite H7. split; [do 6 right; left|]. split; [exact Ha|]. exact Hb. }
  discriminate.
Qed.

Lemma findOldProperty_found_matches_witness :
  ex_name_foo ∈ t_properties ex_template_v1 /\
  ((is_task_definition_type (b_type (p_binding ex_name_baz)) = true /\
    getTaskDefinitionPropertyName (p_binding ex_name_foo)
    = getTaskDefinitionPropertyName (p_binding ex_name_baz)) \/
   (b_type (p_binding ex_name_baz) ∈ keyed_binding_types /\
    b_type (p_binding ex_name_foo) = b_type (p_binding ex_name_baz) /\
    identity_key (b_type (p_binding ex_name_baz)) (p_binding ex_name_foo)
    = identity_key (b_type (p_binding ex_name_baz)) (p_binding ex_name_baz))).
Proof.
  apply (findOldProperty_found_matches ex_template_v1 ex_name_baz ex_name_foo).
  reflexivity.
Defined.

Lemma find_unique {A} (f : A -> bool) (l : list A) (x : A) :
  x ∈ l -> f x = true -> (forall y, y ∈ l -> f y = true -> y = x) ->
  List.find f l = Some x.
Proof.
  induction l as [|y ys IH]; intros Hin Hfx Huniq.
  - apply elem_of_nil in Hin. contradiction.
  - simpl. destruct (f y) eqn:Hfy.
    + f_equal. apply Huniq; [left | exact Hfy].
    + apply IH; [|exact Hfx|].
      * apply elem_of_cons in Hin as [->|Hin]; [congruence | exact Hin].
      * intros z Hz. apply Huniq. right. exact Hz.
Qed.

(** X3. Looked up in its own template, a property is found again: when
    no other property of the template has the same binding type and the
    same identifying field, [findOldProperty(template, property)] is the
    property itself, for every binding type that is matched by type. *)
Theorem findOldProperty_finds_own_property (t : template) (p : property) :
  p ∈ t_properties t ->
  b_type (p_binding p) ∈ keyed_binding_types ->
  (forall q, q ∈ t_properties t ->
     b_type (p_binding q) = b_type (p_binding p) ->
     identity_key (b_type (p_binding p)) (p_binding q)
     = identity_key (b_type (p_binding p)) (p_binding p) ->
     q = p) ->
  findOldProperty (Some t) p = Some p.
Proof.
  intros Hin Hty Huniq. unfold findOldProperty.
  unfold keyed_binding_types in Hty. rewrite !elem_of_cons, elem_of_nil in Hty.
  unfold identity_key in Huniq.
  destruct Hty as [E|[E|[E|[E|[E|[E|[E|[]]]]]]]]; rewrite E in *; simpl in *.
  - apply find_unique; [exact Hin | |].
    + rewrite !bool_decide_eq_true_2; auto.
    + intros q Hq Hf. apply andb_true_iff in Hf as [Ha Hb].
      apply bool_decide_eq_true_1 in Ha. apply bool_decide_eq_true_1 in Hb. auto.
  - apply find_unique; [exact Hin | |].
    + rewrite !bool_decide_eq_true_2; auto.
    + intros q Hq Hf. apply keyed_guard in Hf as [Ha Hb].
      apply bool_decide_eq_true_1 in Hb. auto.
  - apply find_unique; [exact Hin | |].
    + rewrite !bool_decide_eq_true_2; auto.
    + intros q Hq Hf. apply keyed_guard in Hf as [Ha Hb].
      apply bool_decide_eq_true_1 in Hb. auto.
  - apply find_unique; [exact Hin | |].
    + rewrite !bool_decide_eq_true_2; auto.
    + intros q Hq Hf. apply keyed_guard in Hf as [Ha Hb].
      apply bool_decide_eq_true_1 in Hb. auto.
  - apply find_unique; [exact Hin | |].
    + rewrite !bool_decide_eq_true_2; auto.
    + intros q Hq Hf. apply keyed_guard in Hf as [Ha Hb].
      apply bool_decide_eq_true_1 in Hb. auto.
  - apply find_unique; [exact Hin | |].
    + rewrite !bool_decide_eq_true_2; auto.
    + intros q Hq Hf. apply keyed_guard in Hf as [Ha Hb].
      apply bool_decide_eq_true_1 in Hb. auto.
  - apply find_unique; [exact Hin | |].
    + rewrite !bool_decide_eq_true_2; auto.
    + intros q Hq Hf. apply keyed_guard in Hf as [Ha Hb].
      apply bool_decide_eq_true_1 in Hb. auto.
Qed.

Lemma findOldProperty_finds_own_property_witness :
  findOldProperty (Some ex_template_service) ex_input_b = Some ex_input_b.
Proof.
  apply (findOldProperty_finds_own_property ex_template_service ex_input_b).
  - right. right. left.
  - right. left.
  - intros q Hq. unfold ex_template_service in Hq. cbn [t_properties] in Hq.
    rewrite !elem_of_cons, elem_of_nil in Hq.
    destruct Hq as [->|[->|[->|[->|[]]]]]; intros Hty Hkey;
      try reflexivity; vm_compute in Hty; discriminate.
Defined.

(** ** [_getOrCreateExtensionElements] *)

(** X4. Get-or-create is idempotent. After [_getOrCreateExtensionElements]
    has returned a container for an object of the document, the object
    links to that container, and a further call returns the same container
    and changes nothing: no object is created and no command is issued. *)
Theorem getOrCreateExtensionElements_again (element : eref) (bo ee : loc)
    (s s1 : state) :
  is_Some (heap s !! bo) ->
  _getOrCreateExtensionElements element bo s = Some (ee, s1) ->
  get (heap s1) bo "extensionElements" = VRef ee /\
  _getOrCreateExtensionElements element bo s1 = Some (ee, s1).
Proof.
  intros Hbo Hrun.
  enough (Hlink : get (heap s1) bo "extensionElements" = VRef ee).
  { split; [exact Hlink | apply getOrCreateExtensionElements_existing, Hlink]. }
  revert Hrun. unfold _getOrCreateExtensionElements, bind, gets.
  destruct (truthy (get (heap s) bo "extensionElements")) eqn:Htruthy; simpl.
  - destruct (get (heap s) bo "extensionElements") as [v|l|ls] eqn:Hget;
      try discriminate.
    intros E. injection E as <- <-. exact Hget.
  - unfold updateModdleProperties, execute, ret. simpl.
    intros E. injection E as <- <-. simpl.
    apply get_alter_set_props_single.
    rewrite is_Some_alter. apply lookup_insert_is_Some'. right. exact Hbo.
Qed.

Lemma getOrCreateExtensionElements_again_witness :
  get (heap ex_task_input_applied) 0%nat "extensionElements" = VRef 1%nat /\
  _getOrCreateExtensionElements (Shape 0%nat) 0%nat ex_task_input_applied
  = Some (1%nat, ex_task_input_applied).
Proof.
  apply (getOrCreateExtensionElements_again (Shape 0%nat) 0%nat 1%nat
           ex_task_input_applied ex_task_input_applied).
  - vm_compute. eexists. reflexivity.
  - vm_compute. reflexivity.
Defined.

(** ** The referenced message *)

Lemma getMessage_alter_message (h : gmap loc obj) (element : eref) (m : loc)
    (k : string) (v : jsval) :
  k <> "messageRef" -> k <> "eventDefinitions" ->
  _getMessage (alter (set_props [(k, v)]) m h) element = _getMessage h element.
Proof.
  intros Hk1 Hk2. unfold _getMessage.
  rewrite is_a_alter_set_props. unfold get_many.
  rewrite !get_alter_set_props_other by congruence.
  destruct (is_a h (bo_of element) "bpmn:Event").
  - destruct (match get h (bo_of element) "eventDefinitions" with
              | VArr ls => ls | _ => []
              end) as [|r rs]; simpl; [reflexivity|].
    apply get_alter_set_props_other. congruence.
  - apply get_alter_set_props_other. congruence.
Qed.

(** X5. [_updateZeebeModelerTemplateOnReferencedElement] stamps the
    message the element references: when it returns, the message carries
    the id of the new template and is still the one the element
    references. When the message carries that id already, the document
    and the command log stay as they are. The old template plays no
    part. *)
Theorem referenced_message_gets_template_id (element : eref)
    (oldTemplate : option template) (t : template) (m : loc) (s s' : state) :
  findMessage (heap s) (bo_of element) = VRef m ->
  is_Some (heap s !! m) ->
  _updateZeebeModelerTemplateOnReferencedElement element oldTemplate t s
  = Some (tt, s') ->
  get (heap s') m "zeebe:modelerTemplate" = VPrim (t_id t) /\
  findMessage (heap s') (bo_of element) = VRef m /\
  (get (heap s) m "zeebe:modelerTemplate" = VPrim (t_id t) -> s' = s).
Proof.
  intros Hm Hobj. unfold _updateZeebeModelerTemplateOnReferencedElement, bind, gets.
  rewrite Hm. simpl. unfold getTemplateId, strict_eq.
  case_bool_decide as Hstamp; simpl.
  - intros E. injection E as <-. auto.
  - unfold updateModdleProperties, execute. simpl. intros E. injection E as <-.
    simpl. split; [apply get_alter_set_props_single, Hobj|].
    split; [|intros H; contradiction].
    rewrite findMessage_getMessage in *.
    rewrite getMessage_alter_message by discriminate. exact Hm.
Qed.

Lemma referenced_message_gets_template_id_witness :
  get (heap ex_message_event_stamped) 2%nat "zeebe:modelerTemplate"
  = VPrim (t_id ex_template_message) /\
  findMessage (heap ex_message_event_stamped) 0%nat = VRef 2%nat /\
  (get (heap ex_message_event) 2%nat "zeebe:modelerTemplate"
   = VPrim (t_id ex_template_message) ->
   ex_message_event_stamped = ex_message_event).
Proof.
  apply (referenced_message_gets_template_id (Shape 0%nat) None ex_template_message
           2%nat ex_message_event ex_message_event_stamped).
  - vm_compute. reflexivity.
  - vm_compute. eexists. reflexivity.
  - vm_compute. reflexivity.
Defined.

(** X6. A template with message properties cannot be applied to an event
    that has no event definition: there is no object to carry
    [messageRef], and [_updateMessage] fails, whatever the old template
    and the remove-message collaborator are. *)
Theorem message_template_on_event_without_definition_fails
    (removeMessage : eref -> M unit) (element : eref)
    (oldTemplate : option template) (t : template) (s : state) :
  is_a (heap s) (bo_of element) "bpmn:Event" = true ->
  get_many (heap s) (bo_of element) "eventDefinitions" = [] ->
  message_properties t <> [] ->
  _updateMessage removeMessage element oldTemplate t s = None.
Proof.
  intros Hevent Hnone Hprops.
  assert (Hmsg : _getMessage (heap s) element = undefined).
  { unfold _getMessage. rewrite Hevent, Hnone. reflexivity. }
  unfold _updateMessage.
  assert (Hfirst : _updateMessageProperties element oldTemplate t s = None).
  { unfold _updateMessageProperties.
    change (List.filter _ (t_properties t)) with (message_properties t).
    destruct (message_properties t) as [|p ps]; [contradiction|].
    unfold bind at 1. unfold gets at 1. rewrite Hmsg. simpl.
    unfold bind at 1. unfold ret at 1.
    unfold bind at 1. unfold _getOrCreateMessage.
    unfold bind at 1. unfold gets at 1. rewrite Hmsg. simpl.
    unfold _createMessage. unfold bind at 1. unfold gets at 1.
    rewrite Hevent, Hnone. reflexivity. }
  unfold bind at 1. rewrite Hfirst. reflexivity.
Qed.

Lemma message_template_on_event_without_definition_fails_witness :
  _updateMessage removeMessage_detach (Shape 0%nat) None ex_template_message
    ex_bare_event = None.
Proof.
  apply (message_template_on_event_without_definition_fails removeMessage_detach
           (Shape 0%nat) None ex_template_message ex_bare_event).
  - vm_compute. reflexivity.
  - vm_compute. reflexivity.
  - vm_compute. discriminate.
Defined.

(** X7. [_getOrCreateMessage] on a document whose objects are allocated,
    whose business object is no extension node and no message, whose
    carrier of [messageRef] is none either, and whose referenced message,
    when there is one, is a [bpmn:Message]: when it returns a message, the
    element references that message and it is a [bpmn:Message]; when the
    element referenced none before, the message carries the id of the
    template; and a further call returns the same message and changes
    nothing. *)
Theorem getOrCreateMessage_references_message (t : template) (element : eref)
    (bo_type : string) (m : loc) (s s1 : state) :
  bounded s ->
  type_of (heap s) (bo_of element) = Some bo_type -> external bo_type = true ->
  message_wf (heap s) element ->
  _getOrCreateMessage element t s = Some (m, s1) ->
  _getMessage (heap s1) element = VRef m /\
  type_of (heap s1) m = Some "bpmn:Message" /\
  (truthy (_getMessage (heap s) element) = false ->
   get (heap s1) m "zeebe:modelerTemplate" = VPrim (t_id t)) /\
  _getOrCreateMessage element t s1 = Some (m, s1).
Proof.
  intros Hb Hbo Hext Hwf Hrun.
  destruct (getOrCreateMessage_first t element bo_type s Hb Hbo Hext Hwf m s1 Hrun)
    as (_ & Hm & Hty & _ & Horigin).
  split; [exact Hm|]. split; [exact Hty|]. split.
  - intros Hfalsy. destruct Horigin as [->|(_ & Hstamp & Hrest)]; [|exact Hstamp].
    rewrite Hm in Hfalsy. discriminate.
  - destruct (unchanged_getOrCreateMessage t element m s1 Hm) as (s2 & Hrun2 & Hh & Hn).
    rewrite Hrun2. f_equal. f_equal.
    revert Hrun2. unfold _getOrCreateMessage, bind, gets. rewrite Hm. simpl.
    intros E. injection E as <-. reflexivity.
Qed.

Lemma ex_task_bare_message_wf : message_wf (heap ex_task_bare) (Shape 0%nat).
Proof.
  split.
  - intros r Hr. vm_compute in Hr. injection Hr as <-. eexists. split; reflexivity.
  - intros m Hm. vm_compute in Hm. discriminate.
Qed.

Lemma getOrCreateMessage_references_message_witness :
  _getMessage (heap ex_task_bare_message) (Shape 0%nat) = VRef 1%nat /\
  type_of (heap ex_task_bare_message) 1%nat = Some "bpmn:Message" /\
  (truthy (_getMessage (heap ex_task_bare) (Shape 0%nat)) = false ->
   get (heap ex_task_bare_message) 1%nat "zeebe:modelerTemplate"
   = VPrim (t_id ex_template_message)) /\
  _getOrCreateMessage (Shape 0%nat) ex_template_message ex_task_bare_message
  = Some (1%nat, ex_task_bare_message).
Proof.
  apply (getOrCreateMessage_references_message ex_template_message (Shape 0%nat)
           "bpmn:Task" 1%nat ex_task_bare ex_task_bare_message).
  - apply bounded_checked. vm_compute. reflexivity.
  - reflexivity.
  - reflexivity.
  - exact ex_task_bare_message_wf.
  - vm_compute. reflexivity.
Defined.

(** ** The task definition *)

Lemma updateZeebeTaskDefinition_without_properties (element : eref)
    (oldTemplate : option template) (t : template) :
  taskdef_properties t = [] ->
  _updateZeebeTaskDefinition element oldTemplate t
  = _updateZeebeTaskDefinition element None t.
Proof.
  intros Hnone. unfold _updateZeebeTaskDefinition.
  change (List.filter (fun newProperty => is_task_definition_type _) (t_properties t))
    with (taskdef_properties t).
  rewrite Hnone. reflexivity.
Qed.

(** X8. A template without task-definition property takes the task
    definition away. On a well-formed document whose extension container
    holds at most one [zeebe:TaskDefinition], after
    [_updateZeebeTaskDefinition] the element has an extension container
    that holds no task definition, while the nodes of every other type
    are those it held before, in their order; this is so for every old
    template. *)
Theorem task_definition_removed_without_properties (element : eref)
    (oldTemplate : option template) (t : template) (bo_type : string)
    (s s' : state) :
  taskdef_properties t = [] ->
  bounded s ->
  type_of (heap s) (bo_of element) = Some bo_type -> external bo_type = true ->
  (forall ee, get (heap s) (bo_of element) "extensionElements" = VRef ee ->
     type_of (heap s) ee = Some "bpmn:ExtensionElements" /\
     unique_node (heap s) ee "zeebe:TaskDefinition") ->
  _updateZeebeTaskDefinition element oldTemplate t s = Some (tt, s') ->
  exists ee,
    get (heap s') (bo_of element) "extensionElements" = VRef ee /\
    findExtension (heap s') ee "zeebe:TaskDefinition" = None /\
    forall T, T <> "zeebe:TaskDefinition" -> T <> "bpmn:ExtensionElements" ->
      T <> "bpmn:Event" ->
      typed_values (heap s') ee T = typed_values (heap s) ee T.
Proof.
  intros Hnone Hb Hbo Hext Hcont Hrun.
  rewrite (updateZeebeTaskDefinition_without_properties _ _ _ Hnone) in Hrun.
  assert (Hnd : NoDup (map taskdef_name (taskdef_properties t))).
  { rewrite Hnone. apply NoDup_nil_2. }
  assert (Hdropped : forall q, q ∈ dropped_taskdef None t ->
            key_of (b_property (p_binding q)) ∉ map taskdef_name (taskdef_properties t)).
  { intros q Hq. apply elem_of_nil in Hq. contradiction. }
  destruct (taskDefinition_first None t element bo_type s Hnd Hdropped Hb Hbo Hext Hcont
              tt s' Hrun)
    as (_ & ee & Hlink & _ & _ & _ & _ & Hforeign & Hsettled).
  exists ee. split; [exact Hlink|]. split.
  - unfold singleton_settled in Hsettled. rewrite Hnone in Hsettled. exact Hsettled.
  - intros T H1 H2 H3. apply Hforeign; [|exact H3].
    unfold K_extension. rewrite !not_elem_of_cons. split; [exact H2|].
    split; [exact H1 | apply not_elem_of_nil].
Qed.

Lemma task_definition_removed_without_properties_witness :
  exists ee,
    get (heap ex_task_input_without_job) 0%nat "extensionElements" = VRef ee /\
    findExtension (heap ex_task_input_without_job) ee "zeebe:TaskDefinition" = None /\
    forall T, T <> "zeebe:TaskDefinition" -> T <> "bpmn:ExtensionElements" ->
      T <> "bpmn:Event" ->
      typed_values (heap ex_task_input_without_job) ee T
      = typed_values (heap ex_task_input_applied) ee T.
Proof.
  apply (task_definition_removed_without_properties (Shape 0%nat)
           (Some ex_template_service) ex_template_v2 "bpmn:ServiceTask"
           ex_task_input_applied ex_task_input_without_job).
  - reflexivity.
  - apply bounded_checked. vm_compute. reflexivity.
  - vm_compute. reflexivity.
  - reflexivity.
  - intros ee Hee. vm_compute in Hee. injection Hee as <-.
    split; [vm_compute; reflexivity|]. unfold unique_node. vm_compute. lia.
  - vm_compute. reflexivity.
Defined.
(** ** Plain properties, for every old template *)

Lemma dropped_plain_kind (oldTemplate : option template) (t : template) (q : property) :
  q ∈ dropped_plain oldTemplate t ->
  b_type (p_binding q) = "property" /\
  (exists o, oldTemplate = Some o /\ q ∈ plain_properties o) /\
  forall p, p ∈ plain_properties t -> b_name (p_binding p) <> b_name (p_binding q).
Proof.
  unfold dropped_plain, old_properties. destruct oldTemplate as [o|].
  2:{ intros H. apply elem_of_nil in H. contradiction. }
  intros H. apply list_elem_of_In, List.filter_In in H as [Hin Hf].
  apply andb_true_iff in Hf as [Hty Hnot]. apply bool_decide_eq_true_1 in Hty.
  split; [exact Hty|]. split.
  { exists o. split; [reflexivity|]. unfold plain_properties.
    apply list_elem_of_In, List.filter_In. split; [exact Hin|].
    apply bool_decide_eq_true_2, Hty. }
  intros p Hp Heq.
  destruct (List.find _ (plain_properties t)) as [x|] eqn:Hfind; [discriminate|].
  apply list_elem_of_In in Hp.
  pose proof (find_none _ _ Hfind p Hp) as Hno. simpl in Hno.
  rewrite bool_decide_eq_true_2 in Hno by exact Heq. discriminate.
Qed.

Lemma keeps_plain_slot (h h' : gmap loc obj) (bo : loc)
    (oldTemplate : option template) (p : property) :
  b_type (p_binding p) = "property" ->
  get h' bo (key_of (b_name (p_binding p))) = get h bo (key_of (b_name (p_binding p))) ->
  keeps_plain h' bo oldTemplate p = keeps_plain h bo oldTemplate p.
Proof.
  intros Hkind Hget. unfold keeps_plain.
  rewrite (shouldKeepValue_plain_slot h h' bo _ p Hkind); [reflexivity| |exact Hget].
  intros o Ho. apply (findOldProperty_plain_shape oldTemplate p o Hkind Ho).
Qed.

(** The store after the command that unsets the dropped properties. *)
Lemma updateProperties_run (element : eref) (oldTemplate : option template)
    (t : template) (s s' : state) :
  NoDup (plain_keys t) ->
  is_Some (heap s !! bo_of element) ->
  _updateProperties element oldTemplate t s = Some (tt, s') ->
  exists hR,
    (forall l, l <> bo_of element -> hR !! l = heap s !! l) /\
    (forall k, k ∉ map (fun q => key_of (b_name (p_binding q)))
                     (dropped_plain oldTemplate t) ->
       get hR (bo_of element) k = get (heap s) (bo_of element) k) /\
    (forall k, k ∈ map (fun q => key_of (b_name (p_binding q)))
                     (dropped_plain oldTemplate t) ->
       get hR (bo_of element) k = undefined) /\
    next s' = next s /\
    (forall l, l <> bo_of element -> heap s' !! l = hR !! l) /\
    (forall k, k ∉ plain_keys t ->
       get (heap s') (bo_of element) k = get hR (bo_of element) k) /\
    (forall p, p ∈ plain_properties t ->
       get (heap s') (bo_of element) (key_of (b_name (p_binding p)))
       = if keeps_plain hR (bo_of element) oldTemplate p
         then get hR (bo_of element) (key_of (b_name (p_binding p)))
         else VPrim (getDefaultValue p)).
Proof.
  intros Hnd Hbo. unfold _updateProperties.
  change (List.filter _ (t_properties t)) with (plain_properties t).
  change (old_properties oldTemplate _) with (dropped_plain oldTemplate t).
  set (bo := bo_of element) in *.
  set (key := fun q : property => key_of (b_name (p_binding q))).
  destruct (unset_payload (dropped_plain oldTemplate t) key) as [Hundef Hkeys].
  cbv zeta in Hundef, Hkeys.
  set (payload := fold_left _ (dropped_plain oldTemplate t) []) in *.
  intros Hrun. unfold bind at 1 in Hrun.
  (* the first command *)
  assert (Hfirst : exists sR,
            (if negb (isEmpty (dropped_plain oldTemplate t))
             then execute (UpdateModdleProperties element bo payload)
             else ret tt) s = Some (tt, sR) /\
            next sR = next s /\ is_Some (heap sR !! bo) /\
            (forall l, l <> bo -> heap sR !! l = heap s !! l) /\
            (forall k, k ∉ map key (dropped_plain oldTemplate t) ->
               get (heap sR) bo k = get (heap s) bo k) /\
            (forall k, k ∈ map key (dropped_plain oldTemplate t) ->
               get (heap sR) bo k = undefined)).
  { destruct (dropped_plain oldTemplate t) as [|q qs] eqn:Hdropped; simpl.
    - exists s. split; [reflexivity|]. split; [reflexivity|]. split; [exact Hbo|].
      split; [auto|]. split; [auto|]. intros k Hk. apply elem_of_nil in Hk. contradiction.
    - eexists. split; [reflexivity|]. simpl. split; [reflexivity|].
      split; [apply is_Some_alter, Hbo|].
      split; [intros l Hl; apply lookup_alter_ne; congruence|].
      split.
      + intros k Hk. apply get_alter_set_props_notin. rewrite Hkeys. exact Hk.
      + intros k Hk. unfold get. rewrite lookup_alter_eq.
        destruct Hbo as [o Ho]. rewrite Ho. simpl.
        rewrite attrs_set_props_unset; [reflexivity | exact Hundef |].
        apply Hkeys, Hk. }
  destruct Hfirst as (sR & HrunR & HnR & HboR & HotherR & HsameR & HunsetR).
  rewrite HrunR in Hrun.
  exists (heap sR). split; [exact HotherR|]. split; [exact HsameR|].
  split; [exact HunsetR|].
  destruct (plain_properties t) as [|p0 ps] eqn:Hps.
  { simpl in Hrun. injection Hrun as <-. split; [exact HnR|]. split; [auto|].
    split; [auto|]. intros p Hp. apply elem_of_nil in Hp. contradiction. }
  cbn [isEmpty] in Hrun. rewrite <- Hps in *.
  set (I := fun (done : list property) (s1 : state) =>
              next s1 = next s /\ is_Some (heap s1 !! bo) /\
              (forall l, l <> bo -> heap s1 !! l = heap sR !! l) /\
              (forall k, k ∉ map key done -> get (heap s1) bo k = get (heap sR) bo k) /\
              (forall p, p ∈ done ->
                 get (heap s1) bo (key p)
                 = if keeps_plain (heap sR) bo oldTemplate p
                   then get (heap sR) bo (key p) else VPrim (getDefaultValue p))).
  assert (Hloop : runs (forEach (_updateProperties_each element bo oldTemplate)
                          (plain_properties t)) sR
                    (fun _ s1 => I (plain_properties t) s1)).
  { apply (runs_forEach I).
    { split; [exact HnR|]. split; [exact HboR|]. split; [auto|]. split; [auto|].
      intros p Hp. apply elem_of_nil in Hp. contradiction. }
    intros done p todo s1 Harr (Hn1 & Hbo1 & Hother1 & Hsame1 & Hdone1).
    assert (Hp : p ∈ plain_properties t).
    { rewrite Harr. apply elem_of_app. right. left. }
    pose proof (kind_of_filter _ _ _ Hp) as Hkind.
    apply bool_decide_eq_true_1 in Hkind.
    assert (Hfresh : key p ∉ map key done).
    { unfold plain_keys in Hnd. fold key in Hnd. rewrite Harr, map_app in Hnd.
      apply NoDup_app in Hnd as (_ & Hdisj & _).
      intros Hin. apply (Hdisj _ Hin). simpl. left. }
    assert (Hkeep : keeps_plain (heap s1) bo oldTemplate p
                    = keeps_plain (heap sR) bo oldTemplate p).
    { apply keeps_plain_slot; [exact Hkind | apply Hsame1, Hfresh]. }
    unfold _updateProperties_each. apply runs_bind, runs_gets.
    fold (keeps_plain (heap s1) bo oldTemplate p). rewrite Hkeep.
    destruct (keeps_plain (heap sR) bo oldTemplate p) eqn:Hk.
    - apply runs_ret. split; [exact Hn1|]. split; [exact Hbo1|]. split; [exact Hother1|].
      split.
      + intros k Hk'. apply Hsame1. rewrite map_app, elem_of_app in Hk'. tauto.
      + intros p' Hp'. apply elem_of_app in Hp' as [Hp'|Hp']; [apply Hdone1, Hp'|].
        apply list_elem_of_singleton in Hp'. subst p'. rewrite Hk.
        apply Hsame1, Hfresh.
    - apply runs_execute. intros s2 Hh2 Hn2. simpl in Hh2.
      split; [congruence|]. split; [rewrite Hh2; apply is_Some_alter, Hbo1|].
      split.
      { intros l Hl. rewrite Hh2, lookup_alter_ne by congruence. apply Hother1, Hl. }
      split.
      + intros k Hk'. rewrite map_app, elem_of_app in Hk'. simpl in Hk'.
        rewrite Hh2, get_alter_set_props_other; [apply Hsame1; tauto|].
        intros E. apply Hk'. right. rewrite <- E. left.
      + intros p' Hp'. apply elem_of_app in Hp' as [Hp'|Hp'].
        * rewrite Hh2, get_alter_set_props_other; [apply Hdone1, Hp'|].
          intros E. apply Hfresh. fold (key p) in E. rewrite E.
          apply list_elem_of_In, in_map, list_elem_of_In, Hp'.
        * apply list_elem_of_singleton in Hp'. subst p'. rewrite Hk.
          rewrite Hh2. apply get_alter_set_props_single, Hbo1. }
  destruct (Hloop tt s' Hrun) as (Hn & _ & Hother & Hsame & Hdone).
  split; [exact Hn|]. split; [exact Hother|]. split; [|exact Hdone].
  intros k Hk. apply Hsame. exact Hk.
Qed.

Lemma named_keys_differ (p q : property) :
  b_name (p_binding p) <> None -> b_name (p_binding q) <> None ->
  b_name (p_binding p) <> b_name (p_binding q) ->
  key_of (b_name (p_binding p)) <> key_of (b_name (p_binding q)).
Proof.
  destruct (b_name (p_binding p)) as [a|], (b_name (p_binding q)) as [b|];
    simpl; congruence.
Qed.

Lemma dropped_keys_fresh (oldTemplate : option template) (t : template) (p : property) :
  named_plain t -> (forall o, oldTemplate = Some o -> named_plain o) ->
  p ∈ plain_properties t ->
  key_of (b_name (p_binding p))
  ∉ map (fun q => key_of (b_name (p_binding q))) (dropped_plain oldTemplate t).
Proof.
  intros Hnew Hold Hp Hin.
  apply list_elem_of_In, in_map_iff in Hin as (q & Heq & Hq).
  apply list_elem_of_In in Hq.
  destruct (dropped_plain_kind _ _ _ Hq) as (_ & (o & Ho & Hqo) & Hdiff).
  apply (named_keys_differ p q); [apply Hnew, Hp | apply (Hold o Ho), Hqo
                                  | apply Hdiff, Hp | congruence].
Qed.

Lemma updateProperties_values (element : eref)
    (oldTemplate : option template) (t : template) (s s' : state) :
  NoDup (plain_keys t) ->
  named_plain t -> (forall o, oldTemplate = Some o -> named_plain o) ->
  is_Some (heap s !! bo_of element) ->
  _updateProperties element oldTemplate t s = Some (tt, s') ->
  forall p, p ∈ plain_properties t ->
    get (heap s') (bo_of element) (key_of (b_name (p_binding p)))
    = if keeps_plain (heap s) (bo_of element) oldTemplate p
      then get (heap s) (bo_of element) (key_of (b_name (p_binding p)))
      else VPrim (getDefaultValue p).
Proof.
  intros Hnd Hnew Hold Hbo Hrun p Hp.
  destruct (updateProperties_run element oldTemplate t s s' Hnd Hbo Hrun)
    as (hR & _ & HsameR & _ & _ & _ & _ & Hvalues).
  pose proof (dropped_keys_fresh oldTemplate t p Hnew Hold Hp) as Hfresh.
  pose proof (kind_of_filter _ _ _ Hp) as Hkind. apply bool_decide_eq_true_1 in Hkind.
  rewrite (Hvalues p Hp), (HsameR _ Hfresh).
  rewrite (keeps_plain_slot (heap s) hR); [reflexivity | exact Hkind |].
  apply HsameR, Hfresh.
Qed.

Lemma updateProperties_dropped (element : eref)
    (oldTemplate : option template) (t : template) (s s' : state) :
  NoDup (plain_keys t) ->
  named_plain t -> (forall o, oldTemplate = Some o -> named_plain o) ->
  is_Some (heap s !! bo_of element) ->
  _updateProperties element oldTemplate t s = Some (tt, s') ->
  forall q, q ∈ dropped_plain oldTemplate t ->
    get (heap s') (bo_of element) (key_of (b_name (p_binding q))) = undefined.
Proof.
  intros Hnd Hnew Hold Hbo Hrun q Hq.
  destruct (updateProperties_run element oldTemplate t s s' Hnd Hbo Hrun)
    as (hR & _ & _ & HunsetR & _ & _ & Hsame & _).
  assert (Hin : key_of (b_name (p_binding q))
                ∈ map (fun q => key_of (b_name (p_binding q)))
                    (dropped_plain oldTemplate t)).
  { apply list_elem_of_In, (in_map (fun q => key_of (b_name (p_binding q)))).
    apply list_elem_of_In, Hq. }
  rewrite Hsame; [apply HunsetR, Hin|].
  intros Hk. unfold plain_keys in Hk.
  apply list_elem_of_In, in_map_iff in Hk as (p & Heq & Hp).
  apply list_elem_of_In in Hp.
  apply (dropped_keys_fresh oldTemplate t p Hnew Hold Hp). rewrite Heq. exact Hin.
Qed.

(** The store stays free of [undefined], and an object stays in place. *)
Lemma updateProperties_store (element : eref) (oldTemplate : option template)
    (t : template) (l : loc) (s : state) :
  normal (heap s) -> is_Some (heap s !! l) ->
  runs (_updateProperties element oldTemplate t) s
    (fun _ s' => normal (heap s') /\ is_Some (heap s' !! l)).
Proof.
  intros Hn Hl.
  assert (Hstep : forall (properties : props) (x : loc) (s1 : state),
            normal (heap s1) /\ is_Some (heap s1 !! l) ->
            runs (execute (UpdateModdleProperties element x properties)) s1
              (fun _ s2 => normal (heap s2) /\ is_Some (heap s2 !! l))).
  { intros properties x s1 [Hn1 Hl1]. apply runs_execute. intros s2 Hh2 _.
    simpl in Hh2. rewrite Hh2.
    split; [apply normal_alter_set_props, Hn1 | apply is_Some_alter, Hl1]. }
  unfold _updateProperties. apply runs_bind.
  apply (runs_mono _ _ (fun _ s1 => normal (heap s1) /\ is_Some (heap s1 !! l))).
  { destruct (negb (isEmpty _)); [apply Hstep; auto | apply runs_ret; auto]. }
  intros _ s1 H1. cbv beta.
  destruct (isEmpty _); [apply runs_ret, H1|].
  apply (runs_forEach (fun _ s2 => normal (heap s2) /\ is_Some (heap s2 !! l)));
    [exact H1|].
  intros done p todo s2 _ H2. unfold _updateProperties_each. apply runs_bind, runs_gets.
  destruct (truthy_prim _); [apply runs_ret, H2 | apply Hstep, H2].
Qed.

(** What an object stores under a name, read through [get]. *)
Lemma stored_get (h : gmap loc obj) (l : loc) (o : obj) (k : string) :
  normal h -> h !! l = Some o ->
  attrs o !! k = if bool_decide (get h l k = undefined) then None else Some (get h l k).
Proof.
  intros Hn Hl. unfold get. rewrite Hl.
  destruct (attrs o !! k) as [v|] eqn:Hk; simpl; [|reflexivity].
  rewrite bool_decide_eq_false_2; [reflexivity|].
  intros ->. apply (Hn l o Hl k Hk).
Qed.

(** X9. [_updateProperties], for every old template. Every plain binding
    of the new and of the old template has a name, the plain properties of
    the new template name pairwise different attributes, the store holds no
    [undefined], and the business object stores a value for each of these
    attributes, so that the keep decision reads a stored value. When
    [_updateProperties] returns, the business object stores, for each
    plain property of the new template, the value it stored when
    [shouldKeepValue] holds for the property on the document as it was,
    and the default of the new template otherwise, which is no value when
    that default is [undefined]. *)
Theorem updateProperties_keeps_or_defaults (element : eref)
    (oldTemplate : option template) (t : template) (o : obj) (s s' : state) :
  NoDup (plain_keys t) ->
  named_plain t -> (forall old, oldTemplate = Some old -> named_plain old) ->
  normal (heap s) ->
  heap s !! bo_of element = Some o ->
  (forall p, p ∈ plain_properties t ->
     is_Some (attrs o !! key_of (b_name (p_binding p)))) ->
  _updateProperties element oldTemplate t s = Some (tt, s') ->
  exists o',
    heap s' !! bo_of element = Some o' /\
    forall p, p ∈ plain_properties t ->
      attrs o' !! key_of (b_name (p_binding p))
      = if keeps_plain (heap s) (bo_of element) oldTemplate p
        then attrs o !! key_of (b_name (p_binding p))
        else if bool_decide (getDefaultValue p = PUndef) then None
             else Some (VPrim (getDefaultValue p)).
Proof.
  intros Hnd Hnew Hold Hn Hbo Hstored Hrun.
  destruct (updateProperties_store element oldTemplate t (bo_of element) s Hn
              (mk_is_Some _ _ Hbo) tt s' Hrun) as [Hn' [o' Hbo']].
  exists o'. split; [exact Hbo'|]. intros p Hp.
  rewrite (stored_get (heap s') (bo_of element) o' _ Hn' Hbo').
  rewrite (updateProperties_values element oldTemplate t s s' Hnd Hnew Hold
             (mk_is_Some _ _ Hbo) Hrun p Hp).
  destruct (keeps_plain (heap s) (bo_of element) oldTemplate p).
  - symmetry. apply (stored_get (heap s) (bo_of element) o _ Hn Hbo).
  - destruct (getDefaultValue p) eqn:Hd; reflexivity.
Qed.

(** X10. [_updateProperties] unsets what the new template drops. Every
    plain binding of the new and of the old template has a name, the plain
    properties of the new template name pairwise different attributes, and
    the store holds no [undefined]. When [_updateProperties] returns, the
    business object stores no value for the attribute of a plain property
    of the old template whose name no plain property of the new template
    has. *)
Theorem updateProperties_unsets_dropped (element : eref)
    (oldTemplate : option template) (t : template) (s s' : state) :
  NoDup (plain_keys t) ->
  named_plain t -> (forall old, oldTemplate = Some old -> named_plain old) ->
  normal (heap s) ->
  is_Some (heap s !! bo_of element) ->
  _updateProperties element oldTemplate t s = Some (tt, s') ->
  exists o',
    heap s' !! bo_of element = Some o' /\
    forall q, q ∈ dropped_plain oldTemplate t ->
      attrs o' !! key_of (b_name (p_binding q)) = None.
Proof.
  intros Hnd Hnew Hold Hn Hbo Hrun.
  destruct (updateProperties_store element oldTemplate t (bo_of element) s Hn Hbo
              tt s' Hrun) as [Hn' [o' Hbo']].
  exists o'. split; [exact Hbo'|]. intros q Hq.
  rewrite (stored_get (heap s') (bo_of element) o' _ Hn' Hbo').
  rewrite (updateProperties_dropped element oldTemplate t s s' Hnd Hnew Hold Hbo Hrun q Hq).
  reflexivity.
Qed.

(** X11. [_updateProperties] writes the business object only. The plain
    properties of the new template name pairwise different attributes.
    When [_updateProperties] returns, every other object of the document
    is as before, every attribute of the business object other than those
    the plain properties of the new template name and those the dropped
    plain properties of the old template name reads as before, and no
    object is created. *)
Theorem updateProperties_writes_templated_attributes_only (element : eref)
    (oldTemplate : option template) (t : template) (s s' : state) :
  NoDup (plain_keys t) ->
  is_Some (heap s !! bo_of element) ->
  _updateProperties element oldTemplate t s = Some (tt, s') ->
  next s' = next s /\
  (forall l, l <> bo_of element -> heap s' !! l = heap s !! l) /\
  (forall k, k ∉ plain_keys t ->
     k ∉ map (fun q => key_of (b_name (p_binding q))) (dropped_plain oldTemplate t) ->
     get (heap s') (bo_of element) k = get (heap s) (bo_of element) k).
Proof.
  intros Hnd Hbo Hrun.
  destruct (updateProperties_run element oldTemplate t s s' Hnd Hbo Hrun)
    as (hR & HotherR & HsameR & _ & Hn & Hother & Hsame & _).
  split; [exact Hn|]. split.
  - intros l Hl. rewrite (Hother l Hl). apply HotherR, Hl.
  - intros k Hk1 Hk2. rewrite (Hsame k Hk1). apply HsameR, Hk2.
Qed.

Lemma ex_template_colour_named : named_plain ex_template_colour.
Proof.
  intros p Hp. vm_compute in Hp. apply list_elem_of_singleton in Hp. subst p.
  discriminate.
Qed.

Lemma ex_template_v1_named (o : template) :
  Some ex_template_v1 = Some o -> named_plain o.
Proof.
  intros E. injection E as <-. intros p Hp. vm_compute in Hp.
  apply list_elem_of_singleton in Hp. subst p. discriminate.
Qed.

Lemma updateProperties_keeps_or_defaults_witness :
  exists o',
    heap ex_task_coloured_recoloured !! 0%nat = Some o' /\
    forall p, p ∈ plain_properties ex_template_colour ->
      attrs o' !! key_of (b_name (p_binding p))
      = if keeps_plain (heap ex_task_coloured) 0%nat (Some ex_template_v1) p
        then attrs ex_task_coloured_object !! key_of (b_name (p_binding p))
        else if bool_decide (getDefaultValue p = PUndef) then None
             else Some (VPrim (getDefaultValue p)).
Proof.
  apply (updateProperties_keeps_or_defaults (Shape 0%nat) (Some ex_template_v1)
           ex_template_colour ex_task_coloured_object ex_task_coloured
           ex_task_coloured_recoloured).
  - vm_compute. apply NoDup_singleton.
  - exact ex_template_colour_named.
  - exact ex_template_v1_named.
  - apply normal_checked. vm_compute. reflexivity.
  - vm_compute. reflexivity.
  - intros p Hp. vm_compute in Hp. apply list_elem_of_singleton in Hp. subst p.
    vm_compute. eexists. reflexivity.
  - vm_compute. reflexivity.
Defined.

Lemma updateProperties_unsets_dropped_witness :
  exists o',
    heap ex_task_bar_recoloured !! 0%nat = Some o' /\
    forall q, q ∈ dropped_plain (Some ex_template_v1) ex_template_colour ->
      attrs o' !! key_of (b_name (p_binding q)) = None.
Proof.
  apply (updateProperties_unsets_dropped (Shape 0%nat) (Some ex_template_v1)
           ex_template_colour ex_task_bar ex_task_bar_recoloured).
  - vm_compute. apply NoDup_singleton.
  - exact ex_template_colour_named.
  - exact ex_template_v1_named.
  - apply normal_checked. vm_compute. reflexivity.
  - vm_compute. eexists. reflexivity.
  - vm_compute. reflexivity.
Defined.

Lemma updateProperties_writes_templated_attributes_only_witness :
  next ex_task_bar_recoloured = next ex_task_bar /\
  (forall l, l <> 0%nat -> heap ex_task_bar_recoloured !! l = heap ex_task_bar !! l) /\
  (forall k, k ∉ plain_keys ex_template_colour ->
     k ∉ map (fun q => key_of (b_name (p_binding q)))
           (dropped_plain (Some ex_template_v1) ex_template_colour) ->
     get (heap ex_task_bar_recoloured) 0%nat k = get (heap ex_task_bar) 0%nat k).
Proof.
  apply (updateProperties_writes_templated_attributes_only (Shape 0%nat)
           (Some ex_template_v1) ex_template_colour ex_task_bar ex_task_bar_recoloured).
  - vm_compute. apply NoDup_singleton.
  - vm_compute. eexists. reflexivity.
  - vm_compute. reflexivity.
Defined.
(** ** The called element, for every old template *)

Lemma forEach_with_ext {A V} (f g : V -> A -> M V) (array : list A) (vars : V)
    (s : state) :
  (forall x v s1, x ∈ array -> f v x s1 = g v x s1) ->
  forEach_with f array vars s = forEach_with g array vars s.
Proof.
  revert vars s. induction array as [|x xs IH]; intros vars s Hext; [reflexivity|].
  simpl. unfold bind. rewrite (Hext x vars s) by left.
  destruct (g vars x s) as [[v s1]|]; [|reflexivity].
  apply IH. intros y v' s2 Hy. apply Hext. right. exact Hy.
Qed.

Lemma updateCalledElement_each_old (element : eref) (ee : loc)
    (oldTemplate : option template) (node : option loc) (p : property) (s : state) :
  b_type (p_binding p) = ZEEBE_CALLED_ELEMENT ->
  _updateCalledElement_each element ee oldTemplate node p s
  = singleton_each "zeebe:CalledElement" called_element_name element ee None node p s.
Proof.
  intros Hkind. unfold _updateCalledElement_each, singleton_each.
  rewrite (findOldProperty_called_element oldTemplate p Hkind). reflexivity.
Qed.

(** The called-element reconciler never finds a value to keep, unless the
    property is a Dropdown. *)
Lemma called_element_not_kept (h : gmap loc obj) (n : loc) (p : property) :
  b_type (p_binding p) = ZEEBE_CALLED_ELEMENT -> p_type p <> "Dropdown" ->
  keeps h None p n = false.
Proof.
  intros Hkind Hdrop. unfold keeps, shouldKeepValue.
  case_bool_decide as Hhidden; [reflexivity|].
  rewrite bool_decide_eq_false_2 by exact Hdrop.
  rewrite (getPropertyValue_called_element _ _ p Hkind). reflexivity.
Qed.

Lemma dropped_called_kind (oldTemplate : option template) (t : template) (q : property) :
  q ∈ dropped_called oldTemplate t ->
  (exists o, oldTemplate = Some o /\ q ∈ called_element_properties o) /\
  forall p, p ∈ called_element_properties t ->
    b_property (p_binding p) <> b_property (p_binding q).
Proof.
  unfold dropped_called, old_properties. destruct oldTemplate as [o|].
  2:{ intros H. apply elem_of_nil in H. contradiction. }
  intros H. apply list_elem_of_In, List.filter_In in H as [Hin Hf].
  apply andb_true_iff in Hf as [Hty Hnot].
  split.
  { exists o. split; [reflexivity|]. unfold called_element_properties.
    apply list_elem_of_In, List.filter_In. split; [exact Hin | exact Hty]. }
  intros p Hp Heq.
  destruct (List.find _ (called_element_properties t)) as [x|] eqn:Hfind; [discriminate|].
  apply list_elem_of_In in Hp.
  pose proof (find_none _ _ Hfind p Hp) as Hno. simpl in Hno.
  rewrite bool_decide_eq_true_2 in Hno by exact Heq. discriminate.
Qed.

Lemma called_element_run (element : eref) (oldTemplate : option template)
    (t : template) (bo_type : string) (s : state) :
  NoDup (map called_element_name (called_element_properties t)) ->
  called_element_properties t <> [] ->
  named_called t -> (forall o, oldTemplate = Some o -> named_called o) ->
  bounded s ->
  type_of (heap s) (bo_of element) = Some bo_type -> external bo_type = true ->
  (forall ee, get (heap s) (bo_of element) "extensionElements" = VRef ee ->
     type_of (heap s) ee = Some "bpmn:ExtensionElements") ->
  runs (_updateCalledElement element oldTemplate t) s
    (fun _ s' =>
       exists ee node,
         get (heap s') (bo_of element) "extensionElements" = VRef ee /\
         findExtension (heap s') ee "zeebe:CalledElement" = Some node /\
         (forall p, p ∈ called_element_properties t ->
            value_settled (heap s') None p node (called_element_name p)) /\
         (forall q, q ∈ dropped_called oldTemplate t ->
            get (heap s') node (called_element_name q) = undefined) /\
         (normal (heap s) -> normal (heap s'))).
Proof.
  intros Hnd Hprops Hnew Hold Hb Hbo Hext Hcont. unfold _updateCalledElement.
  change (List.filter _ (t_properties t)) with (called_element_properties t).
  change (old_properties oldTemplate _) with (dropped_called oldTemplate t).
  apply runs_bind.
  eapply runs_mono.
  { apply (getOrCreateExtensionElements_first (K_extension ["zeebe:CalledElement"])
             (W_extension ["zeebe:CalledElement"]) element (bo_of element) bo_type s
             Hb Hbo).
    - apply external_not_container, Hext.
    - apply W_extension_link, Hext.
    - left. }
  intros ee s1 (F1 & Hlink & Hcase). cbv beta.
  pose proof (frame_bounded _ _ _ _ F1 Hb) as Hb1.
  assert (Hee1 : type_of (heap s1) ee = Some "bpmn:ExtensionElements").
  { destruct Hcase as [[-> Hl]|(_ & Hty & _)]; [apply Hcont, Hl | exact Hty]. }
  pose proof (frame_typed F1 _ _ Hbo) as Hbo1.
  apply runs_bind, runs_gets.
  destruct (called_element_properties t) as [|p0 ps] eqn:Hps; [contradiction|].
  cbn [isEmpty]. rewrite <- Hps in *.
  assert (Hkind : forall p, p ∈ called_element_properties t ->
            b_type (p_binding p) = ZEEBE_CALLED_ELEMENT).
  { intros p Hp. apply kind_of_filter in Hp. apply bool_decide_eq_true_1 in Hp. exact Hp. }
  apply runs_bind.
  eapply runs_eq.
  { apply forEach_with_ext. intros p v s2 Hp.
    apply updateCalledElement_each_old, Hkind, Hp. }
  eapply runs_mono.
  { apply (singleton_loop_first "zeebe:CalledElement" called_element_name
             (fun _ => None) (fun p => b_type (p_binding p) = ZEEBE_CALLED_ELEMENT)
             element); try discriminate.
    - intros p h n Hk Hkeep. left. exact Hkeep.
    - intros p h h' n Hk Hget. unfold value_settled, keeps.
      rewrite (shouldKeepValue_slot h h' (Some (Moddle n)) None p).
      + rewrite Hget. auto.
      + rewrite !getPropertyValue_called_element by exact Hk. reflexivity.
      + intros o Ho. discriminate.
    - intros p h n _ Hget. right. exact Hget.
    - exact Hnd.
    - exact Hkind.
    - exact Hb1.
    - exact Hee1.
    - reflexivity. }
  intros node s2 (F2 & Hfind & Hnode). cbv beta.
  destruct node as [n|]; [|rewrite Hnode in Hps; discriminate].
  pose proof (frame_typed F2 _ _ Hee1) as Hee2.
  pose proof (frame_typed F2 _ _ Hbo1) as Hbo2.
  assert (Hn2 : type_of (heap s2) n = Some "zeebe:CalledElement").
  { apply (findExtension_some _ ee); [discriminate | exact Hfind]. }
  assert (Hlink2 : get (heap s2) (bo_of element) "extensionElements" = VRef ee).
  { rewrite (frame_get F2 _ _ _ Hbo1); [exact Hlink|].
    apply W_nodes_external; [|exact Hext].
    intros T' HT'. apply list_elem_of_singleton in HT'. subst T'. compute_done. }
  set (key := fun q : property => key_of (b_property (p_binding q))).
  set (I := fun (done : list property) (s3 : state) =>
              type_of (heap s3) n = Some "zeebe:CalledElement" /\
              type_of (heap s3) ee = Some "bpmn:ExtensionElements" /\
              get (heap s3) (bo_of element) "extensionElements" = VRef ee /\
              findExtension (heap s3) ee "zeebe:CalledElement" = Some n /\
              (forall k, k ∉ map key done -> get (heap s3) n k = get (heap s2) n k) /\
              (forall q, q ∈ done -> get (heap s3) n (key q) = undefined) /\
              (normal (heap s) -> normal (heap s3))).
  apply (runs_mono _ _ (fun _ s3 => I (dropped_called oldTemplate t) s3)).
  2:{ intros _ s3 (_ & _ & Hlink3 & Hfind3 & Hsame3 & Hunset3 & Hnormal3).
      exists ee, n. split; [exact Hlink3|]. split; [exact Hfind3|].
      split; [|split; [exact Hunset3 | exact Hnormal3]].
      intros p Hp.
      assert (Hget : get (heap s3) n (called_element_name p)
                     = get (heap s2) n (called_element_name p)).
      { apply Hsame3. intros Hin.
        apply list_elem_of_In, in_map_iff in Hin as (q & Heq & Hq).
        apply list_elem_of_In in Hq.
        destruct (dropped_called_kind _ _ _ Hq) as ((o & Ho & Hqo) & Hdiff).
        specialize (Hdiff p Hp). specialize (Hnew p Hp).
        specialize (Hold o Ho q Hqo).
        unfold key, called_element_name in Heq.
        destruct (b_property (p_binding p)), (b_property (p_binding q));
          simpl in Heq; congruence. }
      pose proof (Hnode p Hp) as Hsettled. revert Hsettled.
      unfold value_settled, keeps.
      rewrite (shouldKeepValue_slot (heap s2) (heap s3) (Some (Moddle n)) None p).
      - rewrite Hget. auto.
      - rewrite !getPropertyValue_called_element by (apply Hkind, Hp). reflexivity.
      - intros o Ho. discriminate. }
  apply (runs_forEach I).
  { split; [exact Hn2|]. split; [exact Hee2|]. split; [exact Hlink2|].
    split; [exact Hfind|]. split; [auto|].
    split; [intros q Hq; apply elem_of_nil in Hq; contradiction|].
    intros Hn. apply (frame_normal _ _ _ _ F2), (frame_normal _ _ _ _ F1), Hn. }
  intros done q todo s3 Harr (Hn3 & Hee3 & Hlink3 & Hfind3 & Hsame3 & Hunset3 & Hnormal3).
  unfold execute_on. apply runs_execute. intros s4 Hh4 Hn4. simpl in Hh4.
  fold (key q) in Hh4.
  assert (Hne : n <> ee) by (intros ->; congruence).
  assert (Hnb : n <> bo_of element).
  { intros E. rewrite E in Hn2. rewrite Hbo2 in Hn2. injection Hn2 as ->.
    vm_compute in Hext. discriminate. }
  split; [rewrite Hh4, type_of_alter_set_props; exact Hn3|].
  split; [rewrite Hh4, type_of_alter_set_props; exact Hee3|].
  split; [rewrite Hh4, get_alter_ne by exact Hnb; exact Hlink3|].
  split.
  { rewrite (findExtension_agree (heap s3)); [exact Hfind3 | exact Hee3 | |].
    - rewrite Hh4. apply get_alter_ne, Hne.
    - intros x. rewrite Hh4. apply type_of_alter_set_props. }
  split.
  { intros k Hk. rewrite map_app, elem_of_app in Hk. simpl in Hk.
    rewrite Hh4, get_alter_set_props_other; [apply Hsame3; tauto|].
    intros E. apply Hk. right. rewrite <- E. left. }
  split; [|intros Hn; rewrite Hh4; apply normal_alter_set_props, Hnormal3, Hn].
  - intros q' Hq'. apply elem_of_app in Hq' as [Hq'|Hq'].
    + destruct (decide (key q = key q')) as [E|E].
      * rewrite Hh4, <- E. apply get_alter_set_props_single.
        apply (type_of_is_Some _ _ _ Hn3).
      * rewrite Hh4, get_alter_set_props_other by exact E. apply Hunset3, Hq'.
    + apply list_elem_of_singleton in Hq'. subst q'.
      rewrite Hh4. apply get_alter_set_props_single, (type_of_is_Some _ _ _ Hn3).
Qed.

(** X12. The called element never keeps a value. [getPropertyValue] has
    no branch for a [zeebe:calledElement] binding and [findOldProperty]
    finds no old property for one. The new template has called-element
    properties, their bindings name pairwise different attributes, and
    every called-element binding of the new and of the old template names
    its attribute; the store holds no [undefined] and only allocated
    objects, the business object is no extension node and no message, and
    what it links as [extensionElements] is a container. Then, for every
    old template and whatever the called element held, when
    [_updateCalledElement] returns the element has a [zeebe:CalledElement]
    that stores, for every property of the new template that is no
    Dropdown, the template's default (no value when that default is
    [undefined]), and no value for an attribute only the old template
    names. *)
Theorem called_element_takes_template_defaults (element : eref)
    (oldTemplate : option template) (t : template) (bo_type : string)
    (s s' : state) :
  NoDup (map called_element_name (called_element_properties t)) ->
  called_element_properties t <> [] ->
  named_called t -> (forall o, oldTemplate = Some o -> named_called o) ->
  normal (heap s) -> bounded s ->
  type_of (heap s) (bo_of element) = Some bo_type -> external bo_type = true ->
  (forall ee, get (heap s) (bo_of element) "extensionElements" = VRef ee ->
     type_of (heap s) ee = Some "bpmn:ExtensionElements") ->
  _updateCalledElement element oldTemplate t s = Some (tt, s') ->
  exists ee node o',
    get (heap s') (bo_of element) "extensionElements" = VRef ee /\
    findExtension (heap s') ee "zeebe:CalledElement" = Some node /\
    heap s' !! node = Some o' /\
    (forall p, p ∈ called_element_properties t -> p_type p <> "Dropdown" ->
       attrs o' !! called_element_name p
       = if bool_decide (getDefaultValue p = PUndef) then None
         else Some (VPrim (getDefaultValue p))) /\
    (forall q, q ∈ dropped_called oldTemplate t ->
       attrs o' !! called_element_name q = None).
Proof.
  intros Hnd Hprops Hnew Hold Hn Hb Hbo Hext Hcont Hrun.
  destruct (called_element_run element oldTemplate t bo_type s Hnd Hprops Hnew Hold
              Hb Hbo Hext Hcont tt s' Hrun)
    as (ee & node & Hlink & Hfind & Hsettled & Hunset & Hnormal).
  specialize (Hnormal Hn).
  assert (Hnode : is_Some (heap s' !! node)).
  { apply (type_of_is_Some _ _ "zeebe:CalledElement"), (findExtension_some _ ee);
      [discriminate | exact Hfind]. }
  destruct Hnode as [o' Ho'].
  assert (Hstored : forall k,
            attrs o' !! k = if bool_decide (get (heap s') node k = undefined) then None
                            else Some (get (heap s') node k)).
  { intros k. unfold get. rewrite Ho'.
    destruct (attrs o' !! k) as [v|] eqn:Hk; simpl; [|reflexivity].
    rewrite bool_decide_eq_false_2; [reflexivity|].
    intros ->. apply (Hnormal node o' Ho' k Hk). }
  exists ee, node, o'. split; [exact Hlink|]. split; [exact Hfind|].
  split; [exact Ho'|]. split.
  - intros p Hp Hdrop. rewrite Hstored.
    assert (Hget : get (heap s') node (called_element_name p) = VPrim (getDefaultValue p)).
    { destruct (Hsettled p Hp) as [Hkeep|Hget]; [|exact Hget].
      rewrite called_element_not_kept in Hkeep; [discriminate| |exact Hdrop].
      apply kind_of_filter in Hp. apply bool_decide_eq_true_1 in Hp. exact Hp. }
    rewrite Hget. destruct (getDefaultValue p); reflexivity.
  - intros q Hq. rewrite Hstored, (Hunset q Hq). reflexivity.
Qed.

Lemma ex_template_call_named (value : string) (o : template) :
  Some (ex_template_call value) = Some o -> named_called o.
Proof.
  intros E. injection E as <-. intros p Hp. vm_compute in Hp.
  apply list_elem_of_singleton in Hp. subst p. discriminate.
Qed.

Lemma called_element_takes_template_defaults_witness :
  exists ee node o',
    get (heap ex_call_activity_applied) 0%nat "extensionElements" = VRef ee /\
    findExtension (heap ex_call_activity_applied) ee "zeebe:CalledElement" = Some node /\
    heap ex_call_activity_applied !! node = Some o' /\
    (forall p, p ∈ called_element_properties (ex_template_call "ours") ->
       p_type p <> "Dropdown" ->
       attrs o' !! called_element_name p
       = if bool_decide (getDefaultValue p = PUndef) then None
         else Some (VPrim (getDefaultValue p))) /\
    (forall q, q ∈ dropped_called (Some (ex_template_call "theirs"))
                   (ex_template_call "ours") ->
       attrs o' !! called_element_name q = None).
Proof.
  apply (called_element_takes_template_defaults (Shape 0%nat)
           (Some (ex_template_call "theirs")) (ex_template_call "ours")
           "bpmn:CallActivity" ex_call_activity ex_call_activity_applied).
  - vm_compute. apply NoDup_singleton.
  - vm_compute. discriminate.
  - apply (ex_template_call_named "ours"). reflexivity.
  - apply (ex_template_call_named "theirs").
  - apply normal_checked. vm_compute. reflexivity.
  - apply bounded_checked. vm_compute. reflexivity.
  - reflexivity.
  - reflexivity.
  - intros ee Hee. vm_compute in Hee. injection Hee as <-. reflexivity.
  - vm_compute. reflexivity.
Defined.
(** ** What a first application leaves *)

Lemma stamps_frame (t : template) (element : eref) (s : state) :
  (exists o, heap s !! bo_of element = Some o /\ external (otype o) = true) ->
  runs (_updateZeebeModelerTemplate element (Some t) >>
        _updateZeebeModelerTemplateIcon element (Some t)) s
    (fun _ s' => frame [] (W_names stamp_names) s s').
Proof.
  intros (o & Hbo & Hext).
  assert (Hperm : forall (s1 s2 : state) (properties : props),
             (forall k, k ∈ properties.*1 -> k ∈ stamp_names) ->
             frame [] (W_names stamp_names) s s1 ->
             heap s2 = alter (set_props properties) (bo_of element) (heap s1) ->
             next s2 = next s1 ->
             frame [] (W_names stamp_names) s s2).
  { intros s1 s2 properties Hsub F1 Hh2 Hn2.
    apply (frame_trans _ _ _ _ _ F1).
    apply (frame_write _ _ _ _ _ _ Hh2 Hn2). intros o2 Ho2.
    destruct (frame_kept _ _ _ _ F1 _ o Hbo) as (o1 & Ho1 & Hty1 & _).
    assert (o2 = o1) as -> by congruence. rewrite Hty1.
    split; [apply external_not_container, Hext|].
    intros k Hk. unfold W_names. rewrite Hext. simpl.
    apply bool_decide_eq_true_2, Hsub, Hk. }
  apply runs_bind. apply runs_execute. intros s1 Hh1 Hn1.
  apply runs_execute. intros s2 Hh2 Hn2. simpl in Hh1, Hh2.
  assert (F1 : frame [] (W_names stamp_names) s s1).
  { eapply (Hperm s s1); [|apply frame_refl|exact Hh1|exact Hn1].
    intros k Hk. simpl in Hk. revert Hk. unfold stamp_names.
    rewrite !elem_of_cons, !elem_of_nil. tauto. }
  eapply (Hperm s1 s2); [|exact F1|exact Hh2|exact Hn2].
  intros k Hk. simpl in Hk. revert Hk. unfold stamp_names.
  rewrite !elem_of_cons, !elem_of_nil. tauto.
Qed.



Lemma keyed_entry_exists (h : gmap loc obj) (properties : list property)
    (entries : list loc) (key_attr slot : string) (key : property -> option string)
    (live : property -> loc -> bool) (creates : property -> bool) (p : property) :
  keyed_settled h properties entries key_attr slot key live creates ->
  p ∈ properties -> creates p = true ->
  exists e, e ∈ entries /\ get h e key_attr = of_opt (key p).
Proof.
  intros (_ & _ & _ & Hmissing) Hp Hcreates.
  destruct (decide (Exists (fun e => get h e key_attr = of_opt (key p)) entries))
    as [Hex|Hno].
  - apply Exists_exists in Hex. exact Hex.
  - rewrite (Hmissing p Hp) in Hcreates; [discriminate|].
    intros e He Heq. apply Hno, Exists_exists. exists e. auto.
Qed.





Lemma hasMessageProperties_true (t : template) :
  hasMessageProperties t = true ->
  message_properties t <> [] \/ subscription_properties t <> [].
Proof.
  intros Hhas.
  destruct (message_properties t) as [|p ps] eqn:Hm; [|left; discriminate].
  destruct (subscription_properties t) as [|q qs] eqn:Hs; [|right; discriminate].
  exfalso. unfold hasMessageProperties in Hhas.
  apply existsb_exists in Hhas as (p & Hin & Hty).
  apply bool_decide_eq_true_1 in Hty. unfold MESSAGE_BINDING_TYPES in Hty.
  rewrite !elem_of_cons, elem_of_nil in Hty. destruct Hty as [Hty|[Hty|[]]].
  - assert (Hp : p ∈ message_properties t).
    { unfold message_properties. apply list_elem_of_In, List.filter_In.
      split; [exact Hin | apply bool_decide_eq_true_2, Hty]. }
    rewrite Hm in Hp. apply elem_of_nil in Hp. contradiction.
  - assert (Hp : p ∈ subscription_properties t).
    { unfold subscription_properties. apply list_elem_of_In, List.filter_In.
      split; [exact Hin | apply bool_decide_eq_true_2, Hty]. }
    rewrite Hs in Hp. apply elem_of_nil in Hp. contradiction.
Qed.


Lemma ex_template_message_distinct_keys : distinct_keys ex_template_message.
Proof. unfold distinct_keys. repeat split; compute_done. Qed.

Lemma ex_template_message_free_names : free_names ex_template_message.
Proof.
  split.
  - apply Forall_forall. compute_done.
  - intros p Hp. vm_compute in Hp. apply list_elem_of_singleton in Hp. subst p.
    compute_done.
Qed.

Lemma ex_task_bare_wf : wf_document (Shape 0%nat) ex_task_bare.
Proof.
  split; [apply normal_checked; vm_compute; reflexivity|].
  split; [apply bounded_checked; vm_compute; reflexivity|].
  split; [eexists; split; [reflexivity | reflexivity]|].
  split; [|exact ex_task_bare_message_wf].
  intros ee Hee. vm_compute in Hee. discriminate.
Qed.

(** ** The default template of a created element *)


(** ** The task definition, for every old template *)

(** The loop of a singleton reconciler, whatever it decides to keep: the
    node it returns is the node of its type in the container. *)
Lemma singleton_loop_any (T : string) (name : property -> string) (element : eref)
    (ee : loc) (oldTemplate : option template) (properties : list property)
    (node0 : option loc) (s : state) :
  T <> "bpmn:Event" -> T <> "bpmn:ExtensionElements" ->
  bounded s ->
  type_of (heap s) ee = Some "bpmn:ExtensionElements" ->
  findExtension (heap s) ee T = node0 ->
  runs (forEach_with (singleton_each T name element ee oldTemplate) properties node0) s
    (fun node s' =>
       frame (K_extension [T]) (W_nodes [T]) s s' /\
       findExtension (heap s') ee T = node /\
       (node = None -> properties = [])).
Proof.
  intros HT_event HT_container Hb Hee Hfind0.
  set (I := fun (done : list property) (node : option loc) (s1 : state) =>
              frame (K_extension [T]) (W_nodes [T]) s s1 /\
              findExtension (heap s1) ee T = node /\
              (node = None -> done = [])).
  apply (runs_forEach_with I).
  { split; [apply frame_refl|]. split; [exact Hfind0|]. auto. }
  intros done p todo node s1 Harr (F1 & Hfind & Hnode).
  pose proof (frame_bounded _ _ _ _ F1 Hb) as Hb1.
  pose proof (frame_typed F1 _ _ Hee) as Hee1.
  unfold singleton_each.
  destruct node as [n|].
  - pose proof (findExtension_some _ _ _ _ HT_event Hfind) as Hn.
    assert (Hne : n <> ee) by (intros ->; congruence).
    apply runs_bind, runs_gets. apply runs_bind.
    destruct (truthy_prim (shouldKeepValue (heap s1) (Some (Moddle n))
                             (findOldProperty oldTemplate p) p)); cbn [negb].
    + apply runs_ret, runs_ret. split; [exact F1|]. split; [exact Hfind|].
      intros H. discriminate.
    + apply runs_execute. intros s2 Hh2 Hn2. simpl in Hh2. apply runs_ret.
      assert (F2 : frame (K_extension [T]) (W_nodes [T]) s1 s2).
      { apply (frame_write _ _ _ _ _ _ Hh2 Hn2). intros o Ho.
        assert (otype o = T) as ->.
        { unfold type_of in Hn. rewrite Ho in Hn. simpl in Hn. congruence. }
        split; [exact HT_container|]. intros k _.
        apply W_nodes_own. left. }
      split; [apply (frame_trans _ _ _ _ _ F1 F2)|]. split; [|intros H; discriminate].
      rewrite !findExtension_container in *
        by (try apply (frame_typed F2); exact Hee1).
      rewrite Hh2, typed_values_alter by exact Hne. exact Hfind.
  - apply runs_bind, runs_create. intros s2 Hh2 Hn2.
    apply runs_bind, runs_set_parent. intros s3 Hh3 Hn3.
    apply runs_bind, runs_gets. apply runs_bind.
    apply runs_execute. intros s4 Hh4 Hn4. simpl in Hh4. apply runs_ret.
    pose proof (typed_bounded s1 ee _ Hb1 Hee1) as Hne.
    assert (F2 : frame (K_extension [T]) (W_nodes [T]) s1 s2).
    { apply (frame_create _ _ _ _ _ _ Hh2 Hn2 Hb1). right. left. }
    assert (F3 : frame (K_extension [T]) (W_nodes [T]) s2 s3).
    { apply (frame_set_parent _ _ _ _ _ _ Hh3 Hn3). }
    assert (Hnew : type_of (heap s3) (next s1) = Some T).
    { apply (frame_typed F3). rewrite Hh2, type_of_insert_eq, otype_set_props.
      reflexivity. }
    assert (Hee3 : type_of (heap s3) ee = Some "bpmn:ExtensionElements").
    { apply (frame_typed F3), (frame_typed F2), Hee1. }
    assert (Hold : forall v, v <> next s1 -> type_of (heap s3) v = type_of (heap s1) v).
    { intros v Hv. rewrite Hh3, type_of_set_parent, Hh2.
      apply type_of_insert_ne. congruence. }
    assert (Hvals : get_many (heap s3) ee "values" = get_many (heap s1) ee "values").
    { unfold get_many. rewrite Hh3, get_set_parent, Hh2, get_insert_ne by congruence.
      reflexivity. }
    assert (Hnone : forall v, v ∈ get_many (heap s1) ee "values" -> v <> next s1 ->
                      is_a (heap s3) v T = false).
    { intros v Hv Hvn. rewrite (is_a_same_type (heap s1)) by (apply Hold, Hvn).
      rewrite findExtension_container in Hfind by exact Hee1.
      apply (head_filter_none _ _ v Hfind Hv). }
    assert (F4 : frame (K_extension [T]) (W_nodes [T]) s3 s4).
    { apply (frame_write_values _ _ _ _ _ _ Hh4 Hn4). intros o Ho.
      assert (otype o = "bpmn:ExtensionElements") as Hoty.
      { unfold type_of in Hee3. rewrite Ho in Hee3. simpl in Hee3. congruence. }
      rewrite Hoty. split; [apply W_nodes_values|].
      intros _ T' HT' HE'. unfold typed_values.
      apply filter_app_foreign.
      apply (is_a_foreign _ _ T); [exact Hnew | | exact HE'].
      intros ->. apply HT'. right. left. }
    split.
    { apply (frame_trans _ _ _ _ _ F1), (frame_trans _ _ _ _ _ F2),
        (frame_trans _ _ _ _ _ F3), F4. }
    assert (Hee4 : type_of (heap s4) ee = Some "bpmn:ExtensionElements").
    { apply (frame_typed F4), Hee3. }
    split; [|intros H; discriminate].
    unfold findExtension. rewrite (is_a_type_of _ _ _ _ Hee4). simpl.
    rewrite Hh4, get_many_alter_set_props_single
      by (apply (type_of_is_Some _ _ _ Hee3)).
    rewrite (find_ext_eq _ (fun value => is_a (heap s3) value T))
      by (intros v; apply is_a_alter_set_props).
    apply find_app_new.
    + intros v Hv Hisa. destruct (decide (v = next s1)) as [|Hvn]; [assumption|].
      rewrite Hvals in Hv. rewrite (Hnone v Hv Hvn) in Hisa. discriminate.
    + apply is_a_own, Hnew.
Qed.

(** X18. [_updateZeebeTaskDefinition] ends by unsetting what the old
    template bound by [binding.property] and the new one does not. On a
    well-formed document and for a new template with task-definition
    properties, afterwards the element has a task definition on which the
    attribute [binding.property] of every task-definition property of the
    old template is [undefined] when no task-definition property of the
    new template has the same [binding.property]. A property bound through
    the legacy [zeebe:taskDefinition:type] has no [binding.property]: after
    a change from a template that binds [type] through
    [zeebe:taskDefinition] to one that binds it through the legacy type,
    the task definition has no [type], although the new template sets
    one. *)
Theorem task_definition_unsets_dropped_attributes (element : eref)
    (oldTemplate : option template) (t : template) (bo_type : string)
    (s s' : state) :
  taskdef_properties t <> [] ->
  bounded s ->
  type_of (heap s) (bo_of element) = Some bo_type -> external bo_type = true ->
  (forall ee, get (heap s) (bo_of element) "extensionElements" = VRef ee ->
     type_of (heap s) ee = Some "bpmn:ExtensionElements") ->
  _updateZeebeTaskDefinition element oldTemplate t s = Some (tt, s') ->
  exists ee node,
    get (heap s') (bo_of element) "extensionElements" = VRef ee /\
    findExtension (heap s') ee "zeebe:TaskDefinition" = Some node /\
    forall q, q ∈ dropped_taskdef oldTemplate t ->
      get (heap s') node (key_of (b_property (p_binding q))) = undefined.
Proof.
  intros Hprops Hb Hbo Hext Hcont Hrun.
  enough (G : runs (_updateZeebeTaskDefinition element oldTemplate t) s
                (fun _ s' =>
                   exists ee node,
                     get (heap s') (bo_of element) "extensionElements" = VRef ee /\
                     findExtension (heap s') ee "zeebe:TaskDefinition" = Some node /\
                     forall q, q ∈ dropped_taskdef oldTemplate t ->
                       get (heap s') node (key_of (b_property (p_binding q)))
                       = undefined)).
  { exact (G tt s' Hrun). }
  clear Hrun. unfold _updateZeebeTaskDefinition.
  change (List.filter (fun newProperty => is_task_definition_type _) (t_properties t))
    with (taskdef_properties t).
  change (old_properties oldTemplate _) with (dropped_taskdef oldTemplate t).
  apply runs_bind.
  eapply runs_mono.
  { apply (getOrCreateExtensionElements_first (K_extension ["zeebe:TaskDefinition"])
             (W_extension ["zeebe:TaskDefinition"]) element (bo_of element) bo_type s
             Hb Hbo).
    - apply external_not_container, Hext.
    - apply W_extension_link, Hext.
    - left. }
  intros ee s1 (F1 & Hlink & Hcase). cbv beta.
  pose proof (frame_bounded _ _ _ _ F1 Hb) as Hb1.
  assert (Hee1 : type_of (heap s1) ee = Some "bpmn:ExtensionElements").
  { destruct Hcase as [[-> Hl]|(_ & Hty & _)]; [apply Hcont, Hl | exact Hty]. }
  pose proof (frame_typed F1 _ _ Hbo) as Hbo1.
  apply runs_bind, runs_gets.
  destruct (taskdef_properties t) as [|p0 ps] eqn:Hps; [contradiction|].
  cbn [isEmpty]. rewrite <- Hps in *.
  apply runs_bind.
  eapply runs_mono.
  { apply (singleton_loop_any "zeebe:TaskDefinition" taskdef_name element ee
             oldTemplate (taskdef_properties t) _ s1); try discriminate;
      [exact Hb1 | exact Hee1 | reflexivity]. }
  intros node s2 (F2 & Hfind & Hnode). cbv beta.
  destruct node as [n|]; [|rewrite (Hnode eq_refl) in Hps; discriminate].
  eapply runs_mono.
  { apply (unset_loop element "zeebe:TaskDefinition" bo_type ee n
             (fun q => key_of (b_property (p_binding q)))
             (dropped_taskdef oldTemplate t) s2); try discriminate.
    - compute_done.
    - apply (frame_typed F2), Hbo1.
    - exact Hext.
    - apply (frame_typed F2), Hee1.
    - rewrite (frame_get F2 _ _ _ Hbo1); [exact Hlink|].
      apply W_nodes_external; [|exact Hext].
      intros T' HT'. apply list_elem_of_singleton in HT'. subst T'. compute_done.
    - exact Hfind. }
  intros _ s3 (_ & Hlink3 & Hfind3 & _ & Hunset3). cbv beta.
  exists ee, n. auto.
Qed.

Lemma task_definition_unsets_dropped_attributes_witness :
  exists ee node,
    get (heap ex_service_task_migrated) 0%nat "extensionElements" = VRef ee /\
    findExtension (heap ex_service_task_migrated) ee "zeebe:TaskDefinition"
    = Some node /\
    forall q, q ∈ dropped_taskdef (Some ex_template_job_general) ex_template_job_legacy ->
      get (heap ex_service_task_migrated) node (key_of (b_property (p_binding q)))
      = undefined.
Proof.
  apply (task_definition_unsets_dropped_attributes (Shape 0%nat)
           (Some ex_template_job_general) ex_template_job_legacy "bpmn:ServiceTask"
           ex_service_task ex_service_task_migrated).
  - vm_compute. discriminate.
  - apply bounded_checked. vm_compute. reflexivity.
  - reflexivity.
  - reflexivity.
  - intros ee Hee. vm_compute in Hee. injection Hee as <-. reflexivity.
  - vm_compute. reflexivity.
Defined.
(** ** The [zeebe:Properties] of a first application *)


Lemma ex_template_flag_distinct_keys : distinct_keys ex_template_flag.
Proof. unfold distinct_keys. repeat split; compute_done. Qed.

Lemma ex_template_flag_free_names : free_names ex_template_flag.
Proof.
  split.
  - apply Forall_forall. compute_done.
  - intros p Hp. vm_compute in Hp. apply elem_of_nil in Hp. contradiction.
Qed.

